(* ===== verification/_CoqProject ===== *)
-Q . S2P
Prelude.v
StableSort.v
Store.v
JsNumber.v
Markup.v
FormData.v
Featured.v
FeaturedScenarios.v
AdminAuth.v
AdminPages.v
FeaturedAdmin.v
HomePage.v
Interleave.v
HeroCarousel.v
Enrollment.v
Likes.v
LikeButton.v
Catalogue.v
AdminForms.v
BannerAdmin.v
MemberManager.v
JobAdmin.v
JobBoard.v
ContentAdmin.v
CoursePages.v
Search.v
