(* ===== verification/Prelude.v ===== *)
(** * A verification development for Jobjindam (취준진담)

  Jobjindam is a Next.js marketplace for job seekers: public pages list
  courses, contents and job postings; signed-in users enrol in courses,
  like and bookmark contents and chat; an admin back office edits the
  catalogue, curates the home page and approves admin accounts.  All state
  lives in a hosted Supabase backend (Postgres tables reached through the
  PostgREST query builder, plus auth and a realtime channel); the code of
  the repository is page renderers, server actions and client hooks that
  compose queries against that store.

  ** How the development is organised

  The development models the store as an explicit state and every server
  action or page loader as a function over it, with the query builder's
  semantics written out (filters, ORDER BY, LIMIT, [.single()] and
  [.maybeSingle()], errors returned as values).

  - [Prelude] (this file): the JavaScript value helpers the code relies on
    ([x || d] on numbers and strings, truthiness of ids), the
    state/log/exception monad [ST] in which actions are written (scope
    [jj_scope], notation [let* x := c in k]), the predicates [aborts]
    (a guard threw and nothing changed) and [preserves] (an invariant
    holds on every path of an action) with their composition lemmas,
    the tactics and the hint database [jj] shared by all files, and
    generic list lemmas.
  - [StableSort]: [sort_key], a stable insertion sort by an integer key,
    the model of [Array.prototype.sort] with a numeric comparator
    (stable since ES2019) and of PostgREST's [.order(field)].  Its
    theorems show it sorts, permutes and is stable, and that these three
    properties determine the result, so any stable sort (V8's TimSort
    included) computes the same list.
  - [Store]: the rows of [src/types/database.ts] as records, the store
    [Db] with one list per table and the set of tables whose requests
    fail, the typeclass [Entity] (a table with a string primary key)
    through which the resolver is proved generically, and the query
    combinators.  The monad logs each table request, so a theorem can
    say which queries an operation issues.
  - [Featured]: [loadFeaturedSection] of [src/app/(main)/page.tsx]
    (lines 12-50), the home page's featured-section resolver, with its
    three queries, the [Map] from entity id to display order, the
    comparator with its [|| 99] default and the exclusion filter of the
    fallback query.  A pure reference [featured_spec] is proved equal to
    the monadic code (refinement); the properties of the spec's section 8
    are proved on it or refuted with concrete stores.
  - [JsNumber]: [parseInt] (white space, sign, [0x] prefix, longest digit
    prefix, [NaN] as [None]) and [String(n)] on integers, with the round
    trip [parseInt (String n) = n] used by the admin forms.
  - [FeaturedScenarios]: concrete stores on which the resolver is
    evaluated: the scenarios of the spec's section 8 and the runs that
    show where the code departs from the spec.
  - [AdminAuth]: [requireAdmin], [requireSuperAdmin], [approveAdmin] and
    [rejectAdmin] of [src/app/actions/admin.ts]: who may act, what a
    decision writes, that [is_admin] stays equal to "the role is approved
    or super", and that the only super administrator can lock every
    decision out by rejecting themselves.
  - [AdminPages]: the admin sign-up and login handlers, the site
    sign-up, the admin layout's guard, the pending page and the
    dashboard.  The client handlers run over a [World] (store, auth
    users, the profile-creating trigger) and are defined over the value
    the pages import as [SUPER_ADMIN_EMAILS]; [admin_step] is the
    relation of account steps, and its invariants are proved by rule
    induction over [rtc] from per-handler preservation lemmas
    ([preserves], [Prelude]).  With the import as it is ([undefined])
    no account can ever become an administrator through the pages; with
    the list the code means, sign-up assigns [super] or [pending].
  - [FeaturedAdmin]: the admin side of home curation:
    [upsertFeaturedItem] and [deleteFeaturedItem] of
    [src/app/actions/admin.ts], with FormData modelled, and the handlers
    of [src/components/admin/FeaturedManager.tsx] composed with the
    actions and with the resolver.
  - [HomePage]: [HomePage] of [src/app/(main)/page.tsx]: the hero-banner
    query and the three resolver calls, then the choice between cards and
    the empty state for each part of the page; its theorems show the page
    reads only, never throws, and shows what the resolver specifies.
  - [HeroCarousel]: [HeroBannerCarousel] of
    [src/components/features/HeroBanner.tsx] as a step relation (arrows,
    dots, timer ticks, mouse pause) with the invariant that the index
    stays a position of the banner list, proved by rule induction over
    [rtc]; and [getBannerHref]/[isExternal].

  - [Interleave]: actions as sequences of atomic requests ([proc], with
    the notation [let! x := c in k]), [run_proc] for an action run
    alone, schedules ([run_sched]) for actions running concurrently, and
    [safe], the per-request invariant that makes an invariant hold under
    every interleaving ([run_sched_safe]).
  - [Enrollment]: [enrollCourse] and [cancelEnrollment] of
    [src/app/actions/courses.ts] as [proc]s.  Run alone they keep every
    course's counter equal to its active enrolments (rule induction over
    [enroll_step]); under any interleaving the counter stays within
    [0, max_students]; concrete schedules show the overbooking race and
    the duplicate enrolment that [.maybeSingle()] lets through.
  - [Markup]: [renderBody] and [renderInlineFormatting] of
    [src/app/(main)/contents/[id]/page.tsx], the content body renderer,
    with the string methods it calls written out ([split] with a string
    and with a capturing regular expression, [replace], [includes],
    [startsWith], [endsWith], [slice]).  Round trips show that splitting
    loses no text; concrete bodies show the lines a bullet paragraph
    drops and how an asterisk inside a bold run shifts the pairing.
  - [FormData]: the FormData of the web platform and the ways the server
    actions read a field ([|| null], [|| default], [parseInt(...) || n],
    [parseFloat], [=== 'true'], [!== 'false'], the comma-separated ids).
  - [Likes] and [LikeButton]: [toggleLike], [toggleBookmark] and the
    content detail page on the server side; the optimistic client
    buttons as a machine whose steps are clicks and the resumptions of
    handlers in flight, which shows the double click that inserts two
    like rows and the lost update of the counter.
  - [Catalogue]: the create, update and delete actions of
    [src/app/actions/admin.ts] for courses, contents, jobs and hero
    banners with [syncTags] and the [NOT NULL] checks of the writes.
  - [AdminForms], [BannerAdmin], [JobAdmin] and [ContentAdmin]: the
    admin forms ([CourseForm], [BannerForm], [JobForm], [ContentForm])
    as the list of controls they
    submit, with the browser's rules (document order, [required], a
    select's fallback to its first option), their client state as a step
    function over their events, and the edit pages' reads.  Their round
    trips show that opening an edit page and saving unedited changes
    nothing for the rows the form shows as stored; the other theorems
    show the rows it does change (a JSON syllabus, an unknown category, a
    focal point at 0, a job without a description) and what a submission
    before the lazy rich editor exists does (the course and content
    updates fail on their [NOT NULL] column, the job update erases the
    description).
  - [MemberManager]: the member page's read, the four sections by role
    (every member shown exactly once: a permutation of the read), the
    row buttons with their confirmations and the transition that
    disables them.
  - [CoursePages]: the public course list (the courses of the chosen
    category, newest first), the course detail page's reads and view,
    and [EnrollButton] as a state machine over clicks, the actions'
    answers and the hide timers.  Composed with [Enrollment], it shows
    that a student with two active enrolments is offered the enrol
    button again and that each click enrols them once more.
  - [Search]: the tag search page: the tag rows joined on the tag's
    name, then the items they name.  It lists items whatever their
    status, and never finds an item tagged with ids the [tags] table does
    not have, such as the preset ids the admin tag selector falls back to.
  - [JobBoard]: the public job list (the active postings of the chosen
    type in deadline order, characterised as the unique stable sort) and
    the job card's D-day, computed from milliseconds and a fixed time
    zone offset, with the day-early expiry west of UTC.

  ** Kinds of results

  Refinements ([loadFeaturedSection_refines], [jobs_page_spec],
  [courses_page_spec]) prove
  the monadic code equal to a pure specification; invariants are proved
  by rule induction over [rtc] of step relations ([admin_step],
  [carousel_step], [enroll_step]) or per request under every schedule
  ([run_sched_safe]); round trips cover [parseInt]/[String], the
  comma-joined ids, dates and the admin forms; [HeroCarousel] proves a
  liveness result (the timer shows every banner within [total] ticks)
  and [JsNumber]'s digit loop is shown to need no more fuel than [S n].
  Every theorem with hypotheses has a witness that applies it on a
  concrete store.

  ** Modelling choices

  Identifiers are [string]s; numeric columns and dates (ISO strings whose
  order is their date order) are [Z]; a table is a list of rows in the
  store's physical order, which is the order PostgREST returns when a
  query has no ORDER BY, and rows with equal sort keys keep that order.
  Limits are [nat]: callers pass the constants 6, 6 and 5.  The monad has
  no fuel: every operation is a finite composition of queries.  The only
  fuel is that of [JsNumber.digits_rev], the digit loop of [String(n)]:
  [String(n)] gives it [S n], and [js_string_of_nat_fuel] proves any fuel
  above [n] gives the same digits, the full decimal expansion.  Time is
  milliseconds since the epoch and the local time zone a fixed offset.  React
  components are state machines whose events are the handlers the code
  attaches; a handler rendered only under a condition (the carousel's
  arrows when [total > 1]) carries that condition in its rule.

  The database trigger that creates a profile for a new auth user is
  not in the repository; [World] carries whether it is in place, and the
  row it creates (no admin role, [is_admin] false) is the one the login
  page's comments describe for users who signed up on the site.  Emails
  are compared as the code does, with [toLowerCase] on ASCII text; the
  auth service's own email normalisation is not modelled.

  Not modelled: page layout and styling; the rich-text editor's toolbar
  and its serialisation (a parameter [getHTML]); image upload (an upload
  is an event carrying its URL); the browser's validation of [url] and
  [date] inputs; [DeleteButton], the new-item pages and the admin list pages
  (reads ordered by [created_at], which the store does not keep);
  authentication internals (a session is an optional user id); the
  session middleware's route guard; search; the chat hook and its
  realtime channel; [revalidatePath] and [redirect] (a redirect is the
  normal end of an action); daylight saving; and the developer script
  [src/auto-dev.js], which is not part of the application.
*)

From stdpp Require Import base list gmap strings.
From Stdlib Require Import ZArith Lia.

Declare Scope jj_scope.
Delimit Scope jj_scope with jj.
Open Scope jj_scope.

(** ** JavaScript values *)

(** [n || d] on a number that may be [undefined]: [undefined], [0] (and
    [NaN], which the code never produces) are falsy. *)
Definition js_or_num (x : option Z) (d : Z) : Z :=
  match x with
  | Some v => if Z.eqb v 0 then d else v
  | None => d
  end.

(** A string is truthy when it is not empty. *)
Definition js_truthy_str (s : string) : bool :=
  negb (String.eqb s "").

(** [s || null] on a string that may be [null]: the empty string becomes
    [null]. *)
Definition js_or_null (x : option string) : option string :=
  match x with
  | Some s => if js_truthy_str s then Some s else None
  | None => None
  end.

(** [Boolean] on a nullable id, as used by [.filter(Boolean)]. *)
Definition js_truthy_opt (x : option string) : bool :=
  match x with Some s => js_truthy_str s | None => false end.

(** [String.prototype.startsWith]. *)
Definition starts_with (prefix s : string) : bool :=
  String.prefix prefix s.

(** ** Results and the action monad *)

(** The outcome of an action: a value, or an exception thrown with
    [throw new Error(msg)]. *)
Inductive result (A : Type) : Type :=
  | Ok (a : A)
  | Thrown (msg : string).
Arguments Ok {A} a.
Arguments Thrown {A} msg.

(** A computation over a state [S] that records events [L] (the requests
    it sends) and may throw. *)
Definition ST (S L A : Type) : Type := S -> S * list L * result A.

Section Monad.
Context {S L : Type}.

Definition st_ret {A} (a : A) : ST S L A := fun s => (s, [], Ok a).

Definition st_bind {A B} (c : ST S L A) (k : A -> ST S L B) : ST S L B :=
  fun s =>
    match c s with
    | (s1, l1, Ok a) =>
        match k a s1 with (s2, l2, r) => (s2, l1 ++ l2, r) end
    | (s1, l1, Thrown m) => (s1, l1, Thrown m)
    end.

Definition st_throw {A} (msg : string) : ST S L A := fun s => (s, [], Thrown msg).

Definition st_get : ST S L S := fun s => (s, [], Ok s).

Definition st_put (s' : S) : ST S L unit := fun _ => (s', [], Ok tt).

Definition st_emit (e : L) : ST S L unit := fun s => (s, [e], Ok tt).

(** Projections of a run. *)
Definition run_state {A} (c : ST S L A) (s : S) : S := fst (fst (c s)).
Definition run_log {A} (c : ST S L A) (s : S) : list L := snd (fst (c s)).
Definition run_result {A} (c : ST S L A) (s : S) : result A := snd (c s).
End Monad.

(** [c] run from [s] does not throw and its value satisfies [P]. *)
Definition returns {S L A} (c : ST S L A) (s : S) (P : A -> Prop) : Prop :=
  match run_result c s with Ok a => P a | Thrown _ => False end.

Notation "'let*' x ':=' c 'in' k" := (st_bind c (fun x => k))
  (at level 10, x name, c at level 200, k at level 200) : jj_scope.
Notation "c ';;;' k" := (st_bind c (fun _ => k))
  (at level 100, right associativity) : jj_scope.

Lemma st_bind_ret_l {S L A B} (a : A) (k : A -> ST S L B) s :
  st_bind (st_ret a) k s = k a s.
Proof. unfold st_bind, st_ret; simpl. by destruct (k a s) as [[??]?]. Qed.

(** A bound action that returns [a] hands its final state to [k a]. *)
Lemma run_bind_ok {S L A B} (c : ST S L A) (k : A -> ST S L B) s a :
  run_result c s = Ok a ->
  run_state (st_bind c k) s = run_state (k a) (run_state c s) /\
  run_result (st_bind c k) s = run_result (k a) (run_state c s).
Proof.
  unfold run_result, run_state, st_bind. destruct (c s) as [[s1 l1] r]; simpl. intros ->.
  by destruct (k a s1) as [[??]?].
Qed.

Lemma st_bind_assoc {S L A B C} (c : ST S L A) (k1 : A -> ST S L B)
  (k2 : B -> ST S L C) s :
  st_bind (st_bind c k1) k2 s = st_bind c (fun a => st_bind (k1 a) k2) s.
Proof.
  unfold st_bind. destruct (c s) as [[s1 l1] [a|m]]; [|done].
  destruct (k1 a s1) as [[s2 l2] [b|m]]; [|done].
  destruct (k2 b s2) as [[s3 l3] r]. by rewrite app_assoc.
Qed.

(** [c] run from [s] throws and leaves the state as it was: the shape of
    every failed guard. *)
Definition aborts {S L A} (c : ST S L A) (s : S) : Prop :=
  run_state c s = s /\ exists m, run_result c s = Thrown m.

Lemma aborts_throw {S L A} (m : string) (s : S) : aborts (st_throw (L:=L) (A:=A) m) s.
Proof. split; [done|]. by exists m. Qed.

Lemma aborts_bind {S L A B} (c : ST S L A) (k : A -> ST S L B) s :
  aborts c s -> aborts (st_bind c k) s.
Proof.
  unfold aborts, run_state, run_result, st_bind. intros [Hs [m Hm]].
  destruct (c s) as [[s1 l1] [a|m']]; simpl in *; [congruence|]. split; [done|]. by exists m'.
Qed.

(** [c] keeps the invariant [I] on every path, a thrown exception
    included. *)
Definition preserves {S L A} (I : S -> Prop) (c : ST S L A) : Prop :=
  forall s, I s -> I (run_state c s).

(** [c] throws from every state. *)
Definition always_throws {S L A} (c : ST S L A) : Prop :=
  forall s, exists m, run_result c s = Thrown m.

Section Preserves.
Context {S L : Type} (I : S -> Prop).

Lemma preserves_ret {A} (a : A) : preserves (L:=L) I (st_ret a).
Proof. by intros s. Qed.

Lemma preserves_throw {A} m : preserves (L:=L) (A:=A) I (st_throw m).
Proof. by intros s. Qed.

Lemma preserves_bind {A B} (c : ST S L A) (k : A -> ST S L B) :
  preserves I c -> (forall a, preserves I (k a)) -> preserves I (st_bind c k).
Proof.
  unfold preserves, run_state, st_bind. intros Hc Hk s Hs. specialize (Hc s Hs).
  destruct (c s) as [[s1 l1] [a|m]]; simpl in *; [|done].
  specialize (Hk a s1 Hc). by destruct (k a s1) as [[??]?].
Qed.

(** A step that always throws ends the action: what follows it is never
    run. *)
Lemma preserves_bind_throws {A B} (c : ST S L A) (k : A -> ST S L B) :
  always_throws c -> preserves I c -> preserves I (st_bind c k).
Proof.
  unfold preserves, always_throws, run_state, run_result, st_bind. intros Ht Hc s Hs.
  specialize (Hc s Hs). destruct (Ht s) as [m Hm].
  destruct (c s) as [[s1 l1] [a|m']]; simpl in *; congruence.
Qed.
End Preserves.

Lemma always_throws_throw {S L A} m : always_throws (S:=S) (L:=L) (A:=A) (st_throw m).
Proof. intros s. by exists m. Qed.

(** ** Tactics and hints *)

Create HintDb jj.
Create Rewrite HintDb jj_rw.

#[export] Hint Resolve aborts_throw aborts_bind preserves_ret preserves_throw always_throws_throw : jj.

Ltac invc H := inversion H; subst; clear H.

(** Continue a bound action after a step [H : run_result c s = Ok a]. *)
Ltac run_bind H :=
  try erewrite (proj1 (run_bind_ok _ _ _ _ H)); try erewrite (proj2 (run_bind_ok _ _ _ _ H)); cbv beta.

(** Case on the first [if] or boolean [match] of the goal. *)
Ltac case_if :=
  match goal with
  | |- context [if ?b then _ else _] => destruct b eqn:?
  end.

(** Unfold the monad's plumbing after the action's own definition. *)
Ltac st_simpl :=
  cbn [st_bind st_ret st_throw st_get st_put st_emit run_state run_log
       run_result fst snd app] in *.

(** [NoDup] of a concrete list of distinct constants. *)
Ltac solve_NoDup :=
  cbn; repeat (apply List.NoDup_cons; [cbn; intuition discriminate|]);
  apply List.NoDup_nil.

(** ** Generic list lemmas *)

Lemma NoDup_map_filter {A B} (g : A -> B) (f : A -> bool) (l : list A) :
  List.NoDup (map g l) -> List.NoDup (map g (List.filter f l)).
Proof.
  induction l as [|x l IH]; simpl; [done|].
  intros Hnd%List.NoDup_cons_iff. destruct Hnd as [Hx Hl].
  destruct (f x); simpl; [|auto].
  constructor; [|auto]. intros Hin. apply Hx.
  apply in_map_iff in Hin as (y & <- & Hy%filter_In).
  apply in_map. tauto.
Qed.

Lemma filter_false_nil {A} (p : A -> bool) l :
  (forall x, In x l -> p x = false) -> List.filter p l = [].
Proof.
  induction l as [|x l IH]; simpl; [done|]. intros H.
  rewrite (H x) by (by left). apply IH. intros y Hy. apply H. by right.
Qed.

(** In a list whose keys are distinct, the rows with the key of a row
    [x] are [x] alone ([.eq('id', ...)] on a primary key). *)
Lemma filter_key_unique {A} (key : A -> string) (l : list A) (x : A) :
  List.NoDup (map key l) -> In x l -> List.filter (fun y => String.eqb (key y) (key x)) l = [x].
Proof.
  induction l as [|y l IH]; simpl; [done|].
  intros [Hn Hnd]%List.NoDup_cons_iff [<-|Hin].
  - rewrite String.eqb_refl. f_equal. apply filter_false_nil. intros z Hz.
    apply not_true_iff_false. rewrite String.eqb_eq. intros Hid. apply Hn.
    apply in_map_iff. by exists z.
  - destruct (String.eqb_spec (key y) (key x)) as [Hid|]; [|by apply IH].
    exfalso. apply Hn. rewrite Hid. apply in_map_iff. by exists x.
Qed.

Lemma in_firstn {A} (n : nat) (l : list A) (x : A) :
  In x (firstn n l) -> In x l.
Proof. intros H. rewrite <- (firstn_skipn n l). apply in_or_app. by left. Qed.

Lemma NoDup_map_firstn {A B} (g : A -> B) (n : nat) (l : list A) :
  List.NoDup (map g l) -> List.NoDup (map g (firstn n l)).
Proof.
  revert l. induction n as [|n IH]; intros l Hnd; [constructor|].
  destruct l as [|x l]; simpl; [constructor|].
  apply List.NoDup_cons_iff in Hnd as [Hx Hl].
  constructor; [|auto]. intros Hin. apply Hx.
  apply in_map_iff in Hin as (y & <- & Hy). apply in_map.
  by apply in_firstn in Hy.
Qed.

#[export] Hint Resolve NoDup_map_filter NoDup_map_firstn in_firstn : jj.
#[export] Hint Resolve List.filter_length_le : jj.
