(* ===== verification/StableSort.v ===== *)
(** Stable sorting by an integer key.

    [sort_key key l] is the list the code gets from
    [l.sort((a, b) => key(a) - key(b))] (ECMAScript requires
    [Array.prototype.sort] to be stable since ES2019) and from a PostgREST
    request with [.order(field)] over rows in the table's order.  The file
    proves that it sorts, permutes and is stable, and that these three
    properties determine the output: every stable sort by [key] returns
    [sort_key key l]. *)

From stdpp Require Import base list.
From Stdlib Require Import ZArith Lia Sorted Permutation.
From S2P Require Import Prelude.

Section StableSort.
Context {A : Type} (key : A -> Z).

(** Insert [x] before the first element whose key is not smaller:
    [x] comes from earlier in the input than every element of [l], so it
    goes before the elements of equal key. *)
Fixpoint insert_key (x : A) (l : list A) : list A :=
  match l with
  | [] => [x]
  | y :: l' => if Z.leb (key x) (key y) then x :: l else y :: insert_key x l'
  end.

Fixpoint sort_key (l : list A) : list A :=
  match l with
  | [] => []
  | x :: l' => insert_key x (sort_key l')
  end.

Definition key_le (a b : A) : Prop := (key a <= key b)%Z.

(** The elements of [l] whose key is [k], in order. *)
Definition with_key (k : Z) (l : list A) : list A :=
  List.filter (fun a => Z.eqb (key a) k) l.

Lemma insert_key_perm x l : Permutation (x :: l) (insert_key x l).
Proof.
  induction l as [|y l IH]; simpl; [done|].
  case_if; [done|].
  etransitivity; [apply perm_swap|]. by constructor.
Qed.

Lemma sort_key_perm l : Permutation l (sort_key l).
Proof.
  induction l as [|x l IH]; simpl; [done|].
  etransitivity; [by apply perm_skip, IH|]. apply insert_key_perm.
Qed.

Lemma insert_key_sorted x l :
  Sorted key_le l -> Sorted key_le (insert_key x l).
Proof.
  induction 1 as [|y l Hs IH Hhd]; simpl; [by repeat constructor|].
  destruct (Z.leb_spec (key x) (key y)).
  - constructor; [by constructor|]. by constructor.
  - constructor; [done|].
    destruct l as [|z l]; simpl; [constructor; unfold key_le; lia|].
    invc Hhd. destruct (Z.leb_spec (key x) (key z));
      constructor; unfold key_le in *; lia.
Qed.

Lemma sort_key_sorted l : Sorted key_le (sort_key l).
Proof. induction l; simpl; [constructor|]. by apply insert_key_sorted. Qed.

Lemma with_key_insert_key k x l :
  Sorted key_le l ->
  with_key k (insert_key x l) = with_key k (x :: l).
Proof.
  unfold with_key. induction l as [|y l IH]; intros Hs; simpl; [done|].
  destruct (Z.leb_spec (key x) (key y)); simpl; [done|].
  rewrite IH; [|by invc Hs]. simpl.
  destruct (Z.eqb_spec (key x) k), (Z.eqb_spec (key y) k); try done. lia.
Qed.

(** Stability: the elements with any given key keep their input order. *)
Lemma sort_key_stable k l : with_key k (sort_key l) = with_key k l.
Proof.
  induction l as [|x l IH]; simpl; [done|].
  rewrite with_key_insert_key; [|apply sort_key_sorted].
  unfold with_key in *; simpl. by rewrite IH.
Qed.

Lemma sorted_head_le x l y :
  Sorted key_le (x :: l) -> In y (x :: l) -> key_le x y.
Proof.
  intros Hs Hy. apply Sorted_StronglySorted in Hs;
    [|intros a b c; unfold key_le; lia].
  apply StronglySorted_inv in Hs as [_ Hall].
  destruct Hy as [<-|Hy]; [unfold key_le; lia|].
  rewrite List.Forall_forall in Hall. by apply Hall.
Qed.

Lemma with_key_In k x l : In x l -> key x = k -> In x (with_key k l).
Proof. intros. apply filter_In. split; [done|]. by apply Z.eqb_eq. Qed.

(** Two lists sorted by [key] whose elements of each key appear in the
    same order are equal. *)
Lemma sorted_with_key_unique l1 l2 :
  Sorted key_le l1 -> Sorted key_le l2 ->
  (forall k, with_key k l1 = with_key k l2) -> l1 = l2.
Proof.
  revert l2. induction l1 as [|x l1 IH]; intros l2 S1 S2 Hk.
  - destruct l2 as [|y l2]; [done|].
    specialize (Hk (key y)). unfold with_key in Hk; simpl in Hk.
    by rewrite Z.eqb_refl in Hk.
  - assert (Hx : In x (with_key (key x) l2)).
    { rewrite <- Hk. apply with_key_In; [left|]; done. }
    apply filter_In in Hx as [Hx _].
    destruct l2 as [|y l2]; [done|].
    assert (Hy : In y (with_key (key y) (x :: l1))).
    { rewrite Hk. apply with_key_In; [left|]; done. }
    apply filter_In in Hy as [Hy _].
    pose proof (sorted_head_le _ _ _ S1 Hy).
    pose proof (sorted_head_le _ _ _ S2 Hx).
    unfold key_le in *. assert (Hxy : key x = key y) by lia.
    pose proof (Hk (key x)) as Hkx. unfold with_key in Hkx; simpl in Hkx.
    rewrite Hxy, Z.eqb_refl in Hkx.
    injection Hkx as <- _.
    f_equal. apply IH; [by invc S1|by invc S2|].
    intros k. specialize (Hk k). unfold with_key in *; simpl in Hk.
    by destruct (Z.eqb (key x) k); [injection Hk|].
Qed.

(** Any stable sort by [key] computes [sort_key]. *)
Theorem stable_sort_unique l out :
  Sorted key_le out -> (forall k, with_key k out = with_key k l) ->
  out = sort_key l.
Proof.
  intros Hs Hk. apply sorted_with_key_unique; [done|apply sort_key_sorted|].
  intros k. by rewrite Hk, sort_key_stable.
Qed.

Lemma sort_key_length l : length (sort_key l) = length l.
Proof. symmetry. apply Permutation_length, sort_key_perm. Qed.

Lemma sort_key_In x l : In x (sort_key l) <-> In x l.
Proof. split; apply Permutation_in; [symmetry|]; apply sort_key_perm. Qed.

Lemma sort_key_NoDup {B} (g : A -> B) l :
  List.NoDup (map g l) -> List.NoDup (map g (sort_key l)).
Proof.
  intros H. eapply Permutation_NoDup; [|exact H].
  apply Permutation_map, sort_key_perm.
Qed.
Lemma sorted_firstn n l : Sorted key_le l -> Sorted key_le (firstn n l).
Proof.
  revert l. induction n as [|n IH]; intros l Hs; [constructor|].
  destruct l as [|x l]; [constructor|]. simpl.
  apply Sorted_inv in Hs as [Hs Hhd]. constructor; [by apply IH|].
  destruct n, l; simpl; try constructor. by inversion Hhd.
Qed.
End StableSort.

#[export] Hint Resolve sort_key_perm sort_key_sorted sort_key_NoDup : jj.
#[export] Hint Rewrite @sort_key_length @sort_key_stable : jj_rw.
