(* ===== verification/Store.v ===== *)
(** The Supabase store as the application sees it.

    Rows of [src/types/database.ts] as records, the store [Db] with one
    list per table, the requests an action sends (each logged in the
    action's trace, each failing when its table is listed in
    [db_failing]) and the PostgREST filters, ORDER BY and LIMIT as list
    functions.  [Entity] is the interface of a table with a string
    primary key, the three implementations are courses, contents and job
    postings. *)

From stdpp Require Import base list strings pretty.
From Stdlib Require Import ZArith Lia Sorted.
From S2P Require Import Prelude StableSort.

Inductive table :=
  | T_profiles | T_courses | T_enrollments | T_contents | T_likes
  | T_bookmarks | T_job_postings | T_chat_rooms | T_chat_participants
  | T_messages | T_content_tags | T_featured_items | T_hero_banners.

#[export] Instance table_eq_dec : EqDecision table.
Proof. solve_decision. Defined.

(** [Profile.admin_role]. *)
Inductive admin_role := Pending | Approved | Rejected | Super.

#[export] Instance admin_role_eq_dec : EqDecision admin_role.
Proof. solve_decision. Defined.

(** [Enrollment.status]. *)
Inductive enrollment_status := Applied | EnrApproved | Completed | Canceled.

#[export] Instance enrollment_status_eq_dec : EqDecision enrollment_status.
Proof. solve_decision. Defined.

Record Profile := {
  p_id : string;
  p_email : string;
  p_name : option string;
  p_is_admin : bool;
  p_admin_role : option admin_role;
}.

(** [Course.syllabus]: the text stored as a string, or the value
    [JSON.parse] gave (kept as the text it parsed). *)
Inductive syllabus := SylText (s : string) | SylJson (text : string).

#[export] Instance syllabus_eq_dec : EqDecision syllabus.
Proof. solve_decision. Defined.

(** [Course]; [rating] is kept in tenths (the form's step is 0.1), the
    dates as the strings the date inputs submit; [instructor_id] and
    [updated_at] are not kept. *)
Record Course := {
  c_id : string;
  c_title : string;
  c_description : string;
  c_instructor_name : string;
  c_instructor_title : option string;
  c_category : string;
  c_thumbnail_url : option string;
  c_max_students : Z;
  c_current_students : Z;
  c_start_date : string;
  c_end_date : string;
  c_duration_weeks : Z;
  c_price : Z;
  c_is_live : bool;
  c_syllabus : syllabus;
  c_rating : Z;
  c_review_count : Z;
  c_status : string;
  c_created_at : Z;
}.

(** A course row with the given key columns and the columns' defaults
    elsewhere, for the example stores. *)
Definition course_row (id category : string) (max cur rating : Z) (status : string) : Course :=
  {| c_id := id; c_title := id; c_description := ""; c_instructor_name := "";
     c_instructor_title := None; c_category := category; c_thumbnail_url := None;
     c_max_students := max; c_current_students := cur; c_start_date := "";
     c_end_date := ""; c_duration_weeks := 4; c_price := 0; c_is_live := false;
     c_syllabus := SylJson "[]"; c_rating := rating; c_review_count := 0;
     c_status := status; c_created_at := 0 |}.

(** The row with [current_students] replaced. *)
Definition with_current_students (n : Z) (c : Course) : Course :=
  {| c_id := c_id c; c_title := c_title c; c_description := c_description c;
     c_instructor_name := c_instructor_name c; c_instructor_title := c_instructor_title c;
     c_category := c_category c; c_thumbnail_url := c_thumbnail_url c;
     c_max_students := c_max_students c; c_current_students := n;
     c_start_date := c_start_date c; c_end_date := c_end_date c;
     c_duration_weeks := c_duration_weeks c; c_price := c_price c; c_is_live := c_is_live c;
     c_syllabus := c_syllabus c; c_rating := c_rating c; c_review_count := c_review_count c;
     c_status := c_status c; c_created_at := c_created_at c |}.

Record Enrollment := {
  e_id : string;
  e_user_id : string;
  e_course_id : string;
  e_status : enrollment_status;
}.

(** [Content]; [author_id], [bookmark_count] and the timestamps other
    than [created_at] are not kept. *)
Record Content := {
  ct_id : string;
  ct_title : string;
  ct_summary : string;
  ct_body : string;
  ct_author_name : string;
  ct_author_title : option string;
  ct_thumbnail_url : option string;
  ct_category : string;
  ct_tags : list string;
  ct_view_count : Z;
  ct_like_count : Z;
  ct_is_featured : bool;
  ct_created_at : Z;
}.

Record Like := { l_id : string; l_user_id : string; l_content_id : string }.

Record Bookmark := {
  b_id : string;
  b_user_id : string;
  b_content_id : option string;
  b_course_id : option string;
  b_content_type : string;
}.

(** [JobPosting]; the [deadline] date as the number its digits spell
    ([2025-03-01] is [20250301]), so that deadlines compare as numbers;
    [created_at] is not kept. *)
Record JobPosting := {
  j_id : string;
  j_company_name : string;
  j_title : string;
  j_description : option string;
  j_job_type : string;
  j_location : option string;
  j_deadline : Z;
  j_url : option string;
  j_thumbnail_url : option string;
  j_tags : list string;
  j_source : option string;
  j_is_active : bool;
}.

(** [FeaturedItem]: the section is stored as the string the admin form
    sends; the three references are nullable columns. *)
Record FeaturedItem := {
  fi_id : string;
  fi_section : string;
  fi_course_id : option string;
  fi_content_id : option string;
  fi_job_id : option string;
  fi_display_order : Z;
  fi_is_active : bool;
}.

Record HeroBanner := {
  hb_id : string;
  hb_title : string;
  hb_subtitle : option string;
  hb_image_url : option string;
  hb_link_type : string;
  hb_course_id : option string;
  hb_content_id : option string;
  hb_job_id : option string;
  hb_custom_url : option string;
  hb_bg_color : string;
  hb_text_color : string;
  hb_focal_x : Z;
  hb_focal_y : Z;
  hb_display_order : Z;
  hb_is_active : bool;
}.

(** A row of [content_tags]: a tag attached to a course, a content or a
    job posting. *)
Record ContentTag := {
  tg_id : string;
  tg_content_id : option string;
  tg_course_id : option string;
  tg_job_id : option string;
  tg_tag_id : string;
}.

Record Db := {
  db_profiles : list Profile;
  db_courses : list Course;
  db_enrollments : list Enrollment;
  db_contents : list Content;
  db_likes : list Like;
  db_bookmarks : list Bookmark;
  db_job_postings : list JobPosting;
  db_content_tags : list ContentTag;
  db_featured_items : list FeaturedItem;
  db_hero_banners : list HeroBanner;
  db_failing : list table;
  db_next_id : nat;
}.

(** The kinds of request the query builder sends. *)
Inductive op := OpSelect | OpInsert | OpUpdate | OpDelete | OpUpsert.

#[export] Instance op_eq_dec : EqDecision op.
Proof. solve_decision. Defined.

Record request := Req { req_table : table; req_op : op }.

(** The message of the server actions that need a signed-in user. *)
Definition msg_login : string := "로그인이 필요합니다.".

(** Actions over the store. *)
Abbreviation Act := (ST Db request).

(** The [{ data, error }] pair of a response: data, or an error. *)
Inductive resp (A : Type) := RData (a : A) | RErr.
Arguments RData {A} a.
Arguments RErr {A}.

Definition resp_data {A} (r : resp A) : option A :=
  match r with RData a => Some a | RErr => None end.

(** [data || []]. *)
Definition data_or_nil {A} (r : resp (list A)) : list A :=
  match r with RData l => l | RErr => [] end.

Definition table_fails (t : table) (db : Db) : bool :=
  bool_decide (t ∈ db_failing db).

(** A read: [from(t).select(...)] with the filters folded into [f]. *)
Definition select {A} (t : table) (f : Db -> A) : Act (resp A) :=
  fun db => (db, [Req t OpSelect],
             Ok (if table_fails t db then RErr else RData (f db))).

(** A write of kind [o]: the store becomes [f db] unless the request
    fails, which leaves it unchanged. *)
Definition write (t : table) (o : op) (f : Db -> Db) : Act (resp unit) :=
  fun db => if table_fails t db then (db, [Req t o], Ok RErr)
            else (f db, [Req t o], Ok (RData tt)).

(** [.single()]: exactly one row, anything else is an error. *)
Definition single_resp {A} (rows : list A) : resp A :=
  match rows with [x] => RData x | _ => RErr end.

(** [.maybeSingle()]: no row is [null], more than one is an error. *)
Definition maybe_single_resp {A} (rows : list A) : resp (option A) :=
  match rows with [] => RData None | [x] => RData (Some x) | _ => RErr end.

(** A read whose response is computed by [f] (used with [.single()]). *)
Definition select_resp {A} (t : table) (f : Db -> resp A) : Act (resp A) :=
  fun db => (db, [Req t OpSelect], Ok (if table_fails t db then RErr else f db)).

(** A write that the database rejects when [valid] is false (a NOT NULL
    column sent as [null]). *)
Definition write_checked (valid : bool) (t : table) (o : op) (f : Db -> Db) : Act (resp unit) :=
  fun db => if table_fails t db || negb valid then (db, [Req t o], Ok RErr)
            else (f db, [Req t o], Ok (RData tt)).

(** ** Updating one table *)

Definition set_profiles (l : list Profile) (db : Db) : Db :=
  {| db_profiles := l; db_courses := db_courses db; db_enrollments := db_enrollments db;
     db_contents := db_contents db; db_likes := db_likes db; db_bookmarks := db_bookmarks db;
     db_job_postings := db_job_postings db; db_content_tags := db_content_tags db;
     db_featured_items := db_featured_items db; db_hero_banners := db_hero_banners db;
     db_failing := db_failing db; db_next_id := db_next_id db |}.

Definition set_courses (l : list Course) (db : Db) : Db :=
  {| db_profiles := db_profiles db; db_courses := l; db_enrollments := db_enrollments db;
     db_contents := db_contents db; db_likes := db_likes db; db_bookmarks := db_bookmarks db;
     db_job_postings := db_job_postings db; db_content_tags := db_content_tags db;
     db_featured_items := db_featured_items db; db_hero_banners := db_hero_banners db;
     db_failing := db_failing db; db_next_id := db_next_id db |}.

Definition set_enrollments (l : list Enrollment) (db : Db) : Db :=
  {| db_profiles := db_profiles db; db_courses := db_courses db; db_enrollments := l;
     db_contents := db_contents db; db_likes := db_likes db; db_bookmarks := db_bookmarks db;
     db_job_postings := db_job_postings db; db_content_tags := db_content_tags db;
     db_featured_items := db_featured_items db; db_hero_banners := db_hero_banners db;
     db_failing := db_failing db; db_next_id := db_next_id db |}.

Definition set_featured_items (l : list FeaturedItem) (db : Db) : Db :=
  {| db_profiles := db_profiles db; db_courses := db_courses db;
     db_enrollments := db_enrollments db; db_contents := db_contents db;
     db_likes := db_likes db; db_bookmarks := db_bookmarks db;
     db_job_postings := db_job_postings db; db_content_tags := db_content_tags db;
     db_featured_items := l; db_hero_banners := db_hero_banners db;
     db_failing := db_failing db; db_next_id := db_next_id db |}.

Definition set_contents (l : list Content) (db : Db) : Db :=
  {| db_profiles := db_profiles db; db_courses := db_courses db;
     db_enrollments := db_enrollments db; db_contents := l;
     db_likes := db_likes db; db_bookmarks := db_bookmarks db;
     db_job_postings := db_job_postings db; db_content_tags := db_content_tags db;
     db_featured_items := db_featured_items db; db_hero_banners := db_hero_banners db;
     db_failing := db_failing db; db_next_id := db_next_id db |}.

Definition set_likes (l : list Like) (db : Db) : Db :=
  {| db_profiles := db_profiles db; db_courses := db_courses db;
     db_enrollments := db_enrollments db; db_contents := db_contents db;
     db_likes := l; db_bookmarks := db_bookmarks db;
     db_job_postings := db_job_postings db; db_content_tags := db_content_tags db;
     db_featured_items := db_featured_items db; db_hero_banners := db_hero_banners db;
     db_failing := db_failing db; db_next_id := db_next_id db |}.

Definition set_bookmarks (l : list Bookmark) (db : Db) : Db :=
  {| db_profiles := db_profiles db; db_courses := db_courses db;
     db_enrollments := db_enrollments db; db_contents := db_contents db;
     db_likes := db_likes db; db_bookmarks := l;
     db_job_postings := db_job_postings db; db_content_tags := db_content_tags db;
     db_featured_items := db_featured_items db; db_hero_banners := db_hero_banners db;
     db_failing := db_failing db; db_next_id := db_next_id db |}.

Definition set_job_postings (l : list JobPosting) (db : Db) : Db :=
  {| db_profiles := db_profiles db; db_courses := db_courses db; db_enrollments := db_enrollments db; db_contents := db_contents db;
     db_likes := db_likes db; db_bookmarks := db_bookmarks db; db_job_postings := l; db_content_tags := db_content_tags db;
     db_featured_items := db_featured_items db; db_hero_banners := db_hero_banners db; db_failing := db_failing db; db_next_id := db_next_id db |}.

Definition set_content_tags (l : list ContentTag) (db : Db) : Db :=
  {| db_profiles := db_profiles db; db_courses := db_courses db; db_enrollments := db_enrollments db; db_contents := db_contents db;
     db_likes := db_likes db; db_bookmarks := db_bookmarks db; db_job_postings := db_job_postings db; db_content_tags := l;
     db_featured_items := db_featured_items db; db_hero_banners := db_hero_banners db; db_failing := db_failing db; db_next_id := db_next_id db |}.

Definition set_hero_banners (l : list HeroBanner) (db : Db) : Db :=
  {| db_profiles := db_profiles db; db_courses := db_courses db; db_enrollments := db_enrollments db; db_contents := db_contents db;
     db_likes := db_likes db; db_bookmarks := db_bookmarks db; db_job_postings := db_job_postings db; db_content_tags := db_content_tags db;
     db_featured_items := db_featured_items db; db_hero_banners := l; db_failing := db_failing db; db_next_id := db_next_id db |}.

(** The store with no rows, no failing table and no id used. *)
Definition db_empty : Db :=
  {| db_profiles := []; db_courses := []; db_enrollments := []; db_contents := [];
     db_likes := []; db_bookmarks := []; db_job_postings := []; db_content_tags := [];
     db_featured_items := []; db_hero_banners := []; db_failing := []; db_next_id := 0 |}.

(** The same store with the requests to [ts] failing. *)
Definition set_failing (ts : list table) (db : Db) : Db :=
  {| db_profiles := db_profiles db; db_courses := db_courses db;
     db_enrollments := db_enrollments db; db_contents := db_contents db;
     db_likes := db_likes db; db_bookmarks := db_bookmarks db;
     db_job_postings := db_job_postings db; db_content_tags := db_content_tags db;
     db_featured_items := db_featured_items db; db_hero_banners := db_hero_banners db;
     db_failing := ts; db_next_id := db_next_id db |}.

(** Consume one fresh id. *)
Definition bump_id (db : Db) : Db :=
  {| db_profiles := db_profiles db; db_courses := db_courses db;
     db_enrollments := db_enrollments db; db_contents := db_contents db;
     db_likes := db_likes db; db_bookmarks := db_bookmarks db;
     db_job_postings := db_job_postings db; db_content_tags := db_content_tags db;
     db_featured_items := db_featured_items db; db_hero_banners := db_hero_banners db;
     db_failing := db_failing db; db_next_id := S (db_next_id db) |}.

(** The profiles whose id is [uid] ([.eq('id', uid)]). *)
Definition profiles_with_id (uid : string) (db : Db) : list Profile :=
  List.filter (fun p => String.eqb (p_id p) uid) (db_profiles db).

(** A fresh primary key, as [gen_random_uuid()] would give. *)
Definition fresh_id (db : Db) : string := "row-" +:+ pretty (db_next_id db).

(** ** Tables with a string primary key *)

Class Entity (A : Type) := {
  entity_table : table;
  entity_rows : Db -> list A;
  entity_id : A -> string;
}.

#[export] Instance course_entity : Entity Course :=
  { entity_table := T_courses; entity_rows := db_courses; entity_id := c_id }.
#[export] Instance content_entity : Entity Content :=
  { entity_table := T_contents; entity_rows := db_contents; entity_id := ct_id }.
#[export] Instance job_entity : Entity JobPosting :=
  { entity_table := T_job_postings; entity_rows := db_job_postings; entity_id := j_id }.

(** ** Filters, ORDER BY and LIMIT *)

Definition mem_str (x : string) (l : list string) : bool :=
  existsb (String.eqb x) l.

Section Queries.
Context `{Entity A}.

(** [.in('id', ids)] *)
Definition q_in (ids : list string) (rows : list A) : list A :=
  List.filter (fun r => mem_str (entity_id r) ids) rows.

(** [.not('id', 'in', ids)] *)
Definition q_not_in (ids : list string) (rows : list A) : list A :=
  List.filter (fun r => negb (mem_str (entity_id r) ids)) rows.
End Queries.

(** [.eq(field, value)] given as a predicate, when present. *)
Definition q_eq {A} (f : option (A -> bool)) (rows : list A) : list A :=
  match f with Some p => List.filter p rows | None => rows end.

(** [.order(field, { ascending })] *)
Definition q_order {A} (key : A -> Z) (asc : bool) (rows : list A) : list A :=
  sort_key (if asc then key else fun r => Z.opp (key r)) rows.

(** [.limit(n)] *)
Definition q_limit {A} (n : nat) (rows : list A) : list A := firstn n rows.

(** ** Lemmas on requests and filters *)

Lemma mem_str_spec x l : mem_str x l = true <-> In x l.
Proof.
  unfold mem_str. rewrite existsb_exists. split.
  - intros (y & Hy & ->%String.eqb_eq). done.
  - intros Hx. exists x. split; [done|]. apply String.eqb_refl.
Qed.

Lemma q_in_In `{Entity A} ids rows r :
  In r (q_in ids rows) <-> In r rows /\ In (entity_id r) ids.
Proof. unfold q_in. by rewrite filter_In, mem_str_spec. Qed.

Lemma q_in_nil `{Entity A} rows : q_in [] rows = [].
Proof. induction rows; simpl; done. Qed.

Lemma q_not_in_In `{Entity A} ids rows r :
  In r (q_not_in ids rows) <-> In r rows /\ ~ In (entity_id r) ids.
Proof.
  unfold q_not_in. rewrite filter_In, negb_true_iff, <- not_true_iff_false.
  by rewrite mem_str_spec.
Qed.

Lemma q_eq_incl {A} f (rows : list A) r : In r (q_eq f rows) -> In r rows.
Proof. destruct f; simpl; [by intros [? _]%filter_In|done]. Qed.

Lemma q_order_In {A} key asc (rows : list A) r :
  In r (q_order key asc rows) <-> In r rows.
Proof. apply sort_key_In. Qed.

Lemma q_order_length {A} key asc (rows : list A) :
  length (q_order key asc rows) = length rows.
Proof. apply sort_key_length. Qed.

(** [.order(key, { ascending })] returns the one list that is sorted by
    the key (its opposite when descending) and keeps, for each key, the
    rows of that key in table order. *)
Lemma q_order_spec {A} (key : A -> Z) asc (rows out : list A) :
  out = q_order key asc rows <->
  Sorted (key_le (if asc then key else fun r => Z.opp (key r))) out /\
  forall z, with_key (if asc then key else fun r => Z.opp (key r)) z out =
            with_key (if asc then key else fun r => Z.opp (key r)) z rows.
Proof.
  unfold q_order. split.
  - intros ->. split; [apply sort_key_sorted|intros z; apply sort_key_stable].
  - intros [Hs Hk]. by apply stable_sort_unique.
Qed.

Lemma NoDup_q_eq {A B} (g : A -> B) f rows :
  List.NoDup (map g rows) -> List.NoDup (map g (q_eq f rows)).
Proof. destruct f; simpl; auto with jj. Qed.

Lemma NoDup_q_order {A B} (g : A -> B) key asc rows :
  List.NoDup (map g rows) -> List.NoDup (map g (q_order key asc rows)).
Proof. unfold q_order. auto with jj. Qed.

Lemma select_run {A} t (f : Db -> A) db :
  select t f db = (db, [Req t OpSelect],
                   Ok (if table_fails t db then RErr else RData (f db))).
Proof. done. Qed.

Lemma table_fails_nil t db : db_failing db = [] -> table_fails t db = false.
Proof.
  intros E. unfold table_fails. rewrite E.
  apply bool_decide_eq_false_2. intros Hin. inversion Hin.
Qed.

#[export] Hint Resolve NoDup_q_eq NoDup_q_order : jj.

(** No id in [ids] is one that [fresh_id] hands out from [n] on. *)
Definition ids_fresh (ids : list string) (n : nat) : Prop :=
  forall k, (n <= k)%nat -> "row-" +:+ pretty k ∉ ids.

Lemma fresh_id_not_in ids db : ids_fresh ids (db_next_id db) -> fresh_id db ∉ ids.
Proof. intros H. apply H. lia. Qed.

Lemma ids_fresh_snoc ids db :
  ids_fresh ids (db_next_id db) -> ids_fresh (ids ++ [fresh_id db]) (S (db_next_id db)).
Proof.
  intros H k Hk. rewrite elem_of_app, list_elem_of_singleton. intros [Hin|Heq].
  - revert Hin. apply H. lia.
  - apply (inj (String.app "row-")), (inj pretty) in Heq. lia.
Qed.

(** [.single()] and [.maybeSingle()] succeed on exactly one row. *)
Lemma single_resp_RData {A} (l : list A) x : single_resp l = RData x <-> l = [x].
Proof. destruct l as [|y [|]]; simpl; split; congruence. Qed.

Lemma maybe_single_resp_Some {A} (l : list A) x : maybe_single_resp l = RData (Some x) <-> l = [x].
Proof. destruct l as [|y [|]]; simpl; split; congruence. Qed.

Lemma single_resp_RErr {A} (l : list A) : single_resp l = RErr <-> length l <> 1.
Proof. destruct l as [|y [|]]; simpl; split; congruence || lia. Qed.

(** A write to a table that answers applies its change; to a failing
    table it changes nothing. *)
Lemma write_state_ok t o f db : table_fails t db = false -> run_state (write t o f) db = f db.
Proof. unfold write, run_state. by intros ->. Qed.
Lemma write_state_fail t o f db : table_fails t db = true -> run_state (write t o f) db = db.
Proof. unfold write, run_state. by intros ->. Qed.

(** Reads keep every property of the store; writes keep the ones their
    change keeps. *)
Lemma preserves_select_resp_gen {A} (I : Db -> Prop) t (f : Db -> resp A) : preserves I (select_resp t f).
Proof. by intros db Hdb. Qed.

Lemma preserves_write_gen (I : Db -> Prop) t o f :
  (forall db, I db -> I (f db)) -> preserves I (write t o f).
Proof. unfold preserves, run_state, write. intros Hf db Hdb. destruct (table_fails t db); simpl; auto. Qed.

Lemma preserves_write_checked_gen (I : Db -> Prop) valid t o f :
  (forall db, I db -> I (f db)) -> preserves I (write_checked valid t o f).
Proof.
  unfold preserves, run_state, write_checked. intros Hf db Hdb.
  destruct (table_fails t db || negb valid); simpl; auto.
Qed.

(** A write never changes which tables fail. *)
Create Rewrite HintDb jj_fail.

Lemma table_fails_set_profiles t l db : table_fails t (set_profiles l db) = table_fails t db.
Proof. done. Qed.
Lemma table_fails_set_courses t l db : table_fails t (set_courses l db) = table_fails t db.
Proof. done. Qed.
Lemma table_fails_set_enrollments t l db : table_fails t (set_enrollments l db) = table_fails t db.
Proof. done. Qed.
Lemma table_fails_set_featured_items t l db : table_fails t (set_featured_items l db) = table_fails t db.
Proof. done. Qed.
Lemma table_fails_set_contents t l db : table_fails t (set_contents l db) = table_fails t db.
Proof. done. Qed.
Lemma table_fails_set_likes t l db : table_fails t (set_likes l db) = table_fails t db.
Proof. done. Qed.
Lemma table_fails_set_bookmarks t l db : table_fails t (set_bookmarks l db) = table_fails t db.
Proof. done. Qed.
Lemma table_fails_set_job_postings t l db : table_fails t (set_job_postings l db) = table_fails t db.
Proof. done. Qed.
Lemma table_fails_set_content_tags t l db : table_fails t (set_content_tags l db) = table_fails t db.
Proof. done. Qed.
Lemma table_fails_set_hero_banners t l db : table_fails t (set_hero_banners l db) = table_fails t db.
Proof. done. Qed.
Lemma table_fails_bump_id t db : table_fails t (bump_id db) = table_fails t db.
Proof. done. Qed.

(** [.update(...).eq(key, id)] on a table with one row of key [id]: that
    row becomes its update, and the table is unchanged when the update
    keeps the row. *)
Lemma update_eq_row {A} (key : A -> string) (f : A -> A) id x l :
  (forall y, key (f y) = key y) ->
  List.filter (fun y => String.eqb (key y) id) l = [x] ->
  List.filter (fun y => String.eqb (key y) id) (map (fun y => if String.eqb (key y) id then f y else y) l) = [f x].
Proof.
  intros Hk Hrow. change [f x] with (map f [x]). rewrite <- Hrow. clear Hrow.
  induction l as [|y l IH]; [done|]. cbn.
  destruct (String.eqb (key y) id) eqn:Hid; cbn; rewrite ?Hk, ?Hid, IH; done.
Qed.

Lemma update_eq_same {A} (key : A -> string) (f : A -> A) id x l :
  List.filter (fun y => String.eqb (key y) id) l = [x] -> f x = x ->
  map (fun y => if String.eqb (key y) id then f y else y) l = l.
Proof.
  intros Hrow Hx. rewrite <- (map_id l) at 2. apply map_ext_in.
  intros y Hy. destruct (String.eqb (key y) id) eqn:Hid; [|done].
  assert (Hin : In y [x]) by (rewrite <- Hrow; by apply filter_In).
  destruct Hin as [<-|[]]. exact Hx.
Qed.

#[export] Hint Rewrite table_fails_set_profiles table_fails_set_courses table_fails_set_enrollments
  table_fails_set_featured_items table_fails_set_contents table_fails_set_likes
  table_fails_set_bookmarks table_fails_set_job_postings table_fails_set_content_tags
  table_fails_set_hero_banners table_fails_bump_id : jj_fail.
#[export] Hint Rewrite @q_order_length @select_run @q_in_nil : jj_rw.
