(* ===== verification/JsNumber.v ===== *)
(** JavaScript's [parseInt] and [String] on integers.

    The admin forms send numbers as strings: [FeaturedManager] writes
    [String(order)] into a FormData and [upsertFeaturedItem] reads it back
    with [parseInt(...) || 0].  [parseInt] is modelled after ECMAScript's
    definition (leading white space, an optional sign, a [0x] prefix
    selecting radix 16, the longest prefix of digits, [NaN] as [None]);
    [js_string_of_Z] is [String(n)] on an integer.  The round trip
    [parseInt (String n) = n] holds for every integer. *)

From stdpp Require Import base tactics.
From Stdlib Require Import String Ascii ZArith Lia List.
From S2P Require Import Prelude.

Local Open Scope string_scope.
Local Open Scope list_scope.
Local Open Scope bool_scope.
Local Open Scope nat_scope.

(** ** parseInt *)

Definition is_js_space (c : ascii) : bool :=
  match nat_of_ascii c with
  | 9 | 10 | 11 | 12 | 13 | 32 => true
  | _ => false
  end.

Fixpoint skip_space (s : string) : string :=
  match s with
  | String c s' => if is_js_space c then skip_space s' else s
  | EmptyString => EmptyString
  end.

(** The value of [c] as a digit of [radix] (10 or 16). *)
Definition digit_value (radix : nat) (c : ascii) : option nat :=
  let n := nat_of_ascii c in
  let v := if Nat.leb 48 n && Nat.leb n 57 then Some (n - 48)
           else if Nat.leb 97 n && Nat.leb n 122 then Some (n - 87)
           else if Nat.leb 65 n && Nat.leb n 90 then Some (n - 55)
           else None in
  match v with Some d => if Nat.ltb d radix then Some d else None | None => None end.

(** The longest prefix of digits, [None] when there is none. *)
Fixpoint parse_digits (radix : nat) (s : string) (acc : nat) (seen : bool) : option nat :=
  match s with
  | String c s' =>
      match digit_value radix c with
      | Some d => parse_digits radix s' (acc * radix + d) true
      | None => if seen then Some acc else None
      end
  | EmptyString => if seen then Some acc else None
  end.

Definition parseInt (s : string) : option Z :=
  let s1 := skip_space s in
  let '(sign, s2) :=
    match s1 with
    | String "-" s' => ((-1)%Z, s')
    | String "+" s' => (1%Z, s')
    | _ => (1%Z, s1)
    end in
  let '(radix, s3) :=
    match s2 with
    | String "0" (String c s') =>
        if (Ascii.eqb c "x" || Ascii.eqb c "X")%bool then (16, s') else (10, s2)
    | _ => (10, s2)
    end in
  option_map (fun n => (sign * Z.of_nat n)%Z) (parse_digits radix s3 0 false).

(** [parseInt(x as string)] where [x] may be [null]: [String(null)] is
    ["null"], which does not parse. *)
Definition parseInt_opt (x : option string) : option Z :=
  match x with Some s => parseInt s | None => parseInt "null" end.

(** ** String(n) *)

Definition digit_char (d : nat) : ascii := ascii_of_nat (48 + d).

(** The decimal digits of [n], least significant first. *)
Fixpoint digits_rev (fuel n : nat) : list nat :=
  match fuel with
  | 0 => []
  | S f => if Nat.ltb n 10 then [n] else n mod 10 :: digits_rev f (n / 10)
  end.

Definition string_of_digits (ds : list nat) : string :=
  string_of_list_ascii (map digit_char ds).

Definition js_string_of_nat (n : nat) : string :=
  string_of_digits (rev (digits_rev (S n) n)).

Definition js_string_of_Z (z : Z) : string :=
  if Z.ltb z 0 then "-" ++ js_string_of_nat (Z.to_nat (- z))
  else js_string_of_nat (Z.to_nat z).

(** ** The round trip *)

Definition digits_value (ds : list nat) : nat :=
  fold_left (fun a d => a * 10 + d) ds 0.

Lemma digits_rev_spec fuel n :
  n < fuel ->
  Forall (fun d => d < 10) (digits_rev fuel n) /\
  fold_right (fun d a => a * 10 + d) 0 (digits_rev fuel n) = n /\
  (exists d ds, rev (digits_rev fuel n) = d :: ds /\ (d = 0 -> ds = [] /\ n = 0)).
Proof.
  revert n. induction fuel as [|f IH]; intros n Hn; [lia|]. cbn [digits_rev].
  destruct (Nat.ltb_spec n 10).
  - split; [constructor; [lia|constructor]|]. split; [simpl; lia|].
    exists n, nil. split; [done|]. intros; split; [done|lia].
  - destruct (IH (n / 10)) as (Hall & Hval & d & ds & Hrev & Hd);
      [pose proof (Nat.div_lt n 10); lia|].
    split; [constructor; [apply Nat.mod_upper_bound; lia|done]|].
    split.
    + cbn [fold_right]. rewrite Hval. pose proof (Nat.div_mod_eq n 10). lia.
    + exists d, (ds ++ [n mod 10]). cbn [rev]. rewrite Hrev. split; [done|].
      intros Hd0. destruct (Hd Hd0) as [_ Hn0]. exfalso.
      pose proof (Nat.div_mod_eq n 10). pose proof (Nat.mod_upper_bound n 10). lia.
Qed.

Lemma digit_value_char d : d < 10 -> digit_value 10 (digit_char d) = Some d.
Proof.
  intros Hd. do 10 (destruct d as [|d]; [reflexivity|]). lia.
Qed.

Lemma parse_digits_chars ds acc seen :
  Forall (fun d => d < 10) ds -> (ds <> [] \/ seen = true) ->
  parse_digits 10 (string_of_digits ds) acc seen =
    Some (fold_left (fun a d => a * 10 + d) ds acc).
Proof.
  revert acc seen. induction ds as [|d ds IH]; intros acc seen Hall Hne;
    cbn [string_of_digits map string_of_list_ascii parse_digits fold_left].
  - destruct Hne as [Hne| ->]; [by destruct Hne|done].
  - inversion Hall; subst. rewrite digit_value_char by done.
    apply IH; [done|by right].
Qed.

Lemma fold_left_rev_value (l : list nat) :
  fold_left (fun a d => a * 10 + d) (rev l) 0 = fold_right (fun d a => a * 10 + d) 0 l.
Proof. rewrite <- (rev_involutive l) at 2. by rewrite fold_left_rev_right. Qed.

Lemma parse_js_string_of_nat n :
  parse_digits 10 (js_string_of_nat n) 0 false = Some n.
Proof.
  destruct (digits_rev_spec (S n) n) as (Hall & Hval & d & ds & Hrev & _); [lia|].
  unfold js_string_of_nat. rewrite parse_digits_chars.
  - by rewrite fold_left_rev_value, Hval.
  - by apply Forall_rev.
  - left. by rewrite Hrev.
Qed.

Lemma parseInt_digits (sign : string) (sg : Z) d ds :
  (sign = "" /\ sg = 1%Z \/ sign = "-" /\ sg = (-1)%Z) ->
  d < 10 -> (d = 0 -> ds = []) ->
  parseInt (sign ++ string_of_digits (d :: ds)) =
    option_map (fun n => (sg * Z.of_nat n)%Z)
      (parse_digits 10 (string_of_digits (d :: ds)) 0 false).
Proof.
  intros [[-> ->]|[-> ->]] Hd H0;
    (destruct d as [|d]; [rewrite H0 by done; reflexivity|]);
    do 9 (destruct d as [|d]; [reflexivity|]); lia.
Qed.

Lemma js_string_of_nat_digits n :
  exists d ds, js_string_of_nat n = string_of_digits (d :: ds) /\
    d < 10 /\ (d = 0 -> ds = []).
Proof.
  destruct (digits_rev_spec (S n) n) as (Hall & _ & d & ds & Hrev & H0); [lia|].
  exists d, ds. unfold js_string_of_nat. rewrite Hrev. split; [done|].
  split; [|intros Hd0; by destruct (H0 Hd0)].
  apply Forall_rev in Hall. rewrite Hrev in Hall. by inversion Hall.
Qed.

(** [parseInt(String(z)) = z] for every integer [z]. *)
Theorem parseInt_js_string_of_Z z : parseInt (js_string_of_Z z) = Some z.
Proof.
  unfold js_string_of_Z. destruct (Z.ltb_spec z 0).
  - destruct (js_string_of_nat_digits (Z.to_nat (- z))) as (d & ds & E & Hd & H0).
    pose proof (parse_js_string_of_nat (Z.to_nat (- z))) as Hp. rewrite E in *.
    rewrite (parseInt_digits "-" (-1)); [|by right|done|done].
    rewrite Hp. simpl. f_equal. lia.
  - destruct (js_string_of_nat_digits (Z.to_nat z)) as (d & ds & E & Hd & H0).
    pose proof (parse_js_string_of_nat (Z.to_nat z)) as Hp. rewrite E in *.
    change (string_of_digits (d :: ds)) with (String.append "" (string_of_digits (d :: ds))).
    rewrite (parseInt_digits "" 1); [|by left|done|done].
    rewrite Hp. simpl. f_equal. lia.
Qed.



