(* ===== verification/Markup.v ===== *)
(** The content body renderer.

    [renderBody] and [renderInlineFormatting] of
    [src/app/(main)/contents/[id]/page.tsx] (lines 14-60): a body is split
    into paragraphs at ["\n\n"]; a paragraph is a heading ([## ]), a
    bullet list (when it contains ["\n- "] or starts with ["- "]) or a
    paragraph of text with bold runs, found by splitting on a regular
    expression with one capturing group: two asterisks, one or more
    characters other than an asterisk, two asterisks.  Strings are byte strings:
    every delimiter the code looks for is ASCII, so byte and UTF-16
    positions agree on them.

    [String.prototype.split] with a string separator, [split] with a
    capturing regular expression, [replace] with a string pattern (first
    occurrence), [includes], [startsWith], [endsWith] and [slice] are
    written out; the theorems show that splitting loses nothing (joining
    the pieces gives the text back), and where the renderer does drop
    text. *)

From Stdlib Require Import String Ascii List Lia Arith.
From stdpp Require Import base tactics.
From S2P Require Import Prelude.

Local Open Scope string_scope.
Local Open Scope list_scope.
Local Open Scope bool_scope.

(** ** String primitives *)

(** [s.startsWith(p)] *)
Definition startsWith (p s : string) : bool := String.prefix p s.

(** [s.includes(p)] *)
Fixpoint includes (p s : string) : bool :=
  String.prefix p s ||
  match s with EmptyString => false | String _ s' => includes p s' end.

(** [s.endsWith(p)] *)
Definition endsWith (p s : string) : bool :=
  (String.length p <=? String.length s)%nat &&
  String.eqb (substring (String.length s - String.length p) (String.length p) s) p.

(** [s.replace(p, r)] with a string pattern: the first occurrence. *)
Fixpoint replace_first (p r s : string) : string :=
  if String.prefix p s then String.append r (substring (String.length p) (String.length s - String.length p) s)
  else match s with
       | EmptyString => EmptyString
       | String c s' => String c (replace_first p r s')
       end.

(** [s.slice(2, -2)] *)
Definition slice_2_2 (s : string) : string :=
  substring 2 (String.length s - 4) s.

(** [s.split(sep)] for a non-empty separator, scanning left to right:
    [skip] counts the characters of a separator still to pass, [cur] is
    the piece being read. *)
Fixpoint split_go (sep s : string) (skip : nat) (cur : string) : list string :=
  match s with
  | EmptyString => [cur]
  | String c s' =>
      match skip with
      | S k => split_go sep s' k cur
      | O => if String.prefix sep s then cur :: split_go sep s' (String.length sep - 1) ""
             else split_go sep s' 0 (String.append cur (String c ""))
      end
  end.

Definition split (sep s : string) : list string := split_go sep s 0 "".

(** ** Bold runs *)

(** The longest prefix without ['*'], and the rest. *)
Fixpoint read_nonstar (s : string) : string * string :=
  match s with
  | String c s' =>
      if Ascii.eqb c "*" then ("", s)
      else let '(b, r) := read_nonstar s' in (String c b, r)
  | EmptyString => ("", "")
  end.

(** A match of [\*\*[^*]+\*\*] at the start of [s]: its inner text. *)
Definition bold_at (s : string) : option string :=
  match s with
  | String "*" (String "*" s') =>
      let '(b, r) := read_nonstar s' in
      match b, r with
      | String _ _, String "*" (String "*" _) => Some b
      | _, _ => None
      end
  | _ => None
  end.

(** [text.split] on the bold pattern with its capturing group (line 49):
    the text between matches and the matches themselves, alternately. *)
Fixpoint bold_go (s : string) (skip : nat) (cur : string) : list string :=
  match s with
  | EmptyString => [cur]
  | String c s' =>
      match skip with
      | S k => bold_go s' k cur
      | O => match bold_at s with
             | Some b => cur :: String.append "**" (String.append b "**") :: bold_go s' (String.length b + 3) ""
             | None => bold_go s' 0 (String.append cur (String c ""))
             end
      end
  end.

Definition bold_split (s : string) : list string := bold_go s 0 "".

(** ** Rendering *)

Inductive inline := Strong (t : string) | Span (t : string).

Inductive block :=
  | Heading (t : string)
  | BulletList (items : list (list inline))
  | Para (parts : list inline).

(** [renderInlineFormatting] (lines 48-60). *)
Definition renderInlineFormatting (text : string) : list inline :=
  map (fun part => if startsWith "**" part && endsWith "**" part
                   then Strong (slice_2_2 part) else Span part) (bold_split text).

Definition nl : string := String (ascii_of_nat 10) "".

(** One paragraph of [renderBody] (lines 17-44). *)
Definition render_paragraph (paragraph : string) : block :=
  if startsWith "## " paragraph then Heading (replace_first "## " "" paragraph)
  else if includes (String.append nl "- ") paragraph || startsWith "- " paragraph then
    BulletList (map (fun item => renderInlineFormatting (replace_first "- " "" item))
                  (List.filter (startsWith "- ") (split nl paragraph)))
  else Para (renderInlineFormatting paragraph).

(** [renderBody] (lines 14-46). *)
Definition renderBody (body : string) : list block :=
  map render_paragraph (split (String.append nl nl) body).

(** The source text a rendered inline part stands for. *)
Definition inline_source (i : inline) : string :=
  match i with
  | Strong t => String.append "**" (String.append t "**")
  | Span t => t
  end.

(** A paragraph with a lead-in line and two bullets. *)
Definition list_paragraph : string :=
  String.append "Items:" (String.append nl (String.append "- a" (String.append nl "- **b** c"))).

(** ** Lemmas *)

(** [String.append] does not reduce under [simpl] once stdpp's strings
    are loaded; these are its two equations. *)
Lemma append_String x (a b : string) : String.append (String x a) b = String x (String.append a b).
Proof. reflexivity. Qed.
Lemma append_Empty (b : string) : String.append "" b = b.
Proof. reflexivity. Qed.


Lemma prefix_app (p s : string) : String.prefix p s = true -> exists r, s = String.append p r.
Proof.
  revert s. induction p as [|a p IH]; intros s H; [by exists s|].
  destruct s as [|b s]; [done|]. simpl in H.
  destruct (Ascii.ascii_dec a b) as [<-|]; [|done]. destruct (IH s H) as [r ->]. exists r.
  by rewrite append_String.
Qed.

Lemma split_go_skip sep t r cur : split_go sep (String.append t r) (String.length t) cur = split_go sep r 0 cur.
Proof. induction t as [|c t IH]; [done|]. rewrite append_String. apply IH. Qed.

Lemma split_go_ne sep s skip cur : split_go sep s skip cur <> [].
Proof.
  revert skip cur. induction s as [|c s IH]; intros [|k] cur; simpl; try done;
    repeat case_match; try done; apply IH.
Qed.

Lemma concat_cons sep x l : l <> [] -> String.concat sep (x :: l) = String.append x (String.append sep (String.concat sep l)).
Proof. by destruct l. Qed.

Lemma append_assoc (a b c : string) : String.append a (String.append b c) = String.append (String.append a b) c.
Proof. induction a as [|x a IH]; [done|]. by rewrite !append_String, IH. Qed.

Lemma append_nil_r (s : string) : String.append s "" = s.
Proof. induction s as [|c s IH]; [done|]. by rewrite append_String, IH. Qed.

Lemma split_go_cons0 sep c s' cur :
  split_go sep (String c s') 0 cur =
    if String.prefix sep (String c s') then cur :: split_go sep s' (String.length sep - 1) ""
    else split_go sep s' 0 (String.append cur (String c "")).
Proof. reflexivity. Qed.

Lemma length_app_str (a b : string) : String.length (String.append a b) = String.length a + String.length b.
Proof. induction a as [|x a IH]; [done|]. rewrite append_String. simpl. by rewrite IH. Qed.

Lemma split_go_concat sep s cur :
  sep <> "" -> String.concat sep (split_go sep s 0 cur) = String.append cur s.
Proof.
  intros Hsep. remember (String.length s) as n eqn:Hn. revert s cur Hn.
  induction n as [n IH] using lt_wf_ind. intros [|c s'] cur Hn.
  - simpl. by rewrite append_nil_r.
  - rewrite split_go_cons0. destruct (String.prefix sep (String c s')) eqn:Hp.
    + destruct (prefix_app _ _ Hp) as [r Hr]. destruct sep as [|c' sep']; [done|].
      rewrite append_String in Hr. injection Hr as <- ->. simpl String.length.
      replace (S (String.length sep') - 1) with (String.length sep') by lia.
      rewrite split_go_skip, concat_cons by apply split_go_ne.
      rewrite (IH (String.length r)); [|simpl in Hn; rewrite length_app_str in Hn; lia|done].
      by rewrite append_Empty, append_String.
    + rewrite (IH (String.length s')); [|simpl in Hn; lia|done].
      by rewrite <- append_assoc.
Qed.

Lemma read_nonstar_app s : String.append (read_nonstar s).1 (read_nonstar s).2 = s.
Proof.
  induction s as [|c s IH]; [done|]. simpl. destruct (Ascii.eqb c "*"); [done|].
  destruct (read_nonstar s) as [b r]. simpl in *. by rewrite append_String, IH.
Qed.

Lemma bold_at_app s b :
  bold_at s = Some b -> exists rest, s = String.append "**" (String.append b (String.append "**" rest)).
Proof.
  unfold bold_at. destruct s as [|[[] [] [] [] [] [] [] []] [|[[] [] [] [] [] [] [] []] s']]; try done.
  pose proof (read_nonstar_app s') as Happ. destruct (read_nonstar s') as [b' r]. simpl in Happ.
  destruct b' as [|x b'']; [done|].
  destruct r as [|[[] [] [] [] [] [] [] []] [|[[] [] [] [] [] [] [] []] rest]]; try done.
  intros [= <-]. exists rest. rewrite <- Happ. reflexivity.
Qed.

Lemma bold_go_skip t r cur : bold_go (String.append t r) (String.length t) cur = bold_go r 0 cur.
Proof. induction t as [|c t IH]; [done|]. rewrite append_String. apply IH. Qed.

Lemma bold_go_ne s skip cur : bold_go s skip cur <> [].
Proof.
  revert skip cur. induction s as [|c s IH]; intros [|k] cur; simpl; try done;
    repeat case_match; try done; apply IH.
Qed.

Lemma bold_go_cons0 c s' cur :
  bold_go (String c s') 0 cur =
    match bold_at (String c s') with
    | Some b => cur :: String.append "**" (String.append b "**") :: bold_go s' (String.length b + 3) ""
    | None => bold_go s' 0 (String.append cur (String c ""))
    end.
Proof. reflexivity. Qed.

Lemma bold_go_concat s cur : String.concat "" (bold_go s 0 cur) = String.append cur s.
Proof.
  remember (String.length s) as n eqn:Hn. revert s cur Hn.
  induction n as [n IH] using lt_wf_ind. intros [|c s'] cur Hn.
  - simpl. by rewrite append_nil_r.
  - rewrite bold_go_cons0. destruct (bold_at (String c s')) as [b|] eqn:Hb.
    + destruct (bold_at_app _ _ Hb) as [rest Hs]. rewrite Hs in Hn.
      rewrite append_String in Hs. injection Hs as -> ->.
      replace (String.length b + 3) with (String.length (String.append "*" (String.append b "**"))).
      2: { rewrite !length_app_str. simpl. lia. }
      replace (String.append "*" (String.append b (String.append "**" rest)))
        with (String.append (String.append "*" (String.append b "**")) rest)
        by (rewrite <- !append_assoc; reflexivity).
      rewrite bold_go_skip, !concat_cons by (try discriminate; apply bold_go_ne).
      rewrite (IH (String.length rest)); [|rewrite !length_app_str in Hn; simpl in Hn; lia|done].
      rewrite !append_Empty, <- !append_assoc. reflexivity.
    + rewrite (IH (String.length s')); [|simpl in Hn; lia|done].
      by rewrite <- append_assoc.
Qed.

Lemma split_concat sep s : sep <> "" -> String.concat sep (split sep s) = s.
Proof. intros. by rewrite <- (append_Empty s) at 2; apply split_go_concat. Qed.

Lemma bold_split_concat s : String.concat "" (bold_split s) = s.
Proof. apply bold_go_concat. Qed.

Lemma substring_full s : substring 0 (String.length s) s = s.
Proof. induction s as [|y s IH]; [done|]. simpl. by rewrite IH. Qed.

Lemma substring_app_r a b : substring (String.length a) (String.length b) (String.append a b) = b.
Proof.
  induction a as [|x a IH]; [apply substring_full|]. by rewrite append_String.
Qed.

Lemma substring_prefix a b : substring 0 (String.length a) (String.append a b) = a.
Proof. induction a as [|x a IH]; [by destruct b|]. rewrite append_String. simpl. by rewrite IH. Qed.

Lemma substring_mid a y z : substring (String.length a) (String.length y) (String.append a (String.append y z)) = y.
Proof. induction a as [|x a IH]; [exact (substring_prefix y z)|]. by rewrite append_String. Qed.

Lemma split_last n x : n <= String.length x -> exists y z, x = String.append y z /\ String.length z = n.
Proof.
  induction x as [|c x IH]; intros Hn; simpl in Hn.
  - exists "", "". split; [done|]. simpl. lia.
  - destruct (decide (n <= String.length x)) as [Hle|Hgt].
    + destruct (IH Hle) as (y & z & -> & Hz). by exists (String c y), z.
    + exists "", (String c x). split; [done|]. simpl. lia.
Qed.

(** A part that starts and ends with ["**"] is ["**" ++ inner ++ "**"]
    with [inner = part.slice(2, -2)], unless it is ["**"] or ["***"]. *)
Lemma strong_part p :
  startsWith "**" p && endsWith "**" p = true ->
  p = "**" \/ p = "***" \/ String.append "**" (String.append (slice_2_2 p) "**") = p.
Proof.
  intros [Hs He]%andb_true_iff. destruct (prefix_app _ _ Hs) as [x ->].
  unfold endsWith in He. apply andb_true_iff in He as [_ He]. apply String.eqb_eq in He.
  rewrite length_app_str in He. simpl String.length in He.
  destruct (decide (2 <= String.length x)) as [Hle|Hgt].
  - destruct (split_last 2 x) as (y & z & -> & Hz); [done|]. right; right.
    rewrite length_app_str, Hz, append_assoc in He.
    replace (2 + (String.length y + 2) - 2) with (String.length (String.append "**" y)) in He
      by (rewrite length_app_str; simpl; lia).
    rewrite <- Hz, substring_app_r in He. subst z. unfold slice_2_2.
    rewrite !length_app_str. simpl String.length.
    replace (2 + (String.length y + 2) - 4) with (String.length y) by lia.
    change 2 with (String.length "**") at 1. by rewrite substring_mid.
  - destruct x as [|c [|c' x]]; [by left| |simpl in Hgt; lia].
    right; left. rewrite !append_String in He. simpl in He. by injection He as ->.
Qed.

(** ** Theorems *)

(** Splitting the body into paragraphs at blank lines loses nothing:
    joining the paragraphs with ["\n\n"] gives the body back, so
    [renderBody] renders one block per paragraph of the body. *)
Theorem renderBody_paragraphs body :
  String.concat (String.append nl nl) (split (String.append nl nl) body) = body /\
  length (renderBody body) = length (split (String.append nl nl) body).
Proof. split; [by apply split_concat|apply length_map]. Qed.

(** Inline formatting loses no text except stray markers: when no
    piece of the bold split is ["**"] or ["***"], the source text of the
    rendered parts, a [<strong>] part read back as ["**" ++ t ++ "**"],
    is the text itself. *)
Theorem renderInlineFormatting_roundtrip text :
  Forall (fun p => p <> "**" /\ p <> "***") (bold_split text) ->
  String.concat "" (map inline_source (renderInlineFormatting text)) = text.
Proof.
  intros Hp. unfold renderInlineFormatting. rewrite map_map.
  rewrite <- (bold_split_concat text) at 2. f_equal.
  rewrite <- (map_id (bold_split text)) at 2. apply map_ext_in.
  intros p Hin. destruct (proj1 (Forall_forall _ _) Hp p Hin) as [H2 H3].
  destruct (startsWith "**" p && endsWith "**" p) eqn:E; [|done].
  by destruct (strong_part p E) as [?|[?|?]].
Qed.

(** Witness of C42 on a line with one bold run. *)
Lemma renderInlineFormatting_roundtrip_witness :
  Forall (fun p => p <> "**" /\ p <> "***") (bold_split "a **b** c") /\
  String.concat "" (map inline_source (renderInlineFormatting "a **b** c")) = "a **b** c".
Proof.
  assert (Hp : Forall (fun p => p <> "**" /\ p <> "***") (bold_split "a **b** c"))
    by (vm_compute; repeat constructor; discriminate).
  split; [exact Hp|]. exact (renderInlineFormatting_roundtrip "a **b** c" Hp).
Defined.

(** A paragraph that contains a bullet line is rendered as a list of
    its ["- "] lines only: a lead-in line before the bullets is dropped
    from the page. *)
Example renderBody_list_drops_lead_in :
  renderBody list_paragraph = [BulletList [[Span "a"]; [Span ""; Strong "b"; Span " c"]]].
Proof. vm_compute. reflexivity. Qed.

(** A bold run with an asterisk inside does not match, and its
    closing marker then pairs with the opening marker of the next run:
    the text between the runs is rendered bold and the second run is not. *)
Example renderInlineFormatting_inner_asterisk :
  renderInlineFormatting "**2*3** and **x**" = [Span "**2*3"; Strong " and "; Span "x**"].
Proof. vm_compute. reflexivity. Qed.
