(* ===== verification/FormData.v ===== *)
(** FormData and the reading of form fields by the server actions.

    A FormData is a list of pairs with the [get] and [set] of the web
    platform.  The server actions of [src/app/actions/admin.ts] read a
    field as [formData.get(k) as string] (a string or [null]) and
    combine it with [|| null], [|| default], [parseInt(...) || n],
    [parseFloat(...) || 0], [=== 'true'], [!== 'false'] and
    [(x || '').split(',').filter(Boolean)]; each is written out here. *)

From stdpp Require Import base list strings.
From Stdlib Require Import Ascii ZArith Lia.
From S2P Require Import Prelude JsNumber Markup.

Definition FormData := list (string * string).

(** [formData.get(k)]: the first value under [k], or [null]. *)
Definition fd_get (fd : FormData) (k : string) : option string :=
  option_map snd (List.find (fun kv => String.eqb kv.1 k) fd).

(** [formData.set(k, v)]: the first entry under [k] takes the value [v]
    and the others are removed; without one, the entry is appended. *)
Fixpoint fd_set_go (fd : FormData) (k v : string) (replaced : bool) : FormData :=
  match fd with
  | [] => if replaced then [] else [(k, v)]
  | (k', v') :: fd' =>
      if String.eqb k' k then
        if replaced then fd_set_go fd' k v true else (k, v) :: fd_set_go fd' k v true
      else (k', v') :: fd_set_go fd' k v replaced
  end.

Definition fd_set (fd : FormData) (k v : string) : FormData := fd_set_go fd k v false.

(** [x !== 'false'] on a FormData value. *)
Definition not_false (x : option string) : bool :=
  match x with Some s => negb (String.eqb s "false") | None => true end.

(** [String(b)] on a boolean. *)
Definition js_string_of_bool (b : bool) : string := if b then "true" else "false".


(** ** Reading fields *)

(** [x || d] on a field read as a string: [null] and [''] give [d]. *)
Definition js_or_str (x : option string) (d : string) : string :=
  match x with Some s => if String.eqb s "" then d else s | None => d end.

(** [x === 'true'] *)
Definition is_true (x : option string) : bool :=
  match x with Some s => String.eqb s "true" | None => false end.

(** [(x || '').split(',').filter(Boolean)]: the non-empty pieces. *)
Definition split_ids (x : option string) : list string :=
  List.filter (fun s => negb (String.eqb s "")) (split "," (js_or_str x "")).

(** [parseInt(x) || d] *)
Definition fd_int (fd : FormData) (k : string) (d : Z) : Z :=
  js_or_num (parseInt_opt (fd_get fd k)) d.

(** The longest prefix of decimal digits and the rest. *)
Fixpoint read_digits (s : string) : list nat * string :=
  match s with
  | String c s' =>
      match digit_value 10 c with
      | Some d => let '(ds, r) := read_digits s' in (d :: ds, r)
      | None => ([], s)
      end
  | EmptyString => ([], EmptyString)
  end.

Definition digits_nat (ds : list nat) : nat := fold_left (fun acc d => acc * 10 + d)%nat ds 0%nat.

(** [parseFloat] on a decimal numeral, in tenths: the rating input has
    [step="0.1"], so the browser submits at most one decimal digit (later
    digits are dropped here); exponents are not modelled.  [float_body]
    reads the numeral after the sign. *)
Definition float_body (sign : Z) (s2 : string) : option Z :=
  let '(ids, s3) := read_digits s2 in
  let fds := match s3 with String "."%char s4 => fst (read_digits s4) | _ => [] end in
  match ids, fds with
  | [], [] => None
  | _, _ => Some (sign * (10 * Z.of_nat (digits_nat ids) + Z.of_nat (hd 0%nat fds)))%Z
  end.

Definition parseFloat (s : string) : option Z :=
  let s1 := skip_space s in
  match s1 with
  | String "-"%char s' => float_body (-1) s'
  | String "+"%char s' => float_body 1 s'
  | _ => float_body 1 s1
  end.

(** [parseFloat(x) || d] on a field. *)
Definition fd_float (fd : FormData) (k : string) (d : Z) : Z :=
  js_or_num (match fd_get fd k with Some s => parseFloat s | None => parseFloat "null" end) d.

(** A column sent as a string rather than [null]. *)
Definition sent (x : option string) : bool := match x with Some _ => true | None => false end.
