(* ===== verification/Featured.v ===== *)
(** The home page's featured-section resolver.

    [loadFeaturedSection] of [src/app/(main)/page.tsx], lines 12-50, over
    any [Entity] table, and the three calls of [HomePage] (lines 63-65).
    [featured_spec] is the same computation written without the monad;
    [loadFeaturedSection_refines] shows the code computes it when no
    request fails, and the error theorems show what it returns when one
    does.  The properties of the resolver are proved on [featured_spec]. *)

From stdpp Require Import base list strings gmap.
From Stdlib Require Import ZArith Lia Sorted Permutation.
From S2P Require Import Prelude StableSort Store.

(** The section ids of [FEATURED_SECTIONS] ([src/lib/constants.ts]). *)
Definition popular_courses : string := "popular_courses".
Definition recommended_contents : string := "recommended_contents".
Definition urgent_jobs : string := "urgent_jobs".

(** [new Map(entries)]: an entry overwrites an earlier one with the same
    key. *)
Definition js_map_of_list {K V} `{Countable K} (l : list (K * V)) : gmap K V :=
  fold_left (fun m kv => <[kv.1 := kv.2]> m) l ∅.

(** [.filter(Boolean)] on a list of nullable ids, keeping the strings. *)
Fixpoint truthy_ids (l : list (option string)) : list string :=
  match l with
  | [] => []
  | Some s :: l' => if js_truthy_str s then s :: truthy_ids l' else truthy_ids l'
  | None :: l' => truthy_ids l'
  end.

(** The id the exclusion list falls back to when it would be empty. *)
Definition nil_uuid : string := "00000000-0000-0000-0000-000000000000".

Section Resolver.
Context `{Entity A}.

(** [from('featured_items').select(`${idField}, display_order`)
     .eq('section', section).eq('is_active', true).order('display_order')] *)
Definition featured_rows (section : string) (idField : FeaturedItem -> option string)
    (db : Db) : list (option string * Z) :=
  map (fun f => (idField f, fi_display_order f))
    (q_order fi_display_order true
       (List.filter (fun f => String.eqb (fi_section f) section && fi_is_active f)
          (db_featured_items db))).

(** The comparator's key: [orderMap.get(a.id) || 99]. *)
Definition order_key (orderMap : gmap (option string) Z) (a : A) : Z :=
  js_or_num (orderMap !! Some (entity_id a)) 99.

(** The ids inside [.not('id', 'in', `(${... .join(',') || nil_uuid})`)]. *)
Definition excl_ids (items : list A) : list string :=
  match map entity_id items with [] => [nil_uuid] | l => l end.

(** The back-fill query of line 35: [.not('id', 'in', excl)
    .order(fallbackOrder, { ascending }).limit(n)] and the optional
    [.eq] of line 39. *)
Definition fallback_query (db : Db) (excl : list string) (fallbackOrder : A -> Z)
    (fallbackAsc : bool) (n : nat) (extraFilter : option (A -> bool)) : list A :=
  q_limit n (q_order fallbackOrder fallbackAsc
               (q_eq extraFilter (q_not_in excl (entity_rows db)))).

(** The query of lines 46-47, used when nothing is curated. *)
Definition plain_query (db : Db) (fallbackOrder : A -> Z) (fallbackAsc : bool)
    (limit : nat) (extraFilter : option (A -> bool)) : list A :=
  q_limit limit (q_order fallbackOrder fallbackAsc (q_eq extraFilter (entity_rows db))).

Definition loadFeaturedSection (section : string)
    (idField : FeaturedItem -> option string) (fallbackOrder : A -> Z)
    (fallbackAsc : bool) (limit : nat) (extraFilter : option (A -> bool))
    : Act (list A) :=
  let* r_featured := select T_featured_items (featured_rows section idField) in
  match r_featured with
  | RData ((_ :: _) as featured) =>
      let ids := truthy_ids (map fst featured) in
      let* r_data := select entity_table (fun db => q_in ids (entity_rows db)) in
      let orderMap := js_map_of_list featured in
      let items := sort_key (order_key orderMap) (data_or_nil r_data) in
      if Nat.ltb (length items) limit then
        let* r_extra := select entity_table (fun db =>
            fallback_query db (excl_ids items) fallbackOrder fallbackAsc
              (limit - length items) extraFilter) in
        st_ret (match r_extra with RData extra => items ++ extra | RErr => items end)
      else st_ret items
  | _ =>
      let* r := select entity_table (fun db =>
          plain_query db fallbackOrder fallbackAsc limit extraFilter) in
      st_ret (data_or_nil r)
  end.

(** ** The reference computation *)

(** The curated tier: the referenced rows, in comparator order. *)
Definition curated_rows (section : string) (idField : FeaturedItem -> option string)
    (db : Db) : list A :=
  let featured := featured_rows section idField db in
  sort_key (order_key (js_map_of_list featured))
    (q_in (truthy_ids (map fst featured)) (entity_rows db)).

Definition featured_spec (section : string) (idField : FeaturedItem -> option string)
    (fallbackOrder : A -> Z) (fallbackAsc : bool) (limit : nat)
    (extraFilter : option (A -> bool)) (db : Db) : list A :=
  match featured_rows section idField db with
  | [] => plain_query db fallbackOrder fallbackAsc limit extraFilter
  | _ =>
      let c := curated_rows section idField db in
      if Nat.ltb (length c) limit then
        c ++ fallback_query db (excl_ids c) fallbackOrder fallbackAsc
               (limit - length c) extraFilter
      else c
  end.
End Resolver.

(** The three calls of [HomePage] (lines 63-65). *)
Definition load_popular_courses : Act (list Course) :=
  loadFeaturedSection popular_courses fi_course_id c_rating false 6 None.
Definition load_recommended_contents : Act (list Content) :=
  loadFeaturedSection recommended_contents fi_content_id ct_view_count false 6 None.
Definition load_urgent_jobs : Act (list JobPosting) :=
  loadFeaturedSection urgent_jobs fi_job_id j_deadline true 5 (Some j_is_active).

(** ** Properties of the resolver *)

Section Properties.
Context `{Entity A}.
Implicit Types (db : Db) (items : list A).

Lemma excl_ids_In items x : In x items -> In (entity_id x) (excl_ids items).
Proof.
  intros Hx. unfold excl_ids.
  destruct (map entity_id items) as [|y l] eqn:E.
  - apply map_eq_nil in E. by subst.
  - rewrite <- E. by apply in_map.
Qed.

Lemma fallback_query_length db excl key asc n filt :
  length (fallback_query db excl key asc n filt) <= n.
Proof. unfold fallback_query, q_limit. rewrite length_firstn. lia. Qed.

Lemma plain_query_length db key asc limit filt :
  length (plain_query db key asc limit filt) <= limit.
Proof. unfold plain_query, q_limit. rewrite length_firstn. lia. Qed.

Lemma fallback_query_In db excl key asc n filt x :
  In x (fallback_query db excl key asc n filt) ->
  In x (entity_rows db) /\ ~ In (entity_id x) excl.
Proof.
  unfold fallback_query, q_limit. intros Hx%in_firstn.
  apply q_order_In, q_eq_incl, q_not_in_In in Hx. done.
Qed.

Lemma plain_query_In db key asc limit filt x :
  In x (plain_query db key asc limit filt) -> In x (entity_rows db).
Proof.
  unfold plain_query, q_limit. intros Hx%in_firstn.
  by apply q_order_In, q_eq_incl in Hx.
Qed.

Lemma fallback_query_length_eq db excl key asc n filt :
  length (fallback_query db excl key asc n filt) =
    Nat.min n (length (q_eq filt (q_not_in excl (entity_rows db)))).
Proof. unfold fallback_query, q_limit. by rewrite length_firstn, q_order_length. Qed.

Lemma map_id_excl_ids items i : In i (map entity_id items) -> In i (excl_ids items).
Proof. intros (x & <- & Hx)%in_map_iff. by apply excl_ids_In. Qed.

Lemma NoDup_rows_in db ids :
  List.NoDup (map entity_id (entity_rows db)) ->
  List.NoDup (map entity_id (q_in ids (entity_rows db))).
Proof. unfold q_in. auto with jj. Qed.

Lemma NoDup_fallback_query db excl key asc n filt :
  List.NoDup (map entity_id (entity_rows db)) ->
  List.NoDup (map entity_id (fallback_query db excl key asc n filt)).
Proof. intros. unfold fallback_query, q_limit, q_not_in. auto with jj. Qed.

Lemma NoDup_plain_query db key asc limit filt :
  List.NoDup (map entity_id (entity_rows db)) ->
  List.NoDup (map entity_id (plain_query db key asc limit filt)).
Proof. intros. unfold plain_query, q_limit. auto with jj. Qed.

(** The curated tier followed by a back-fill that excludes it has no
    repeated id. *)
Lemma NoDup_items_fallback db items key asc n filt :
  List.NoDup (map entity_id (entity_rows db)) ->
  List.NoDup (map entity_id items) ->
  List.NoDup (map entity_id (items ++ fallback_query db (excl_ids items) key asc n filt)).
Proof.
  intros Hrows Hitems. rewrite map_app. apply List.NoDup_app; [done| |].
  - by apply NoDup_fallback_query.
  - intros i (x & <- & Hx)%in_map_iff (y & Hxy & Hy)%in_map_iff.
    apply fallback_query_In in Hy as [_ Hy]. apply Hy. rewrite Hxy.
    by apply excl_ids_In.
Qed.

Lemma NoDup_curated_rows section idField db :
  List.NoDup (map entity_id (entity_rows db)) ->
  List.NoDup (map entity_id (curated_rows section idField db)).
Proof. intros. unfold curated_rows. apply sort_key_NoDup. by apply NoDup_rows_in. Qed.

Lemma curated_rows_nil section idField db :
  featured_rows section idField db = [] -> curated_rows section idField db = [].
Proof. intros E. unfold curated_rows. rewrite E. simpl. by rewrite q_in_nil. Qed.

Lemma truthy_ids_In l s : In (Some s) l -> js_truthy_str s = true -> In s (truthy_ids l).
Proof.
  induction l as [|[s'|] l IH]; simpl; [done| |].
  - intros [[= ->]|Hin] Ht; [rewrite Ht; by left|].
    destruct (js_truthy_str s'); [right|]; auto.
  - intros [?|Hin] Ht; [done|auto].
Qed.

Lemma featured_rows_In section idField db f :
  In f (db_featured_items db) -> fi_section f = section -> fi_is_active f = true ->
  In (idField f, fi_display_order f) (featured_rows section idField db).
Proof.
  intros Hf Hs Ha. unfold featured_rows.
  apply (in_map (fun f => (idField f, fi_display_order f))), q_order_In, filter_In.
  split; [done|]. rewrite Hs, Ha, String.eqb_refl. done.
Qed.

(** An entity referenced by an active override of the section is in the
    curated tier. *)
Lemma curated_rows_In_override section idField db f x :
  In f (db_featured_items db) -> fi_section f = section -> fi_is_active f = true ->
  idField f = Some (entity_id x) -> js_truthy_str (entity_id x) = true ->
  In x (entity_rows db) -> In x (curated_rows section idField db).
Proof.
  intros Hf Hs Ha Hid Ht Hx. unfold curated_rows. apply sort_key_In, q_in_In.
  split; [done|]. apply truthy_ids_In; [|done].
  apply in_map_iff. eexists; split; [|by apply featured_rows_In]. by rewrite Hid.
Qed.

Lemma curated_rows_In section idField db x :
  In x (curated_rows section idField db) -> In x (entity_rows db).
Proof.
  unfold curated_rows. intros Hx%sort_key_In. by apply q_in_In in Hx as [? _].
Qed.
End Properties.

#[export] Hint Resolve NoDup_curated_rows NoDup_plain_query NoDup_items_fallback
  NoDup_rows_in : jj.

(** Unfold one run of the resolver and split on every request's outcome
    and on the branches of the code. *)
Ltac featured_cases :=
  unfold returns, run_result, loadFeaturedSection, st_bind, select, st_ret;
  cbn [fst snd];
  repeat match goal with
    | H : table_fails ?t ?db = _ |- context [table_fails ?t ?db] => rewrite H
    | |- context [table_fails ?t ?db] => destruct (table_fails t db) eqn:?
    | |- context [match featured_rows ?s ?f ?db with _ => _ end] =>
        destruct (featured_rows s f db) as [|? ?] eqn:?
    | |- context [Nat.ltb ?a ?b] => destruct (Nat.ltb_spec a b)
    end; cbn [fst snd data_or_nil app sort_key length] in *.

Section Theorems.
Context `{Entity A}.
Implicit Types (db : Db) (items : list A).

(** The requests a run sends when none fails: the curation query, then
    either the bulk fetch and, when the curated tier is short, the
    back-fill, or the plain query. *)
Definition featured_log (section : string) (idField : FeaturedItem -> option string)
    (limit : nat) (db : Db) : list request :=
  Req T_featured_items OpSelect :: Req entity_table OpSelect ::
  match featured_rows section idField db with
  | [] => []
  | _ => if Nat.ltb (length (curated_rows section idField db)) limit
         then [Req entity_table OpSelect] else []
  end.

(** C1. When no request fails, [loadFeaturedSection] leaves the store
    unchanged, sends the requests of [featured_log] and returns
    [featured_spec]: the curated rows in display order, back-filled by
    the fallback ranking up to [limit] when they are fewer than [limit],
    or the plain fallback query when no override is active. *)
Theorem loadFeaturedSection_refines section idField key asc limit filt db :
  db_failing db = [] ->
  loadFeaturedSection section idField key asc limit filt db =
    (db, featured_log section idField limit db,
     Ok (featured_spec section idField key asc limit filt db)).
Proof.
  intros Hf.
  unfold loadFeaturedSection, featured_spec, featured_log, curated_rows,
    st_bind, select, st_ret.
  repeat rewrite (table_fails_nil _ _ Hf). cbn [fst snd data_or_nil app].
  destruct (featured_rows section idField db) as [|f fs];
    repeat rewrite (table_fails_nil _ _ Hf); cbn [data_or_nil app]; [done|].
  destruct (Nat.ltb _ _); cbn [app];
    repeat rewrite (table_fails_nil _ _ Hf); done.
Qed.

(** C2. Whatever the store holds and whichever requests fail, the
    resolver returns no entity twice, provided the table's primary keys
    are distinct: the curated tier comes from one [in] query over the
    table and the back-fill excludes its ids, so even two overrides of
    the same entity yield one row. *)
Theorem featured_no_duplicates section idField key asc limit filt db :
  List.NoDup (map entity_id (entity_rows db)) ->
  returns (loadFeaturedSection section idField key asc limit filt) db
    (fun items => List.NoDup (map entity_id items)).
Proof.
  intros Hnd. featured_cases; simpl;
    first [apply List.NoDup_nil | apply NoDup_items_fallback | idtac];
    auto with jj.
Qed.

(** C3. The length of the result never exceeds the larger of [limit] and
    the number of curated rows; in particular it is at most [limit]
    when the curated rows fit.  The curated tier itself is not cut to
    [limit]. *)
Theorem featured_length_bound section idField key asc limit filt db :
  returns (loadFeaturedSection section idField key asc limit filt) db
    (fun items => length items <= Nat.max limit (length (curated_rows section idField db))).
Proof.
  featured_cases; unfold curated_rows in *;
    repeat match goal with H : featured_rows _ _ _ = _ |- _ => rewrite H end;
    rewrite ?length_app;
    repeat match goal with
      | |- context [fallback_query ?a ?b ?c ?d ?e ?f] =>
          pose proof (fallback_query_length a b c d e f);
          generalize dependent (fallback_query a b c d e f); intros
      | |- context [plain_query ?a ?b ?c ?d ?e] =>
          pose proof (plain_query_length a b c d e);
          generalize dependent (plain_query a b c d e); intros
      end; simpl in *; lia.
Qed.

(** C4. Failed requests are swallowed, never reported: when the entity
    table's requests fail the section is silently empty, and when only
    the curation query fails the overrides are silently ignored and the
    plain fallback ranking is shown. *)
Theorem featured_errors_swallowed section idField key asc limit filt db :
  (table_fails entity_table db = true ->
     run_result (loadFeaturedSection section idField key asc limit filt) db = Ok []) /\
  (table_fails T_featured_items db = true -> table_fails entity_table db = false ->
     run_result (loadFeaturedSection section idField key asc limit filt) db =
       Ok (plain_query db key asc limit filt)).
Proof.
  split.
  - intros He. unfold run_result. featured_cases; congruence.
  - intros Hfi He. unfold run_result. featured_cases; congruence.
Qed.

(** Rewrite a run with no failing table into [featured_spec]. *)
Lemma returns_featured_spec section idField key asc limit filt db (P : list A -> Prop) :
  db_failing db = [] ->
  P (featured_spec section idField key asc limit filt db) ->
  returns (loadFeaturedSection section idField key asc limit filt) db P.
Proof.
  intros Hf HP. unfold returns, run_result.
  by rewrite loadFeaturedSection_refines.
Qed.

(** C5. Curated precedence and orphan skipping: when no request fails,
    the result is the curated tier followed by rows of the table that
    are not in it; every curated row exists in the table, so an
    override whose entity was deleted contributes nothing. *)
Theorem featured_curated_first section idField key asc limit filt db :
  db_failing db = [] ->
  returns (loadFeaturedSection section idField key asc limit filt) db (fun items =>
    exists extra : list A, items = curated_rows section idField db ++ extra /\
      (forall x, In x (curated_rows section idField db) -> In x (entity_rows db)) /\
      (forall x, In x extra -> In x (entity_rows db) /\
         ~ In (entity_id x) (map entity_id (curated_rows section idField db)))).
Proof.
  intros Hf. apply returns_featured_spec; [done|]. unfold featured_spec.
  destruct (featured_rows section idField db) eqn:E.
  - rewrite (curated_rows_nil _ _ _ E).
    exists (plain_query db key asc limit filt).
    split; [done|]. split; [by intros ? []|].
    intros x Hx. split; [by eapply plain_query_In|]. by intros [].
  - destruct (Nat.ltb _ _).
    + eexists. split; [reflexivity|]. split; [apply curated_rows_In|].
      intros x (Hrow & Hex)%fallback_query_In.
      split; [done|]. intros Hin. by apply Hex, map_id_excl_ids.
    + exists []. rewrite app_nil_r. split; [done|].
      split; [apply curated_rows_In|]. by intros ? [].
Qed.

(** Every entity that an active override of the section references and
    that exists in the table is shown, whatever the limit. *)
Theorem featured_override_shown section idField key asc limit filt db f x :
  db_failing db = [] ->
  In f (db_featured_items db) -> fi_section f = section -> fi_is_active f = true ->
  idField f = Some (entity_id x) -> js_truthy_str (entity_id x) = true ->
  In x (entity_rows db) ->
  returns (loadFeaturedSection section idField key asc limit filt) db (fun items => In x items).
Proof.
  intros Hfail Hf Hs Ha Hid Ht Hx.
  pose proof (featured_curated_first section idField key asc limit filt db Hfail) as Hc.
  unfold returns in *. destruct (run_result _ db) as [items|]; [|done].
  destruct Hc as (extra & -> & _). apply in_or_app. left.
  by eapply curated_rows_In_override.
Qed.

(** Orphans are back-filled: when some override is active, no
    request fails and fewer than [limit] curated rows resolve, the result
    has [limit] rows, or every eligible row when the table has fewer;
    the eligible rows are those passing the section's filter and not
    excluded by the curated ids. *)
Theorem featured_backfill_length section idField key asc limit filt db :
  db_failing db = [] -> featured_rows section idField db <> [] ->
  length (curated_rows section idField db) < limit ->
  returns (loadFeaturedSection section idField key asc limit filt) db (fun items =>
    length items = Nat.min limit (length (curated_rows section idField db) +
      length (q_eq filt (q_not_in (excl_ids (curated_rows section idField db))
                           (entity_rows db))))).
Proof.
  intros Hf Hne Hlt. apply returns_featured_spec; [done|]. unfold featured_spec.
  destruct (featured_rows section idField db); [done|].
  destruct (Nat.ltb_spec (length (curated_rows section idField db)) limit); [|lia].
  rewrite length_app, fallback_query_length_eq. lia.
Qed.

(** A zero limit does not give an empty section: the resolver
    returns the whole curated tier, and when nothing is curated it still
    sends the fallback query (with [limit(0)]). *)
Theorem featured_zero_limit section idField key asc filt db :
  db_failing db = [] ->
  loadFeaturedSection section idField key asc 0 filt db =
    (db, [Req T_featured_items OpSelect; Req entity_table OpSelect],
     Ok (curated_rows section idField db)).
Proof.
  intros Hf. rewrite loadFeaturedSection_refines by done.
  unfold featured_log, featured_spec.
  destruct (featured_rows section idField db) eqn:E.
  - by rewrite (curated_rows_nil _ _ _ E).
  - destruct (Nat.ltb_spec (length (curated_rows section idField db)) 0); [lia|done].
Qed.

(** The curated tier is ordered by the comparator of line 33: sorted
    by [orderMap.get(id) || 99], and rows with equal keys stay in the
    order the [in] query returned them (the table's order), not in the
    order of the overrides. *)
Theorem curated_rows_display_order section idField db :
  let key := order_key (js_map_of_list (featured_rows section idField db)) in
  Sorted (key_le key) (curated_rows section idField db) /\
  forall k, with_key key k (curated_rows section idField db) =
    with_key key k (q_in (truthy_ids (map fst (featured_rows section idField db)))
                       (entity_rows db)).
Proof.
  intros key. split; [apply sort_key_sorted|]. intros k. apply sort_key_stable.
Qed.
End Theorems.
