(* ===== verification/FeaturedScenarios.v ===== *)
(** Concrete runs of the featured-section resolver.

    Small stores on which [loadFeaturedSection] is evaluated: the three
    scenarios of the spec's section 8, the witnesses of the resolver's
    theorems, and the runs that show where the code departs from the
    spec (the curated tier is not cut to the limit, ties follow the table
    rather than the overrides, a display order of 0 sorts last, and an
    inactive job posting that is curated is shown). *)

From stdpp Require Import base list strings.
From Stdlib Require Import ZArith Lia.
From S2P Require Import Prelude StableSort Store Featured.

Open Scope string_scope.
Open Scope list_scope.

Definition mk_db (cs : list Course) (cts : list Content) (js : list JobPosting)
    (fis : list FeaturedItem) (failing : list table) : Db :=
  {| db_profiles := []; db_courses := cs; db_enrollments := [];
     db_contents := cts; db_likes := []; db_bookmarks := [];
     db_job_postings := js; db_content_tags := []; db_featured_items := fis;
     db_hero_banners := []; db_failing := failing; db_next_id := 0 |}.

Definition mk_course (id : string) (rating : Z) : Course :=
  course_row id "coding" 30 0 rating "recruiting".

Definition mk_content (id : string) (views : Z) : Content :=
  {| ct_id := id; ct_title := id; ct_summary := ""; ct_body := ""; ct_author_name := "editor";
     ct_author_title := None; ct_thumbnail_url := None; ct_category := "trend_report"; ct_tags := [];
     ct_view_count := views; ct_like_count := 0; ct_is_featured := false; ct_created_at := 0 |}.

Definition mk_job (id : string) (deadline : Z) (active : bool) : JobPosting :=
  {| j_id := id; j_company_name := "co"; j_title := id; j_description := None; j_job_type := "newgrad";
     j_location := None; j_deadline := deadline; j_url := None; j_thumbnail_url := None; j_tags := [];
     j_source := None; j_is_active := active |}.

Definition fi_course (id : string) (course : string) (order : Z) : FeaturedItem :=
  {| fi_id := id; fi_section := popular_courses; fi_course_id := Some course;
     fi_content_id := None; fi_job_id := None; fi_display_order := order;
     fi_is_active := true |}.

Definition fi_content (id : string) (content : string) (order : Z) : FeaturedItem :=
  {| fi_id := id; fi_section := recommended_contents; fi_course_id := None;
     fi_content_id := Some content; fi_job_id := None; fi_display_order := order;
     fi_is_active := true |}.

Definition fi_job (id : string) (job : string) (order : Z) : FeaturedItem :=
  {| fi_id := id; fi_section := urgent_jobs; fi_course_id := None;
     fi_content_id := None; fi_job_id := Some job; fi_display_order := order;
     fi_is_active := true |}.

Definition ids_of {A} `{Entity A} (r : result (list A)) : list string :=
  match r with Ok l => map entity_id l | Thrown _ => [] end.

(** Eight courses, ratings 40 50 30 45 10 20 35 5. *)
Definition courses8 : list Course :=
  [mk_course "a" 40; mk_course "b" 50; mk_course "c" 30; mk_course "d" 45;
   mk_course "e" 10; mk_course "f" 20; mk_course "g" 35; mk_course "h" 5].

(** Two overrides, one of them orphaned ("zz" does not exist). *)
Definition db_courses_orphan : Db :=
  mk_db courses8 [] [] [fi_course "f1" "c" 2; fi_course "f2" "zz" 1; fi_course "f3" "e" 1] [].

(** ** Witnesses of the resolver's theorems *)

Lemma loadFeaturedSection_refines_witness :
  db_failing db_courses_orphan = [] /\
  load_popular_courses db_courses_orphan =
    (db_courses_orphan, featured_log (A:=Course) popular_courses fi_course_id 6 db_courses_orphan,
     Ok (featured_spec popular_courses fi_course_id c_rating false 6 None db_courses_orphan)).
Proof. split; [reflexivity|]. apply loadFeaturedSection_refines. reflexivity. Defined.

Lemma featured_no_duplicates_witness :
  List.NoDup (map c_id courses8) /\
  returns load_popular_courses db_courses_orphan (fun items => List.NoDup (map c_id items)).
Proof.
  assert (Hnd : List.NoDup (map c_id courses8)) by solve_NoDup.
  split; [exact Hnd|].
  exact (featured_no_duplicates (A:=Course) popular_courses fi_course_id c_rating false 6 None
           db_courses_orphan Hnd).
Defined.

Lemma featured_errors_swallowed_witness :
  table_fails T_courses (mk_db courses8 [] [] [] [T_courses]) = true /\
  run_result load_popular_courses (mk_db courses8 [] [] [] [T_courses]) = Ok [].
Proof.
  split; [reflexivity|].
  apply (proj1 (featured_errors_swallowed (A:=Course) _ _ _ _ _ _ _)). reflexivity.
Defined.

Lemma featured_curated_first_witness :
  db_failing db_courses_orphan = [] /\
  returns load_popular_courses db_courses_orphan (fun items =>
    exists extra : list Course,
      items = curated_rows (A:=Course) popular_courses fi_course_id db_courses_orphan ++ extra /\
      (forall x, In x (curated_rows (A:=Course) popular_courses fi_course_id db_courses_orphan) ->
                 In x (db_courses db_courses_orphan)) /\
      (forall x, In x extra -> In x (db_courses db_courses_orphan) /\
         ~ In (c_id x) (map c_id
              (curated_rows (A:=Course) popular_courses fi_course_id db_courses_orphan)))).
Proof.
  split; [reflexivity|].
  exact (featured_curated_first (A:=Course) popular_courses fi_course_id c_rating false 6 None
           db_courses_orphan eq_refl).
Defined.

Lemma featured_backfill_length_witness :
  db_failing db_courses_orphan = [] /\
  featured_rows popular_courses fi_course_id db_courses_orphan <> [] /\
  length (curated_rows (A:=Course) popular_courses fi_course_id db_courses_orphan) < 6 /\
  returns load_popular_courses db_courses_orphan (fun items =>
    length items = Nat.min 6 (length (curated_rows (A:=Course) popular_courses fi_course_id db_courses_orphan) +
      length (q_eq None (q_not_in (excl_ids (curated_rows (A:=Course) popular_courses fi_course_id db_courses_orphan))
                           (db_courses db_courses_orphan))))).
Proof.
  split; [reflexivity|]. split; [discriminate|].
  split; [vm_compute; lia|].
  refine (featured_backfill_length (A:=Course) popular_courses fi_course_id c_rating false 6 None
            db_courses_orphan eq_refl _ _); [discriminate|vm_compute; lia].
Defined.

Lemma featured_zero_limit_witness :
  db_failing db_courses_orphan = [] /\
  loadFeaturedSection popular_courses fi_course_id c_rating false 0 None db_courses_orphan =
    (db_courses_orphan, [Req T_featured_items OpSelect; Req T_courses OpSelect],
     Ok (curated_rows (A:=Course) popular_courses fi_course_id db_courses_orphan)).
Proof.
  split; [reflexivity|].
  exact (featured_zero_limit (A:=Course) popular_courses fi_course_id c_rating false None
           db_courses_orphan eq_refl).
Defined.

(** ** The scenarios of the spec's section 8 *)

Definition jobs8 : list JobPosting :=
  [mk_job "j1" 20250310 true; mk_job "j2" 20250301 false; mk_job "j3" 20250305 true;
   mk_job "j4" 20250420 true; mk_job "j5" 20250315 true; mk_job "j6" 20250302 false;
   mk_job "j7" 20250401 true; mk_job "j8" 20250303 true].

(** No override for urgent jobs: the five active postings with the
    nearest deadlines, in deadline order, exactly the direct query. *)
Example urgent_jobs_no_override :
  run_result load_urgent_jobs (mk_db [] [] jobs8 [] []) =
    Ok (q_limit 5 (q_order j_deadline true (List.filter j_is_active jobs8))) /\
  ids_of (run_result load_urgent_jobs (mk_db [] [] jobs8 [] [])) =
    ["j8"; "j3"; "j1"; "j5"; "j7"].
Proof. split; vm_compute; reflexivity. Qed.

Definition db_full_override : Db :=
  mk_db courses8 [] []
    [fi_course "f1" "h" 6; fi_course "f2" "b" 2; fi_course "f3" "g" 1;
     fi_course "f4" "a" 5; fi_course "f5" "c" 3; fi_course "f6" "f" 4] [].

(** Six active overrides ranked 1 to 6 for popular courses: exactly
    those six courses in rank order, and no back-fill request is sent. *)
Example popular_courses_full_override :
  run_log load_popular_courses db_full_override =
    [Req T_featured_items OpSelect; Req T_courses OpSelect] /\
  ids_of (run_result load_popular_courses db_full_override) = ["g"; "b"; "c"; "f"; "a"; "h"].
Proof. split; vm_compute; reflexivity. Qed.

Definition contents8 : list Content :=
  [mk_content "k1" 100; mk_content "k2" 900; mk_content "k3" 300; mk_content "k4" 700;
   mk_content "k5" 50; mk_content "k6" 800; mk_content "k7" 200; mk_content "k8" 600].

(** Two overrides for recommended contents, the second orphaned:
    the first override's content, then the five most viewed other
    contents; six in all. *)
Example recommended_contents_orphan :
  ids_of (run_result load_recommended_contents
            (mk_db [] contents8 [] [fi_content "f1" "k1" 1; fi_content "f2" "gone" 2] [])) =
    ["k1"; "k2"; "k6"; "k4"; "k8"; "k3"].
Proof. vm_compute. reflexivity. Qed.

(** ** Where the code departs from the spec *)

(** The curated tier is not cut to the limit: seven active overrides
    put seven courses in a section whose limit is six. *)
Example popular_courses_exceed_limit :
  returns load_popular_courses
    (mk_db courses8 [] []
       [fi_course "f1" "a" 1; fi_course "f2" "b" 2; fi_course "f3" "c" 3; fi_course "f4" "d" 4;
        fi_course "f5" "e" 5; fi_course "f6" "f" 6; fi_course "f7" "g" 7] [])
    (fun items => length items = 7).
Proof. vm_compute. reflexivity. Qed.

(** Ties between equal display orders follow the course table, not
    the order in which the overrides were fetched: "b" is overridden
    first, yet "a" is shown first. *)
Example featured_ties_follow_table :
  featured_rows popular_courses fi_course_id
    (mk_db courses8 [] [] [fi_course "f1" "b" 1; fi_course "f2" "a" 1] []) =
    [(Some "b", 1%Z); (Some "a", 1%Z)] /\
  ids_of (run_result load_popular_courses
            (mk_db courses8 [] [] [fi_course "f1" "b" 1; fi_course "f2" "a" 1] [])) =
    ["a"; "b"; "d"; "g"; "c"; "f"].
Proof. split; vm_compute; reflexivity. Qed.

(** A display order of 0, which [upsertFeaturedItem] stores when the
    form's order does not parse, is read as 99 by [|| 99]: the course
    ranked 0 is shown after the course ranked 5. *)
Example featured_order_zero_last :
  ids_of (run_result load_popular_courses
            (mk_db courses8 [] [] [fi_course "f1" "c" 0; fi_course "f2" "e" 5] [])) =
    ["e"; "c"; "b"; "d"; "a"; "g"].
Proof. vm_compute. reflexivity. Qed.

(** The section filter is applied to the back-fill only: an inactive
    job posting that is curated for urgent jobs is shown, first. *)
Example urgent_jobs_show_inactive_curated :
  ids_of (run_result load_urgent_jobs (mk_db [] [] jobs8 [fi_job "f1" "j2" 1] [])) =
    ["j2"; "j8"; "j3"; "j1"; "j5"].
Proof. vm_compute. reflexivity. Qed.

(** Two overrides of the same course show it once: the curated ids
    go through one [in] filter over the table. *)
Example featured_duplicate_override_once :
  ids_of (run_result load_popular_courses
            (mk_db courses8 [] [] [fi_course "f1" "c" 1; fi_course "f2" "c" 2] [])) =
    ["c"; "b"; "d"; "a"; "g"; "f"].
Proof. vm_compute. reflexivity. Qed.
