(* ===== verification/AdminAuth.v ===== *)
(** Admin authorization and member approval.

    [requireAdmin], [requireSuperAdmin], [approveAdmin] and [rejectAdmin]
    of [src/app/actions/admin.ts] (lines 10-61): the guards every admin
    server action starts with, and the two actions by which a super
    administrator decides on an admin account.  The signed-in user is an
    optional user id; a guard that fails throws, and a thrown action
    leaves the store as it was. *)

From stdpp Require Import base list strings.
From Stdlib Require Import ZArith Lia.
From S2P Require Import Prelude Store.

(** ** Guards (lines 10-34) *)

Definition msg_login_required : string := "로그인이 필요합니다".
Definition msg_admin_required : string := "어드민 권한이 필요합니다".
Definition msg_super_required : string := "슈퍼관리자 권한이 필요합니다".

(** [admin_role === 'approved' || admin_role === 'super'] *)
Definition is_admin_role (r : option admin_role) : bool :=
  match r with Some Approved | Some Super => true | _ => false end.

Definition requireAdmin (user : option string) : Act Profile :=
  match user with
  | None => st_throw msg_login_required
  | Some uid =>
      let* r := select_resp T_profiles (fun db => single_resp (profiles_with_id uid db)) in
      match r with
      | RData profile =>
          if is_admin_role (p_admin_role profile) then st_ret profile
          else st_throw msg_admin_required
      | RErr => st_throw msg_admin_required
      end
  end.

Definition requireSuperAdmin (user : option string) : Act unit :=
  let* profile := requireAdmin user in
  if decide (p_admin_role profile = Some Super) then st_ret tt
  else st_throw msg_super_required.

(** ** approveAdmin and rejectAdmin (lines 39-61) *)

(** The message of a failed write ([error.message]). *)
Definition msg_write_failed : string := "update failed".

(** [update({ admin_role, is_admin }).eq('id', userId)] *)
Definition set_admin_role (userId : string) (role : admin_role) (is_admin : bool) (db : Db) : Db :=
  set_profiles
    (map (fun p => if String.eqb (p_id p) userId then
                     {| p_id := p_id p; p_email := p_email p; p_name := p_name p;
                        p_is_admin := is_admin; p_admin_role := Some role |}
                   else p) (db_profiles db)) db.

(** [if (error) throw new Error(error.message)] *)
Definition throw_on_error (r : resp unit) : Act unit :=
  match r with RData _ => st_ret tt | RErr => st_throw msg_write_failed end.

Definition approveAdmin (user : option string) (userId : string) : Act unit :=
  let* _ := requireSuperAdmin user in
  let* r := write T_profiles OpUpdate (set_admin_role userId Approved true) in
  throw_on_error r.

Definition rejectAdmin (user : option string) (userId : string) : Act unit :=
  let* _ := requireSuperAdmin user in
  let* r := write T_profiles OpUpdate (set_admin_role userId Rejected false) in
  throw_on_error r.

(** ** The profile a guard accepts *)

(** The profile [requireAdmin] accepts, if any. *)
Definition admin_profile (db : Db) (user : option string) : option Profile :=
  match user with
  | Some uid =>
      match profiles_with_id uid db with
      | [p] => if is_admin_role (p_admin_role p) then Some p else None
      | _ => None
      end
  | None => None
  end.

(** [requireSuperAdmin] accepts [user]. *)
Definition is_super_user (db : Db) (user : option string) : bool :=
  match admin_profile db user with Some p => bool_decide (p_admin_role p = Some Super) | None => false end.

(** The store has a super administrator. *)
Definition has_super (db : Db) : bool :=
  existsb (fun p => bool_decide (p_admin_role p = Some Super)) (db_profiles db).

(** Every profile's [is_admin] agrees with its role, as each write of the
    role sets both together. *)
Definition role_consistent (db : Db) : Prop :=
  Forall (fun p => p_is_admin p = is_admin_role (p_admin_role p)) (db_profiles db).

(** ** Lemmas *)

Lemma requireAdmin_ok user db p :
  table_fails T_profiles db = false -> admin_profile db user = Some p ->
  requireAdmin user db = (db, [Req T_profiles OpSelect], Ok p).
Proof.
  intros Hf Ha. destruct user as [uid|]; [|done]. simpl in Ha.
  unfold requireAdmin, st_bind, select_resp, st_ret, st_throw. rewrite Hf.
  destruct (profiles_with_id uid db) as [|q [|]]; try done. simpl.
  destruct (is_admin_role (p_admin_role q)); congruence.
Qed.

Lemma requireAdmin_denied user db :
  table_fails T_profiles db = true \/ admin_profile db user = None ->
  aborts (requireAdmin user) db.
Proof.
  intros Hd. destruct user as [uid|]; [|apply aborts_throw].
  unfold aborts, run_state, run_result, requireAdmin, st_bind, select_resp, st_ret, st_throw.
  destruct (table_fails T_profiles db) eqn:Hf; simpl; [split; [done|]; by eexists|].
  destruct Hd as [?|Ha]; [congruence|]. simpl in Ha.
  destruct (profiles_with_id uid db) as [|q [|]]; simpl; try (split; [done|]; by eexists).
  destruct (is_admin_role (p_admin_role q)); [done|]. split; [done|]. by eexists.
Qed.

Lemma bind_requireAdmin_ok {B} user db p (k : Profile -> Act B) :
  table_fails T_profiles db = false -> admin_profile db user = Some p ->
  st_bind (requireAdmin user) k db =
    match k p db with (s, l, r) => (s, Req T_profiles OpSelect :: l, r) end.
Proof. intros Hf Ha. unfold st_bind at 1. by rewrite (requireAdmin_ok _ _ _ Hf Ha). Qed.

(** The guard only reads. *)
Lemma preserves_requireAdmin (I : Db -> Prop) user : preserves I (requireAdmin user).
Proof.
  destruct user as [uid|]; [|apply preserves_throw].
  apply preserves_bind; [apply preserves_select_resp_gen|]. intros [profile|]; [|apply preserves_throw].
  case_if; [apply preserves_ret|apply preserves_throw].
Qed.

Lemma requireSuperAdmin_ok user db :
  table_fails T_profiles db = false -> is_super_user db user = true ->
  requireSuperAdmin user db = (db, [Req T_profiles OpSelect], Ok tt).
Proof.
  unfold is_super_user, requireSuperAdmin. intros Hf Hs.
  destruct (admin_profile db user) as [p|] eqn:Ha; [|done].
  rewrite (bind_requireAdmin_ok _ _ _ _ Hf Ha). apply bool_decide_eq_true in Hs.
  by rewrite decide_True.
Qed.

Lemma requireSuperAdmin_denied user db :
  table_fails T_profiles db = true \/ is_super_user db user = false ->
  aborts (requireSuperAdmin user) db.
Proof.
  unfold is_super_user, requireSuperAdmin. intros Hd.
  destruct (table_fails T_profiles db) eqn:Hf.
  { apply aborts_bind, requireAdmin_denied. by left. }
  destruct Hd as [?|Hs]; [done|].
  destruct (admin_profile db user) as [p|] eqn:Ha.
  - unfold aborts, run_state, run_result. rewrite (bind_requireAdmin_ok _ _ _ _ Hf Ha).
    apply bool_decide_eq_false in Hs. rewrite decide_False by done. simpl.
    split; [done|]. by eexists.
  - apply aborts_bind, requireAdmin_denied. by right.
Qed.

(** An action behind [requireSuperAdmin] that writes the profiles. *)
Lemma super_write_run user db f :
  db_failing db = [] -> is_super_user db user = true ->
  st_bind (requireSuperAdmin user) (fun _ => st_bind (write T_profiles OpUpdate f) throw_on_error) db =
    (f db, [Req T_profiles OpSelect; Req T_profiles OpUpdate], Ok tt).
Proof.
  intros Hf Hs. unfold st_bind at 1.
  rewrite (requireSuperAdmin_ok _ _ (table_fails_nil _ _ Hf) Hs).
  unfold st_bind, write. by rewrite (table_fails_nil _ _ Hf).
Qed.

Lemma set_admin_role_In uid role b db q :
  In q (db_profiles (set_admin_role uid role b db)) <->
  (exists p, In p (db_profiles db) /\
     q = if String.eqb (p_id p) uid then
           {| p_id := p_id p; p_email := p_email p; p_name := p_name p;
              p_is_admin := b; p_admin_role := Some role |} else p).
Proof. unfold set_admin_role. simpl. rewrite in_map_iff. firstorder. Qed.

Lemma set_admin_role_consistent uid role db :
  role_consistent db ->
  role_consistent (set_admin_role uid role (is_admin_role (Some role)) db).
Proof.
  unfold role_consistent, set_admin_role. simpl. intros H.
  apply Forall_map. eapply Forall_impl; [exact H|]. intros p Hp. by case_if.
Qed.

#[export] Hint Resolve requireAdmin_denied requireSuperAdmin_denied : jj.

Lemma admin_profile_In db user p : admin_profile db user = Some p -> In p (db_profiles db).
Proof.
  destruct user as [uid|]; simpl; [|done].
  destruct (profiles_with_id uid db) as [|q [|]] eqn:E; try done. case_if; [|done].
  intros [= <-]. assert (Hq : In q (profiles_with_id uid db)) by (rewrite E; by left).
  by apply filter_In in Hq as [? _].
Qed.

Lemma no_super_not_super_user db user : has_super db = false -> is_super_user db user = false.
Proof.
  unfold is_super_user, has_super. intros Hn.
  destruct (admin_profile db user) as [p|] eqn:Ha; [|done].
  apply not_true_iff_false. intros Hs. apply not_true_iff_false in Hn. apply Hn.
  apply existsb_exists. exists p. split; [by eapply admin_profile_In|done].
Qed.

(** The runs of [approveAdmin] and [rejectAdmin]: the store is unchanged
    or the target's role has been written. *)
Lemma decision_state user uid db act role :
  (act = approveAdmin user uid /\ role = Approved) \/ (act = rejectAdmin user uid /\ role = Rejected) ->
  run_state act db = db \/ run_state act db = set_admin_role uid role (is_admin_role (Some role)) db.
Proof.
  intros Hact.
  destruct (table_fails T_profiles db) eqn:Hf.
  { left. destruct Hact as [[-> _]|[-> _]]; apply aborts_bind, requireSuperAdmin_denied; by left. }
  destruct (is_super_user db user) eqn:Hs.
  2: { left. destruct Hact as [[-> _]|[-> _]]; apply aborts_bind, requireSuperAdmin_denied; by right. }
  right. unfold run_state. destruct Hact as [[-> ->]|[-> ->]]; unfold approveAdmin, rejectAdmin;
    unfold st_bind at 1; rewrite (requireSuperAdmin_ok _ _ Hf Hs);
    unfold st_bind, write; rewrite Hf; reflexivity.
Qed.

Lemma set_admin_role_no_super uid role b db :
  (forall q, In q (db_profiles db) -> p_admin_role q = Some Super -> p_id q = uid) ->
  role <> Super -> has_super (set_admin_role uid role b db) = false.
Proof.
  intros Honly Hr. unfold has_super. apply not_true_iff_false. intros (q & Hq & Hs)%existsb_exists.
  apply bool_decide_eq_true in Hs. apply set_admin_role_In in Hq as (p & Hp & ->).
  destruct (String.eqb_spec (p_id p) uid) as [|Hne]; simpl in Hs; [congruence|].
  by apply Hne, Honly.
Qed.

(** ** Theorems *)

Section Theorems.
Implicit Types (db : Db) (user : option string) (uid : string).

(** C14. Only a super administrator decides on accounts: when the caller
    is not a super administrator (a visitor, a plain user, a pending,
    rejected or approved admin) or the profile lookup fails,
    [approveAdmin] and [rejectAdmin] throw and leave the store as it
    was. *)
Theorem member_decisions_super_only user uid db :
  table_fails T_profiles db = true \/ is_super_user db user = false ->
  aborts (approveAdmin user uid) db /\ aborts (rejectAdmin user uid) db.
Proof. intros Hd. split; apply aborts_bind, requireSuperAdmin_denied, Hd. Qed.

(** C15. A super administrator's decision writes the target's role and
    admin flag together ([approved] with [is_admin = true], [rejected]
    with [false]) on every profile with the target's id, whatever the
    target's current role, and changes nothing else. *)
Theorem member_decision_effect user uid db :
  db_failing db = [] -> is_super_user db user = true ->
  approveAdmin user uid db =
    (set_admin_role uid Approved true db, [Req T_profiles OpSelect; Req T_profiles OpUpdate], Ok tt) /\
  rejectAdmin user uid db =
    (set_admin_role uid Rejected false db, [Req T_profiles OpSelect; Req T_profiles OpUpdate], Ok tt).
Proof. intros Hf Hs. split; by apply super_write_run. Qed.

(** [is_admin] stays equal to "the role is approved or super" for
    every profile across [approveAdmin] and [rejectAdmin], whether they
    succeed, fail on the guard or fail on the write. *)
Theorem member_decisions_consistent user uid db :
  role_consistent db ->
  role_consistent (run_state (approveAdmin user uid) db) /\
  role_consistent (run_state (rejectAdmin user uid) db).
Proof.
  intros Hc. split.
  - destruct (decision_state user uid db _ Approved (or_introl (conj eq_refl eq_refl))) as [->| ->];
      auto using set_admin_role_consistent.
  - destruct (decision_state user uid db _ Rejected (or_intror (conj eq_refl eq_refl))) as [->| ->];
      auto using set_admin_role_consistent.
Qed.

(** A super administrator who rejects their own account, while the
    only super administrator, leaves the store without one, and from then
    on every [approveAdmin] and [rejectAdmin], by anyone, throws: the
    server actions do not refuse a decision on a super administrator. *)
Theorem reject_self_locks_out s db :
  db_failing db = [] -> is_super_user db (Some s) = true ->
  (forall q, In q (db_profiles db) -> p_admin_role q = Some Super -> p_id q = s) ->
  let db' := run_state (rejectAdmin (Some s) s) db in
  has_super db' = false /\
  forall user uid, aborts (approveAdmin user uid) db' /\ aborts (rejectAdmin user uid) db'.
Proof.
  intros Hf Hs Honly db'.
  assert (Hn : has_super db' = false).
  { subst db'. unfold run_state, rejectAdmin. rewrite super_write_run by done.
    by apply set_admin_role_no_super. }
  split; [done|]. intros user uid.
  split; apply aborts_bind, requireSuperAdmin_denied; right; by apply no_super_not_super_user.
Qed.
End Theorems.

(** ** Witnesses *)

Definition mk_profile (id email : string) (role : option admin_role) : Profile :=
  {| p_id := id; p_email := email; p_name := None; p_is_admin := is_admin_role role;
     p_admin_role := role |}.

Definition db_members : Db :=
  {| db_profiles := [mk_profile "s" "branden@da-sh.io" (Some Super);
                     mk_profile "a" "a@x.kr" (Some Approved);
                     mk_profile "u" "u@x.kr" (Some Pending)];
     db_courses := []; db_enrollments := []; db_contents := []; db_likes := [];
     db_bookmarks := []; db_job_postings := []; db_content_tags := [];
     db_featured_items := []; db_hero_banners := []; db_failing := []; db_next_id := 0 |}.

Lemma member_decisions_super_only_witness :
  (table_fails T_profiles db_members = true \/ is_super_user db_members (Some "a") = false) /\
  aborts (approveAdmin (Some "a") "u") db_members /\ aborts (rejectAdmin (Some "a") "u") db_members.
Proof.
  assert (H : table_fails T_profiles db_members = true \/ is_super_user db_members (Some "a") = false)
    by (right; reflexivity).
  split; [exact H|]. exact (member_decisions_super_only (Some "a") "u" db_members H).
Defined.

Lemma member_decision_effect_witness :
  db_failing db_members = [] /\ is_super_user db_members (Some "s") = true /\
  approveAdmin (Some "s") "u" db_members =
    (set_admin_role "u" Approved true db_members,
     [Req T_profiles OpSelect; Req T_profiles OpUpdate], Ok tt) /\
  rejectAdmin (Some "s") "u" db_members =
    (set_admin_role "u" Rejected false db_members,
     [Req T_profiles OpSelect; Req T_profiles OpUpdate], Ok tt).
Proof.
  split; [reflexivity|]. split; [reflexivity|].
  exact (member_decision_effect (Some "s") "u" db_members eq_refl eq_refl).
Defined.

Lemma member_decisions_consistent_witness :
  role_consistent db_members /\
  role_consistent (run_state (approveAdmin (Some "s") "s") db_members) /\
  role_consistent (run_state (rejectAdmin (Some "s") "s") db_members).
Proof.
  assert (H : role_consistent db_members) by (repeat constructor).
  split; [exact H|]. exact (member_decisions_consistent (Some "s") "s" db_members H).
Defined.

Lemma reject_self_locks_out_witness :
  db_failing db_members = [] /\ is_super_user db_members (Some "s") = true /\
  (forall q, In q (db_profiles db_members) -> p_admin_role q = Some Super -> p_id q = "s") /\
  has_super (run_state (rejectAdmin (Some "s") "s") db_members) = false /\
  aborts (approveAdmin (Some "s") "u") (run_state (rejectAdmin (Some "s") "s") db_members).
Proof.
  assert (Honly : forall q, In q (db_profiles db_members) -> p_admin_role q = Some Super -> p_id q = "s").
  { intros q Hq. repeat (destruct Hq as [<-|Hq]; [by intros [=]|]). done. }
  split; [reflexivity|]. split; [reflexivity|]. split; [exact Honly|].
  destruct (reject_self_locks_out "s" db_members eq_refl eq_refl Honly) as [Hn Hall].
  split; [exact Hn|]. exact (proj1 (Hall (Some "s") "u")).
Defined.
