(* ===== verification/AdminPages.v ===== *)
(** The admin account pages: sign-up, login, the admin layout's guard,
    the pending page and the dashboard's guard.

    [handleSignup] of [src/app/(admin)/admin/signup/page.tsx],
    [handleLogin] of [src/app/(admin)/admin/login/page.tsx], [AdminLayout]
    of [src/app/(admin)/layout.tsx], [AdminPendingPage] and the guard and
    counters of [AdminDashboard] ([src/app/(admin)/admin/pending/page.tsx],
    [src/app/(admin)/admin/page.tsx]), and the user sign-up of
    [src/app/(auth)/signup/page.tsx].  The client handlers also talk to
    the auth service, so they run over a [World]: the store, the auth
    service's users, and whether the database trigger that creates a
    profile for a new user is in place (the trigger is not in the
    repository; the code guards against its absence).

    Both pages import [SUPER_ADMIN_EMAILS] from [src/lib/constants.ts],
    which exports [SUPER_ADMIN_EMAIL] only: the import is [undefined] and
    [SUPER_ADMIN_EMAILS.some(...)] throws a [TypeError].  The handlers are
    defined in a section over the imported value, so that the theorems
    can speak of the code as it is ([None]) and of the list the code
    means ([Some [SUPER_ADMIN_EMAIL]]). *)

From stdpp Require Import base list strings pretty relations.
From Stdlib Require Import ZArith Lia Ascii.
From S2P Require Import Prelude Store AdminAuth.

(** ** The world of the client pages *)

(** A user of the auth service, with the [full_name] of its metadata. *)
Record AuthUser := {
  au_id : string;
  au_email : string;
  au_password : string;
  au_full_name : option string;
}.

Record World := {
  w_db : Db;
  w_users : list AuthUser;
  w_trigger : bool;
  w_next_uid : nat;
}.

Abbreviation WAct := (ST World request).

Definition set_db (w : World) (db : Db) : World :=
  {| w_db := db; w_users := w_users w; w_trigger := w_trigger w; w_next_uid := w_next_uid w |}.

(** A store request made from the browser. *)
Definition lift {A} (c : Act A) : WAct A :=
  fun w => match c (w_db w) with (db', l, r) => (set_db w db', l, r) end.

(** The profile the trigger creates for a new user: no admin role. *)
Definition trigger_profile (u : AuthUser) : Profile :=
  {| p_id := au_id u; p_email := au_email u; p_name := au_full_name u;
     p_is_admin := false; p_admin_role := None |}.

Inductive signup_resp := SignupErr (msg : string) | SignupOk (uid : string).

(** [supabase.auth.signUp({ email, password, options: { data: { full_name } } })] *)
Definition auth_signUp (email password name : string) : WAct signup_resp :=
  fun w =>
    if existsb (fun u => String.eqb (au_email u) email) (w_users w)
    then (w, [], Ok (SignupErr "User already registered"))
    else
      let u := {| au_id := "user-" +:+ pretty (w_next_uid w); au_email := email;
                  au_password := password; au_full_name := Some name |} in
      let db := w_db w in
      let db' := if w_trigger w then set_profiles (db_profiles db ++ [trigger_profile u]) db else db in
      ({| w_db := db'; w_users := w_users w ++ [u]; w_trigger := w_trigger w;
          w_next_uid := S (w_next_uid w) |}, [], Ok (SignupOk (au_id u))).

(** [supabase.auth.signInWithPassword({ email, password })] *)
Definition auth_signIn (email password : string) : WAct (option AuthUser) :=
  fun w => (w, [], Ok (List.find (fun u => String.eqb (au_email u) email &&
                                           String.eqb (au_password u) password) (w_users w))).

(** ** Strings *)

Definition lower_ascii (c : ascii) : ascii :=
  let n := nat_of_ascii c in
  if Nat.leb 65 n && Nat.leb n 90 then ascii_of_nat (n + 32) else c.

(** [String.prototype.toLowerCase] on ASCII text. *)
Fixpoint toLowerCase (s : string) : string :=
  match s with
  | EmptyString => EmptyString
  | String c s' => String (lower_ascii c) (toLowerCase s')
  end.

(** [SUPER_ADMIN_EMAIL] of [src/lib/constants.ts]. *)
Definition SUPER_ADMIN_EMAIL : string := "branden@da-sh.io".

(** What [import { SUPER_ADMIN_EMAILS } from '@/lib/constants'] binds:
    the module has no such export. *)
Definition SUPER_ADMIN_EMAILS_import : option (list string) := None.

Definition msg_type_error : string := "TypeError: Cannot read properties of undefined (reading 'some')".

(** [SUPER_ADMIN_EMAILS.some(e => e.toLowerCase() === email.toLowerCase())] *)
Definition some_email (emails : option (list string)) (email : string) : WAct bool :=
  match emails with
  | None => st_throw msg_type_error
  | Some l => st_ret (existsb (fun e => String.eqb (toLowerCase e) (toLowerCase email)) l)
  end.

(** ** Profile writes *)

(** [update({...}).eq('id', uid)] with the new row computed by [f]. *)
Definition update_profile (uid : string) (f : Profile -> Profile) (db : Db) : Db :=
  set_profiles (map (fun p => if String.eqb (p_id p) uid then f p else p) (db_profiles db)) db.

(** [upsert(row)] on the primary key: every listed column is written. *)
Definition upsert_profile (row : Profile) (db : Db) : Db :=
  if existsb (fun p => String.eqb (p_id p) (p_id row)) (db_profiles db)
  then update_profile (p_id row) (fun _ => row) db
  else set_profiles (db_profiles db ++ [row]) db.

Definition with_role (is_admin : bool) (role : option admin_role) (p : Profile) : Profile :=
  {| p_id := p_id p; p_email := p_email p; p_name := p_name p;
     p_is_admin := is_admin; p_admin_role := role |}.

(** [.from('profiles').select(...).eq('id', uid).single()] *)
Definition profile_lookup (uid : string) : WAct (resp Profile) :=
  lift (select_resp T_profiles (fun db => single_resp (profiles_with_id uid db))).

(** ** The pages' outcomes *)

(** A handler ends showing an error in its form, or navigating. *)
Inductive page_result := ShowError (msg : string) | Navigate (path : string).

#[export] Instance page_result_eq_dec : EqDecision page_result.
Proof. solve_decision. Defined.

Definition msg_pw_short : string := "비밀번호는 최소 6자 이상이어야 합니다.".
Definition msg_pw_mismatch : string := "비밀번호가 일치하지 않습니다.".
Definition msg_already_registered : string := "이미 가입된 이메일입니다. 로그인해주세요.".
Definition msg_bad_credentials : string := "이메일 또는 비밀번호가 올바르지 않습니다.".
Definition msg_profile_failed : string := "프로필 생성에 실패했습니다. 잠시 후 다시 시도해주세요.".
Definition msg_no_admin : string := "관리자 권한이 없습니다. 먼저 관리자 가입 신청을 해주세요.".
Definition msg_rejected : string := "관리자 가입이 거절되었습니다. 문의해주세요.".
Definition msg_user_signup_failed : string := "회원가입에 실패했습니다. 다시 시도해주세요.".
Definition msg_user_pw_short : string := "비밀번호는 6자 이상이어야 합니다.".

(** ** The handlers *)

Section Pages.
Variable SUPER_ADMIN_EMAILS : option (list string).

(** Lines 70-83: up to six lookups, until the trigger's profile is seen. *)
Fixpoint poll_profile (n : nat) (uid : string) : WAct bool :=
  match n with
  | 0 => st_ret false
  | S n' =>
      let* r := profile_lookup uid in
      match r with RData _ => st_ret true | RErr => poll_profile n' uid end
  end.

(** [AdminSignupPage.handleSignup] (lines 20-114).  [!data.user] cannot
    happen: a successful sign-up returns its user. *)
Definition handleSignup (name email password passwordConfirm : string) : WAct page_result :=
  if Nat.ltb (String.length password) 6 then st_ret (ShowError msg_pw_short)
  else if negb (String.eqb password passwordConfirm) then st_ret (ShowError msg_pw_mismatch)
  else
    let* r := auth_signUp email password name in
    match r with
    | SignupErr m =>
        st_ret (ShowError (if String.eqb m "User already registered" then msg_already_registered else m))
    | SignupOk uid =>
        let* isSuperAdmin := some_email SUPER_ADMIN_EMAILS email in
        let adminRole := if isSuperAdmin then Super else Pending in
        let* profileExists := poll_profile 6 uid in
        let* _ :=
          if profileExists then
            lift (write T_profiles OpUpdate (update_profile uid (fun p =>
              {| p_id := p_id p; p_email := p_email p; p_name := js_or_null (Some name);
                 p_is_admin := isSuperAdmin; p_admin_role := Some adminRole |})))
          else
            lift (write T_profiles OpUpsert (upsert_profile
              {| p_id := uid; p_email := email; p_name := js_or_null (Some name);
                 p_is_admin := isSuperAdmin; p_admin_role := Some adminRole |})) in
        st_ret (Navigate (if isSuperAdmin then "/admin" else "/admin/pending"))
    end.

(** Lines 36-62 of the login page: the profile, created when missing. *)
Definition login_profile (u : AuthUser) (email : string) : WAct (option Profile) :=
  let* r := profile_lookup (au_id u) in
  match r with
  | RData p => st_ret (Some p)
  | RErr =>
      let* isSuperAdmin := some_email SUPER_ADMIN_EMAILS email in
      let* _ := lift (write T_profiles OpUpsert (upsert_profile
        {| p_id := au_id u; p_email := if js_truthy_str (au_email u) then au_email u else email;
           p_name := js_or_null (au_full_name u); p_is_admin := isSuperAdmin;
           p_admin_role := if isSuperAdmin then Some Super else None |})) in
      let* r' := profile_lookup (au_id u) in
      st_ret (resp_data r')
  end.

(** [AdminLoginPage.handleLogin] (lines 17-111). *)
Definition handleLogin (email password : string) : WAct page_result :=
  let* signed := auth_signIn email password in
  match signed with
  | None => st_ret (ShowError msg_bad_credentials)
  | Some u =>
      let* profile := login_profile u email in
      match profile with
      | None => st_ret (ShowError msg_profile_failed)
      | Some p =>
          match p_admin_role p with
          | None =>
              let* isSuperAdmin := some_email SUPER_ADMIN_EMAILS email in
              if isSuperAdmin then
                let* _ := lift (write T_profiles OpUpdate
                                  (update_profile (au_id u) (with_role true (Some Super)))) in
                st_ret (Navigate "/admin")
              else st_ret (ShowError msg_no_admin)
          | Some Pending => st_ret (Navigate "/admin/pending")
          | Some Rejected => st_ret (ShowError msg_rejected)
          | Some Approved | Some Super => st_ret (Navigate "/admin")
          end
      end
  end.
End Pages.

(** [SignupPage.handleSignup] of [src/app/(auth)/signup/page.tsx]. *)
Definition userSignup (email password name : string) : WAct page_result :=
  if Nat.ltb (String.length password) 6 then st_ret (ShowError msg_user_pw_short)
  else
    let* r := auth_signUp email password name in
    match r with
    | SignupErr _ => st_ret (ShowError msg_user_signup_failed)
    | SignupOk _ => st_ret (Navigate "/")
    end.

(** ** Server pages of the admin area *)

(** What [AdminLayout] wraps the page in: the page alone, or the sidebar
    (with the member menu when the viewer is a super administrator). *)
Inductive admin_chrome := BareChildren | Sidebar (isSuper : bool).

#[export] Instance admin_chrome_eq_dec : EqDecision admin_chrome.
Proof. solve_decision. Defined.

(** [AdminLayout] (layout.tsx, lines 18-38). *)
Definition AdminLayout (user : option string) : Act admin_chrome :=
  match user with
  | None => st_ret BareChildren
  | Some uid =>
      let* r := select_resp T_profiles (fun db => single_resp (profiles_with_id uid db)) in
      match r with
      | RData p =>
          match p_admin_role p with
          | None | Some Pending | Some Rejected => st_ret BareChildren
          | Some role => st_ret (Sidebar (bool_decide (role = Super)))
          end
      | RErr => st_ret BareChildren
      end
  end.

(** What a server page renders, or where it redirects. *)
Inductive pending_view := Redirect (path : string) | PendingNotice (isRejected : bool).

(** [AdminPendingPage] (pending/page.tsx, lines 6-25). *)
Definition AdminPendingPage (user : option string) : Act pending_view :=
  match user with
  | None => st_ret (Redirect "/admin/login")
  | Some uid =>
      let* r := select_resp T_profiles (fun db => single_resp (profiles_with_id uid db)) in
      let role := match r with RData p => p_admin_role p | RErr => None end in
      if is_admin_role role then st_ret (Redirect "/admin")
      else st_ret (PendingNotice (bool_decide (role = Some Rejected)))
  end.

(** The dashboard's five counters: courses, contents, job postings,
    members, pending admins ([count ?? 0]). *)
Record dashboard_stats := {
  st_courses : nat; st_contents : nat; st_jobs : nat; st_users : nat; st_pending : nat;
}.

Definition count_or_zero {A} (r : resp (list A)) : nat := length (data_or_nil r).

Inductive dashboard_view := DashRedirect (path : string) | Dashboard (stats : dashboard_stats) (isSuper : bool).

(** [AdminDashboard] (admin/page.tsx, lines 6-34). *)
Definition AdminDashboard (user : option string) : Act dashboard_view :=
  match user with
  | None => st_ret (DashRedirect "/admin/login")
  | Some uid =>
      let* r := select_resp T_profiles (fun db => single_resp (profiles_with_id uid db)) in
      let role := match r with RData p => p_admin_role p | RErr => None end in
      if negb (is_admin_role role) then
        st_ret (DashRedirect (if bool_decide (role = Some Pending) then "/admin/pending" else "/admin/login"))
      else
        let* c1 := select T_courses db_courses in
        let* c2 := select T_contents db_contents in
        let* c3 := select T_job_postings db_job_postings in
        let* c4 := select T_profiles db_profiles in
        let* c5 := select T_profiles (fun db =>
                     List.filter (fun p => bool_decide (p_admin_role p = Some Pending)) (db_profiles db)) in
        st_ret (Dashboard {| st_courses := count_or_zero c1; st_contents := count_or_zero c2;
                             st_jobs := count_or_zero c3; st_users := count_or_zero c4;
                             st_pending := count_or_zero c5 |}
                          (bool_decide (role = Some Super)))
  end.

(** ** The account steps *)

(** What a visitor or an administrator can do to the accounts: sign up
    on the admin page or on the site, log in on the admin page, approve
    or reject a member.  [emails] is the value bound to
    [SUPER_ADMIN_EMAILS]. *)
Inductive admin_step (emails : option (list string)) : World -> World -> Prop :=
  | step_admin_signup name email pw pwc w :
      admin_step emails w (run_state (handleSignup emails name email pw pwc) w)
  | step_user_signup email pw name w :
      admin_step emails w (run_state (userSignup email pw name) w)
  | step_admin_login email pw w :
      admin_step emails w (run_state (handleLogin emails email pw) w)
  | step_approve user uid w :
      admin_step emails w (run_state (lift (approveAdmin user uid)) w)
  | step_reject user uid w :
      admin_step emails w (run_state (lift (rejectAdmin user uid)) w).

(** No profile is an approved or super administrator. *)
Definition no_admin_role (db : Db) : Prop :=
  Forall (fun p => is_admin_role (p_admin_role p) = false) (db_profiles db).

(** ** Lemmas *)

Section Invariants.
Context (P : Profile -> Prop).

Definition profiles_all (db : Db) : Prop := Forall P (db_profiles db).
Definition world_all (w : World) : Prop := profiles_all (w_db w).

Lemma preserves_lift {A} (c : Act A) : preserves profiles_all c -> preserves world_all (lift c).
Proof.
  unfold preserves, world_all, run_state, lift. intros Hc w Hw. specialize (Hc _ Hw).
  by destruct (c (w_db w)) as [[??]?].
Qed.

Lemma preserves_select_resp {A} t (f : Db -> resp A) : preserves profiles_all (select_resp t f).
Proof. by intros db. Qed.

Lemma preserves_write t o f :
  (forall db, profiles_all db -> profiles_all (f db)) -> preserves profiles_all (write t o f).
Proof. unfold preserves, run_state, write. intros Hf db Hdb. case_if; simpl; auto. Qed.

Lemma profiles_all_update uid f db :
  (forall p, P p -> P (f p)) -> profiles_all db -> profiles_all (update_profile uid f db).
Proof.
  unfold profiles_all, update_profile. simpl. intros Hf Hdb.
  apply Forall_map. eapply Forall_impl; [exact Hdb|]. intros p Hp. case_if; auto.
Qed.

Lemma profiles_all_upsert row db : P row -> profiles_all db -> profiles_all (upsert_profile row db).
Proof.
  unfold upsert_profile. intros Hr Hdb. case_if; [by apply profiles_all_update|].
  unfold profiles_all. simpl. apply Forall_app. split; [done|]. by constructor.
Qed.

Lemma preserves_profile_lookup uid : preserves world_all (profile_lookup uid).
Proof. apply preserves_lift, preserves_select_resp. Qed.

Lemma preserves_poll n uid : preserves world_all (poll_profile n uid).
Proof.
  induction n as [|n IH]; simpl; [apply preserves_ret|].
  apply preserves_bind; [apply preserves_profile_lookup|]. intros [?|]; [apply preserves_ret|done].
Qed.

Lemma preserves_auth_signIn email pw : preserves world_all (auth_signIn email pw).
Proof. by intros w. Qed.

Lemma preserves_some_email e email : preserves world_all (some_email e email).
Proof. destruct e; [apply preserves_ret|apply preserves_throw]. Qed.

Lemma preserves_auth_signUp email pw name :
  (forall u, P (trigger_profile u)) -> preserves world_all (auth_signUp email pw name).
Proof.
  intros Ht w Hw. unfold run_state, auth_signUp. case_if; [done|]. simpl.
  unfold world_all, profiles_all. case_if; [|done]. simpl.
  apply Forall_app. split; [done|]. by constructor.
Qed.
End Invariants.

#[export] Hint Resolve preserves_lift preserves_select_resp preserves_write profiles_all_update
  profiles_all_upsert preserves_profile_lookup preserves_poll preserves_auth_signIn
  preserves_some_email preserves_auth_signUp : jj.

(** Split an action into its steps, following its branches. *)
Ltac preserves_tac :=
  repeat match goal with
  | |- preserves _ (st_bind (some_email None _) _) =>
      apply preserves_bind_throws; [apply always_throws_throw|apply preserves_throw]
  | |- preserves _ (st_bind _ _) => apply preserves_bind; [|intros ?]
  | |- preserves _ (st_ret _) => apply preserves_ret
  | |- preserves _ (st_throw _) => apply preserves_throw
  | |- preserves _ (match ?x with _ => _ end) => destruct x
  | |- preserves _ (if ?b then _ else _) => destruct b
  end.

(** The requests the pages are made of. *)
Ltac preserves_leaf :=
  match goal with
  | |- preserves _ (auth_signUp _ _ _) => apply preserves_auth_signUp; intros; reflexivity
  | |- preserves _ (auth_signIn _ _) => apply preserves_auth_signIn
  | |- preserves _ (some_email _ _) => apply preserves_some_email
  | |- preserves _ (poll_profile _ _) => apply preserves_poll
  | |- preserves _ (profile_lookup _) => apply preserves_profile_lookup
  | |- preserves _ (lift (write _ _ _)) =>
      apply preserves_lift, preserves_write; intros ? ?;
      first [apply profiles_all_update; [intros ? ?|done] | apply profiles_all_upsert; [|done]];
      repeat match goal with b : bool |- _ => destruct b end; reflexivity
  end.

Lemma lift_run_state {A} (c : Act A) w : run_state (lift c) w = set_db w (run_state c (w_db w)).
Proof. unfold run_state, lift. by destruct (c (w_db w)) as [[??]?]. Qed.

(** [is_admin] agrees with the role: the trigger's profile, and every row
    the two pages write, are consistent. *)
Definition consistent_profile (p : Profile) : Prop := p_is_admin p = is_admin_role (p_admin_role p).

Lemma handleSignup_consistent emails name email pw pwc :
  preserves (world_all consistent_profile) (handleSignup emails name email pw pwc).
Proof.
  unfold handleSignup. preserves_tac; preserves_leaf.
Qed.

Lemma userSignup_consistent email pw name :
  preserves (world_all consistent_profile) (userSignup email pw name).
Proof. unfold userSignup. preserves_tac; preserves_leaf. Qed.

Lemma handleLogin_consistent emails email pw :
  preserves (world_all consistent_profile) (handleLogin emails email pw).
Proof.
  unfold handleLogin, login_profile. preserves_tac; preserves_leaf.
Qed.

Lemma decision_consistent act role user uid :
  (act = approveAdmin user uid /\ role = Approved) \/ (act = rejectAdmin user uid /\ role = Rejected) ->
  preserves (world_all consistent_profile) (lift act).
Proof.
  intros Hact. apply preserves_lift. intros db Hdb.
  destruct (decision_state user uid db act role Hact) as [->| ->]; [done|].
  by apply set_admin_role_consistent.
Qed.

Definition not_admin (p : Profile) : Prop := is_admin_role (p_admin_role p) = false.

Lemma no_admin_no_super db : profiles_all not_admin db -> has_super db = false.
Proof.
  unfold profiles_all, has_super. intros H. apply not_true_iff_false.
  intros (p & Hp & Hs)%existsb_exists. apply bool_decide_eq_true in Hs.
  rewrite List.Forall_forall in H. specialize (H p Hp). unfold not_admin in H. by rewrite Hs in H.
Qed.

Lemma handleSignup_import_no_admin name email pw pwc :
  preserves (world_all not_admin) (handleSignup SUPER_ADMIN_EMAILS_import name email pw pwc).
Proof. unfold handleSignup, SUPER_ADMIN_EMAILS_import. preserves_tac; preserves_leaf. Qed.

Lemma handleLogin_import_no_admin email pw :
  preserves (world_all not_admin) (handleLogin SUPER_ADMIN_EMAILS_import email pw).
Proof. unfold handleLogin, login_profile, SUPER_ADMIN_EMAILS_import. preserves_tac; preserves_leaf. Qed.

Lemma userSignup_no_admin email pw name : preserves (world_all not_admin) (userSignup email pw name).
Proof. unfold userSignup. preserves_tac; preserves_leaf. Qed.

Lemma decision_no_admin act user uid :
  act = approveAdmin user uid \/ act = rejectAdmin user uid ->
  preserves (world_all not_admin) (lift act).
Proof.
  intros Hact. apply preserves_lift. intros db Hdb.
  assert (Hs : is_super_user db user = false) by (apply no_super_not_super_user, no_admin_no_super, Hdb).
  replace (run_state act db) with db; [done|].
  symmetry. destruct Hact as [->| ->]; apply aborts_bind, requireSuperAdmin_denied; by right.
Qed.

(** Every account step keeps an invariant of the profiles that each
    handler keeps. *)
Lemma admin_steps_preserve emails (Q : Profile -> Prop) w w' :
  (forall name email pw pwc, preserves (world_all Q) (handleSignup emails name email pw pwc)) ->
  (forall email pw name, preserves (world_all Q) (userSignup email pw name)) ->
  (forall email pw, preserves (world_all Q) (handleLogin emails email pw)) ->
  (forall act role user uid,
     (act = approveAdmin user uid /\ role = Approved) \/ (act = rejectAdmin user uid /\ role = Rejected) ->
     preserves (world_all Q) (lift act)) ->
  rtc (admin_step emails) w w' -> world_all Q w -> world_all Q w'.
Proof.
  intros H1 H2 H3 H4 Hr. induction Hr as [|w1 w2 w3 Hs _ IH]; [done|].
  intros Hw. apply IH. inversion Hs; subst.
  - by apply H1.
  - by apply H2.
  - by apply H3.
  - eapply (H4 _ Approved); [left; split; reflexivity|done].
  - eapply (H4 _ Rejected); [right; split; reflexivity|done].
Qed.

(** ** Theorems *)

(** C11. With the code as it is ([SUPER_ADMIN_EMAILS] undefined), no
    sequence of admin sign-ups, site sign-ups, admin logins, approvals
    and rejections ever makes an account an approved or super
    administrator when none is one: the admin pages throw a [TypeError]
    before writing any role, and without a super administrator every
    decision is refused. *)
Theorem ui_never_grants_admin w w' :
  rtc (admin_step SUPER_ADMIN_EMAILS_import) w w' ->
  no_admin_role (w_db w) -> no_admin_role (w_db w').
Proof.
  apply (admin_steps_preserve _ not_admin).
  - apply handleSignup_import_no_admin.
  - apply userSignup_no_admin.
  - apply handleLogin_import_no_admin.
  - intros act role user uid [[-> _]|[-> _]]; apply (decision_no_admin _ user uid); auto.
Qed.

(** C13. Whatever [SUPER_ADMIN_EMAILS] holds, every account step keeps
    each profile's [is_admin] equal to "the role is approved or super":
    the sign-up and login pages write both columns together, as do the
    approve and reject actions. *)
Theorem accounts_stay_consistent emails w w' :
  rtc (admin_step emails) w w' -> role_consistent (w_db w) -> role_consistent (w_db w').
Proof.
  apply (admin_steps_preserve _ consistent_profile).
  - apply handleSignup_consistent.
  - apply userSignup_consistent.
  - apply handleLogin_consistent.
  - apply decision_consistent.
Qed.

(** ** Runs of the sign-up page *)

Definition new_uid (w : World) : string := "user-" +:+ pretty (w_next_uid w).

Definition new_user (w : World) (email pw name : string) : AuthUser :=
  {| au_id := new_uid w; au_email := email; au_password := pw; au_full_name := Some name |}.

(** The world after a successful [auth.signUp]. *)
Definition signed_up (w : World) (email pw name : string) : World :=
  let db := w_db w in
  {| w_db := if w_trigger w then set_profiles (db_profiles db ++ [trigger_profile (new_user w email pw name)]) db
             else db;
     w_users := w_users w ++ [new_user w email pw name]; w_trigger := w_trigger w;
     w_next_uid := S (w_next_uid w) |}.

Lemma auth_signUp_new email pw name w :
  existsb (fun u => String.eqb (au_email u) email) (w_users w) = false ->
  auth_signUp email pw name w = (signed_up w email pw name, [], Ok (SignupOk (new_uid w))).
Proof. intros Hn. unfold auth_signUp. by rewrite Hn. Qed.

Lemma profiles_with_id_append uid row db :
  profiles_with_id uid db = [] ->
  profiles_with_id uid (set_profiles (db_profiles db ++ [row]) db) =
    if String.eqb (p_id row) uid then [row] else [].
Proof. unfold profiles_with_id. simpl. rewrite List.filter_app. intros ->. simpl. by case_if. Qed.

Lemma profiles_with_id_update uid f db :
  (forall p, p_id (f p) = p_id p) ->
  profiles_with_id uid (update_profile uid f db) = map f (profiles_with_id uid db).
Proof.
  intros Hf. unfold profiles_with_id, update_profile. simpl.
  induction (db_profiles db) as [|p ps IH]; simpl; [done|].
  destruct (String.eqb_spec (p_id p) uid) as [E|E]; simpl.
  - rewrite Hf, E, String.eqb_refl. by f_equal.
  - destruct (String.eqb_spec (p_id p) uid); [done|]. done.
Qed.

Lemma poll_profile_found n uid w p :
  table_fails T_profiles (w_db w) = false -> profiles_with_id uid (w_db w) = [p] ->
  poll_profile (S n) uid w = (set_db w (w_db w), [Req T_profiles OpSelect], Ok true).
Proof.
  intros Hf Hp. cbn [poll_profile]. unfold st_bind, profile_lookup, lift, select_resp.
  rewrite Hf, Hp. reflexivity.
Qed.

Lemma set_db_id w : set_db w (w_db w) = w.
Proof. by destruct w. Qed.

Lemma poll_profile_missing n uid w :
  profiles_with_id uid (w_db w) = [] -> exists l, poll_profile n uid w = (w, l, Ok false).
Proof.
  intros Hp. induction n as [|n [l IH]]; [by exists []|].
  cbn [poll_profile]. unfold st_bind, profile_lookup, lift, select_resp.
  rewrite Hp. destruct (table_fails T_profiles (w_db w)); cbn; rewrite set_db_id, IH; by eexists.
Qed.

Lemma existsb_id_nil uid db :
  profiles_with_id uid db = [] -> existsb (fun p => String.eqb (p_id p) uid) (db_profiles db) = false.
Proof.
  unfold profiles_with_id. intros H. apply not_true_iff_false. intros (p & Hp & Hid)%existsb_exists.
  assert (Hin : In p (List.filter (fun p => String.eqb (p_id p) uid) (db_profiles db)))
    by (apply filter_In; by split).
  by rewrite H in Hin.
Qed.

(** C12. The admin sign-up page, as it is, creates the auth account and
    then throws a [TypeError] on [SUPER_ADMIN_EMAILS.some]: no admin role
    is written, and the applicant stays on the form with an account whose
    profile (the trigger's, if any) has no admin role. *)
Theorem admin_signup_type_error name email pw pwc w :
  6 <= String.length pw -> pw = pwc ->
  existsb (fun u => String.eqb (au_email u) email) (w_users w) = false ->
  handleSignup SUPER_ADMIN_EMAILS_import name email pw pwc w =
    (signed_up w email pw name, [], Thrown msg_type_error).
Proof.
  intros Hl <- Hn. unfold handleSignup. rewrite (proj2 (Nat.ltb_ge _ _) Hl), String.eqb_refl.
  cbn [negb]. unfold st_bind at 1. rewrite auth_signUp_new by done. reflexivity.
Qed.

(** With the list the code means ([SUPER_ADMIN_EMAILS] holding
    [SUPER_ADMIN_EMAIL]), a valid admin sign-up with a new email leaves
    exactly one profile for the new account, with the role [super] and
    [is_admin] when the email is the super administrator's (compared
    without case) and [pending] otherwise, whether or not the trigger
    created the profile first; the page then goes to [/admin] or
    [/admin/pending]. *)
Lemma admin_signup_intended_run name email pw w :
  db_failing (w_db w) = [] -> profiles_with_id (new_uid w) (w_db w) = [] ->
  6 <= String.length pw ->
  existsb (fun u => String.eqb (au_email u) email) (w_users w) = false ->
  let is_super := String.eqb (toLowerCase SUPER_ADMIN_EMAIL) (toLowerCase email) in
  exists w' l, handleSignup (Some [SUPER_ADMIN_EMAIL]) name email pw pw w =
    (w', l, Ok (Navigate (if is_super then "/admin" else "/admin/pending"))) /\
  profiles_with_id (new_uid w) (w_db w') =
    [{| p_id := new_uid w; p_email := email; p_name := js_or_null (Some name);
        p_is_admin := is_super; p_admin_role := Some (if is_super then Super else Pending) |}].
Proof.
  intros Hf Hfresh Hl Hn is_super.
  assert (Hf' : forall l, table_fails T_profiles (set_profiles l (w_db w)) = false).
  { intros l. apply table_fails_nil. exact Hf. }
  unfold handleSignup. rewrite (proj2 (Nat.ltb_ge _ _) Hl), String.eqb_refl.
  cbn [negb]. unfold st_bind at 1. rewrite auth_signUp_new by done.
  unfold st_bind at 1. cbn [some_email existsb st_ret]. rewrite orb_false_r. fold is_super.
  unfold st_bind at 1. destruct (w_trigger w) eqn:Ht.
  - rewrite (poll_profile_found 5 _ _ (trigger_profile (new_user w email pw name))).
    2: { unfold signed_up. rewrite Ht. apply Hf'. }
    2: { unfold signed_up. rewrite Ht. simpl. rewrite profiles_with_id_append by done. by rewrite String.eqb_refl. }
    unfold lift, write, st_bind, st_ret.
    cbn -[update_profile profiles_with_id table_fails set_profiles toLowerCase SUPER_ADMIN_EMAIL].
    rewrite Ht, Hf'. cbn -[update_profile profiles_with_id set_profiles toLowerCase SUPER_ADMIN_EMAIL].
    eexists _, _. split; [reflexivity|].
    cbn [w_db set_db]. rewrite profiles_with_id_update by done. rewrite profiles_with_id_append by done.
    by rewrite String.eqb_refl.
  - destruct (poll_profile_missing 6 (new_uid w) (signed_up w email pw name)) as [l E].
    { unfold signed_up. by rewrite Ht. }
    rewrite E. unfold lift, write, st_bind, st_ret.
    cbn -[upsert_profile profiles_with_id table_fails set_profiles toLowerCase SUPER_ADMIN_EMAIL].
    rewrite Ht, (table_fails_nil _ _ Hf).
    cbn -[upsert_profile profiles_with_id set_profiles toLowerCase SUPER_ADMIN_EMAIL].
    eexists _, _. split; [reflexivity|]. cbn [w_db set_db].
    unfold upsert_profile. cbn [p_id]. rewrite existsb_id_nil by done.
    rewrite profiles_with_id_append by done. by rewrite String.eqb_refl.
Qed.


(** With the list the code means ([SUPER_ADMIN_EMAILS] holding
    [SUPER_ADMIN_EMAIL]), a valid admin sign-up with a new email leaves
    exactly one profile for the new account, with the role [super] and
    [is_admin] when the email is the super administrator's (compared
    without case) and [pending] otherwise, whether or not the trigger
    created the profile first; the page then goes to [/admin] or
    [/admin/pending]. *)
Theorem admin_signup_intended name email pw pwc w :
  db_failing (w_db w) = [] -> profiles_with_id (new_uid w) (w_db w) = [] ->
  6 <= String.length pw -> pw = pwc ->
  existsb (fun u => String.eqb (au_email u) email) (w_users w) = false ->
  let is_super := String.eqb (toLowerCase SUPER_ADMIN_EMAIL) (toLowerCase email) in
  run_result (handleSignup (Some [SUPER_ADMIN_EMAIL]) name email pw pwc) w =
    Ok (Navigate (if is_super then "/admin" else "/admin/pending")) /\
  profiles_with_id (new_uid w)
    (w_db (run_state (handleSignup (Some [SUPER_ADMIN_EMAIL]) name email pw pwc) w)) =
    [{| p_id := new_uid w; p_email := email; p_name := js_or_null (Some name);
        p_is_admin := is_super; p_admin_role := Some (if is_super then Super else Pending) |}].
Proof.
  intros Hf Hfresh Hl <- Hn is_super.
  destruct (admin_signup_intended_run name email pw w Hf Hfresh Hl Hn) as (w' & l & E & Hp).
  unfold run_result, run_state. by rewrite E.
Qed.

(** ** The admin area's guards agree with the server actions' guard *)

(** The profile lookup the admin pages share, with its failure. *)
Definition lookup_role (user : option string) (db : Db) : option admin_role :=
  match user with
  | Some uid => if table_fails T_profiles db then None
                else match single_resp (profiles_with_id uid db) with
                     | RData p => p_admin_role p | RErr => None end
  | None => None
  end.

Lemma requireAdmin_returns user db :
  (exists p, run_result (requireAdmin user) db = Ok p) <-> is_admin_role (lookup_role user db) = true.
Proof.
  unfold run_result, requireAdmin, lookup_role, st_bind, select_resp, st_ret, st_throw.
  destruct user as [uid|]; simpl; [|split; [by intros []|done]].
  destruct (table_fails T_profiles db); simpl; [split; [by intros []|done]|].
  destruct (single_resp (profiles_with_id uid db)) as [p|]; simpl; [|split; [by intros []|done]].
  destruct (is_admin_role (p_admin_role p)); simpl; split; try done; [by eexists|by intros []].
Qed.

Lemma AdminLayout_result user db :
  run_result (AdminLayout user) db =
    Ok (if is_admin_role (lookup_role user db)
        then Sidebar (bool_decide (lookup_role user db = Some Super)) else BareChildren).
Proof.
  unfold run_result, AdminLayout, lookup_role, st_bind, select_resp, st_ret.
  destruct user as [uid|]; [|done]. destruct (table_fails T_profiles db); [done|]. cbn.
  destruct (single_resp (profiles_with_id uid db)) as [p|]; [|done]. cbn.
  by destruct (p_admin_role p) as [[]|].
Qed.

Lemma AdminPendingPage_result user db :
  user <> None ->
  run_result (AdminPendingPage user) db =
    Ok (if is_admin_role (lookup_role user db) then Redirect "/admin"
        else PendingNotice (bool_decide (lookup_role user db = Some Rejected))).
Proof.
  unfold run_result, AdminPendingPage, lookup_role, st_bind, select_resp, st_ret.
  destruct user as [uid|]; [intros _|done]. destruct (table_fails T_profiles db); [done|]. cbn.
  destruct (single_resp (profiles_with_id uid db)) as [p|]; cbn; [|done].
  by destruct (is_admin_role (p_admin_role p)).
Qed.

Lemma AdminDashboard_result user db :
  exists s, run_result (AdminDashboard user) db =
    Ok (if is_admin_role (lookup_role user db)
        then Dashboard s (bool_decide (lookup_role user db = Some Super))
        else DashRedirect (if bool_decide (lookup_role user db = Some Pending) then "/admin/pending"
                           else "/admin/login")).
Proof.
  unfold run_result, AdminDashboard, lookup_role, st_bind, select_resp, select, st_ret.
  pose (z := {| st_courses := 0; st_contents := 0; st_jobs := 0; st_users := 0; st_pending := 0 |}).
  destruct user as [uid|]; [|by exists z].
  destruct (table_fails T_profiles db) eqn:Hf; cbn; [by exists z|].
  destruct (single_resp (profiles_with_id uid db)) as [p|]; cbn; [|by exists z].
  destruct (is_admin_role (p_admin_role p)); cbn; [|by exists z].
  rewrite Hf. cbn. eexists. reflexivity.
Qed.

Lemma requireSuperAdmin_returns user db :
  run_result (requireSuperAdmin user) db = Ok tt <-> lookup_role user db = Some Super.
Proof.
  unfold run_result, requireSuperAdmin, requireAdmin, lookup_role, st_bind, select_resp, st_ret, st_throw.
  destruct user as [uid|]; simpl; [|intuition congruence].
  destruct (table_fails T_profiles db); simpl; [intuition congruence|].
  destruct (single_resp (profiles_with_id uid db)) as [p|]; simpl; [|intuition congruence].
  destruct (p_admin_role p) as [[]|] eqn:Er; simpl;
    try rewrite decide_True by done; try rewrite decide_False by (rewrite Er; discriminate);
    simpl; intuition congruence.
Qed.

(** The admin area's pages and the server actions share one notion
    of administrator: the layout shows the sidebar, the dashboard renders
    and the pending page sends the viewer on to [/admin] exactly when
    [requireAdmin] accepts the viewer, and the sidebar's super menu and
    the dashboard's super flag appear exactly when [requireSuperAdmin]
    accepts. *)
Theorem admin_guards_agree uid db :
  let user := Some uid in
  ((exists b, run_result (AdminLayout user) db = Ok (Sidebar b)) <->
     (exists p, run_result (requireAdmin user) db = Ok p)) /\
  ((exists s b, run_result (AdminDashboard user) db = Ok (Dashboard s b)) <->
     (exists p, run_result (requireAdmin user) db = Ok p)) /\
  (run_result (AdminPendingPage user) db = Ok (Redirect "/admin") <->
     (exists p, run_result (requireAdmin user) db = Ok p)) /\
  (run_result (AdminLayout user) db = Ok (Sidebar true) <->
     run_result (requireSuperAdmin user) db = Ok tt).
Proof.
  intros user. rewrite requireAdmin_returns, AdminLayout_result.
  destruct (AdminDashboard_result user db) as [s ->].
  rewrite AdminPendingPage_result by done.
  destruct (is_admin_role (lookup_role user db)) eqn:Ha.
  - split; [split; [done|by eexists]|]. split; [split; [done|by do 2 eexists]|].
    split; [done|]. rewrite requireSuperAdmin_returns.
    split; [intros [= ?%bool_decide_eq_true]; done|intros ->; by rewrite bool_decide_true].
  - split; [split; [by intros []|done]|]. split; [split; [by intros (?&?&?)|done]|].
    split; [done|]. rewrite requireSuperAdmin_returns.
    split; [done|intros Hs; by rewrite Hs in Ha].
Qed.

(** ** Witnesses *)

Definition world0 : World :=
  {| w_db := set_profiles [mk_profile "u" "u@x.kr" (Some Pending)] db_members;
     w_users := [{| au_id := "u"; au_email := "u@x.kr"; au_password := "secret1";
                    au_full_name := Some "U" |}];
     w_trigger := true; w_next_uid := 0 |}.

(** A new applicant signs up, then logs in. *)
Definition world2 : World :=
  run_state (handleLogin SUPER_ADMIN_EMAILS_import "a@x.kr" "secret1")
    (run_state (handleSignup SUPER_ADMIN_EMAILS_import "A" "a@x.kr" "secret1" "secret1") world0).

Lemma ui_never_grants_admin_witness :
  rtc (admin_step SUPER_ADMIN_EMAILS_import) world0 world2 /\
  no_admin_role (w_db world0) /\ no_admin_role (w_db world2).
Proof.
  assert (Hr : rtc (admin_step SUPER_ADMIN_EMAILS_import) world0 world2).
  { eapply rtc_l; [apply step_admin_signup|]. eapply rtc_l; [apply step_admin_login|]. apply rtc_refl. }
  assert (H0 : no_admin_role (w_db world0)) by (repeat constructor).
  split; [exact Hr|]. split; [exact H0|]. exact (ui_never_grants_admin _ _ Hr H0).
Defined.

(** With the intended list: the super administrator signs up, then
    approves the pending applicant. *)
Definition world_super : World :=
  run_state (handleSignup (Some [SUPER_ADMIN_EMAIL]) "B" "Branden@da-sh.io" "secret1" "secret1") world0.

Lemma accounts_stay_consistent_witness :
  rtc (admin_step (Some [SUPER_ADMIN_EMAIL])) world0
    (run_state (lift (approveAdmin (Some "user-0") "u")) world_super) /\
  role_consistent (w_db world0) /\
  role_consistent (w_db (run_state (lift (approveAdmin (Some "user-0") "u")) world_super)).
Proof.
  assert (Hr : rtc (admin_step (Some [SUPER_ADMIN_EMAIL])) world0
                 (run_state (lift (approveAdmin (Some "user-0") "u")) world_super)).
  { eapply rtc_l; [apply step_admin_signup|]. eapply rtc_l; [apply step_approve|]. apply rtc_refl. }
  assert (H0 : role_consistent (w_db world0)) by (repeat constructor).
  split; [exact Hr|]. split; [exact H0|]. exact (accounts_stay_consistent _ _ _ Hr H0).
Defined.

Lemma admin_signup_type_error_witness :
  6 <= String.length "secret1" /\
  existsb (fun u => String.eqb (au_email u) "a@x.kr") (w_users world0) = false /\
  handleSignup SUPER_ADMIN_EMAILS_import "A" "a@x.kr" "secret1" "secret1" world0 =
    (signed_up world0 "a@x.kr" "secret1" "A", [], Thrown msg_type_error).
Proof.
  split; [cbn; lia|]. split; [reflexivity|].
  exact (admin_signup_type_error "A" "a@x.kr" "secret1" "secret1" world0 ltac:(cbn; lia) eq_refl eq_refl).
Defined.

Lemma admin_signup_intended_witness :
  db_failing (w_db world0) = [] /\ profiles_with_id (new_uid world0) (w_db world0) = [] /\
  run_result (handleSignup (Some [SUPER_ADMIN_EMAIL]) "A" "a@x.kr" "secret1" "secret1") world0 =
    Ok (Navigate "/admin/pending").
Proof.
  split; [reflexivity|]. split; [reflexivity|].
  exact (proj1 (admin_signup_intended "A" "a@x.kr" "secret1" "secret1" world0
                  eq_refl eq_refl ltac:(cbn; lia) eq_refl eq_refl)).
Defined.
