(* ===== verification/FeaturedAdmin.v ===== *)
(** The admin side of home-page curation.

    [upsertFeaturedItem] and [deleteFeaturedItem] of
    [src/app/actions/admin.ts] (lines 395-435), behind [requireAdmin]
    of [AdminAuth], and the handlers
    of [src/components/admin/FeaturedManager.tsx] that build their
    FormData ([handleAdd], [handleOrderChange], [handleDelete]) together
    with the item label [getItemName] and the rank order of the list.
    FormData is modelled in [FormData]; the signed-in user is an optional
    user id. *)

From stdpp Require Import base list strings.
From Stdlib Require Import ZArith Lia.
From S2P Require Import Prelude StableSort Store JsNumber FormData Featured FeaturedScenarios AdminAuth.

(** ** upsertFeaturedItem and deleteFeaturedItem (admin.ts, lines 395-435) *)

(** The columns an upsert writes. *)
Record featured_fields := {
  ff_section : option string;
  ff_course_id : option string;
  ff_content_id : option string;
  ff_job_id : option string;
  ff_display_order : Z;
  ff_is_active : bool;
}.

(** Lines 397-403: the fields read from the form. *)
Definition featured_fields_of_form (formData : FormData) : featured_fields :=
  {| ff_section := fd_get formData "section";
     ff_course_id := js_or_null (fd_get formData "course_id");
     ff_content_id := js_or_null (fd_get formData "content_id");
     ff_job_id := js_or_null (fd_get formData "job_id");
     ff_display_order := js_or_num (parseInt_opt (fd_get formData "display_order")) 0;
     ff_is_active := not_false (fd_get formData "is_active") |}.

Definition apply_fields (ff : featured_fields) (id : string) : FeaturedItem :=
  {| fi_id := id; fi_section := default "" (ff_section ff);
     fi_course_id := ff_course_id ff; fi_content_id := ff_content_id ff;
     fi_job_id := ff_job_id ff; fi_display_order := ff_display_order ff;
     fi_is_active := ff_is_active ff |}.

(** [update({...}).eq('id', id)] *)
Definition update_featured (id : string) (ff : featured_fields) (db : Db) : Db :=
  set_featured_items
    (map (fun f => if String.eqb (fi_id f) id then apply_fields ff id else f)
       (db_featured_items db)) db.

(** [insert({...})] with a generated id. *)
Definition insert_featured (ff : featured_fields) (db : Db) : Db :=
  bump_id (set_featured_items (db_featured_items db ++ [apply_fields ff (fresh_id db)]) db).

(** [section] is a NOT NULL column: a form without it is rejected. *)
Definition section_present (ff : featured_fields) : bool :=
  match ff_section ff with Some _ => true | None => false end.

(** The response of the write is not inspected (lines 405-424). *)
Definition upsertFeaturedItem (user : option string) (formData : FormData) : Act unit :=
  let* _ := requireAdmin user in
  let id := fd_get formData "id" in
  let ff := featured_fields_of_form formData in
  let* _ :=
    if js_truthy_opt id then
      write_checked (section_present ff) T_featured_items OpUpdate
        (update_featured (default "" id) ff)
    else
      write_checked (section_present ff) T_featured_items OpInsert (insert_featured ff) in
  st_ret tt.

Definition delete_featured (id : string) (db : Db) : Db :=
  set_featured_items
    (List.filter (fun f => negb (String.eqb (fi_id f) id)) (db_featured_items db)) db.

Definition deleteFeaturedItem (user : option string) (id : string) : Act unit :=
  let* _ := requireAdmin user in
  let* _ := write T_featured_items OpDelete (delete_featured id) in
  st_ret tt.

(** ** FeaturedManager.tsx *)

(** Lines 50-51. *)
Definition sectionType (sectionId : string) : string :=
  if String.eqb sectionId popular_courses then "course"
  else if String.eqb sectionId recommended_contents then "content" else "job".

(** The FormData of [handleAdd] (lines 87-93). *)
Definition add_form (sectionId selectedId : string) (order : Z) : FormData :=
  let t := sectionType sectionId in
  let fd := fd_set [] "section" sectionId in
  let fd := if String.eqb t "course" then fd_set fd "course_id" selectedId else fd in
  let fd := if String.eqb t "content" then fd_set fd "content_id" selectedId else fd in
  let fd := if String.eqb t "job" then fd_set fd "job_id" selectedId else fd in
  let fd := fd_set fd "display_order" (js_string_of_Z order) in
  fd_set fd "is_active" "true".

(** The add form's UI state. *)
Record AddUi := { ui_showAdd : bool; ui_selectedId : string; ui_order : Z }.

(** [handleAdd] (lines 85-100): nothing without a selection; otherwise
    the upsert, after which the form is closed and cleared. *)
Definition handleAdd (user : option string) (sectionId : string) (ui : AddUi) : Act AddUi :=
  if negb (js_truthy_str (ui_selectedId ui)) then st_ret ui
  else
    let* _ := upsertFeaturedItem user (add_form sectionId (ui_selectedId ui) (ui_order ui)) in
    st_ret {| ui_showAdd := false; ui_selectedId := ""; ui_order := ui_order ui |}.

(** The FormData of [handleOrderChange] (lines 108-115). *)
Definition order_form (item : FeaturedItem) (newOrder : Z) : FormData :=
  let fd := fd_set [] "id" (fi_id item) in
  let fd := fd_set fd "section" (fi_section item) in
  let fd := if js_truthy_opt (fi_course_id item) then fd_set fd "course_id" (default "" (fi_course_id item)) else fd in
  let fd := if js_truthy_opt (fi_content_id item) then fd_set fd "content_id" (default "" (fi_content_id item)) else fd in
  let fd := if js_truthy_opt (fi_job_id item) then fd_set fd "job_id" (default "" (fi_job_id item)) else fd in
  let fd := fd_set fd "display_order" (js_string_of_Z newOrder) in
  fd_set fd "is_active" (js_string_of_bool (fi_is_active item)).

Definition handleOrderChange (user : option string) (item : FeaturedItem) (newOrder : Z) : Act unit :=
  upsertFeaturedItem user (order_form item newOrder).

(** [handleDelete] (lines 102-105): [confirmed] is the answer to
    [confirm(...)]. *)
Definition handleDelete (user : option string) (confirmed : bool) (id : string) : Act unit :=
  if confirmed then deleteFeaturedItem user id else st_ret tt.

(** [getItemName] (lines 61-75) over the lists the admin page loads. *)
Definition getItemName (courses : list Course) (contents : list Content)
    (jobs : list JobPosting) (item : FeaturedItem) : string :=
  if js_truthy_opt (fi_course_id item) then
    match List.find (fun c => String.eqb (c_id c) (default "" (fi_course_id item))) courses with
    | Some c => c_title c | None => "(삭제된 강의)" end
  else if js_truthy_opt (fi_content_id item) then
    match List.find (fun c => String.eqb (ct_id c) (default "" (fi_content_id item))) contents with
    | Some c => ct_title c | None => "(삭제된 콘텐츠)" end
  else if js_truthy_opt (fi_job_id item) then
    match List.find (fun j => String.eqb (j_id j) (default "" (fi_job_id item))) jobs with
    | Some j => j_company_name j +:+ " - " +:+ j_title j | None => "(삭제된 공고)" end
  else "알 수 없음".

(** The list of a section as the manager shows it: the items of that
    section (line 22) sorted by rank (line 120). *)
Definition sortedItems (featuredItems : list FeaturedItem) (sectionId : string) : list FeaturedItem :=
  sort_key fi_display_order
    (List.filter (fun item => String.eqb (fi_section item) sectionId) featuredItems).

(** ** Lemmas *)

Lemma js_or_num_self z : js_or_num (Some z) 0 = z.
Proof. unfold js_or_num. destruct (Z.eqb_spec z 0); congruence. Qed.

(** The fields of the form [handleAdd] builds, read back by
    [upsertFeaturedItem]: the section, the selected id under the column
    of the section's entity, the chosen rank and the active flag. *)
Lemma add_form_fields sid sel order :
  js_truthy_str sel = true ->
  featured_fields_of_form (add_form sid sel order) =
    {| ff_section := Some sid;
       ff_course_id := if String.eqb sid popular_courses then Some sel else None;
       ff_content_id := if String.eqb sid popular_courses then None
                        else if String.eqb sid recommended_contents then Some sel else None;
       ff_job_id := if String.eqb sid popular_courses then None
                    else if String.eqb sid recommended_contents then None else Some sel;
       ff_display_order := order; ff_is_active := true |}.
Proof.
  intros Hsel. unfold featured_fields_of_form, add_form, sectionType.
  destruct (String.eqb sid popular_courses), (String.eqb sid recommended_contents);
    cbn -[js_string_of_Z parseInt js_truthy_str];
    unfold parseInt_opt, js_or_null; rewrite ?Hsel, parseInt_js_string_of_Z, js_or_num_self;
    done.
Qed.

(** The run of an upsert by an admin: the profile lookup, then one write
    whose outcome is ignored. *)
Lemma upsertFeaturedItem_run user fd db p :
  table_fails T_profiles db = false -> admin_profile db user = Some p ->
  upsertFeaturedItem user fd db =
    (if table_fails T_featured_items db || negb (section_present (featured_fields_of_form fd))
     then db
     else if js_truthy_opt (fd_get fd "id")
          then update_featured (default "" (fd_get fd "id")) (featured_fields_of_form fd) db
          else insert_featured (featured_fields_of_form fd) db,
     [Req T_profiles OpSelect;
      Req T_featured_items (if js_truthy_opt (fd_get fd "id") then OpUpdate else OpInsert)],
     Ok tt).
Proof.
  intros Hf Ha. unfold upsertFeaturedItem. rewrite (bind_requireAdmin_ok _ _ _ _ Hf Ha).
  unfold st_bind, write_checked, st_ret.
  destruct (js_truthy_opt (fd_get fd "id")), (table_fails T_featured_items db),
    (section_present (featured_fields_of_form fd)); reflexivity.
Qed.

Lemma add_form_no_id sid sel order : fd_get (add_form sid sel order) "id" = None.
Proof.
  unfold add_form, sectionType.
  by destruct (String.eqb sid popular_courses), (String.eqb sid recommended_contents).
Qed.

(** [item] with another rank. *)
Definition with_order (item : FeaturedItem) (n : Z) : FeaturedItem :=
  {| fi_id := fi_id item; fi_section := fi_section item; fi_course_id := fi_course_id item;
     fi_content_id := fi_content_id item; fi_job_id := fi_job_id item;
     fi_display_order := n; fi_is_active := fi_is_active item |}.

Lemma js_or_null_normal (r : option string) :
  js_or_null r = r -> r = None \/ exists s, r = Some s /\ js_truthy_str s = true.
Proof.
  destruct r as [s|]; [|by left]. unfold js_or_null.
  destruct (js_truthy_str s) eqn:E; [right; by eexists|done].
Qed.

(** The fields of the form [handleOrderChange] builds for a stored item
    whose references are [null] or non-empty. *)
Lemma order_form_fields item n :
  js_or_null (fi_course_id item) = fi_course_id item ->
  js_or_null (fi_content_id item) = fi_content_id item ->
  js_or_null (fi_job_id item) = fi_job_id item ->
  fd_get (order_form item n) "id" = Some (fi_id item) /\
  featured_fields_of_form (order_form item n) =
    {| ff_section := Some (fi_section item); ff_course_id := fi_course_id item;
       ff_content_id := fi_content_id item; ff_job_id := fi_job_id item;
       ff_display_order := n; ff_is_active := fi_is_active item |}.
Proof.
  intros Hc Hct Hj. destruct item as [id sec c ct j o a]; simpl in *.
  apply js_or_null_normal in Hc as [->|(sc & -> & Hsc)];
  apply js_or_null_normal in Hct as [->|(sct & -> & Hsct)];
  apply js_or_null_normal in Hj as [->|(sj & -> & Hsj)];
  unfold order_form, featured_fields_of_form; cbn [fi_id fi_section fi_course_id
    fi_content_id fi_job_id fi_is_active js_truthy_opt];
  rewrite ?Hsc, ?Hsct, ?Hsj; cbn -[js_string_of_Z parseInt js_truthy_str];
  unfold parseInt_opt, js_or_null; rewrite ?Hsc, ?Hsct, ?Hsj, parseInt_js_string_of_Z, js_or_num_self;
  (split; [done|]); by destruct a.
Qed.

Lemma find_none {A} (p : A -> bool) l : (forall x, In x l -> p x = false) -> List.find p l = None.
Proof.
  induction l as [|x l IH]; simpl; [done|]. intros Hl.
  rewrite (Hl x) by (by left). apply IH. intros y Hy. apply Hl. by right.
Qed.

Section Theorems.
Implicit Types (db : Db) (user : option string).

(** Only an approved or super admin changes the curation: for a
    visitor, a user without a profile, a pending or rejected admin, or
    when the profile lookup fails, [upsertFeaturedItem] and
    [deleteFeaturedItem] throw and leave the store as it was. *)
Theorem featured_admin_required user fd id db :
  table_fails T_profiles db = true \/ admin_profile db user = None ->
  (run_state (upsertFeaturedItem user fd) db = db /\
     exists m, run_result (upsertFeaturedItem user fd) db = Thrown m) /\
  (run_state (deleteFeaturedItem user id) db = db /\
     exists m, run_result (deleteFeaturedItem user id) db = Thrown m).
Proof.
  intros Hd. unfold upsertFeaturedItem, deleteFeaturedItem.
  split; apply aborts_bind, requireAdmin_denied, Hd.
Qed.

(** A failed write is not reported: when the [featured_items]
    request fails, or the form has no section, an admin's upsert returns
    normally and the store is unchanged, so the manager closes its form
    as if the item had been saved. *)
Theorem upsert_write_failure_ignored user fd db p :
  table_fails T_profiles db = false -> admin_profile db user = Some p ->
  (table_fails T_featured_items db = true \/
   fd_get fd "section" = None) ->
  run_state (upsertFeaturedItem user fd) db = db /\
  run_result (upsertFeaturedItem user fd) db = Ok tt.
Proof.
  intros Hf Ha Hw. unfold run_state, run_result.
  rewrite (upsertFeaturedItem_run _ _ _ _ Hf Ha). cbn [fst snd]. split; [|done].
  destruct Hw as [-> | Hs]; [done|].
  unfold section_present, featured_fields_of_form. cbn [ff_section]. rewrite Hs.
  by rewrite orb_true_r.
Qed.

(** Adding an item from the manager stores exactly what the admin
    chose: a new active row of the section, referencing the selected
    entity in that section's column and carrying the chosen rank (the
    rank survives [String(order)] and [parseInt]); the form is then
    closed and cleared. *)
Theorem handleAdd_inserts_row user sid ui db p :
  db_failing db = [] -> admin_profile db user = Some p ->
  js_truthy_str (ui_selectedId ui) = true ->
  handleAdd user sid ui db =
    (insert_featured
       {| ff_section := Some sid;
          ff_course_id := if String.eqb sid popular_courses then Some (ui_selectedId ui) else None;
          ff_content_id := if String.eqb sid popular_courses then None
                           else if String.eqb sid recommended_contents
                                then Some (ui_selectedId ui) else None;
          ff_job_id := if String.eqb sid popular_courses then None
                       else if String.eqb sid recommended_contents then None
                       else Some (ui_selectedId ui);
          ff_display_order := ui_order ui; ff_is_active := true |} db,
     [Req T_profiles OpSelect; Req T_featured_items OpInsert],
     Ok {| ui_showAdd := false; ui_selectedId := ""; ui_order := ui_order ui |}).
Proof.
  intros Hf Ha Hsel. unfold handleAdd. rewrite Hsel. cbn [negb].
  unfold st_bind at 1.
  rewrite (upsertFeaturedItem_run _ _ _ _ (table_fails_nil _ _ Hf) Ha).
  rewrite add_form_no_id, (add_form_fields _ _ _ Hsel), (table_fails_nil _ _ Hf).
  reflexivity.
Qed.

(** The manager and the home page agree: once an admin adds an
    existing course to the popular-courses section, the resolver shows
    that course, whatever the section already held and whatever the
    chosen rank. *)
Theorem handleAdd_course_shown user ui db p c :
  db_failing db = [] -> admin_profile db user = Some p ->
  In c (db_courses db) -> c_id c = ui_selectedId ui -> js_truthy_str (c_id c) = true ->
  returns load_popular_courses (run_state (handleAdd user popular_courses ui) db)
    (fun items => In c items).
Proof.
  intros Hf Ha Hc Hid Ht. unfold run_state.
  rewrite (handleAdd_inserts_row _ _ _ _ _ Hf Ha) by (by rewrite <- Hid).
  cbn [fst]. unfold load_popular_courses.
  eapply (featured_override_shown (A:=Course)); [exact Hf| | | | |exact Ht|exact Hc].
  - apply in_or_app. right. by left.
  - reflexivity.
  - reflexivity.
  - simpl. by rewrite Hid.
Qed.

(** Changing an item's rank in the manager changes that rank and
    nothing else: the item keeps its section, its reference and its
    active flag, and every other item is untouched. *)
Theorem handleOrderChange_sets_rank user item newOrder db p :
  db_failing db = [] -> admin_profile db user = Some p ->
  js_truthy_str (fi_id item) = true ->
  js_or_null (fi_course_id item) = fi_course_id item ->
  js_or_null (fi_content_id item) = fi_content_id item ->
  js_or_null (fi_job_id item) = fi_job_id item ->
  run_state (handleOrderChange user item newOrder) db =
    set_featured_items
      (map (fun f => if String.eqb (fi_id f) (fi_id item) then with_order item newOrder else f)
         (db_featured_items db)) db.
Proof.
  intros Hf Ha Hid Hc Hct Hj. unfold run_state, handleOrderChange.
  destruct (order_form_fields item newOrder Hc Hct Hj) as [Hfid Hff].
  rewrite (upsertFeaturedItem_run _ _ _ _ (table_fails_nil _ _ Hf) Ha).
  rewrite Hfid, Hff, (table_fails_nil _ _ Hf). simpl. rewrite Hid. reflexivity.
Qed.

(** Deleting an item removes exactly the rows with that id. *)
Theorem deleteFeaturedItem_removes user id db p :
  db_failing db = [] -> admin_profile db user = Some p ->
  forall f, In f (db_featured_items (run_state (deleteFeaturedItem user id) db)) <->
            In f (db_featured_items db) /\ fi_id f <> id.
Proof.
  intros Hf Ha f. unfold run_state, deleteFeaturedItem.
  rewrite (bind_requireAdmin_ok _ _ _ _ (table_fails_nil _ _ Hf) Ha).
  unfold st_bind, write, st_ret. rewrite (table_fails_nil _ _ Hf). simpl.
  rewrite filter_In, negb_true_iff, <- not_true_iff_false, String.eqb_eq. done.
Qed.

(** An override whose course was deleted is labelled
    "(삭제된 강의)" in the manager instead of being hidden. *)
Theorem getItemName_deleted_course courses contents jobs item id :
  fi_course_id item = Some id -> js_truthy_str id = true ->
  (forall c, In c courses -> c_id c <> id) ->
  getItemName courses contents jobs item = "(삭제된 강의)".
Proof.
  intros Hc Ht Hnone. unfold getItemName. rewrite Hc. simpl. rewrite Ht.
  rewrite find_none; [done|]. intros c Hin. apply not_true_iff_false.
  rewrite String.eqb_eq. by apply Hnone.
Qed.
End Theorems.

(** ** Witnesses *)

Definition admin_u1 : Profile :=
  {| p_id := "u1"; p_email := "admin@jobjindam.kr"; p_name := None; p_is_admin := true;
     p_admin_role := Some Approved |}.

Definition pending_u2 : Profile :=
  {| p_id := "u2"; p_email := "new@jobjindam.kr"; p_name := None; p_is_admin := false;
     p_admin_role := Some Pending |}.

Definition db_admin (failing : list table) : Db :=
  set_profiles [admin_u1; pending_u2]
    (mk_db courses8 [] [] [fi_course "f1" "c" 2; fi_course "f2" "e" 1] failing).

Definition ui_add_h : AddUi := {| ui_showAdd := true; ui_selectedId := "h"; ui_order := 1 |}.

Lemma featured_admin_required_witness :
  (table_fails T_profiles (db_admin []) = true \/ admin_profile (db_admin []) (Some "u2") = None) /\
  (run_state (upsertFeaturedItem (Some "u2") (add_form popular_courses "h" 1)) (db_admin []) = db_admin [] /\
     exists m, run_result (upsertFeaturedItem (Some "u2") (add_form popular_courses "h" 1)) (db_admin []) = Thrown m) /\
  (run_state (deleteFeaturedItem (Some "u2") "f1") (db_admin []) = db_admin [] /\
     exists m, run_result (deleteFeaturedItem (Some "u2") "f1") (db_admin []) = Thrown m).
Proof.
  assert (Hd : table_fails T_profiles (db_admin []) = true \/ admin_profile (db_admin []) (Some "u2") = None)
    by (right; reflexivity).
  split; [exact Hd|]. apply featured_admin_required. exact Hd.
Defined.

Lemma upsert_write_failure_ignored_witness :
  table_fails T_profiles (db_admin [T_featured_items]) = false /\
  admin_profile (db_admin [T_featured_items]) (Some "u1") = Some admin_u1 /\
  run_state (upsertFeaturedItem (Some "u1") (add_form popular_courses "h" 1)) (db_admin [T_featured_items])
    = db_admin [T_featured_items] /\
  run_result (upsertFeaturedItem (Some "u1") (add_form popular_courses "h" 1)) (db_admin [T_featured_items])
    = Ok tt.
Proof.
  split; [reflexivity|]. split; [reflexivity|].
  apply (upsert_write_failure_ignored _ _ _ admin_u1); [reflexivity|reflexivity|by left].
Defined.

Lemma handleAdd_inserts_row_witness :
  db_failing (db_admin []) = [] /\ admin_profile (db_admin []) (Some "u1") = Some admin_u1 /\
  js_truthy_str (ui_selectedId ui_add_h) = true /\
  handleAdd (Some "u1") popular_courses ui_add_h (db_admin []) =
    (insert_featured
       {| ff_section := Some popular_courses; ff_course_id := Some "h"; ff_content_id := None;
          ff_job_id := None; ff_display_order := 1; ff_is_active := true |} (db_admin []),
     [Req T_profiles OpSelect; Req T_featured_items OpInsert],
     Ok {| ui_showAdd := false; ui_selectedId := ""; ui_order := 1 |}).
Proof.
  split; [reflexivity|]. split; [reflexivity|]. split; [reflexivity|].
  exact (handleAdd_inserts_row (Some "u1") popular_courses ui_add_h (db_admin []) admin_u1
           eq_refl eq_refl eq_refl).
Defined.

Lemma handleAdd_course_shown_witness :
  db_failing (db_admin []) = [] /\ admin_profile (db_admin []) (Some "u1") = Some admin_u1 /\
  In (mk_course "h" 5) (db_courses (db_admin [])) /\ c_id (mk_course "h" 5) = ui_selectedId ui_add_h /\
  js_truthy_str (c_id (mk_course "h" 5)) = true /\
  returns load_popular_courses (run_state (handleAdd (Some "u1") popular_courses ui_add_h) (db_admin []))
    (fun items => In (mk_course "h" 5) items).
Proof.
  assert (Hin : In (mk_course "h" 5) (db_courses (db_admin []))) by (simpl; tauto).
  split; [reflexivity|]. split; [reflexivity|]. split; [exact Hin|].
  split; [reflexivity|]. split; [reflexivity|].
  exact (handleAdd_course_shown (Some "u1") ui_add_h (db_admin []) admin_u1 (mk_course "h" 5)
           eq_refl eq_refl Hin eq_refl eq_refl).
Defined.

Lemma handleOrderChange_sets_rank_witness :
  db_failing (db_admin []) = [] /\ admin_profile (db_admin []) (Some "u1") = Some admin_u1 /\
  js_truthy_str (fi_id (fi_course "f1" "c" 2)) = true /\
  js_or_null (fi_course_id (fi_course "f1" "c" 2)) = fi_course_id (fi_course "f1" "c" 2) /\
  js_or_null (fi_content_id (fi_course "f1" "c" 2)) = fi_content_id (fi_course "f1" "c" 2) /\
  js_or_null (fi_job_id (fi_course "f1" "c" 2)) = fi_job_id (fi_course "f1" "c" 2) /\
  run_state (handleOrderChange (Some "u1") (fi_course "f1" "c" 2) 7) (db_admin []) =
    set_featured_items
      (map (fun f => if String.eqb (fi_id f) "f1" then with_order (fi_course "f1" "c" 2) 7 else f)
         (db_featured_items (db_admin []))) (db_admin []).
Proof.
  do 6 (split; [reflexivity|]).
  exact (handleOrderChange_sets_rank (Some "u1") (fi_course "f1" "c" 2) 7 (db_admin []) admin_u1
           eq_refl eq_refl eq_refl eq_refl eq_refl eq_refl).
Defined.

Lemma deleteFeaturedItem_removes_witness :
  db_failing (db_admin []) = [] /\ admin_profile (db_admin []) (Some "u1") = Some admin_u1 /\
  (In (fi_course "f2" "e" 1) (db_featured_items (run_state (deleteFeaturedItem (Some "u1") "f1") (db_admin []))) <->
   In (fi_course "f2" "e" 1) (db_featured_items (db_admin [])) /\ fi_id (fi_course "f2" "e" 1) <> "f1").
Proof.
  split; [reflexivity|]. split; [reflexivity|].
  exact (deleteFeaturedItem_removes (Some "u1") "f1" (db_admin []) admin_u1 eq_refl eq_refl
           (fi_course "f2" "e" 1)).
Defined.

Lemma getItemName_deleted_course_witness :
  fi_course_id (fi_course "f9" "gone" 1) = Some "gone" /\ js_truthy_str "gone" = true /\
  (forall c, In c courses8 -> c_id c <> "gone") /\
  getItemName courses8 [] [] (fi_course "f9" "gone" 1) = "(삭제된 강의)".
Proof.
  assert (Hn : forall c, In c courses8 -> c_id c <> "gone").
  { intros c Hc. simpl in Hc. repeat destruct Hc as [<-|Hc]; try discriminate. done. }
  split; [reflexivity|]. split; [reflexivity|]. split; [exact Hn|].
  exact (getItemName_deleted_course courses8 [] [] (fi_course "f9" "gone" 1) "gone"
           eq_refl eq_refl Hn).
Defined.
