(* ===== verification/HomePage.v ===== *)
(** The home page.

    [HomePage] of [src/app/(main)/page.tsx] (lines 52-199): four reads
    issued together with [Promise.all] (the active hero banners and the
    three featured sections), then the choice, for each part of the page,
    between the loaded cards and the part's empty state.  The view records
    what the page renders; styling is left out. *)

From stdpp Require Import base list strings.
From Stdlib Require Import ZArith Lia Sorted.
From S2P Require Import Prelude StableSort Store Featured FeaturedScenarios.

(** What a section of the home page shows: its carousel of cards, or the
    message of its empty state. *)
Inductive section_view (A : Type) :=
  | Cards (items : list A)
  | EmptyNotice (msg : string).
Arguments Cards {A} items.
Arguments EmptyNotice {A} msg.

(** The top of the page: the banner carousel or the default hero. *)
Inductive hero_view :=
  | HeroCarousel (banners : list HeroBanner)
  | DefaultHero (tagline : string).

Record HomeView := {
  hv_hero : hero_view;
  hv_courses : section_view Course;
  hv_contents : section_view Content;
  hv_jobs : section_view JobPosting;
}.

(** [APP_TAGLINE] of [src/lib/constants.ts]. *)
Definition APP_TAGLINE : string := "취업, 혼자가 아닌 함께".

(** [from('hero_banners').select('*').eq('is_active', true)
     .order('display_order').limit(5)] (line 62). *)
Definition hero_query (db : Db) : list HeroBanner :=
  q_limit 5 (q_order hb_display_order true (List.filter hb_is_active (db_hero_banners db))).

(** [x && x.length > 0 ? <cards> : <empty state>] *)
Definition section_of {A} (items : list A) (msg : string) : section_view A :=
  match items with [] => EmptyNotice msg | _ => Cards items end.

Definition hero_of (r : resp (list HeroBanner)) : hero_view :=
  match r with
  | RData ((_ :: _) as banners) => HeroCarousel banners
  | _ => DefaultHero APP_TAGLINE
  end.

Definition HomePage : Act HomeView :=
  let* heroBanners := select T_hero_banners hero_query in
  let* courses := load_popular_courses in
  let* contents := load_recommended_contents in
  let* jobPostings := load_urgent_jobs in
  st_ret {| hv_hero := hero_of heroBanners;
            hv_courses := section_of courses "아직 등록된 강의가 없습니다";
            hv_contents := section_of contents "아직 등록된 콘텐츠가 없습니다";
            hv_jobs := section_of jobPostings "현재 활성 채용 공고가 없습니다" |}.

(** The number of items a section shows. *)
Definition shown {A} (v : section_view A) : list A :=
  match v with Cards l => l | EmptyNotice _ => [] end.

(** ** Lemmas *)

(** A run of one of the three resolvers reads only and never throws. *)
Lemma loadFeaturedSection_run `{Entity A} section idField key asc limit filt db :
  exists l items, loadFeaturedSection section idField key asc limit filt db = (db, l, Ok items).
Proof.
  unfold loadFeaturedSection, st_bind, select, st_ret. cbn [fst snd].
  repeat case_match; simplify_eq; eauto.
Qed.

Lemma section_of_shown {A} (items : list A) msg : shown (section_of items msg) = items.
Proof. by destruct items. Qed.

(** The list a resolver run returns. *)
Definition featured_result {A} (c : Act (list A)) (db : Db) : list A :=
  match run_result c db with Ok l => l | Thrown _ => [] end.

Lemma loadFeaturedSection_bind `{Entity A} {B} section idField key asc limit filt db
    (k : list A -> Act B) :
  exists l, st_bind (loadFeaturedSection section idField key asc limit filt) k db =
    match k (featured_result (loadFeaturedSection section idField key asc limit filt) db) db with
    | (s, l', r) => (s, l ++ l', r)
    end.
Proof.
  destruct (loadFeaturedSection_run section idField key asc limit filt db) as (l & items & E).
  exists l. unfold st_bind, featured_result, run_result. rewrite E. simpl.
  by destruct (k items db) as [[??]?].
Qed.

(** The page as the composition of its four reads. *)
Lemma HomePage_run db :
  exists l, HomePage db =
    (db, l, Ok {| hv_hero := hero_of (if table_fails T_hero_banners db then RErr
                                       else RData (hero_query db));
                  hv_courses := section_of (featured_result load_popular_courses db)
                                  "아직 등록된 강의가 없습니다";
                  hv_contents := section_of (featured_result load_recommended_contents db)
                                  "아직 등록된 콘텐츠가 없습니다";
                  hv_jobs := section_of (featured_result load_urgent_jobs db)
                                  "현재 활성 채용 공고가 없습니다" |}).
Proof.
  destruct (loadFeaturedSection_run (A:=Course) popular_courses fi_course_id c_rating false 6 None db)
    as (l1 & i1 & E1).
  destruct (loadFeaturedSection_run (A:=Content) recommended_contents fi_content_id ct_view_count
    false 6 None db) as (l2 & i2 & E2).
  destruct (loadFeaturedSection_run (A:=JobPosting) urgent_jobs fi_job_id j_deadline true 5
    (Some j_is_active) db) as (l3 & i3 & E3).
  change (loadFeaturedSection _ _ _ _ _ _ db) with (load_popular_courses db) in E1.
  change (loadFeaturedSection _ _ _ _ _ _ db) with (load_recommended_contents db) in E2.
  change (loadFeaturedSection _ _ _ _ _ _ db) with (load_urgent_jobs db) in E3.
  unfold featured_result, run_result. rewrite E1, E2, E3.
  unfold HomePage, st_bind, st_ret. rewrite select_run. cbn [fst snd].
  rewrite E1. cbn [fst snd]. rewrite E2. cbn [fst snd]. rewrite E3. cbn [fst snd].
  eexists. reflexivity.
Qed.

Lemma In_hero_query db b : In b (hero_query db) -> In b (db_hero_banners db) /\ hb_is_active b = true.
Proof.
  unfold hero_query, q_limit. intros Hb%in_firstn. apply q_order_In in Hb.
  by apply filter_In in Hb.
Qed.

(** ** Theorems *)

(** Rendering the home page reads only: it never throws (every
    failed read becomes an empty or default part of the page) and leaves
    the store unchanged. *)
Theorem HomePage_read_only db :
  run_state HomePage db = db /\ exists v, run_result HomePage db = Ok v.
Proof.
  destruct (HomePage_run db) as [l E]. unfold run_state, run_result. rewrite E.
  split; [done|]. by eexists.
Qed.

(** The caller contract of the spec's section 6: with no failing
    request the page shows, in order, the resolver's result for popular
    courses (limit 6, by rating, descending), recommended contents (limit
    6, by view count, descending) and urgent jobs (limit 5, by deadline,
    ascending, active postings only). *)
Theorem HomePage_sections db :
  db_failing db = [] ->
  returns HomePage db (fun v =>
    shown (hv_courses v) = featured_spec popular_courses fi_course_id c_rating false 6 None db /\
    shown (hv_contents v) =
      featured_spec recommended_contents fi_content_id ct_view_count false 6 None db /\
    shown (hv_jobs v) = featured_spec urgent_jobs fi_job_id j_deadline true 5 (Some j_is_active) db).
Proof.
  intros Hf. destruct (HomePage_run db) as [l E]. unfold returns, run_result. rewrite E.
  cbn [snd hv_courses hv_contents hv_jobs]. rewrite !section_of_shown.
  unfold featured_result, run_result, load_popular_courses, load_recommended_contents,
    load_urgent_jobs.
  by rewrite !loadFeaturedSection_refines.
Qed.

(** The hero carousel shows at most five banners, all active, in
    display order; the default hero is shown exactly when the banner
    request fails or no banner is active. *)
Theorem HomePage_hero db :
  returns HomePage db (fun v =>
    match hv_hero v with
    | HeroCarousel bs =>
        bs = hero_query db /\ bs <> [] /\ length bs <= 5 /\
        Forall (fun b => hb_is_active b = true) bs /\ Sorted (key_le hb_display_order) bs
    | DefaultHero t =>
        t = APP_TAGLINE /\ (table_fails T_hero_banners db = true \/ hero_query db = [])
    end).
Proof.
  destruct (HomePage_run db) as [l E]. unfold returns, run_result. rewrite E.
  cbn [snd hv_hero]. destruct (table_fails T_hero_banners db); [by split; [|left]|].
  unfold hero_of. destruct (hero_query db) as [|b bs] eqn:Eq; [by split; [|right]|].
  rewrite <- Eq. split; [done|]. split; [by rewrite Eq|]. split.
  { unfold hero_query, q_limit. rewrite length_firstn. lia. }
  split.
  - apply List.Forall_forall. intros x Hx. by apply In_hero_query in Hx as [_ ?].
  - unfold hero_query, q_limit, q_order. apply sorted_firstn, sort_key_sorted.
Qed.

(** ** Witnesses *)

Lemma HomePage_sections_witness :
  db_failing db_courses_orphan = [] /\
  returns HomePage db_courses_orphan (fun v =>
    shown (hv_courses v) =
      featured_spec popular_courses fi_course_id c_rating false 6 None db_courses_orphan /\
    shown (hv_contents v) =
      featured_spec recommended_contents fi_content_id ct_view_count false 6 None db_courses_orphan /\
    shown (hv_jobs v) =
      featured_spec urgent_jobs fi_job_id j_deadline true 5 (Some j_is_active) db_courses_orphan).
Proof. split; [reflexivity|]. exact (HomePage_sections db_courses_orphan eq_refl). Defined.
