(* ===== verification/Interleave.v ===== *)
(** Server actions as sequences of atomic requests, and their
    interleavings.

    A server action awaits one store request after another; between two
    of its requests, requests of other actions running at the same time
    may reach the store.  [proc A] is an action written as such a
    sequence: [Atomic c k] sends the request [c] (which reaches the store
    atomically) and continues with [k] on its response.  [run_proc] runs
    an action alone; [sched_step] lets one of several running actions
    take its next step, so that a schedule (the list of which action moves
    at each step) is one interleaving of the actions. *)

From stdpp Require Import base list relations.
From S2P Require Import Prelude Store.

Inductive proc (A : Type) : Type :=
  | Done (a : A)
  | Atomic {B : Type} (c : Act B) (k : B -> proc A).
Arguments Done {A} a.
Arguments Atomic {A B} c k.

Notation "'let!' x ':=' c 'in' k" := (Atomic c (fun x => k))
  (at level 10, x name, c at level 200, k at level 200) : jj_scope.

(** The action run alone. *)
Fixpoint run_proc {A} (p : proc A) : Act A :=
  match p with
  | Done a => st_ret a
  | Atomic c k => st_bind c (fun b => run_proc (k b))
  end.

(** ** Interleavings *)

(** Running actions and the store. *)
Definition config (A : Type) : Type := list (proc A) * Db.

(** Action [i] takes its next step.  A request that throws leaves the
    action stuck (the actions modelled with [proc] never throw). *)
Definition sched_step {A} (i : nat) (cf : config A) : option (config A) :=
  match cf.1 !! i with
  | Some (Atomic c k) =>
      match c cf.2 with
      | (db', _, Ok b) => Some (<[i := k b]> cf.1, db')
      | (_, _, Thrown _) => None
      end
  | _ => None
  end.

(** A schedule run to its end; [None] when it names an action that is
    finished or absent. *)
Fixpoint run_sched {A} (sched : list nat) (cf : config A) : option (config A) :=
  match sched with
  | [] => Some cf
  | i :: sched' =>
      match sched_step i cf with
      | Some cf' => run_sched sched' cf'
      | None => None
      end
  end.

(** One step of some action. *)
Definition any_step {A} (cf cf' : config A) : Prop := exists i, sched_step i cf = Some cf'.

(** Run an action alone, following its branches: the store's failures
    first, then the action's own tests. *)
Ltac proc_step :=
  first [ progress (autorewrite with jj_fail in * )
        | progress (simpl run_proc)
        | progress (cbv beta iota zeta delta [st_bind st_ret select_resp select write fst snd app])
        | match goal with
          | H : table_fails ?t ?db = _ |- context [table_fails ?t ?db] => rewrite H
          | |- context [table_fails ?t ?db] => destruct (table_fails t db) eqn:?
          | |- context [run_proc (if ?b then _ else _)] => destruct b eqn:?
          | |- context [run_proc (match ?x with _ => _ end)] => destruct x eqn:?
          end ].

Ltac proc_simpl := repeat proc_step.

(** ** Lemmas *)

Lemma run_sched_app {A} (s1 s2 : list nat) (cf : config A) :
  run_sched (s1 ++ s2) cf = match run_sched s1 cf with Some cf' => run_sched s2 cf' | None => None end.
Proof.
  revert cf. induction s1 as [|i s1 IH]; intros cf; simpl; [done|].
  destruct (sched_step i cf); [apply IH|done].
Qed.

Lemma run_sched_rtc {A} sched (cf cf' : config A) :
  run_sched sched cf = Some cf' -> rtc any_step cf cf'.
Proof.
  revert cf. induction sched as [|i s IH]; intros cf; simpl; [by intros [= ->]|].
  destruct (sched_step i cf) as [cf1|] eqn:E; [|done].
  intros H. eapply rtc_l; [by exists i|]. by apply IH.
Qed.

(** ** Invariants of interleavings *)

(** Every request of the action keeps [I], whichever store satisfying
    [I] it reaches, and so does the rest of the action after each
    response it can receive. *)
Fixpoint safe {A} (I : Db -> Prop) (p : proc A) : Prop :=
  match p with
  | Done _ => True
  | Atomic c k =>
      (forall db, I db -> I (run_state c db)) /\
      (forall db b, I db -> run_result c db = Ok b -> safe I (k b))
  end.

Lemma sched_step_safe {A} (I : Db -> Prop) i (ts ts' : list (proc A)) db db' :
  Forall (safe I) ts -> I db -> sched_step i (ts, db) = Some (ts', db') ->
  Forall (safe I) ts' /\ I db'.
Proof.
  unfold sched_step. cbn [fst snd]. intros Hts Hdb Hs.
  destruct (ts !! i) as [[a|B c k]|] eqn:Ei; [done| |done].
  pose proof (Forall_lookup_1 _ _ _ _ Hts Ei) as [Hc Hk].
  unfold run_state, run_result in Hc, Hk.
  destruct (c db) as [[db1 l] [b|m]] eqn:Ec; [|done]. simplify_eq.
  specialize (Hc _ Hdb). specialize (Hk _ b Hdb). rewrite Ec in Hc, Hk. simpl in *.
  split; [|done]. apply Forall_insert; [done|]. by apply Hk.
Qed.

(** An invariant kept by every action is kept by every interleaving. *)
Lemma run_sched_safe {A} (I : Db -> Prop) sched (ts ts' : list (proc A)) db db' :
  Forall (safe I) ts -> I db -> run_sched sched (ts, db) = Some (ts', db') -> I db'.
Proof.
  revert ts db. induction sched as [|i s IH]; intros ts db Hts Hdb; simpl; [by intros [= <- <-]|].
  destruct (sched_step i (ts, db)) as [[ts1 db1]|] eqn:E; [|done].
  destruct (sched_step_safe I i ts ts1 db db1 Hts Hdb E). by apply IH.
Qed.
