(* ===== verification/HeroCarousel.v ===== *)
(** The hero-banner carousel.

    [HeroBannerCarousel] of [src/components/features/HeroBanner.tsx]: a
    state of two React variables ([current], [isPaused]), moved by the
    arrow buttons, the indicator dots, the four-second timer and the
    mouse, as a step relation; and the link a banner leads to.  The arrows,
    the dots and the timer exist only when there are at least two banners.
    JavaScript's [%] is [Z.rem]. *)

From stdpp Require Import base list strings relations.
From Stdlib Require Import ZArith Lia.
From S2P Require Import Prelude Store.

Local Open Scope Z_scope.

Record carousel := { current : Z; isPaused : bool }.

(** [useState(0)], [useState(false)] *)
Definition carousel_init : carousel := {| current := 0; isPaused := false |}.

(** [next]: [(prev + 1) % total] (lines 18-20). *)
Definition next_index (total cur : Z) : Z := Z.rem (cur + 1) total.

(** [prev]: [(prev - 1 + total) % total] (lines 22-24). *)
Definition prev_index (total cur : Z) : Z := Z.rem (cur - 1 + total) total.

Definition set_current (s : carousel) (c : Z) : carousel :=
  {| current := c; isPaused := isPaused s |}.
Definition set_paused (s : carousel) (p : bool) : carousel :=
  {| current := current s; isPaused := p |}.

(** The carousel's transitions for [total] banners. *)
Inductive carousel_step (total : Z) : carousel -> carousel -> Prop :=
  | cs_next s : 1 < total -> carousel_step total s (set_current s (next_index total (current s)))
  | cs_prev s : 1 < total -> carousel_step total s (set_current s (prev_index total (current s)))
  | cs_dot s idx : 1 < total -> 0 <= idx < total -> carousel_step total s (set_current s idx)
  | cs_tick s : 1 < total -> isPaused s = false ->
      carousel_step total s (set_current s (next_index total (current s)))
  | cs_enter s : carousel_step total s (set_paused s true)
  | cs_leave s : carousel_step total s (set_paused s false).

(** The timer alone (lines 26-31): [setInterval(next, 4000)] runs while
    there are at least two banners and the mouse is away. *)
Inductive timer_tick (total : Z) : carousel -> carousel -> Prop :=
  | tt_tick s : 1 < total -> isPaused s = false ->
      timer_tick total s (set_current s (next_index total (current s))).

(** The banner the carousel renders: [banners[current]]. *)
Definition current_banner (banners : list HeroBanner) (s : carousel) : option HeroBanner :=
  if Z.ltb (current s) 0 then None else nth_error banners (Z.to_nat (current s)).

(** [getBannerHref] (lines 38-52). *)
Definition getBannerHref (b : HeroBanner) : string :=
  if String.eqb (hb_link_type b) "course" then
    match hb_course_id b with Some id => if js_truthy_str id then "/courses/" +:+ id else "/courses" | None => "/courses" end
  else if String.eqb (hb_link_type b) "content" then
    match hb_content_id b with Some id => if js_truthy_str id then "/contents/" +:+ id else "/contents" | None => "/contents" end
  else if String.eqb (hb_link_type b) "job" then
    match hb_job_id b with Some id => if js_truthy_str id then "/jobs" else "/jobs" | None => "/jobs" end
  else if String.eqb (hb_link_type b) "custom" then
    match hb_custom_url b with Some u => if js_truthy_str u then u else "/" | None => "/" end
  else "/".

(** [isExternal] (line 55). *)
Definition isExternal (b : HeroBanner) : bool :=
  String.eqb (hb_link_type b) "custom" &&
  match hb_custom_url b with Some u => starts_with "http" u | None => false end.

(** The index stays a position of the banner list. *)
Definition carousel_inv (total : Z) (s : carousel) : Prop := 0 <= current s < total.

(** ** Lemmas *)

Ltac case_zeqb :=
  repeat match goal with |- context [Z.eqb ?a ?b] => destruct (Z.eqb_spec a b) end.

Lemma next_index_range total cur : 0 < total -> 0 <= cur < total -> 0 <= next_index total cur < total.
Proof.
  intros Ht Hc. unfold next_index.
  pose proof (Z.rem_bound_pos (cur + 1) total). lia.
Qed.

Lemma prev_index_range total cur : 0 < total -> 0 <= cur < total -> 0 <= prev_index total cur < total.
Proof.
  intros Ht Hc. unfold prev_index.
  pose proof (Z.rem_bound_pos (cur - 1 + total) total). lia.
Qed.

Lemma carousel_step_inv total s s' :
  0 < total -> carousel_inv total s -> carousel_step total s s' -> carousel_inv total s'.
Proof.
  intros Ht Hs Hstep. unfold carousel_inv in *.
  destruct Hstep; simpl; auto using next_index_range, prev_index_range.
Qed.

#[export] Hint Resolve next_index_range prev_index_range carousel_step_inv : jj.

Lemma carousel_steps_inv total s s' :
  0 < total -> rtc (carousel_step total) s s' -> carousel_inv total s -> carousel_inv total s'.
Proof. intros Ht Hr. induction Hr; eauto with jj. Qed.

Lemma next_index_mod total cur : 0 < total -> 0 <= cur -> next_index total cur = (cur + 1) mod total.
Proof. intros. unfold next_index. apply Z.rem_mod_nonneg; lia. Qed.

Lemma iter_next_index total cur k :
  0 < total -> 0 <= cur < total ->
  Nat.iter k (next_index total) cur = (cur + Z.of_nat k) mod total.
Proof.
  intros Ht Hc. induction k as [|k IH].
  - simpl. rewrite Z.add_0_r, Z.mod_small; lia.
  - pose proof (Z.mod_pos_bound (cur + Z.of_nat k) total).
    rewrite Nat.iter_succ, IH, next_index_mod by lia.
    rewrite Zplus_mod_idemp_l. f_equal. lia.
Qed.

Lemma next_index_cases total cur :
  0 <= cur < total -> next_index total cur = if Z.eqb (cur + 1) total then 0 else cur + 1.
Proof.
  intros Hc. unfold next_index. destruct (Z.eqb_spec (cur + 1) total) as [<-|].
  - apply Z.rem_same. lia.
  - apply Z.rem_small. lia.
Qed.

Lemma prev_index_cases total cur :
  0 <= cur < total -> prev_index total cur = if Z.eqb cur 0 then total - 1 else cur - 1.
Proof.
  intros Hc. unfold prev_index. destruct (Z.eqb_spec cur 0) as [->|].
  - rewrite Z.rem_small; lia.
  - rewrite Z.rem_mod_nonneg by lia.
    replace (cur - 1 + total) with (cur - 1 + 1 * total) by lia.
    rewrite Z_mod_plus_full. apply Z.mod_small. lia.
Qed.

Lemma timer_ticks_iter total s k :
  1 < total -> isPaused s = false ->
  nsteps (timer_tick total) k s (set_current s (Nat.iter k (next_index total) (current s))).
Proof.
  intros Ht. revert s. induction k as [|k IH]; intros s Hp; [by destruct s; constructor|].
  eapply nsteps_l; [by constructor|]. rewrite Nat.iter_succ_r. apply (IH (set_current s _) Hp).
Qed.

(** ** Theorems *)

(** Whatever the clicks, the timer ticks and the mouse do, the
    carousel's index stays within [0, total): the index reached from
    [useState(0)] is always a position of the banner list. *)
Theorem carousel_reachable_inv total s :
  0 < total -> rtc (carousel_step total) carousel_init s -> carousel_inv total s.
Proof.
  intros Ht Hr. apply (carousel_steps_inv total carousel_init); [done|done|].
  unfold carousel_inv. simpl. lia.
Qed.

(** [banners[current]] is always defined: when the component renders
    (at least one banner), every reachable state shows one of the banners. *)
Theorem carousel_banner_defined (banners : list HeroBanner) s :
  banners <> [] -> rtc (carousel_step (Z.of_nat (length banners))) carousel_init s ->
  exists b, current_banner banners s = Some b /\ In b banners.
Proof.
  intros Hne Hr. destruct banners as [|b0 bs]; [done|].
  pose proof (carousel_steps_inv (Z.of_nat (length (b0 :: bs))) _ s ltac:(cbn [length]; lia) Hr)
    as [H0 H1]; [unfold carousel_inv; simpl; lia|].
  unfold current_banner. destruct (Z.ltb_spec (current s) 0); [lia|].
  destruct (nth_error (b0 :: bs) (Z.to_nat (current s))) as [b|] eqn:E.
  - exists b. split; [done|]. by eapply nth_error_In.
  - apply nth_error_None in E. lia.
Qed.

(** The arrows undo each other, and [total] presses of the next
    arrow (or timer ticks) bring the carousel back to the banner it
    started from. *)
Theorem carousel_next_prev total cur :
  0 < total -> 0 <= cur < total ->
  prev_index total (next_index total cur) = cur /\
  next_index total (prev_index total cur) = cur /\
  Nat.iter (Z.to_nat total) (next_index total) cur = cur.
Proof.
  intros Ht Hc. rewrite iter_next_index, Z2Nat.id by lia.
  split; [|split].
  - rewrite next_index_cases by done. case_zeqb; rewrite prev_index_cases by lia; case_zeqb; lia.
  - rewrite prev_index_cases by done. case_zeqb; rewrite next_index_cases by lia; case_zeqb; lia.
  - rewrite <- Zplus_mod_idemp_r, Z_mod_same_full, Z.add_0_r. apply Z.mod_small; lia.
Qed.

(** A banner linking to a job posting always leads to the job list
    [/jobs]: both arms of [b.job_id ? `/jobs` : '/jobs'] are the same, so
    the posting's id is never used. *)
Theorem banner_href_job_ignores_id b :
  hb_link_type b = "job" -> getBannerHref b = "/jobs".
Proof.
  intros E. unfold getBannerHref. rewrite E. cbn -[js_truthy_str].
  by destruct (hb_job_id b); [case_if|].
Qed.

(** A banner opened in a new tab (an external banner) is a custom
    banner whose link is its own [custom_url], which starts with "http". *)
Theorem banner_external_link b :
  isExternal b = true ->
  exists u, hb_custom_url b = Some u /\ getBannerHref b = u /\ starts_with "http" u = true.
Proof.
  unfold isExternal, getBannerHref. intros [Hl Hu]%andb_prop.
  apply String.eqb_eq in Hl. rewrite Hl. cbn -[js_truthy_str starts_with].
  destruct (hb_custom_url b) as [u|]; [|done]. exists u. split; [done|].
  split; [|done]. destruct u as [|c u]; [done|]. reflexivity.
Qed.

(** C39. With the mouse away, the timer alone shows every banner: from any
    state of the carousel of at least two banners, each banner comes up
    after fewer than [total] ticks of the four-second timer. *)
Theorem carousel_timer_shows_every_banner total s j :
  1 < total -> carousel_inv total s -> isPaused s = false -> 0 <= j < total ->
  exists k, (k < Z.to_nat total)%nat /\ nsteps (timer_tick total) k s (set_current s j).
Proof.
  intros Ht Hs Hp Hj. unfold carousel_inv in Hs.
  pose proof (Z.mod_pos_bound (j - current s) total ltac:(lia)) as Hb.
  exists (Z.to_nat ((j - current s) mod total)). split; [lia|].
  replace j with (Nat.iter (Z.to_nat ((j - current s) mod total)) (next_index total) (current s)) at 2.
  - by apply timer_ticks_iter.
  - rewrite iter_next_index, Z2Nat.id by lia.
    rewrite Zplus_mod_idemp_r. replace (current s + (j - current s)) with j by lia.
    apply Z.mod_small; lia.
Qed.

(** ** Witnesses *)

Definition banner (id link : string) (job custom : option string) : HeroBanner :=
  {| hb_id := id; hb_title := id; hb_subtitle := None; hb_image_url := None; hb_link_type := link;
     hb_course_id := None; hb_content_id := None; hb_job_id := job; hb_custom_url := custom;
     hb_bg_color := "#EBF2FF"; hb_text_color := "#ffffff"; hb_focal_x := 50; hb_focal_y := 50;
     hb_display_order := 1; hb_is_active := true |}.

Definition three_banners : list HeroBanner :=
  [banner "b1" "job" (Some "j1") None; banner "b2" "custom" None (Some "https://x.kr");
   banner "b3" "course" None None].

(** Three banners: the previous arrow from the first, then a tick. *)
Lemma carousel_path :
  rtc (carousel_step 3) carousel_init {| current := 0; isPaused := false |}.
Proof.
  eapply rtc_l; [apply cs_prev; lia|].
  eapply rtc_l; [apply cs_tick; [lia|reflexivity]|]. apply rtc_refl.
Qed.

Lemma carousel_reachable_inv_witness :
  0 < 3 /\ carousel_inv 3 {| current := 0; isPaused := false |}.
Proof. split; [lia|]. exact (carousel_reachable_inv 3 _ ltac:(lia) carousel_path). Defined.

Lemma carousel_banner_defined_witness :
  three_banners <> [] /\
  exists b, current_banner three_banners {| current := 0; isPaused := false |} = Some b /\
            In b three_banners.
Proof.
  split; [discriminate|]. exact (carousel_banner_defined three_banners _ ltac:(discriminate) carousel_path).
Defined.

Lemma carousel_next_prev_witness :
  prev_index 3 (next_index 3 2) = 2 /\ next_index 3 (prev_index 3 2) = 2 /\
  Nat.iter (Z.to_nat 3) (next_index 3) 2 = 2.
Proof. apply carousel_next_prev; lia. Defined.

Lemma banner_href_job_ignores_id_witness :
  hb_link_type (banner "b1" "job" (Some "j1") None) = "job" /\
  getBannerHref (banner "b1" "job" (Some "j1") None) = "/jobs".
Proof. split; [reflexivity|]. apply banner_href_job_ignores_id. reflexivity. Defined.

Lemma banner_external_link_witness :
  isExternal (banner "b2" "custom" None (Some "https://x.kr")) = true /\
  exists u, hb_custom_url (banner "b2" "custom" None (Some "https://x.kr")) = Some u /\
    getBannerHref (banner "b2" "custom" None (Some "https://x.kr")) = u /\
    starts_with "http" u = true.
Proof. split; [reflexivity|]. apply banner_external_link. reflexivity. Defined.

Lemma carousel_timer_shows_every_banner_witness :
  1 < 3 /\ carousel_inv 3 {| current := 2; isPaused := false |} /\
  isPaused {| current := 2; isPaused := false |} = false /\ 0 <= 1 < 3 /\
  exists k, (k < Z.to_nat 3)%nat /\
    nsteps (timer_tick 3) k {| current := 2; isPaused := false |}
      (set_current {| current := 2; isPaused := false |} 1).
Proof.
  assert (H1 : 1 < 3) by lia.
  assert (H2 : carousel_inv 3 {| current := 2; isPaused := false |}) by (unfold carousel_inv; simpl; lia).
  assert (H3 : isPaused {| current := 2; isPaused := false |} = false) by reflexivity.
  assert (H4 : 0 <= 1 < 3) by lia.
  do 4 (split; [assumption|]). exact (carousel_timer_shows_every_banner 3 _ 1 H1 H2 H3 H4).
Defined.
