(* ===== verification/Enrollment.v ===== *)
(** Course enrolment.

    [enrollCourse] and [cancelEnrollment] of [src/app/actions/courses.ts]
    as sequences of atomic requests ([proc], [Interleave]): the duplicate
    check with [.maybeSingle()], the course's status and seat checks, the
    insert or the status update, and the read-then-write of the course's
    [current_students] counter.  Run alone ([run_proc]) they keep the
    counter within [0, max_students] and equal to the number of active
    enrolments; run concurrently, the read-then-write loses updates and
    overbooks.  The enrolments table has no uniqueness constraint in the
    repository, and none is assumed. *)

From stdpp Require Import base list strings relations.
From Stdlib Require Import ZArith Lia.
From S2P Require Import Prelude Store Interleave.

Local Open Scope Z_scope.

(** The [{ error }] or [{ success, message }] an action returns. *)
Inductive action_result := ActError (msg : string) | ActSuccess (msg : string).

#[export] Instance action_result_eq_dec : EqDecision action_result.
Proof. solve_decision. Defined.

Definition msg_already_enrolled : string := "이미 수강 신청한 강의입니다.".
Definition msg_course_not_found : string := "강의 정보를 찾을 수 없습니다.".
Definition msg_not_recruiting : string := "현재 모집 중인 강의가 아닙니다.".
Definition msg_full : string := "정원이 마감되었습니다.".
Definition msg_enroll_failed : string := "수강 신청에 실패했습니다. 다시 시도해 주세요.".
Definition msg_count_failed : string := "수강생 수 업데이트에 실패했습니다.".
Definition msg_enrolled : string := "수강 신청이 완료되었습니다!".
Definition msg_enrollment_not_found : string := "수강 신청 내역을 찾을 수 없습니다.".
Definition msg_cancel_failed : string := "수강 취소에 실패했습니다. 다시 시도해 주세요.".
Definition msg_canceled : string := "수강 신청이 취소되었습니다.".

(** ** Queries and writes *)

(** [.eq('user_id', uid).eq('course_id', cid)] *)
Definition enrollments_of (uid cid : string) (db : Db) : list Enrollment :=
  List.filter (fun e => String.eqb (e_user_id e) uid && String.eqb (e_course_id e) cid)
    (db_enrollments db).

Definition is_canceled (e : Enrollment) : bool := bool_decide (e_status e = Canceled).

(** [.eq('id', cid)] on courses. *)
Definition courses_with_id (cid : string) (db : Db) : list Course :=
  List.filter (fun c => String.eqb (c_id c) cid) (db_courses db).

(** [insert({ user_id, course_id, status: 'applied' })] *)
Definition insert_enrollment (uid cid : string) (db : Db) : Db :=
  bump_id (set_enrollments (db_enrollments db ++
    [{| e_id := fresh_id db; e_user_id := uid; e_course_id := cid; e_status := Applied |}]) db).

(** [update({ status }).eq('id', id)] on enrolments. *)
Definition set_enrollment_status (id : string) (st : enrollment_status) (db : Db) : Db :=
  set_enrollments (map (fun e => if String.eqb (e_id e) id then
    {| e_id := e_id e; e_user_id := e_user_id e; e_course_id := e_course_id e; e_status := st |}
    else e) (db_enrollments db)) db.

(** [update({ current_students: n }).eq('id', cid)] on courses. *)
Definition set_current_students (cid : string) (n : Z) (db : Db) : Db :=
  set_courses (map (fun c => if String.eqb (c_id c) cid then
    with_current_students n c
    else c) (db_courses db)) db.

(** ** The actions *)

(** [enrollCourse(courseId)] (lines 6-75).  [data] of a failed
    [.maybeSingle()] (two rows or more) is [null]. *)
Definition enrollCourse (user : option string) (courseId : string) : proc action_result :=
  match user with
  | None => Done (ActError msg_login)
  | Some uid =>
      let! r_existing := select_resp T_enrollments (fun db =>
                           maybe_single_resp (enrollments_of uid courseId db)) in
      let existing := match r_existing with RData e => e | RErr => None end in
      if match existing with Some e => negb (is_canceled e) | None => false end
      then Done (ActError msg_already_enrolled)
      else
        let! r_course := select_resp T_courses (fun db => single_resp (courses_with_id courseId db)) in
        match r_course with
        | RErr => Done (ActError msg_course_not_found)
        | RData course =>
            if negb (String.eqb (c_status course) "recruiting") then Done (ActError msg_not_recruiting)
            else if c_max_students course <=? c_current_students course then Done (ActError msg_full)
            else
              let! r_ins := write T_enrollments OpInsert (insert_enrollment uid courseId) in
              match r_ins with
              | RErr => Done (ActError msg_enroll_failed)
              | RData _ =>
                  let! r_upd := write T_courses OpUpdate
                                  (set_current_students courseId (c_current_students course + 1)) in
                  match r_upd with
                  | RErr => Done (ActError msg_count_failed)
                  | RData _ => Done (ActSuccess msg_enrolled)
                  end
              end
        end
  end.

(** [cancelEnrollment(courseId)] (lines 77-131); the decrement's
    response is not read. *)
Definition cancelEnrollment (user : option string) (courseId : string) : proc action_result :=
  match user with
  | None => Done (ActError msg_login)
  | Some uid =>
      let! r := select_resp T_enrollments (fun db =>
                  maybe_single_resp (List.filter (fun e => negb (is_canceled e))
                                       (enrollments_of uid courseId db))) in
      match r with
      | RData (Some enrollment) =>
          let! r_cancel := write T_enrollments OpUpdate (set_enrollment_status (e_id enrollment) Canceled) in
          match r_cancel with
          | RErr => Done (ActError msg_cancel_failed)
          | RData _ =>
              let! r_course := select_resp T_courses (fun db => single_resp (courses_with_id courseId db)) in
              match r_course with
              | RData course =>
                  if 0 <? c_current_students course then
                    let! _ := write T_courses OpUpdate
                                (set_current_students courseId (c_current_students course - 1)) in
                    Done (ActSuccess msg_canceled)
                  else Done (ActSuccess msg_canceled)
              | RErr => Done (ActSuccess msg_canceled)
              end
          end
      | _ => Done (ActError msg_enrollment_not_found)
      end
  end.

(** ** Invariants *)

(** The active (not canceled) enrolments of a course. *)
Definition active_count (cid : string) (db : Db) : Z :=
  Z.of_nat (length (List.filter (fun e => String.eqb (e_course_id e) cid && negb (is_canceled e))
                      (db_enrollments db))).

(** Every course's counter lies within [0, max_students]. *)
Definition seats_ok (db : Db) : Prop :=
  Forall (fun c => 0 <= c_current_students c <= c_max_students c) (db_courses db).

(** Every course's counter is its number of active enrolments. *)
Definition counter_exact (db : Db) : Prop :=
  Forall (fun c => c_current_students c = active_count (c_id c) db) (db_courses db).

(** The courses' ids and capacities, which enrolment never changes. *)
Definition course_shape (db : Db) : list (string * Z) :=
  map (fun c => (c_id c, c_max_students c)) (db_courses db).

(** The counters are within bounds and the courses are those of [M]. *)
Definition seats_inv (M : list (string * Z)) (db : Db) : Prop := seats_ok db /\ course_shape db = M.

(** The counters are exact, course ids and enrolment ids are unique, and
    the next generated id is new. *)
Definition enroll_inv (db : Db) : Prop :=
  counter_exact db /\ NoDup (map c_id (db_courses db)) /\
  NoDup (map e_id (db_enrollments db)) /\ ids_fresh (map e_id (db_enrollments db)) (db_next_id db).

(** ** Runs of the actions alone *)

Lemma table_fails_insert_enrollment t uid cid db :
  table_fails t (insert_enrollment uid cid db) = table_fails t db.
Proof. done. Qed.
Lemma table_fails_set_enrollment_status t id st db :
  table_fails t (set_enrollment_status id st db) = table_fails t db.
Proof. done. Qed.
Lemma table_fails_set_current_students t cid n db :
  table_fails t (set_current_students cid n db) = table_fails t db.
Proof. done. Qed.

#[export] Hint Rewrite table_fails_insert_enrollment table_fails_set_enrollment_status
  table_fails_set_current_students : jj_fail.


(** [enrollCourse] run alone changes nothing, or inserts the enrolment
    and then writes the counter it read plus one. *)
Lemma enroll_run uid cid db :
  run_state (run_proc (enrollCourse (Some uid) cid)) db = db \/
  exists course,
    courses_with_id cid db = [course] /\ c_status course = "recruiting" /\
    c_current_students course < c_max_students course /\
    run_proc (enrollCourse (Some uid) cid) db =
      (set_current_students cid (c_current_students course + 1) (insert_enrollment uid cid db),
       [Req T_enrollments OpSelect; Req T_courses OpSelect; Req T_enrollments OpInsert;
        Req T_courses OpUpdate],
       Ok (ActSuccess msg_enrolled)).
Proof.
  unfold run_state. cbn [enrollCourse]. proc_simpl; try (left; reflexivity); try congruence.
  right. exists a. apply single_resp_RData in Heqr.
  apply negb_false_iff, String.eqb_eq in Heqb2. apply Z.leb_gt in Heqb3. done.
Qed.

Lemma courses_with_id_set_enrollment_status cid id st db :
  courses_with_id cid (set_enrollment_status id st db) = courses_with_id cid db.
Proof. done. Qed.

Lemma courses_with_id_In cid db c : In c (courses_with_id cid db) <-> In c (db_courses db) /\ c_id c = cid.
Proof. unfold courses_with_id. rewrite filter_In. by rewrite String.eqb_eq. Qed.

(** [cancelEnrollment] run alone changes nothing, or cancels the one
    active enrolment it found and then, when the course is read and its
    counter is positive, writes the counter minus one. *)
Lemma cancel_run uid cid db :
  run_state (run_proc (cancelEnrollment (Some uid) cid)) db = db \/
  exists e,
    List.filter (fun e => negb (is_canceled e)) (enrollments_of uid cid db) = [e] /\
    table_fails T_enrollments db = false /\
    ((exists course, table_fails T_courses db = false /\ courses_with_id cid db = [course] /\
        0 < c_current_students course /\
        run_state (run_proc (cancelEnrollment (Some uid) cid)) db =
          set_current_students cid (c_current_students course - 1)
            (set_enrollment_status (e_id e) Canceled db)) \/
     ((table_fails T_courses db = true \/
       forall course, courses_with_id cid db = [course] -> c_current_students course <= 0) /\
      run_state (run_proc (cancelEnrollment (Some uid) cid)) db =
        set_enrollment_status (e_id e) Canceled db)).
Proof.
  unfold run_state. cbn [cancelEnrollment]. proc_simpl; try (left; reflexivity).
  all: right; exists e; split; [by apply maybe_single_resp_Some|split; [done|]].
  all: try rewrite courses_with_id_set_enrollment_status in *.
  - right. split; [by left|done].
  - left. exists a0. apply single_resp_RData in Heqr0. apply Z.ltb_lt in Heqb1. done.
  - right. split; [|done]. right. intros c Hc. change (courses_with_id cid db = [c]) in Hc.
    rewrite Hc in Heqr0. simplify_eq/=. by apply Z.ltb_ge.
  - right. split; [|done]. right. intros c Hc. change (courses_with_id cid db = [c]) in Hc.
    by rewrite Hc in Heqr0.
Qed.

(** ** Seats under any interleaving *)

Lemma shape_courses_with_id cid db :
  map (fun c => (c_id c, c_max_students c)) (courses_with_id cid db) =
  List.filter (fun p => String.eqb p.1 cid) (course_shape db).
Proof.
  unfold courses_with_id, course_shape. induction (db_courses db) as [|c cs IH]; simpl; [done|].
  destruct (String.eqb (c_id c) cid); simpl; by rewrite IH.
Qed.

(** Two stores with the same courses' shape have the same course under an
    id, up to its counter. *)
Lemma same_shape_course cid db db' course :
  course_shape db' = course_shape db -> courses_with_id cid db = [course] ->
  exists c', courses_with_id cid db' = [c'] /\ c_max_students c' = c_max_students course.
Proof.
  intros Hs Hc. pose proof (shape_courses_with_id cid db') as H'.
  rewrite Hs, <- shape_courses_with_id, Hc in H'. simpl in H'.
  destruct (courses_with_id cid db') as [|c' [|]] eqn:E; simplify_eq/=. by exists c'.
Qed.

Lemma seats_ok_set_current cid n db course :
  seats_ok db -> courses_with_id cid db = [course] -> 0 <= n <= c_max_students course ->
  seats_ok (set_current_students cid n db).
Proof.
  unfold seats_ok, set_current_students. simpl. intros Hs Hc Hn.
  apply Forall_map. apply List.Forall_forall. intros c Hin.
  destruct (String.eqb_spec (c_id c) cid) as [Hid|]; simpl.
  - assert (Hcc : In c (courses_with_id cid db)) by (apply courses_with_id_In; done).
    rewrite Hc in Hcc. destruct Hcc as [<-|[]]. done.
  - by apply (proj1 (List.Forall_forall _ _) Hs).
Qed.

Lemma shape_set_current cid n db : course_shape (set_current_students cid n db) = course_shape db.
Proof.
  unfold course_shape, set_current_students. simpl. rewrite map_map.
  apply map_ext. intros c. by case_if.
Qed.

(** The counter write of either action keeps [seats_inv], on whatever
    store it reaches, when the value was computed from a course read on a
    store with the same courses. *)
Lemma counter_write_safe M cid n db0 course :
  seats_inv M db0 -> courses_with_id cid db0 = [course] -> 0 <= n <= c_max_students course ->
  forall db, seats_inv M db -> seats_inv M (run_state (write T_courses OpUpdate (set_current_students cid n)) db).
Proof.
  intros [_ Hs0] Hc Hn db [Hok Hs]. unfold run_state, write. case_if; [done|]. simpl.
  destruct (same_shape_course cid db0 db course) as (c' & Hc' & Hm); [congruence|done|].
  split; [|by rewrite shape_set_current]. eapply seats_ok_set_current; [done|exact Hc'|lia].
Qed.

Lemma course_read cid db course :
  run_result (select_resp T_courses (fun db => single_resp (courses_with_id cid db))) db = Ok (RData course) ->
  courses_with_id cid db = [course].
Proof.
  unfold run_result, select_resp. simpl. case_if; [done|]. intros [= H%single_resp_RData]. done.
Qed.

Lemma seats_of_read cid db course :
  seats_ok db -> courses_with_id cid db = [course] ->
  0 <= c_current_students course <= c_max_students course.
Proof.
  intros Hs Hc. assert (Hin : In course (courses_with_id cid db)) by (rewrite Hc; by left).
  apply courses_with_id_In in Hin as [Hin _]. by apply (proj1 (List.Forall_forall _ _) Hs).
Qed.

Lemma select_safe {A} M t (f : Db -> resp A) db : seats_inv M db -> seats_inv M (run_state (select_resp t f) db).
Proof. done. Qed.

Lemma enroll_safe M user cid : safe (seats_inv M) (enrollCourse user cid).
Proof.
  destruct user as [uid|]; [|done]. cbn [enrollCourse safe].
  split; [apply select_safe|]. intros db r _ _. case_if; [done|]. cbn [safe].
  split; [apply select_safe|]. intros db1 r1 Hdb1 Hr1. destruct r1 as [course|]; [|done].
  apply course_read in Hr1. pose proof (seats_of_read _ _ _ (proj1 Hdb1) Hr1).
  case_if; [done|]. destruct (c_max_students course <=? c_current_students course) eqn:Hfull; [done|]. apply Z.leb_gt in Hfull. cbn [safe].
  split; [intros db2 Hdb2; unfold run_state, write; by case_if|].
  intros db2 r2 _ _. destruct r2; [|done]. cbn [safe].
  split; [eapply counter_write_safe; [exact Hdb1|exact Hr1|lia]|]. intros ? []; done.
Qed.

Lemma cancel_safe M user cid : safe (seats_inv M) (cancelEnrollment user cid).
Proof.
  destruct user as [uid|]; [|done]. cbn [cancelEnrollment safe].
  split; [apply select_safe|]. intros db r _ _. destruct r as [[e|]|]; try done. cbn [safe].
  split; [intros db1 Hdb1; unfold run_state, write; by case_if|].
  intros db1 r1 _ _. destruct r1; [|done]. cbn [safe].
  split; [apply select_safe|]. intros db2 r2 Hdb2 Hr2. destruct r2 as [course|]; [|done].
  apply course_read in Hr2. pose proof (seats_of_read _ _ _ (proj1 Hdb2) Hr2).
  destruct (0 <? c_current_students course) eqn:Hpos; [|done]. apply Z.ltb_lt in Hpos. cbn [safe].
  split; [eapply counter_write_safe; [exact Hdb2|exact Hr2|lia]|]. done.
Qed.

(** ** Exact counters when the actions run alone *)

Definition active_in (c : string) (e : Enrollment) : bool :=
  String.eqb (e_course_id e) c && negb (is_canceled e).

Lemma active_count_insert c uid cid db :
  active_count c (insert_enrollment uid cid db) = active_count c db + (if String.eqb cid c then 1 else 0).
Proof.
  unfold active_count, insert_enrollment. simpl. rewrite List.filter_app, length_app. simpl.
  unfold is_canceled. simpl. destruct (String.eqb cid c); simpl; lia.
Qed.

Lemma cancel_map_other (id : string) l :
  id ∉ map e_id l ->
  map (fun e => if String.eqb (e_id e) id then
         {| e_id := e_id e; e_user_id := e_user_id e; e_course_id := e_course_id e;
            e_status := Canceled |} else e) l = l.
Proof.
  induction l as [|e l IH]; simpl; [done|]. rewrite not_elem_of_cons. intros [Hne Hl].
  rewrite IH by done. destruct (String.eqb_spec (e_id e) id); [congruence|done].
Qed.

Lemma active_count_cancel c e db :
  NoDup (map e_id (db_enrollments db)) -> In e (db_enrollments db) -> is_canceled e = false ->
  active_count c (set_enrollment_status (e_id e) Canceled db) =
    active_count c db - (if String.eqb (e_course_id e) c then 1 else 0).
Proof.
  intros Hnd Hin Hact. unfold active_count, set_enrollment_status. simpl.
  destruct (in_split _ _ Hin) as (l1 & l2 & Hl). rewrite Hl in *.
  rewrite map_app in Hnd. simpl in Hnd. apply NoDup_app in Hnd as (Hn1 & Hdisj & Hn2).
  apply NoDup_cons in Hn2 as [Hn2 _].
  assert (Hn1' : e_id e ∉ map e_id l1) by (intros H; apply (Hdisj _ H), elem_of_cons; by left).
  rewrite map_app. simpl. rewrite !cancel_map_other by done. rewrite String.eqb_refl.
  rewrite !List.filter_app, !length_app. simpl. unfold is_canceled in *. simpl. rewrite Hact.
  destruct (String.eqb (e_course_id e) c); simpl; lia.
Qed.

Lemma courses_with_id_unique db c :
  NoDup (map c_id (db_courses db)) -> In c (db_courses db) -> courses_with_id (c_id c) db = [c].
Proof. intros Hnd. apply filter_key_unique. by apply NoDup_ListNoDup. Qed.

Lemma active_count_pos cid e db :
  In e (db_enrollments db) -> e_course_id e = cid -> is_canceled e = false -> 1 <= active_count cid db.
Proof.
  intros Hin Hc Ha. unfold active_count.
  assert (Hf : In e (List.filter (fun e => String.eqb (e_course_id e) cid && negb (is_canceled e))
                       (db_enrollments db))).
  { apply filter_In. split; [done|]. rewrite Hc, Ha, String.eqb_refl. done. }
  destruct (List.filter _ _); [done|]. simpl. lia.
Qed.

Lemma active_count_set_current x cid n db : active_count x (set_current_students cid n db) = active_count x db.
Proof. done. Qed.

(** Writing a counter that matches the new count keeps the counters
    exact, when the other courses' counts did not move. *)
Lemma counter_exact_update cid n db db' :
  counter_exact db -> db_courses db' = db_courses db ->
  (forall c, In c (db_courses db) -> c_id c <> cid -> active_count (c_id c) db' = active_count (c_id c) db) ->
  n = active_count cid db' ->
  counter_exact (set_current_students cid n db').
Proof.
  unfold counter_exact. intros Hc Hcs Hother Hn. unfold set_current_students at 2, with_current_students. simpl.
  rewrite Hcs. apply Forall_map. apply List.Forall_forall. intros c Hin.
  rewrite active_count_set_current.
  destruct (String.eqb_spec (c_id c) cid) as [->|Hne]; [done|].
  rewrite Hother by done. by apply (proj1 (List.Forall_forall _ _) Hc).
Qed.

Lemma enroll_keeps_inv uid cid db : enroll_inv db -> enroll_inv (run_state (run_proc (enrollCourse (Some uid) cid)) db).
Proof.
  intros (Hc & Hnc & Hne & Hfr).
  destruct (enroll_run uid cid db) as [->|(course & Hcid & _ & _ & E)]; [done|].
  unfold run_state. rewrite E. cbn [fst].
  assert (Hin : In course (db_courses db)) by (apply (courses_with_id_In cid); rewrite Hcid; by left).
  assert (Hcur : c_current_students course = active_count cid db).
  { rewrite (proj1 (List.Forall_forall _ _) Hc course Hin).
    assert (Hin' : In course (courses_with_id cid db)) by (rewrite Hcid; by left).
    by apply courses_with_id_In in Hin' as [_ ->]. }
  split; [|split; [|split]].
  - eapply counter_exact_update; [exact Hc|done| |].
    + intros c _ Hid. rewrite active_count_insert. destruct (String.eqb_spec cid (c_id c)); [congruence|lia].
    + rewrite active_count_insert, String.eqb_refl. lia.
  - unfold set_current_students. simpl. rewrite map_map.
    erewrite map_ext; [exact Hnc|]. intros c. by case_if.
  - simpl. rewrite map_app. apply NoDup_app. split; [done|]. split; [|apply NoDup_singleton].
    intros x Hx ->%list_elem_of_singleton. by apply (fresh_id_not_in _ db Hfr).
  - simpl. rewrite map_app. by apply ids_fresh_snoc.
Qed.

Lemma map_c_id_set_current cid n db : map c_id (db_courses (set_current_students cid n db)) = map c_id (db_courses db).
Proof. unfold set_current_students. simpl. rewrite map_map. apply map_ext. intros c. by case_if. Qed.

Lemma map_e_id_set_status id st db :
  map e_id (db_enrollments (set_enrollment_status id st db)) = map e_id (db_enrollments db).
Proof. unfold set_enrollment_status. simpl. rewrite map_map. apply map_ext. intros e. by case_if. Qed.

(** The enrolment [cancelEnrollment] cancels is an active enrolment of
    the course. *)
Lemma canceled_active uid cid db e :
  List.filter (fun e => negb (is_canceled e)) (enrollments_of uid cid db) = [e] ->
  In e (db_enrollments db) /\ e_course_id e = cid /\ is_canceled e = false.
Proof.
  intros H. assert (Hin : In e (List.filter (fun e => negb (is_canceled e)) (enrollments_of uid cid db)))
    by (rewrite H; by left).
  apply filter_In in Hin as [Hin Ha]. unfold enrollments_of in Hin. apply filter_In in Hin as [Hin Hu].
  apply andb_prop in Hu as [_ Hc%String.eqb_eq]. apply negb_true_iff in Ha. done.
Qed.

Lemma cancel_keeps_inv uid cid db :
  table_fails T_courses db = false -> enroll_inv db ->
  enroll_inv (run_state (run_proc (cancelEnrollment (Some uid) cid)) db).
Proof.
  intros Hf (Hc & Hnc & Hne & Hfr).
  destruct (cancel_run uid cid db) as [->|(e & He & _ & Hbr)]; [done|].
  destruct (canceled_active _ _ _ _ He) as (Hin & Hcid & Hact).
  assert (Hother : forall c, In c (db_courses db) -> c_id c <> cid ->
            active_count (c_id c) (set_enrollment_status (e_id e) Canceled db) = active_count (c_id c) db).
  { intros c _ Hne'. rewrite active_count_cancel by done. rewrite Hcid.
    destruct (String.eqb_spec cid (c_id c)); [congruence|lia]. }
  destruct Hbr as [(course & _ & Hcourse & Hpos & ->)|([?|Hle] & ->)]; [|congruence|].
  - split; [|split; [|split]].
    + eapply counter_exact_update; [exact Hc|done|exact Hother|].
      rewrite active_count_cancel, Hcid, String.eqb_refl by done.
      assert (Hin' : In course (courses_with_id cid db)) by (rewrite Hcourse; by left).
      apply courses_with_id_In in Hin' as [Hin' Hid].
      rewrite (proj1 (List.Forall_forall _ _) Hc course Hin'), Hid. lia.
    + by rewrite map_c_id_set_current.
    + change (NoDup (map e_id (db_enrollments (set_enrollment_status (e_id e) Canceled db)))).
      by rewrite map_e_id_set_status.
    + change (ids_fresh (map e_id (db_enrollments (set_enrollment_status (e_id e) Canceled db)))
                (db_next_id db)). by rewrite map_e_id_set_status.
  - split; [|split; [done|split]].
    + unfold counter_exact. apply List.Forall_forall. intros c Hc'. simpl.
      destruct (String.eqb_spec (c_id c) cid) as [Hid|Hne'].
      * exfalso. pose proof (Hle c) as Hle'. rewrite <- Hid, courses_with_id_unique in Hle' by done.
        specialize (Hle' eq_refl). rewrite (proj1 (List.Forall_forall _ _) Hc c Hc') in Hle'.
        pose proof (active_count_pos (c_id c) e db Hin ltac:(congruence) Hact). lia.
      * rewrite Hother by done. by apply (proj1 (List.Forall_forall _ _) Hc).
    + by rewrite map_e_id_set_status.
    + change (ids_fresh (map e_id (db_enrollments (set_enrollment_status (e_id e) Canceled db)))
                (db_next_id db)). by rewrite map_e_id_set_status.
Qed.

(** ** Theorems *)

(** One action run alone, from start to end. *)
Inductive enroll_step : Db -> Db -> Prop :=
  | es_enroll user cid db : enroll_step db (run_state (run_proc (enrollCourse user cid)) db)
  | es_cancel user cid db : enroll_step db (run_state (run_proc (cancelEnrollment user cid)) db).

(** Which tables fail never changes. *)
Lemma enroll_step_failing db db' : enroll_step db db' -> db_failing db' = db_failing db.
Proof.
  intros [[uid|] cid db0|[uid|] cid db0]; try done.
  - destruct (enroll_run uid cid db0) as [E|(? & _ & _ & _ & E)]; [by rewrite E|].
    unfold run_state. by rewrite E.
  - by destruct (cancel_run uid cid db0) as [E|(e & _ & _ & [(? & _ & _ & _ & E)|(_ & E)])]; rewrite E.
Qed.

(** C6. Enrolments and cancellations that run one at a time keep every
    course's [current_students] equal to its number of active
    enrolments (with unique ids), as long as the courses table answers:
    each action writes the counter it read plus or minus one right after
    changing one enrolment. *)
Theorem counters_exact_sequential db db' :
  table_fails T_courses db = false -> enroll_inv db -> rtc enroll_step db db' -> enroll_inv db'.
Proof.
  intros Hf Hi Hr. induction Hr as [db|db1 db2 db3 Hs _ IH]; [done|].
  apply IH; [by rewrite <- Hf; unfold table_fails; rewrite (enroll_step_failing _ _ Hs)|].
  destruct Hs as [[uid|] cid db1|[uid|] cid db1]; try done.
  - by apply enroll_keeps_inv.
  - by apply cancel_keeps_inv.
Qed.

(** The actions of a set of concurrent requests: enrolments and
    cancellations, by any users, in any courses. *)
Definition enrollment_action (p : proc action_result) : Prop :=
  exists user cid, p = enrollCourse user cid \/ p = cancelEnrollment user cid.

(** C7. Whatever the interleaving of concurrent enrolments and
    cancellations, every course's [current_students] stays within
    [0, max_students]: each counter write is the value its action read,
    plus one below the capacity or minus one above zero. *)
Theorem seats_any_interleaving sched ts ts' db db' :
  Forall enrollment_action ts -> seats_ok db ->
  run_sched sched (ts, db) = Some (ts', db') -> seats_ok db'.
Proof.
  intros Hts Hs Hr. apply (run_sched_safe (seats_inv (course_shape db)) sched ts ts' db db');
    [|done|done].
  eapply Forall_impl; [exact Hts|]. intros p (user & cid & [->| ->]).
  - apply enroll_safe.
  - apply cancel_safe.
Qed.

(** ** Runs on small stores *)

Definition course_seats (id : string) (max cur : Z) : Course :=
  course_row id "coding" max cur 0 "recruiting".

Definition db_courses_only (cs : list Course) : Db :=
  {| db_profiles := []; db_courses := cs; db_enrollments := []; db_contents := [];
     db_likes := []; db_bookmarks := []; db_job_postings := []; db_content_tags := [];
     db_featured_items := []; db_hero_banners := []; db_failing := []; db_next_id := 0 |}.


(** Two students and the last seat: both requests read the counter
    before either writes it. *)
Definition race : option (config action_result) :=
  run_sched [0; 1; 0; 1; 0; 1; 0; 1]%nat
    ([enrollCourse (Some "u1") "c1"; enrollCourse (Some "u2") "c1"], db_courses_only [course_seats "c1" 1 0]).



(** ** Witnesses *)

Definition db_c1 : Db := db_courses_only [course_seats "c1" 30 0].

Lemma enroll_inv_db_c1 : enroll_inv db_c1.
Proof.
  split; [repeat constructor|]. split; [repeat constructor; set_solver|].
  split; [constructor|]. intros k _. apply not_elem_of_nil.
Qed.

Lemma counters_exact_sequential_witness :
  table_fails T_courses db_c1 = false /\ enroll_inv db_c1 /\
  enroll_inv (run_state (run_proc (cancelEnrollment (Some "u1") "c1"))
                (run_state (run_proc (enrollCourse (Some "u1") "c1")) db_c1)).
Proof.
  split; [reflexivity|]. split; [exact enroll_inv_db_c1|].
  apply (counters_exact_sequential db_c1); [reflexivity|exact enroll_inv_db_c1|].
  eapply rtc_l; [apply es_enroll|]. eapply rtc_l; [apply es_cancel|]. apply rtc_refl.
Defined.

Definition race_threads : list (proc action_result) :=
  match race with Some (ts, _) => ts | None => [] end.
Definition race_db : Db :=
  match race with Some (_, db) => db | None => db_c1 end.

Lemma seats_any_interleaving_witness :
  Forall enrollment_action [enrollCourse (Some "u1") "c1"; enrollCourse (Some "u2") "c1"] /\
  seats_ok (db_courses_only [course_seats "c1" 1 0]) /\
  race = Some (race_threads, race_db) /\ seats_ok race_db.
Proof.
  assert (Ha : Forall enrollment_action [enrollCourse (Some "u1") "c1"; enrollCourse (Some "u2") "c1"]).
  { repeat constructor; do 2 eexists; left; reflexivity. }
  assert (Hs : seats_ok (db_courses_only [course_seats "c1" 1 0])) by (repeat constructor; cbn; lia).
  assert (Hr : race = Some (race_threads, race_db)) by (vm_compute; reflexivity).
  split; [exact Ha|]. split; [exact Hs|]. split; [exact Hr|].
  exact (seats_any_interleaving _ _ _ _ _ Ha Hs Hr).
Defined.
