(* ===== verification/Likes.v ===== *)
(** Likes, bookmarks and the content detail page, server side.

    [toggleLike] and [toggleBookmark] of [src/app/actions/contents.ts]
    and [ContentDetailPage] of [src/app/(main)/contents/[id]/page.tsx]
    (lines 62-107): the page reads the content, writes [view_count + 1],
    reads whether the viewer liked and bookmarked it with [.single()],
    and renders the body with [renderBody] ([Markup]).  The server
    actions read a row with [.single()] and delete or insert it; the like
    toggle then reads [like_count] and writes it back plus or minus one.

    Theorems: a like toggled twice gives the store back; run one at a
    time, toggles keep every content's [like_count] equal to its number
    of like rows; a store with two like rows for one user (which the
    client button can create, [LikeButton]) reads as not liked. *)

From stdpp Require Import base list strings.
From Stdlib Require Import ZArith Lia.
From S2P Require Import Prelude Store Markup.

Local Open Scope Z_scope.

(** ** Queries *)

(** [.eq('user_id', uid).eq('content_id', cid)] on [likes]. *)
Definition like_matches (uid cid : string) (l : Like) : bool :=
  String.eqb (l_user_id l) uid && String.eqb (l_content_id l) cid.

Definition likes_of (uid cid : string) (db : Db) : list Like :=
  List.filter (like_matches uid cid) (db_likes db).

(** [.eq('id', cid)] on [contents]. *)
Definition contents_with_id (cid : string) (db : Db) : list Content :=
  List.filter (fun c => String.eqb (ct_id c) cid) (db_contents db).

(** [.insert({ user_id, content_id })]: a new row with a fresh id. *)
Definition insert_like (uid cid : string) (db : Db) : Db :=
  set_likes (db_likes db ++ [{| l_id := fresh_id db; l_user_id := uid; l_content_id := cid |}])
    (bump_id db).

(** [.delete().eq('user_id', uid).eq('content_id', cid)] *)
Definition delete_likes (uid cid : string) (db : Db) : Db :=
  set_likes (List.filter (fun l => negb (like_matches uid cid l)) (db_likes db)) db.

Definition with_like_count (n : Z) (c : Content) : Content :=
  {| ct_id := ct_id c; ct_title := ct_title c; ct_summary := ct_summary c; ct_body := ct_body c;
     ct_author_name := ct_author_name c; ct_author_title := ct_author_title c;
     ct_thumbnail_url := ct_thumbnail_url c; ct_category := ct_category c; ct_tags := ct_tags c;
     ct_view_count := ct_view_count c; ct_like_count := n; ct_is_featured := ct_is_featured c;
     ct_created_at := ct_created_at c |}.

Definition with_view_count (n : Z) (c : Content) : Content :=
  {| ct_id := ct_id c; ct_title := ct_title c; ct_summary := ct_summary c; ct_body := ct_body c;
     ct_author_name := ct_author_name c; ct_author_title := ct_author_title c;
     ct_thumbnail_url := ct_thumbnail_url c; ct_category := ct_category c; ct_tags := ct_tags c;
     ct_view_count := n; ct_like_count := ct_like_count c; ct_is_featured := ct_is_featured c;
     ct_created_at := ct_created_at c |}.

(** [.update({ like_count: n }).eq('id', cid)] *)
Definition set_like_count (cid : string) (n : Z) (db : Db) : Db :=
  set_contents (map (fun c => if String.eqb (ct_id c) cid then with_like_count n c else c)
                  (db_contents db)) db.

(** [.update({ view_count: n }).eq('id', cid)] *)
Definition set_view_count (cid : string) (n : Z) (db : Db) : Db :=
  set_contents (map (fun c => if String.eqb (ct_id c) cid then with_view_count n c else c)
                  (db_contents db)) db.

(** The [content_type] of a bookmark. *)
Inductive bookmark_kind := BkContent | BkCourse.

#[export] Instance bookmark_kind_eq_dec : EqDecision bookmark_kind.
Proof. solve_decision. Defined.

Definition kind_str (k : bookmark_kind) : string :=
  match k with BkContent => "content" | BkCourse => "course" end.

(** [.eq('user_id', uid).eq('content_type', k)] and then
    [.eq('content_id', id)] or [.eq('course_id', id)]; a [NULL] column
    equals nothing. *)
Definition bookmark_matches (uid : string) (k : bookmark_kind) (id : string) (b : Bookmark) : bool :=
  String.eqb (b_user_id b) uid && String.eqb (b_content_type b) (kind_str k) &&
  bool_decide ((match k with BkContent => b_content_id b | BkCourse => b_course_id b end) = Some id).

Definition bookmarks_of (uid : string) (k : bookmark_kind) (id : string) (db : Db) : list Bookmark :=
  List.filter (bookmark_matches uid k id) (db_bookmarks db).

(** [.delete().eq('id', bid)] *)
Definition delete_bookmark (bid : string) (db : Db) : Db :=
  set_bookmarks (List.filter (fun b => negb (String.eqb (b_id b) bid)) (db_bookmarks db)) db.

(** The [insertData] record: [user_id], [content_type] and the id in
    [content_id] or [course_id]. *)
Definition new_bookmark (uid : string) (k : bookmark_kind) (id : string) (db : Db) : Bookmark :=
  {| b_id := fresh_id db; b_user_id := uid;
     b_content_id := if decide (k = BkContent) then Some id else None;
     b_course_id := if decide (k = BkContent) then None else Some id;
     b_content_type := kind_str k |}.

Definition insert_bookmark (uid : string) (k : bookmark_kind) (id : string) (db : Db) : Db :=
  set_bookmarks (db_bookmarks db ++ [new_bookmark uid k id db]) (bump_id db).

(** ** Server actions (contents.ts) *)

(** [if (content) await ...update({ like_count: f(content.like_count) })] *)
Definition write_like_count (contentId : string) (f : Z -> Z) : Act unit :=
  let* content := select_resp T_contents (fun db => single_resp (contents_with_id contentId db)) in
  match content with
  | RData c => let* _ := write T_contents OpUpdate (set_like_count contentId (f (ct_like_count c))) in
               st_ret tt
  | RErr => st_ret tt
  end.

(** [toggleLike] (lines 7-70); the result is [liked]. *)
Definition toggleLike (user : option string) (contentId : string) : Act bool :=
  match user with
  | None => st_throw msg_login
  | Some uid =>
      let* existingLike := select_resp T_likes (fun db => single_resp (likes_of uid contentId db)) in
      match existingLike with
      | RData _ =>
          let* _ := write T_likes OpDelete (delete_likes uid contentId) in
          let* _ := write_like_count contentId (fun n => Z.max 0 (n - 1)) in
          st_ret false
      | RErr =>
          let* _ := write T_likes OpInsert (insert_like uid contentId) in
          let* _ := write_like_count contentId (fun n => n + 1) in
          st_ret true
      end
  end.

(** [toggleBookmark] (lines 72-122); the result is [bookmarked]. *)
Definition toggleBookmark (user : option string) (contentId : string) (k : bookmark_kind) : Act bool :=
  match user with
  | None => st_throw msg_login
  | Some uid =>
      let* existing := select_resp T_bookmarks (fun db => single_resp (bookmarks_of uid k contentId db)) in
      match existing with
      | RData b =>
          let* _ := write T_bookmarks OpDelete (delete_bookmark (b_id b)) in
          st_ret false
      | RErr =>
          let* _ := write T_bookmarks OpInsert (insert_bookmark uid k contentId) in
          st_ret true
      end
  end.

(** ** The content detail page *)

(** [notFound()], or the page with the content as read (before its
    [view_count] was written), the rendered body and the buttons'
    initial state. *)
Inductive body_view := RawHtml (html : string) | Blocks (blocks : list block).

Inductive detail :=
  | NotFound
  | Detail (content : Content) (views : Z) (body : body_view) (hasLiked hasBookmarked : bool).

(** The article (lines 173-182): a body starting with ['<'] (written
    with the rich editor) is inserted as HTML, any other is rendered by
    [renderBody]. *)
Definition article (body : string) : body_view :=
  if startsWith "<" body then RawHtml body else Blocks (renderBody body).

Definition has_row {A} (r : resp A) : bool := match r with RData _ => true | RErr => false end.

(** [ContentDetailPage] (lines 62-107, the count shown at line 168 and
    the article). *)
Definition ContentDetailPage (user : option string) (id : string) : Act detail :=
  let* r := select_resp T_contents (fun db => single_resp (contents_with_id id db)) in
  match r with
  | RErr => st_ret NotFound
  | RData content =>
      let* _ := write T_contents OpUpdate (set_view_count id (ct_view_count content + 1)) in
      match user with
      | None => st_ret (Detail content (ct_view_count content + 1) (article (ct_body content)) false false)
      | Some uid =>
          let* likeData := select_resp T_likes (fun db => single_resp (likes_of uid id db)) in
          let* bookmarkData :=
            select_resp T_bookmarks (fun db => single_resp (bookmarks_of uid BkContent id db)) in
          st_ret (Detail content (ct_view_count content + 1) (article (ct_body content))
                         (has_row likeData) (has_row bookmarkData))
      end
  end.

(** A content with five likes, alone in the store. *)
Definition post : Content :=
  {| ct_id := "post"; ct_title := "post"; ct_summary := ""; ct_body := "hello"; ct_author_name := "editor";
     ct_author_title := None; ct_thumbnail_url := None; ct_category := "trend_report"; ct_tags := [];
     ct_view_count := 0; ct_like_count := 5; ct_is_featured := false; ct_created_at := 0 |}.

Definition db_post : Db := set_contents [post] db_empty.

(** ** Counters *)

(** The number of like rows of a content. *)
Definition likes_for (cid : string) (db : Db) : nat :=
  length (List.filter (fun l => String.eqb (l_content_id l) cid) (db_likes db)).

(** Content ids are a primary key and every [like_count] is the number
    of the content's like rows. *)
Definition like_counts_exact (db : Db) : Prop :=
  List.NoDup (map ct_id (db_contents db)) /\
  Forall (fun c => ct_like_count c = Z.of_nat (likes_for (ct_id c) db)) (db_contents db).

(** ** Lemmas *)

(** Run a store action whose tables do not fail. *)
Ltac act_simpl :=
  repeat first
    [ progress (autorewrite with jj_fail in * )
    | progress (cbv beta iota zeta delta [st_bind st_ret select_resp select write fst snd app])
    | match goal with
      | H : table_fails ?t ?db = _ |- context [table_fails ?t ?db] => rewrite H
      end ].

Lemma contents_with_id_likes x l db : contents_with_id x (set_likes l db) = contents_with_id x db.
Proof. done. Qed.
Lemma contents_with_id_bump x db : contents_with_id x (bump_id db) = contents_with_id x db.
Proof. done. Qed.
Lemma likes_of_contents uid cid l db : likes_of uid cid (set_contents l db) = likes_of uid cid db.
Proof. done. Qed.

Lemma with_like_count_same c : with_like_count (ct_like_count c) c = c.
Proof. by destruct c. Qed.

Lemma with_like_count_twice m n c : with_like_count m (with_like_count n c) = with_like_count m c.
Proof. done. Qed.

Lemma contents_with_id_set_like_count cid n db :
  contents_with_id cid (set_like_count cid n db) = map (with_like_count n) (contents_with_id cid db).
Proof.
  unfold contents_with_id, set_like_count. simpl. induction (db_contents db) as [|c l IH]; [done|].
  simpl. destruct (String.eqb (ct_id c) cid) eqn:E; simpl; rewrite ?E, IH; done.
Qed.

(** [write_like_count] reads the content and writes [f] of its count
    when there is exactly one. *)
Lemma write_like_count_run cid f db :
  table_fails T_contents db = false ->
  run_state (write_like_count cid f) db =
    match contents_with_id cid db with
    | [c] => set_like_count cid (f (ct_like_count c)) db
    | _ => db
    end /\ run_result (write_like_count cid f) db = Ok tt.
Proof.
  intros Hc. unfold write_like_count, run_state, run_result. act_simpl.
  destruct (contents_with_id cid db) as [|c [|c' l]]; simpl; act_simpl; done.
Qed.

(** One toggle, when the tables answer: a like is removed when the user
    has exactly one, added otherwise, and the count follows. *)
Lemma toggleLike_run uid cid db :
  table_fails T_likes db = false -> table_fails T_contents db = false ->
  let liked := bool_decide (length (likes_of uid cid db) = 1%nat) in
  let db1 := if liked then delete_likes uid cid db else insert_like uid cid db in
  run_state (toggleLike (Some uid) cid) db =
    match contents_with_id cid db with
    | [c] => set_like_count cid (if liked then Z.max 0 (ct_like_count c - 1) else ct_like_count c + 1) db1
    | _ => db1
    end /\ run_result (toggleLike (Some uid) cid) db = Ok (negb liked).
Proof.
  intros Hl Hc. cbv zeta. unfold toggleLike, run_state, run_result. act_simpl.
  destruct (single_resp (likes_of uid cid db)) as [x|] eqn:Es.
  - apply single_resp_RData in Es. rewrite Es, bool_decide_true by done. simpl. act_simpl.
    destruct (write_like_count_run cid (fun n => Z.max 0 (n - 1)) (delete_likes uid cid db)) as [Hs Hr];
      [unfold delete_likes; by autorewrite with jj_fail|].
    unfold run_state, run_result in Hs, Hr.
    destruct (write_like_count _ _ _) as [[db2 lg] r]. simpl in *. subst. split; [|done].
    unfold delete_likes. by rewrite contents_with_id_likes.
  - apply single_resp_RErr in Es. rewrite bool_decide_false by done. simpl. act_simpl.
    destruct (write_like_count_run cid (fun n => n + 1) (insert_like uid cid db)) as [Hs Hr];
      [unfold insert_like; by autorewrite with jj_fail|].
    unfold run_state, run_result in Hs, Hr.
    destruct (write_like_count _ _ _) as [[db2 lg] r]. simpl in *. subst. split; [|done].
    unfold insert_like. by rewrite contents_with_id_likes, contents_with_id_bump.
Qed.

Lemma likes_of_insert uid cid db :
  likes_of uid cid (insert_like uid cid db) =
    likes_of uid cid db ++ [{| l_id := fresh_id db; l_user_id := uid; l_content_id := cid |}].
Proof.
  unfold likes_of, insert_like. simpl. rewrite List.filter_app. simpl.
  unfold like_matches at 2. simpl. by rewrite !String.eqb_refl.
Qed.

(** Removing the user's likes after adding one gives the old rows back. *)
Lemma delete_after_insert uid cid db :
  likes_of uid cid db = [] ->
  List.filter (fun l => negb (like_matches uid cid l)) (db_likes (insert_like uid cid db)) = db_likes db.
Proof.
  intros Hnil. unfold insert_like. simpl. rewrite List.filter_app. simpl.
  unfold like_matches at 2. simpl. rewrite !String.eqb_refl. simpl. rewrite app_nil_r.
  unfold likes_of in Hnil. induction (db_likes db) as [|l ls IH]; [done|].
  simpl in *. destruct (like_matches uid cid l); [done|]. simpl. by rewrite IH.
Qed.

(** Setting the count of the only content with id [cid] to the count it
    has changes nothing. *)
Lemma set_like_count_same cid c n db :
  contents_with_id cid db = [c] -> ct_like_count c = n ->
  map (fun x => if String.eqb (ct_id x) cid then with_like_count n x else x) (db_contents db) = db_contents db.
Proof.
  intros Hc <-. rewrite <- (map_id (db_contents db)) at 2. apply map_ext_in. intros x Hx.
  destruct (String.eqb (ct_id x) cid) eqn:E; [|done].
  assert (Hin : In x (contents_with_id cid db)) by (apply filter_In; done).
  rewrite Hc in Hin. destruct Hin as [<-|[]]. apply with_like_count_same.
Qed.

Lemma table_fails_set_like_count t cid n db : table_fails t (set_like_count cid n db) = table_fails t db.
Proof. done. Qed.
Lemma table_fails_set_view_count t cid n db : table_fails t (set_view_count cid n db) = table_fails t db.
Proof. done. Qed.
Lemma table_fails_insert_like t uid cid db : table_fails t (insert_like uid cid db) = table_fails t db.
Proof. done. Qed.
Lemma table_fails_delete_likes t uid cid db : table_fails t (delete_likes uid cid db) = table_fails t db.
Proof. done. Qed.
#[export] Hint Rewrite table_fails_set_like_count table_fails_set_view_count
  table_fails_insert_like table_fails_delete_likes : jj_fail.

Lemma likes_of_set_like_count uid cid x n db : likes_of uid cid (set_like_count x n db) = likes_of uid cid db.
Proof. done. Qed.

Lemma contents_with_id_insert_like x uid cid db : contents_with_id x (insert_like uid cid db) = contents_with_id x db.
Proof. done. Qed.

(** Liking and then unliking, from no like, restores every row; only a
    fresh id has been used. *)
Lemma like_unlike_state uid cid db c :
  likes_of uid cid db = [] -> contents_with_id cid db = [c] -> 0 <= ct_like_count c ->
  set_like_count cid (Z.max 0 (ct_like_count c + 1 - 1))
    (delete_likes uid cid (set_like_count cid (ct_like_count c + 1) (insert_like uid cid db))) = bump_id db.
Proof.
  intros Hnil Hc Hpos. replace (Z.max 0 (ct_like_count c + 1 - 1)) with (ct_like_count c) by lia.
  pose proof (delete_after_insert uid cid db Hnil) as Hl.
  pose proof (set_like_count_same cid c _ db Hc eq_refl) as Hm.
  unfold set_like_count, delete_likes, insert_like, bump_id, set_contents, set_likes in *.
  simpl in *. f_equal; [|done].
  rewrite map_map. rewrite <- Hm at 2. apply map_ext. intros x.
  by destruct (String.eqb (ct_id x) cid) eqn:E; simpl; rewrite ?E.
Qed.

(** ** Theorems *)

(** Toggling a like twice is a round trip: from a store where the
    user has not liked the content (which exists once, with a count that
    is not negative), the first toggle likes it, the second unlikes it,
    and every row is as before; only a fresh id has been used. *)
Theorem toggleLike_twice uid cid db c :
  table_fails T_likes db = false -> table_fails T_contents db = false ->
  likes_of uid cid db = [] -> contents_with_id cid db = [c] -> 0 <= ct_like_count c ->
  let both := (let* a := toggleLike (Some uid) cid in
               let* b := toggleLike (Some uid) cid in st_ret (a, b)) in
  run_result both db = Ok (true, false) /\ run_state both db = bump_id db.
Proof.
  intros Hl Hc Hnil Hcw Hpos. cbv zeta.
  destruct (toggleLike_run uid cid db Hl Hc) as [S1 R1].
  rewrite Hnil, bool_decide_false in S1, R1 by (simpl; lia). rewrite Hcw in S1. cbn [negb] in R1.
  erewrite (proj1 (run_bind_ok _ _ _ _ R1)), (proj2 (run_bind_ok _ _ _ _ R1)).
  rewrite S1. set (db1 := set_like_count cid _ (insert_like uid cid db)).
  assert (Hl1 : table_fails T_likes db1 = false) by (subst db1; by autorewrite with jj_fail).
  assert (Hc1 : table_fails T_contents db1 = false) by (subst db1; by autorewrite with jj_fail).
  destruct (toggleLike_run uid cid db1 Hl1 Hc1) as [S2 R2].
  assert (Hlk : likes_of uid cid db1 = [{| l_id := fresh_id db; l_user_id := uid; l_content_id := cid |}])
    by (subst db1; by rewrite likes_of_set_like_count, likes_of_insert, Hnil).
  rewrite Hlk, bool_decide_true in S2, R2 by done.
  subst db1. rewrite contents_with_id_set_like_count, contents_with_id_insert_like, Hcw in S2.
  cbn [negb] in R2.
  erewrite (proj1 (run_bind_ok _ _ _ _ R2)), (proj2 (run_bind_ok _ _ _ _ R2)). split; [done|].
  rewrite S2. simpl. by apply like_unlike_state.
Qed.

Lemma contents_with_id_In cid db c :
  In c (contents_with_id cid db) <-> In c (db_contents db) /\ ct_id c = cid.
Proof. unfold contents_with_id. rewrite filter_In, String.eqb_eq. done. Qed.

Lemma likes_for_insert x uid cid db :
  likes_for x (insert_like uid cid db) = (likes_for x db + if String.eqb cid x then 1 else 0)%nat.
Proof.
  unfold likes_for, insert_like. simpl. rewrite List.filter_app, length_app. simpl.
  by destruct (String.eqb cid x).
Qed.

Lemma likes_for_delete x uid cid db :
  (likes_for x (delete_likes uid cid db) + (if String.eqb cid x then length (likes_of uid cid db) else 0)
   = likes_for x db)%nat.
Proof.
  unfold likes_for, likes_of, delete_likes. simpl.
  induction (db_likes db) as [|l ls IH]; simpl; [by destruct (String.eqb cid x)|].
  destruct (like_matches uid cid l) eqn:Em; simpl.
  - apply andb_true_iff in Em as [_ ->%String.eqb_eq].
    destruct (String.eqb cid x); simpl in *; lia.
  - destruct (String.eqb (l_content_id l) x); simpl; lia.
Qed.

Lemma map_ct_id_set_like_count cid n db :
  map ct_id (db_contents (set_like_count cid n db)) = map ct_id (db_contents db).
Proof.
  unfold set_like_count. simpl. rewrite map_map. apply map_ext. intros c.
  by destruct (String.eqb (ct_id c) cid).
Qed.

(** Writing the exact count of [cid] after a change of its like rows
    only. *)
Lemma exact_set_like_count cid n db db' :
  like_counts_exact db -> db_contents db' = db_contents db ->
  (forall x, x <> cid -> likes_for x db' = likes_for x db) -> n = Z.of_nat (likes_for cid db') ->
  like_counts_exact (set_like_count cid n db').
Proof.
  intros [Hnd Hex] Hcs Hother Hn. split; [by rewrite map_ct_id_set_like_count, Hcs|].
  unfold set_like_count at 2. simpl. rewrite Hcs. apply Forall_map. apply List.Forall_forall.
  intros c Hin. destruct (String.eqb_spec (ct_id c) cid) as [Hid|Hne]; simpl; [by rewrite Hid|].
  change (likes_for (ct_id c) (set_like_count cid n db')) with (likes_for (ct_id c) db').
  rewrite Hother by done. by apply (proj1 (List.Forall_forall _ _) Hex).
Qed.

(** A change of the like rows of a content that does not exist. *)
Lemma exact_no_content cid db db' :
  like_counts_exact db -> db_contents db' = db_contents db -> contents_with_id cid db = [] ->
  (forall x, x <> cid -> likes_for x db' = likes_for x db) -> like_counts_exact db'.
Proof.
  intros [Hnd Hex] Hcs Hnone Hother. split; [by rewrite Hcs|]. rewrite Hcs.
  apply List.Forall_forall. intros c Hin. rewrite Hother.
  - by apply (proj1 (List.Forall_forall _ _) Hex).
  - intros Hid. assert (Hc : In c (contents_with_id cid db)) by (by apply contents_with_id_In).
    by rewrite Hnone in Hc.
Qed.

(** C18. Toggles run one at a time keep every content's [like_count]
    equal to its number of like rows, when the tables answer: a user
    with exactly one like loses it and the count goes down by one, any
    other user gains a like and the count goes up by one (also a user
    with two likes, whom [.single()] reads as having none). *)
Theorem toggleLike_keeps_counts user cid db :
  table_fails T_likes db = false -> table_fails T_contents db = false ->
  like_counts_exact db -> like_counts_exact (run_state (toggleLike user cid) db).
Proof.
  intros Hl Hc Hex. destruct user as [uid|]; [|done].
  destruct (toggleLike_run uid cid db Hl Hc) as [-> _].
  set (liked := bool_decide _). set (db1 := if liked then _ else _).
  assert (Hcs : db_contents db1 = db_contents db) by (subst db1; by destruct liked).
  pose proof (fun x => likes_for_delete x uid cid db) as Hdel.
  pose proof (fun x => likes_for_insert x uid cid db) as Hins.
  assert (Hother : forall x, x <> cid -> likes_for x db1 = likes_for x db).
  { intros x Hx. specialize (Hdel x). specialize (Hins x).
    rewrite (proj2 (String.eqb_neq cid x)) in Hdel, Hins by congruence.
    subst db1; destruct liked; lia. }
  destruct (contents_with_id cid db) as [|c [|c' l]] eqn:Ecw.
  - by apply exact_no_content with cid db.
  - apply exact_set_like_count with db; [done..|].
    assert (Hin : In c (contents_with_id cid db)) by (rewrite Ecw; left; done).
    apply contents_with_id_In in Hin as [Hin Hid].
    rewrite (proj1 (List.Forall_forall _ _) (proj2 Hex) c Hin), Hid.
    specialize (Hdel cid). specialize (Hins cid). rewrite String.eqb_refl in Hdel, Hins.
    subst db1 liked. destruct (bool_decide_reflect (length (likes_of uid cid db) = 1%nat)); lia.
  - exfalso. assert (Hin : In c (contents_with_id cid db)) by (rewrite Ecw; left; done).
    apply contents_with_id_In in Hin as [Hin <-].
    pose proof (filter_key_unique ct_id _ c (proj1 Hex) Hin) as Hu.
    unfold contents_with_id in Ecw. congruence.
Qed.

Lemma has_row_single {A} (l : list A) : has_row (single_resp l) = bool_decide (length l = 1%nat).
Proof. by destruct l as [|x [|y l]]. Qed.



(** C20. The content detail page: when the content's row is read, the page
    writes [view_count + 1] once, shows that count and the article, and
    shows the viewer's like (and bookmark) as set exactly when the read
    answers with exactly one row; otherwise the page is [notFound()]
    and the store is unchanged. *)
Theorem ContentDetailPage_spec user cid db :
  let page := ContentDetailPage user cid in
  match contents_with_id cid db with
  | [content] =>
      table_fails T_contents db = false ->
      run_state page db = set_view_count cid (ct_view_count content + 1) db /\
      run_result page db =
        Ok (Detail content (ct_view_count content + 1) (article (ct_body content))
              (match user with
               | Some uid => negb (table_fails T_likes db) && bool_decide (length (likes_of uid cid db) = 1%nat)
               | None => false end)
              (match user with
               | Some uid => negb (table_fails T_bookmarks db) &&
                             bool_decide (length (bookmarks_of uid BkContent cid db) = 1%nat)
               | None => false end))
  | _ => run_state page db = db /\ run_result page db = Ok NotFound
  end.
Proof.
  cbv zeta. unfold ContentDetailPage, run_state, run_result. act_simpl.
  destruct (contents_with_id cid db) as [|content [|c' l]] eqn:Ecw;
    [by destruct (table_fails T_contents db)| |by destruct (table_fails T_contents db)].
  intros Hc. rewrite Hc. cbn [single_resp]. act_simpl.
  destruct user as [uid|]; act_simpl; [|done].
  rewrite <- !has_row_single.
  destruct (table_fails T_likes db), (table_fails T_bookmarks db); done.
Qed.

Lemma contents_with_id_set_view_count cid n db :
  contents_with_id cid (set_view_count cid n db) = map (with_view_count n) (contents_with_id cid db).
Proof.
  unfold contents_with_id, set_view_count. simpl. induction (db_contents db) as [|c l IH]; [done|].
  simpl. destruct (String.eqb (ct_id c) cid) eqn:E; simpl; rewrite ?E, IH; done.
Qed.

Lemma likes_of_set_view_count uid cid x n db : likes_of uid cid (set_view_count x n db) = likes_of uid cid db.
Proof. done. Qed.

Lemma toggleLike_twice_witness :
  table_fails T_likes db_post = false /\ table_fails T_contents db_post = false /\
  likes_of "u" "post" db_post = [] /\ contents_with_id "post" db_post = [post] /\ 0 <= ct_like_count post /\
  run_result (let* a := toggleLike (Some "u") "post" in let* b := toggleLike (Some "u") "post" in st_ret (a, b))
    db_post = Ok (true, false) /\
  run_state (let* a := toggleLike (Some "u") "post" in let* b := toggleLike (Some "u") "post" in st_ret (a, b))
    db_post = bump_id db_post.
Proof.
  assert (H1 : table_fails T_likes db_post = false) by reflexivity.
  assert (H2 : table_fails T_contents db_post = false) by reflexivity.
  assert (H3 : likes_of "u" "post" db_post = []) by reflexivity.
  assert (H4 : contents_with_id "post" db_post = [post]) by reflexivity.
  assert (H5 : 0 <= ct_like_count post) by (simpl; lia).
  do 5 (split; [assumption|]). exact (toggleLike_twice "u" "post" db_post post H1 H2 H3 H4 H5).
Defined.

Lemma toggleLike_keeps_counts_witness :
  table_fails T_likes db_post = false /\ table_fails T_contents db_post = false /\
  like_counts_exact (set_contents [with_like_count 0 post] db_post) /\
  like_counts_exact (run_state (toggleLike (Some "u") "post") (set_contents [with_like_count 0 post] db_post)).
Proof.
  assert (H1 : table_fails T_likes (set_contents [with_like_count 0 post] db_post) = false) by reflexivity.
  assert (H2 : table_fails T_contents (set_contents [with_like_count 0 post] db_post) = false) by reflexivity.
  assert (H3 : like_counts_exact (set_contents [with_like_count 0 post] db_post)).
  { split; [repeat constructor; simpl; intuition|]. repeat constructor. }
  split; [reflexivity|]. split; [reflexivity|]. split; [exact H3|].
  exact (toggleLike_keeps_counts (Some "u") "post" _ H1 H2 H3).
Defined.

Lemma ContentDetailPage_spec_witness :
  table_fails T_contents db_post = false /\
  run_state (ContentDetailPage (Some "u") "post") db_post = set_view_count "post" 1 db_post /\
  run_result (ContentDetailPage (Some "u") "post") db_post =
    Ok (Detail post 1 (article "hello") (negb false && bool_decide (length (likes_of "u" "post" db_post) = 1%nat))
          (negb false && bool_decide (length (bookmarks_of "u" BkContent "post" db_post) = 1%nat))).
Proof.
  pose proof (ContentDetailPage_spec (Some "u") "post" db_post) as H. cbv zeta in H.
  change (contents_with_id "post" db_post) with [post] in H.
  split; [reflexivity|]. exact (H eq_refl).
Defined.
