(* ===== verification/LikeButton.v ===== *)
(** The optimistic like and bookmark buttons.

    [LikeButton] and [BookmarkButton] of [src/components/features/]
    are client components: a click runs an async handler that returns at
    once when [loading] is set, awaits [supabase.auth.getUser()], flips
    the button's state optimistically, sets [loading], awaits one or two
    writes, and clears [loading] in [finally]; a [catch] would restore the
    old state.  Several clicks' handlers can be in flight at once: the
    [loading] guard is set only after the first await.

    [Section Button] models both buttons as one machine: the button state
    ([on], [count], [loading]), the handlers in flight ([thread]s, each at
    the await it is suspended on, with the values its closure read at the
    click) and the store.  A step is a click or the resumption of one
    handler; a resumption runs the handler up to its next await, and a
    request reaches the store when it is sent.  React re-renders between
    events, so a click reads the current state.  [like_button] and
    [bookmark_button] give the requests each button sends. *)

From stdpp Require Import base list strings.
From Stdlib Require Import ZArith Lia.
From S2P Require Import Prelude Store Likes.

Local Open Scope Z_scope.

(** The state hooks of a button: [liked]/[bookmarked], [count] (unused
    by the bookmark button) and [loading]. *)
Record ui := { ui_on : bool; ui_count : Z; ui_loading : bool }.

(** Where a handler in flight is suspended. *)
Inductive phase :=
  | AwaitUser
  | AwaitWrite (rest : list (Act (resp unit))).

(** A handler in flight: [wasLiked]/[wasBookmarked] and [prevCount] as
    its closure read them, and its await. *)
Record thread := { th_was : bool; th_prev : Z; th_phase : phase }.

Record client := { cl_ui : ui; cl_threads : list thread; cl_db : Db }.

Inductive event := Click | Resume (i : nat).

Section Button.
(** The user [getUser] resolves to. *)
Context (user : option string).
(** The writes the handler sends after flipping, from the user, the old
    state and the old count. *)
Context (requests : string -> bool -> Z -> list (Act (resp unit))).
(** The optimistic count. *)
Context (next_count : bool -> Z -> Z).

Definition set_threads (ts : list thread) (c : client) : client :=
  {| cl_ui := cl_ui c; cl_threads := ts; cl_db := cl_db c |}.

(** Send the next request of thread [i], or run [finally] when none is
    left; a request that throws runs [catch] (the rollback) and then
    [finally]. *)
Definition send (i : nat) (t : thread) (rest : list (Act (resp unit))) (c : client) : client :=
  match rest with
  | [] =>
      {| cl_ui := {| ui_on := ui_on (cl_ui c); ui_count := ui_count (cl_ui c); ui_loading := false |};
         cl_threads := delete i (cl_threads c); cl_db := cl_db c |}
  | r :: rest' =>
      match r (cl_db c) with
      | (db', _, Ok _) =>
          {| cl_ui := cl_ui c;
             cl_threads := <[i := {| th_was := th_was t; th_prev := th_prev t; th_phase := AwaitWrite rest' |}]>
                             (cl_threads c);
             cl_db := db' |}
      | (db', _, Thrown _) =>
          {| cl_ui := {| ui_on := th_was t; ui_count := th_prev t; ui_loading := false |};
             cl_threads := delete i (cl_threads c); cl_db := db' |}
      end
  end.

(** One event. *)
Definition button_step (ev : event) (c : client) : client :=
  match ev with
  | Click =>
      if ui_loading (cl_ui c) then c
      else set_threads (cl_threads c ++ [{| th_was := ui_on (cl_ui c); th_prev := ui_count (cl_ui c);
                                            th_phase := AwaitUser |}]) c
  | Resume i =>
      match cl_threads c !! i with
      | None => c
      | Some t =>
          match th_phase t with
          | AwaitUser =>
              match user with
              | None => set_threads (delete i (cl_threads c)) c
              | Some uid =>
                  send i t (requests uid (th_was t) (th_prev t))
                    {| cl_ui := {| ui_on := negb (th_was t); ui_count := next_count (th_was t) (th_prev t);
                                   ui_loading := true |};
                       cl_threads := cl_threads c; cl_db := cl_db c |}
              end
          | AwaitWrite rest => send i t rest c
          end
      end
  end.

Definition run_events (evs : list event) (c : client) : client :=
  fold_left (fun c ev => button_step ev c) evs c.

(** The button mounted with the page's initial state. *)
Definition mount (on : bool) (count : Z) (db : Db) : client :=
  {| cl_ui := {| ui_on := on; ui_count := count; ui_loading := false |}; cl_threads := []; cl_db := db |}.
End Button.

(** ** The two buttons *)

(** [LikeButton] (lines 18-67): delete the user's likes or insert one,
    then write [prevCount - 1] or [prevCount + 1] as [like_count]. *)
Definition like_requests (contentId : string) (uid : string) (wasLiked : bool) (prevCount : Z)
    : list (Act (resp unit)) :=
  if wasLiked then
    [write T_likes OpDelete (delete_likes uid contentId);
     write T_contents OpUpdate (set_like_count contentId (prevCount - 1))]
  else
    [write T_likes OpInsert (insert_like uid contentId);
     write T_contents OpUpdate (set_like_count contentId (prevCount + 1))].

Definition like_count_next (wasLiked : bool) (prevCount : Z) : Z :=
  if wasLiked then prevCount - 1 else prevCount + 1.

(** The delete of [BookmarkButton]: [.eq('user_id').eq('content_type')]
    and then [deleteQuery.eq(...)], whose result is discarded; the query
    builder is mutable, so the filter is added to [deleteQuery] all the
    same. *)
Definition delete_bookmarks (uid : string) (k : bookmark_kind) (id : string) (db : Db) : Db :=
  set_bookmarks (List.filter (fun b => negb (bookmark_matches uid k id b)) (db_bookmarks db)) db.

(** [BookmarkButton] (lines 21-74). *)
Definition bookmark_requests (contentId : string) (k : bookmark_kind) (uid : string) (wasBookmarked : bool)
    (_ : Z) : list (Act (resp unit)) :=
  if wasBookmarked then [write T_bookmarks OpDelete (delete_bookmarks uid k contentId)]
  else [write T_bookmarks OpInsert (insert_bookmark uid k contentId)].

(** The like button of a content, and the bookmark button of a content
    or course, as the page renders them. *)
Definition run_like (user : option string) (contentId : string) : list event -> client -> client :=
  run_events user (like_requests contentId) like_count_next.

Definition run_bookmark (user : option string) (contentId : string) (k : bookmark_kind)
    : list event -> client -> client :=
  run_events user (bookmark_requests contentId k) (fun _ n => n).

(** ** Executions *)

(** The requests run one after the other. *)
Definition run_all (rs : list (Act (resp unit))) (db : Db) : Db :=
  fold_left (fun db r => run_state r db) rs db.

(** A click whose handler runs to its end before anything else happens:
    the click, the resumption after [getUser] and one resumption per
    request. *)
Definition click_alone (k : nat) : list event := Click :: repeat (Resume 0) (S k).

(** The like button agrees with the store: no handler in flight, the
    heart is filled exactly when the user has a like row (at most one),
    and the count shown is the content's [like_count]. *)
Definition like_agrees (uid cid : string) (c : client) : Prop :=
  cl_threads c = [] /\ ui_loading (cl_ui c) = false /\
  ui_on (cl_ui c) = bool_decide (likes_of uid cid (cl_db c) <> []) /\
  (length (likes_of uid cid (cl_db c)) <= 1)%nat /\
  exists content, contents_with_id cid (cl_db c) = [content] /\ ct_like_count content = ui_count (cl_ui c).


(** A request that returns a response (every [write] does: a failed
    write is an error value, not an exception). *)
Definition no_throw (r : Act (resp unit)) : Prop := forall db, exists v, run_result r db = Ok v.

(** ** Lemmas *)

Lemma write_no_throw t o f : no_throw (write t o f).
Proof. intros db. unfold write, run_result. destruct (table_fails t db); eauto. Qed.

Section ButtonRuns.
Context (user : option string) (requests : string -> bool -> Z -> list (Act (resp unit)))
        (next_count : bool -> Z -> Z).

Lemma run_events_cons ev evs c :
  run_events user requests next_count (ev :: evs) c =
    run_events user requests next_count evs (button_step user requests next_count ev c).
Proof. done. Qed.

Lemma resume_write_step c t rest :
  cl_threads c = [t] -> th_phase t = AwaitWrite rest ->
  button_step user requests next_count (Resume 0) c = send 0 t rest c.
Proof. intros Hts Hph. unfold button_step. rewrite Hts. simpl. by rewrite Hph. Qed.

Lemma send_ok i t r rest c db' lg v :
  r (cl_db c) = (db', lg, Ok v) ->
  send i t (r :: rest) c =
    {| cl_ui := cl_ui c;
       cl_threads := <[i := {| th_was := th_was t; th_prev := th_prev t; th_phase := AwaitWrite rest |}]>
                       (cl_threads c);
       cl_db := db' |}.
Proof. intros E. unfold send. by rewrite E. Qed.

Lemma resume_user_step uid c t :
  user = Some uid -> cl_threads c = [t] -> th_phase t = AwaitUser ->
  button_step user requests next_count (Resume 0) c =
    send 0 t (requests uid (th_was t) (th_prev t))
      {| cl_ui := {| ui_on := negb (th_was t); ui_count := next_count (th_was t) (th_prev t);
                     ui_loading := true |};
         cl_threads := cl_threads c; cl_db := cl_db c |}.
Proof. intros Hu Hts Hph. unfold button_step. rewrite Hts. simpl. by rewrite Hph, Hu. Qed.

(** The resumptions of a handler alone in flight, at its writes. *)
Lemma resume_writes rest c t :
  cl_threads c = [t] -> th_phase t = AwaitWrite rest -> Forall no_throw rest ->
  run_events user requests next_count (repeat (Resume 0) (S (length rest))) c =
    {| cl_ui := {| ui_on := ui_on (cl_ui c); ui_count := ui_count (cl_ui c); ui_loading := false |};
       cl_threads := []; cl_db := run_all rest (cl_db c) |}.
Proof.
  revert c t. induction rest as [|r rest IH]; intros c t Hts Hph Hok.
  - unfold run_events. simpl. rewrite Hts. simpl. rewrite Hph. unfold send. by rewrite Hts.
  - apply Forall_cons in Hok as [Hr Hrest]. destruct (Hr (cl_db c)) as [v Hv].
    unfold run_result in Hv. destruct (r (cl_db c)) as [[db' lg] res] eqn:Er. simpl in Hv. subst res.
    replace (repeat (Resume 0) (S (length (r :: rest))))
      with (Resume 0 :: repeat (Resume 0) (S (length rest))) by reflexivity.
    rewrite run_events_cons, (resume_write_step c t (r :: rest)), (send_ok _ _ _ _ _ _ _ _ Er) by done.
    change (run_all (r :: rest) (cl_db c)) with (run_all rest (run_state r (cl_db c))).
    unfold run_state. rewrite Er. cbn [fst]. rewrite Hts.
    erewrite (IH _ {| th_was := th_was t; th_prev := th_prev t; th_phase := AwaitWrite rest |}); done.
Qed.

(** A click whose handler runs alone flips the state, moves the count,
    runs the requests and clears [loading]. *)
Lemma click_alone_run uid c :
  user = Some uid -> cl_threads c = [] -> ui_loading (cl_ui c) = false ->
  Forall no_throw (requests uid (ui_on (cl_ui c)) (ui_count (cl_ui c))) ->
  run_events user requests next_count
    (click_alone (length (requests uid (ui_on (cl_ui c)) (ui_count (cl_ui c))))) c =
    {| cl_ui := {| ui_on := negb (ui_on (cl_ui c));
                   ui_count := next_count (ui_on (cl_ui c)) (ui_count (cl_ui c)); ui_loading := false |};
       cl_threads := [];
       cl_db := run_all (requests uid (ui_on (cl_ui c)) (ui_count (cl_ui c))) (cl_db c) |}.
Proof.
  intros Hu Hts Hld Hok. unfold click_alone. rewrite run_events_cons.
  set (t0 := {| th_was := ui_on (cl_ui c); th_prev := ui_count (cl_ui c); th_phase := AwaitUser |}).
  assert (Hc1 : button_step user requests next_count Click c = set_threads [t0] c)
    by (unfold button_step; by rewrite Hld, Hts).
  rewrite Hc1. change (repeat (Resume 0) (S ?n)) with (Resume 0 :: repeat (Resume 0) n).
  rewrite run_events_cons, (resume_user_step uid _ t0) by done. unfold t0. cbn [th_was th_prev].
  destruct (requests uid (ui_on (cl_ui c)) (ui_count (cl_ui c))) as [|r rest] eqn:Ers; [done|].
  apply Forall_cons in Hok as [Hr Hrest].
  destruct (Hr (cl_db c)) as [v Hv]. unfold run_result in Hv.
  destruct (r (cl_db c)) as [[db' lg] res] eqn:Er. simpl in Hv. subst res.
  rewrite (send_ok _ _ _ _ _ db' lg v) by done.
  erewrite (resume_writes rest _ {| th_was := ui_on (cl_ui c); th_prev := ui_count (cl_ui c);
                                    th_phase := AwaitWrite rest |}); [|done..].
  cbn. unfold run_all. simpl. unfold run_state. by rewrite Er.
Qed.
End ButtonRuns.

(** The like button's writes, when the tables answer. *)
Lemma like_requests_run cid uid on n db :
  table_fails T_likes db = false -> table_fails T_contents db = false ->
  run_all (like_requests cid uid on n) db =
    if on then set_like_count cid (n - 1) (delete_likes uid cid db)
    else set_like_count cid (n + 1) (insert_like uid cid db).
Proof.
  intros Hl Hc. unfold like_requests, run_all.
  destruct on; simpl; rewrite (write_state_ok T_likes) by done;
    rewrite write_state_ok; [done| |done|]; by autorewrite with jj_fail.
Qed.

Lemma likes_of_delete uid cid db : likes_of uid cid (delete_likes uid cid db) = [].
Proof.
  unfold likes_of, delete_likes. simpl. induction (db_likes db) as [|l ls IH]; [done|].
  simpl. by destruct (like_matches uid cid l) eqn:E; simpl; rewrite ?E.
Qed.

Lemma contents_with_id_delete_likes x uid cid db : contents_with_id x (delete_likes uid cid db) = contents_with_id x db.
Proof. done. Qed.

Lemma like_requests_no_throw cid uid on n : Forall no_throw (like_requests cid uid on n).
Proof. unfold like_requests. destruct on; repeat constructor; apply write_no_throw. Qed.

Lemma like_requests_length cid uid on n : length (like_requests cid uid on n) = 2%nat.
Proof. by destruct on. Qed.

(** A like click run alone, when the tables answer. *)
Lemma like_click_run uid cid c :
  cl_threads c = [] -> ui_loading (cl_ui c) = false ->
  table_fails T_likes (cl_db c) = false -> table_fails T_contents (cl_db c) = false ->
  run_like (Some uid) cid (click_alone 2) c =
    {| cl_ui := {| ui_on := negb (ui_on (cl_ui c));
                   ui_count := like_count_next (ui_on (cl_ui c)) (ui_count (cl_ui c)); ui_loading := false |};
       cl_threads := [];
       cl_db := if ui_on (cl_ui c)
                then set_like_count cid (ui_count (cl_ui c) - 1) (delete_likes uid cid (cl_db c))
                else set_like_count cid (ui_count (cl_ui c) + 1) (insert_like uid cid (cl_db c)) |}.
Proof.
  intros Hts Hld Hl Hc. unfold run_like.
  rewrite <- (like_requests_length cid uid (ui_on (cl_ui c)) (ui_count (cl_ui c))).
  rewrite (click_alone_run _ _ _ uid) by auto using like_requests_no_throw.
  by rewrite like_requests_run.
Qed.

(** One click run alone keeps the button in agreement with the store. *)
Lemma like_click_agrees uid cid c :
  table_fails T_likes (cl_db c) = false -> table_fails T_contents (cl_db c) = false ->
  like_agrees uid cid c ->
  like_agrees uid cid (run_like (Some uid) cid (click_alone 2) c) /\
  table_fails T_likes (cl_db (run_like (Some uid) cid (click_alone 2) c)) = false /\
  table_fails T_contents (cl_db (run_like (Some uid) cid (click_alone 2) c)) = false.
Proof.
  intros Hl Hc (Hts & Hld & Hon & Hlen & content & Hcw & Hcnt).
  rewrite like_click_run by done. unfold like_agrees. cbn [cl_ui cl_threads cl_db ui_on ui_count ui_loading].
  destruct (ui_on (cl_ui c)) eqn:Eon; autorewrite with jj_fail; (split; [|done]);
    (split; [done|]); (split; [done|]).
  - rewrite likes_of_set_like_count, likes_of_delete. split; [done|]. split; [simpl; lia|].
    exists (with_like_count (ui_count (cl_ui c) - 1) content).
    by rewrite contents_with_id_set_like_count, contents_with_id_delete_likes, Hcw.
  - symmetry in Hon. apply bool_decide_eq_false in Hon. apply dec_stable in Hon.
    rewrite likes_of_set_like_count, likes_of_insert, Hon. split; [done|]. split; [simpl; lia|].
    exists (with_like_count (ui_count (cl_ui c) + 1) content).
    by rewrite contents_with_id_set_like_count, contents_with_id_insert_like, Hcw.
Qed.

Lemma one_row_nonempty {A} (l : list A) :
  (length l <= 1)%nat -> bool_decide (length l = 1%nat) = bool_decide (l <> []).
Proof. destruct l as [|x [|y l]]; simpl; intros; [done|done|lia]. Qed.

(** Any number of clicks, each run alone. *)
Lemma like_clicks_agree uid cid k c :
  table_fails T_likes (cl_db c) = false -> table_fails T_contents (cl_db c) = false ->
  like_agrees uid cid c -> like_agrees uid cid (Nat.iter k (run_like (Some uid) cid (click_alone 2)) c).
Proof.
  intros Hl Hc Hag. cut (like_agrees uid cid (Nat.iter k (run_like (Some uid) cid (click_alone 2)) c) /\
    table_fails T_likes (cl_db (Nat.iter k (run_like (Some uid) cid (click_alone 2)) c)) = false /\
    table_fails T_contents (cl_db (Nat.iter k (run_like (Some uid) cid (click_alone 2)) c)) = false);
    [tauto|].
  induction k as [|k (IHa & IHl & IHc)]; [done|]. rewrite Nat.iter_succ. by apply like_click_agrees.
Qed.

(** ** Theorems *)

(** C16. The like button of the detail page agrees with the store while
    clicks run one at a time: after the page is rendered for a signed-in
    user with at most one like row, and after any number of clicks each
    handled to its end before the next, the heart is filled exactly when
    the user has a like row, there is at most one, and the count shown is
    the content's [like_count] (when the tables answer). *)
Theorem like_button_sequential uid cid db content k :
  table_fails T_likes db = false -> table_fails T_contents db = false ->
  contents_with_id cid db = [content] -> (length (likes_of uid cid db) <= 1)%nat ->
  match run_result (ContentDetailPage (Some uid) cid) db with
  | Ok (Detail ct _ _ hasLiked _) =>
      like_agrees uid cid
        (Nat.iter k (run_like (Some uid) cid (click_alone 2))
           (mount hasLiked (ct_like_count ct) (run_state (ContentDetailPage (Some uid) cid) db)))
  | _ => False
  end.
Proof.
  intros Hl Hc Hcw Hlen. pose proof (ContentDetailPage_spec (Some uid) cid db) as Hp.
  rewrite Hcw in Hp. destruct (Hp Hc) as [-> ->]. rewrite Hl, one_row_nonempty by done. simpl.
  set (c0 := mount _ _ _).
  assert (H0 : like_agrees uid cid c0 /\ table_fails T_likes (cl_db c0) = false /\
               table_fails T_contents (cl_db c0) = false).
  { split; [|by subst c0; autorewrite with jj_fail]. unfold like_agrees, c0, mount. simpl.
    rewrite likes_of_set_view_count. do 4 (split; [done|]).
    exists (with_view_count (ct_view_count content + 1) content).
    by rewrite contents_with_id_set_view_count, Hcw. }
  destruct H0 as (Hag & Hl0 & Hc0). by apply like_clicks_agree.
Qed.


(** Likes from two users are counted once: each button writes the
    count its page showed plus one, so the second user's click, from a
    page loaded before the first user's, overwrites 6 with 6 while two
    like rows exist. *)
Example like_lost_update :
  let ca := run_like (Some "u") "post" (click_alone 2) (mount false 5 db_post) in
  let cb := run_like (Some "v") "post" (click_alone 2) (mount false 5 (cl_db ca)) in
  length (db_likes (cl_db cb)) = 2%nat /\ map ct_like_count (db_contents (cl_db cb)) = [6].
Proof. vm_compute. repeat split. Qed.

(** C19. A rejected like write is never rolled back: when the likes table
    refuses the request, the store's rows do not change, but the handler
    receives an error value rather than an exception, so its [catch]
    never runs and the heart stays flipped. *)
Theorem like_write_failure_not_rolled_back uid cid c :
  cl_threads c = [] -> ui_loading (cl_ui c) = false -> table_fails T_likes (cl_db c) = true ->
  let c' := run_like (Some uid) cid (click_alone 2) c in
  ui_on (cl_ui c') = negb (ui_on (cl_ui c)) /\ db_likes (cl_db c') = db_likes (cl_db c).
Proof.
  intros Hts Hld Hl. cbv zeta. unfold run_like.
  rewrite <- (like_requests_length cid uid (ui_on (cl_ui c)) (ui_count (cl_ui c))).
  rewrite (click_alone_run _ _ _ uid) by auto using like_requests_no_throw. split; [done|].
  unfold like_requests, run_all. simpl.
  destruct (ui_on (cl_ui c)); simpl; rewrite (write_state_fail T_likes) by done;
    (destruct (table_fails T_contents (cl_db c)) eqn:Ec;
     [by rewrite write_state_fail | by rewrite write_state_ok]).
Qed.

Lemma like_button_sequential_witness :
  table_fails T_likes db_post = false /\ table_fails T_contents db_post = false /\
  contents_with_id "post" db_post = [post] /\ (length (likes_of "u" "post" db_post) <= 1)%nat /\
  match run_result (ContentDetailPage (Some "u") "post") db_post with
  | Ok (Detail ct _ _ hasLiked _) =>
      like_agrees "u" "post"
        (Nat.iter 3 (run_like (Some "u") "post" (click_alone 2))
           (mount hasLiked (ct_like_count ct) (run_state (ContentDetailPage (Some "u") "post") db_post)))
  | _ => False
  end.
Proof.
  assert (H1 : table_fails T_likes db_post = false) by reflexivity.
  assert (H2 : table_fails T_contents db_post = false) by reflexivity.
  assert (H3 : contents_with_id "post" db_post = [post]) by reflexivity.
  assert (H4 : (length (likes_of "u" "post" db_post) <= 1)%nat) by (simpl; lia).
  do 4 (split; [assumption|]). exact (like_button_sequential "u" "post" db_post post 3 H1 H2 H3 H4).
Defined.

Lemma like_write_failure_not_rolled_back_witness :
  cl_threads (mount false 5 (set_failing [T_likes] db_post)) = [] /\
  ui_loading (cl_ui (mount false 5 (set_failing [T_likes] db_post))) = false /\
  table_fails T_likes (cl_db (mount false 5 (set_failing [T_likes] db_post))) = true /\
  ui_on (cl_ui (run_like (Some "u") "post" (click_alone 2) (mount false 5 (set_failing [T_likes] db_post)))) = true /\
  db_likes (cl_db (run_like (Some "u") "post" (click_alone 2) (mount false 5 (set_failing [T_likes] db_post)))) = [].
Proof.
  assert (H1 : cl_threads (mount false 5 (set_failing [T_likes] db_post)) = []) by reflexivity.
  assert (H2 : ui_loading (cl_ui (mount false 5 (set_failing [T_likes] db_post))) = false) by reflexivity.
  assert (H3 : table_fails T_likes (cl_db (mount false 5 (set_failing [T_likes] db_post))) = true)
    by reflexivity.
  do 3 (split; [assumption|]).
  exact (like_write_failure_not_rolled_back "u" "post" _ H1 H2 H3).
Defined.
