(* ===== verification/Catalogue.v ===== *)
(** The catalogue server actions of the admin back office.

    [syncTags] and the create, update and delete actions for courses,
    contents, job postings and hero banners of
    [src/app/actions/admin.ts] (lines 62-392).  Each action first runs
    [requireAdmin] ([AdminAuth]), reads its columns from the submitted
    FormData ([FormData]), sends one write and throws on its error, and
    then re-attaches the item's tags with [syncTags] (delete every row of
    [content_tags] naming the item, then insert one row per tag id in a
    single request).  [revalidatePath] and [redirect] are the normal end
    of an action.

    The form's columns are kept in a record per table ([course_fields],
    ...), written line by line from the code; the store keeps the columns
    of [Store] and gets the others' effect only through validity: a column
    whose type in [src/types/database.ts] is not nullable is [NOT NULL], so
    a write that sends [null] there fails.  [JSON.parse] is a parameter
    ([json_ok]: whether it accepts a text), dates are kept as the number
    their digits spell (the order of ISO dates), ratings in tenths. *)

From stdpp Require Import base list strings.
From Stdlib Require Import ZArith Lia.
From S2P Require Import Prelude Store JsNumber Markup FormData AdminAuth Interleave Enrollment.

Local Open Scope Z_scope.

(** ** Tags (lines 65-90) *)

(** [itemType]. *)
Inductive item_type := ItCourse | ItContent | ItJob.

#[export] Instance item_type_eq_dec : EqDecision item_type.
Proof. solve_decision. Defined.

(** [fieldMap[itemType]]: the column of [content_tags] naming the item. *)
Definition tag_field (ty : item_type) (t : ContentTag) : option string :=
  match ty with
  | ItCourse => tg_course_id t
  | ItContent => tg_content_id t
  | ItJob => tg_job_id t
  end.

(** [.eq(field, itemId)] *)
Definition tag_matches (ty : item_type) (itemId : string) (t : ContentTag) : bool :=
  bool_decide (tag_field ty t = Some itemId).

(** [supabase.from('content_tags').delete().eq(field, itemId)] *)
Definition delete_tags (ty : item_type) (itemId : string) (db : Db) : Db :=
  set_content_tags (List.filter (fun t => negb (tag_matches ty itemId t)) (db_content_tags db)) db.

(** [{ [field]: itemId, tag_id: tagId }] with the id the database gives. *)
Definition tag_row (ty : item_type) (itemId tagId id : string) : ContentTag :=
  {| tg_id := id;
     tg_content_id := if decide (ty = ItContent) then Some itemId else None;
     tg_course_id := if decide (ty = ItCourse) then Some itemId else None;
     tg_job_id := if decide (ty = ItJob) then Some itemId else None;
     tg_tag_id := tagId |}.

(** [.insert(rows)]: the rows appended in order, each with a fresh id. *)
Fixpoint insert_tag_rows (ty : item_type) (itemId : string) (tagIds : list string) (db : Db) : Db :=
  match tagIds with
  | [] => db
  | tagId :: rest =>
      insert_tag_rows ty itemId rest
        (set_content_tags (db_content_tags db ++ [tag_row ty itemId tagId (fresh_id db)]) (bump_id db))
  end.

(** [syncTags] (lines 65-90); neither response is read. *)
Definition syncTags (tagIds : list string) (itemId : string) (ty : item_type) : Act unit :=
  let* _ := write T_content_tags OpDelete (delete_tags ty itemId) in
  if (0 <? length tagIds)%nat then
    let* _ := write T_content_tags OpInsert (insert_tag_rows ty itemId tagIds) in st_ret tt
  else st_ret tt.

(** The tag ids attached to an item, in row order. *)
Definition tags_of (ty : item_type) (itemId : string) (db : Db) : list string :=
  map tg_tag_id (List.filter (tag_matches ty itemId) (db_content_tags db)).

(** [(formData.get('tag_ids') as string || '').split(',').filter(Boolean)] *)
Definition form_tag_ids (fd : FormData) : list string := split_ids (fd_get fd "tag_ids").

(** ** Writes that return the row *)

(** [.insert(row).select().single()]: the new row, or an error when the
    table fails or a [NOT NULL] column is [null]. *)
Definition insert_single {A} (valid : bool) (t : table) (mk : Db -> A) (ins : A -> Db -> Db)
    : Act (resp A) :=
  fun db => if table_fails t db || negb valid then (db, [Req t OpInsert], Ok RErr)
            else (ins (mk db) db, [Req t OpInsert], Ok (RData (mk db))).

(** [if (error) throw new Error(error.message)] on a returned row. *)
Definition throw_on_error_row {A} (r : resp A) : Act A :=
  match r with RData a => st_ret a | RErr => st_throw msg_write_failed end.

(** [if (data && tagIds.length > 0) await syncTags(...)] after a create. *)
Definition tags_after_create (tagIds : list string) (itemId : string) (ty : item_type) : Act unit :=
  if (0 <? length tagIds)%nat then syncTags tagIds itemId ty else st_ret tt.

(** The creation time of a row: the store's id counter, which grows with
    every insert. *)
Definition now (db : Db) : Z := Z.of_nat (db_next_id db).

(** ** Courses (lines 95-184) *)

Section Catalogue.
(** Whether [JSON.parse] accepts a text. *)
Context (json_ok : string -> bool).

(** Lines 98-103 and 138-142: rich-editor HTML is stored as a string, anything else
    is parsed as JSON ([''] as ['[]']), a text that does not parse is
    stored as it is. *)
Definition parse_syllabus (fd : FormData) : syllabus :=
  let raw := js_or_str (fd_get fd "syllabus") "" in
  if startsWith "<" raw then SylText raw
  else let t := js_or_str (Some raw) "[]" in
       if json_ok t then SylJson t else SylText raw.

(** The columns [createCourse] and [updateCourse] send. *)
Record course_fields := {
  cf_title : option string;
  cf_description : option string;
  cf_instructor_name : option string;
  cf_instructor_title : option string;
  cf_category : option string;
  cf_thumbnail_url : option string;
  cf_max_students : Z;
  cf_current_students : option Z;
  cf_price : Z;
  cf_start_date : option string;
  cf_end_date : option string;
  cf_duration_weeks : Z;
  cf_is_live : bool;
  cf_status : string;
  cf_rating : option Z;
  cf_review_count : option Z;
  cf_syllabus : syllabus;
}.

(** The insert of [createCourse] (lines 105-120); [current_students],
    [rating] and [review_count] are not sent. *)
Definition create_course_fields (fd : FormData) : course_fields :=
  {| cf_title := fd_get fd "title";
     cf_description := fd_get fd "description";
     cf_instructor_name := fd_get fd "instructor_name";
     cf_instructor_title := js_or_null (fd_get fd "instructor_title");
     cf_category := fd_get fd "category";
     cf_thumbnail_url := js_or_null (fd_get fd "thumbnail_url");
     cf_max_students := fd_int fd "max_students" 30;
     cf_current_students := None;
     cf_price := fd_int fd "price" 0;
     cf_start_date := fd_get fd "start_date";
     cf_end_date := fd_get fd "end_date";
     cf_duration_weeks := fd_int fd "duration_weeks" 4;
     cf_is_live := is_true (fd_get fd "is_live");
     cf_status := js_or_str (fd_get fd "status") "recruiting";
     cf_rating := None;
     cf_review_count := None;
     cf_syllabus := parse_syllabus fd |}.

(** The update of [updateCourse] (lines 144-163). *)
Definition update_course_fields (fd : FormData) : course_fields :=
  {| cf_title := fd_get fd "title";
     cf_description := fd_get fd "description";
     cf_instructor_name := fd_get fd "instructor_name";
     cf_instructor_title := js_or_null (fd_get fd "instructor_title");
     cf_category := fd_get fd "category";
     cf_thumbnail_url := js_or_null (fd_get fd "thumbnail_url");
     cf_max_students := fd_int fd "max_students" 30;
     cf_current_students := Some (fd_int fd "current_students" 0);
     cf_price := fd_int fd "price" 0;
     cf_start_date := fd_get fd "start_date";
     cf_end_date := fd_get fd "end_date";
     cf_duration_weeks := fd_int fd "duration_weeks" 4;
     cf_is_live := is_true (fd_get fd "is_live");
     cf_status := js_or_str (fd_get fd "status") "recruiting";
     cf_rating := Some (fd_float fd "rating" 0);
     cf_review_count := Some (fd_int fd "review_count" 0);
     cf_syllabus := parse_syllabus fd |}.

(** The columns of [Course] that are not nullable are sent. *)
Definition course_not_null (cf : course_fields) : bool :=
  sent (cf_title cf) && sent (cf_description cf) && sent (cf_instructor_name cf) &&
  sent (cf_category cf) && sent (cf_start_date cf) && sent (cf_end_date cf).

(** The stored row of a new course; the columns not sent take their
    defaults ([current_students], [rating] and [review_count] 0). *)
Definition new_course (cf : course_fields) (id : string) (created : Z) : Course :=
  {| c_id := id; c_title := default "" (cf_title cf);
     c_description := default "" (cf_description cf);
     c_instructor_name := default "" (cf_instructor_name cf);
     c_instructor_title := cf_instructor_title cf;
     c_category := default "" (cf_category cf); c_thumbnail_url := cf_thumbnail_url cf;
     c_max_students := cf_max_students cf; c_current_students := default 0 (cf_current_students cf);
     c_start_date := default "" (cf_start_date cf); c_end_date := default "" (cf_end_date cf);
     c_duration_weeks := cf_duration_weeks cf; c_price := cf_price cf; c_is_live := cf_is_live cf;
     c_syllabus := cf_syllabus cf; c_rating := default 0 (cf_rating cf);
     c_review_count := default 0 (cf_review_count cf); c_status := cf_status cf;
     c_created_at := created |}.

(** [.update({...}).eq('id', courseId)]: the columns sent replace the
    row's ([null] included); the non-nullable ones are sent whenever the
    write succeeds. *)
Definition update_course_row (cf : course_fields) (c : Course) : Course :=
  {| c_id := c_id c; c_title := default (c_title c) (cf_title cf);
     c_description := default (c_description c) (cf_description cf);
     c_instructor_name := default (c_instructor_name c) (cf_instructor_name cf);
     c_instructor_title := cf_instructor_title cf;
     c_category := default (c_category c) (cf_category cf);
     c_thumbnail_url := cf_thumbnail_url cf;
     c_max_students := cf_max_students cf;
     c_current_students := default (c_current_students c) (cf_current_students cf);
     c_start_date := default (c_start_date c) (cf_start_date cf);
     c_end_date := default (c_end_date c) (cf_end_date cf);
     c_duration_weeks := cf_duration_weeks cf; c_price := cf_price cf; c_is_live := cf_is_live cf;
     c_syllabus := cf_syllabus cf;
     c_rating := default (c_rating c) (cf_rating cf);
     c_review_count := default (c_review_count c) (cf_review_count cf);
     c_status := cf_status cf; c_created_at := c_created_at c |}.

Definition update_courses (courseId : string) (cf : course_fields) (db : Db) : Db :=
  set_courses (map (fun c => if String.eqb (c_id c) courseId then update_course_row cf c else c)
                 (db_courses db)) db.

Definition delete_course (courseId : string) (db : Db) : Db :=
  set_courses (List.filter (fun c => negb (String.eqb (c_id c) courseId)) (db_courses db)) db.

(** [createCourse] (lines 95-133). *)
Definition createCourse (user : option string) (fd : FormData) : Act unit :=
  let* _ := requireAdmin user in
  let cf := create_course_fields fd in
  let* r := insert_single (course_not_null cf) T_courses (fun db => new_course cf (fresh_id db) (now db))
              (fun c db => set_courses (db_courses db ++ [c]) (bump_id db)) in
  let* data := throw_on_error_row r in
  tags_after_create (form_tag_ids fd) (c_id data) ItCourse.

(** [updateCourse] (lines 135-175). *)
Definition updateCourse (user : option string) (courseId : string) (fd : FormData) : Act unit :=
  let* _ := requireAdmin user in
  let cf := update_course_fields fd in
  let* r := write_checked (course_not_null cf) T_courses OpUpdate (update_courses courseId cf) in
  let* _ := throw_on_error r in
  syncTags (form_tag_ids fd) courseId ItCourse.
End Catalogue.

(** [deleteCourse] (lines 177-184). *)
Definition deleteCourse (user : option string) (courseId : string) : Act unit :=
  let* _ := requireAdmin user in
  let* r := write T_courses OpDelete (delete_course courseId) in
  throw_on_error r.

(** ** Contents (lines 189-250) *)

(** The columns [createContent] and [updateContent] send. *)
Record content_fields := {
  tf_title : option string;
  tf_summary : option string;
  tf_body : option string;
  tf_author_name : option string;
  tf_author_title : option string;
  tf_thumbnail_url : option string;
  tf_category : option string;
  tf_tags : list string;
  tf_is_featured : bool;
}.

(** Lines 192-201 and 219-229 (the update also sends [updated_at]). *)
Definition content_fields_of_form (fd : FormData) : content_fields :=
  {| tf_title := fd_get fd "title";
     tf_summary := fd_get fd "summary";
     tf_body := fd_get fd "body";
     tf_author_name := fd_get fd "author_name";
     tf_author_title := js_or_null (fd_get fd "author_title");
     tf_thumbnail_url := js_or_null (fd_get fd "thumbnail_url");
     tf_category := fd_get fd "category";
     tf_tags := split_ids (fd_get fd "legacy_tags");
     tf_is_featured := is_true (fd_get fd "is_featured") |}.

Definition content_not_null (tf : content_fields) : bool :=
  sent (tf_title tf) && sent (tf_summary tf) && sent (tf_body tf) &&
  sent (tf_author_name tf) && sent (tf_category tf).

Definition new_content (tf : content_fields) (id : string) (created : Z) : Content :=
  {| ct_id := id; ct_title := default "" (tf_title tf); ct_summary := default "" (tf_summary tf);
     ct_body := default "" (tf_body tf); ct_author_name := default "" (tf_author_name tf);
     ct_author_title := tf_author_title tf; ct_thumbnail_url := tf_thumbnail_url tf;
     ct_category := default "" (tf_category tf); ct_tags := tf_tags tf; ct_view_count := 0; ct_like_count := 0;
     ct_is_featured := tf_is_featured tf; ct_created_at := created |}.

Definition update_content_row (tf : content_fields) (c : Content) : Content :=
  {| ct_id := ct_id c; ct_title := default (ct_title c) (tf_title tf);
     ct_summary := default (ct_summary c) (tf_summary tf); ct_body := default (ct_body c) (tf_body tf);
     ct_author_name := default (ct_author_name c) (tf_author_name tf);
     ct_author_title := tf_author_title tf; ct_thumbnail_url := tf_thumbnail_url tf;
     ct_category := default (ct_category c) (tf_category tf); ct_tags := tf_tags tf;
     ct_view_count := ct_view_count c; ct_like_count := ct_like_count c;
     ct_is_featured := tf_is_featured tf; ct_created_at := ct_created_at c |}.

Definition update_contents (contentId : string) (tf : content_fields) (db : Db) : Db :=
  set_contents (map (fun c => if String.eqb (ct_id c) contentId then update_content_row tf c else c)
                  (db_contents db)) db.

Definition delete_content (contentId : string) (db : Db) : Db :=
  set_contents (List.filter (fun c => negb (String.eqb (ct_id c) contentId)) (db_contents db)) db.

(** [createContent] (lines 189-214). *)
Definition createContent (user : option string) (fd : FormData) : Act unit :=
  let* _ := requireAdmin user in
  let tf := content_fields_of_form fd in
  let* r := insert_single (content_not_null tf) T_contents (fun db => new_content tf (fresh_id db) (now db))
              (fun c db => set_contents (db_contents db ++ [c]) (bump_id db)) in
  let* data := throw_on_error_row r in
  tags_after_create (form_tag_ids fd) (ct_id data) ItContent.

(** [updateContent] (lines 216-241). *)
Definition updateContent (user : option string) (contentId : string) (fd : FormData) : Act unit :=
  let* _ := requireAdmin user in
  let tf := content_fields_of_form fd in
  let* r := write_checked (content_not_null tf) T_contents OpUpdate (update_contents contentId tf) in
  let* _ := throw_on_error r in
  syncTags (form_tag_ids fd) contentId ItContent.

(** [deleteContent] (lines 243-250). *)
Definition deleteContent (user : option string) (contentId : string) : Act unit :=
  let* _ := requireAdmin user in
  let* r := write T_contents OpDelete (delete_content contentId) in
  throw_on_error r.

(** ** Job postings (lines 255-319) *)

(** A date column as the number its digits spell: [2025-03-01] is
    [20250301], so ISO dates compare as their numbers. *)
Fixpoint date_digits (s : string) (acc : Z) : Z :=
  match s with
  | String c s' =>
      match digit_value 10 c with
      | Some d => date_digits s' (10 * acc + Z.of_nat d)
      | None => date_digits s' acc
      end
  | EmptyString => acc
  end.

Definition date_key (s : string) : Z := date_digits s 0.

(** The columns [createJob] and [updateJob] send. *)
Record job_fields := {
  jf_company_name : option string;
  jf_title : option string;
  jf_description : option string;
  jf_job_type : option string;
  jf_location : option string;
  jf_deadline : option string;
  jf_url : option string;
  jf_thumbnail_url : option string;
  jf_tags : list string;
  jf_source : option string;
  jf_is_active : bool;
}.

(** Lines 258-269 and 287-298. *)
Definition job_fields_of_form (fd : FormData) : job_fields :=
  {| jf_company_name := fd_get fd "company_name";
     jf_title := fd_get fd "title";
     jf_description := js_or_null (fd_get fd "description");
     jf_job_type := fd_get fd "job_type";
     jf_location := js_or_null (fd_get fd "location");
     jf_deadline := fd_get fd "deadline";
     jf_url := js_or_null (fd_get fd "url");
     jf_thumbnail_url := js_or_null (fd_get fd "thumbnail_url");
     jf_tags := split_ids (fd_get fd "legacy_tags");
     jf_source := js_or_null (fd_get fd "source");
     jf_is_active := not_false (fd_get fd "is_active") |}.

Definition job_not_null (jf : job_fields) : bool :=
  sent (jf_company_name jf) && sent (jf_title jf) && sent (jf_job_type jf) && sent (jf_deadline jf).

Definition new_job (jf : job_fields) (id : string) : JobPosting :=
  {| j_id := id; j_company_name := default "" (jf_company_name jf); j_title := default "" (jf_title jf);
     j_description := jf_description jf; j_job_type := default "" (jf_job_type jf);
     j_location := jf_location jf; j_deadline := date_key (default "" (jf_deadline jf));
     j_url := jf_url jf; j_thumbnail_url := jf_thumbnail_url jf; j_tags := jf_tags jf;
     j_source := jf_source jf; j_is_active := jf_is_active jf |}.

(** [.update({...}).eq('id', jobId)]: the columns sent replace the row's
    ([null] included); the non-nullable ones are sent whenever the write
    succeeds. *)
Definition update_job_row (jf : job_fields) (j : JobPosting) : JobPosting :=
  {| j_id := j_id j; j_company_name := default (j_company_name j) (jf_company_name jf);
     j_title := default (j_title j) (jf_title jf); j_description := jf_description jf;
     j_job_type := default (j_job_type j) (jf_job_type jf); j_location := jf_location jf;
     j_deadline := match jf_deadline jf with Some d => date_key d | None => j_deadline j end;
     j_url := jf_url jf; j_thumbnail_url := jf_thumbnail_url jf; j_tags := jf_tags jf;
     j_source := jf_source jf; j_is_active := jf_is_active jf |}.

Definition update_jobs (jobId : string) (jf : job_fields) (db : Db) : Db :=
  set_job_postings (map (fun j => if String.eqb (j_id j) jobId then update_job_row jf j else j)
                      (db_job_postings db)) db.

Definition delete_job (jobId : string) (db : Db) : Db :=
  set_job_postings (List.filter (fun j => negb (String.eqb (j_id j) jobId)) (db_job_postings db)) db.

(** [createJob] (lines 255-282). *)
Definition createJob (user : option string) (fd : FormData) : Act unit :=
  let* _ := requireAdmin user in
  let jf := job_fields_of_form fd in
  let* r := insert_single (job_not_null jf) T_job_postings (fun db => new_job jf (fresh_id db))
              (fun j db => set_job_postings (db_job_postings db ++ [j]) (bump_id db)) in
  let* data := throw_on_error_row r in
  tags_after_create (form_tag_ids fd) (j_id data) ItJob.

(** [updateJob] (lines 284-310). *)
Definition updateJob (user : option string) (jobId : string) (fd : FormData) : Act unit :=
  let* _ := requireAdmin user in
  let jf := job_fields_of_form fd in
  let* r := write_checked (job_not_null jf) T_job_postings OpUpdate (update_jobs jobId jf) in
  let* _ := throw_on_error r in
  syncTags (form_tag_ids fd) jobId ItJob.

(** [deleteJob] (lines 312-319). *)
Definition deleteJob (user : option string) (jobId : string) : Act unit :=
  let* _ := requireAdmin user in
  let* r := write T_job_postings OpDelete (delete_job jobId) in
  throw_on_error r.

(** ** Hero banners (lines 324-390) *)

(** The columns [createHeroBanner] and [updateHeroBanner] send. *)
Record banner_fields := {
  bf_title : option string;
  bf_subtitle : option string;
  bf_image_url : option string;
  bf_link_type : option string;
  bf_course_id : option string;
  bf_content_id : option string;
  bf_job_id : option string;
  bf_custom_url : option string;
  bf_bg_color : string;
  bf_text_color : string;
  bf_focal_x : Z;
  bf_focal_y : Z;
  bf_display_order : Z;
  bf_is_active : bool;
}.

(** [linkType === t ? (formData.get(k) as string || null) : null] *)
Definition link_field (linkType : option string) (t : string) (fd : FormData) (k : string) : option string :=
  if bool_decide (linkType = Some t) then js_or_null (fd_get fd k) else None.

(** Lines 327-343 and 356-373 (the update also sends [updated_at]). *)
Definition banner_fields_of_form (fd : FormData) : banner_fields :=
  let linkType := fd_get fd "link_type" in
  {| bf_title := fd_get fd "title";
     bf_subtitle := js_or_null (fd_get fd "subtitle");
     bf_image_url := js_or_null (fd_get fd "image_url");
     bf_link_type := linkType;
     bf_course_id := link_field linkType "course" fd "course_id";
     bf_content_id := link_field linkType "content" fd "content_id";
     bf_job_id := link_field linkType "job" fd "job_id";
     bf_custom_url := link_field linkType "custom" fd "custom_url";
     bf_bg_color := js_or_str (fd_get fd "bg_color") "#EBF2FF";
     bf_text_color := js_or_str (fd_get fd "text_color") "#ffffff";
     bf_focal_x := fd_int fd "focal_x" 50;
     bf_focal_y := fd_int fd "focal_y" 50;
     bf_display_order := fd_int fd "display_order" 0;
     bf_is_active := not_false (fd_get fd "is_active") |}.

Definition banner_not_null (bf : banner_fields) : bool := sent (bf_title bf) && sent (bf_link_type bf).

Definition new_banner (bf : banner_fields) (id : string) : HeroBanner :=
  {| hb_id := id; hb_title := default "" (bf_title bf); hb_subtitle := bf_subtitle bf;
     hb_image_url := bf_image_url bf; hb_link_type := default "" (bf_link_type bf);
     hb_course_id := bf_course_id bf; hb_content_id := bf_content_id bf; hb_job_id := bf_job_id bf;
     hb_custom_url := bf_custom_url bf; hb_bg_color := bf_bg_color bf; hb_text_color := bf_text_color bf;
     hb_focal_x := bf_focal_x bf; hb_focal_y := bf_focal_y bf; hb_display_order := bf_display_order bf;
     hb_is_active := bf_is_active bf |}.

Definition update_banner_row (bf : banner_fields) (b : HeroBanner) : HeroBanner :=
  new_banner {| bf_title := Some (default (hb_title b) (bf_title bf));
                bf_subtitle := bf_subtitle bf; bf_image_url := bf_image_url bf;
                bf_link_type := Some (default (hb_link_type b) (bf_link_type bf));
                bf_course_id := bf_course_id bf; bf_content_id := bf_content_id bf;
                bf_job_id := bf_job_id bf; bf_custom_url := bf_custom_url bf;
                bf_bg_color := bf_bg_color bf; bf_text_color := bf_text_color bf;
                bf_focal_x := bf_focal_x bf; bf_focal_y := bf_focal_y bf;
                bf_display_order := bf_display_order bf; bf_is_active := bf_is_active bf |} (hb_id b).

Definition update_banners (bannerId : string) (bf : banner_fields) (db : Db) : Db :=
  set_hero_banners (map (fun b => if String.eqb (hb_id b) bannerId then update_banner_row bf b else b)
                      (db_hero_banners db)) db.

Definition delete_banner (bannerId : string) (db : Db) : Db :=
  set_hero_banners (List.filter (fun b => negb (String.eqb (hb_id b) bannerId)) (db_hero_banners db)) db.

(** [createHeroBanner] (lines 324-351). *)
Definition createHeroBanner (user : option string) (fd : FormData) : Act unit :=
  let* _ := requireAdmin user in
  let bf := banner_fields_of_form fd in
  let* r := write_checked (banner_not_null bf) T_hero_banners OpInsert
              (fun db => set_hero_banners (db_hero_banners db ++ [new_banner bf (fresh_id db)]) (bump_id db)) in
  throw_on_error r.

(** [updateHeroBanner] (lines 353-381). *)
Definition updateHeroBanner (user : option string) (bannerId : string) (fd : FormData) : Act unit :=
  let* _ := requireAdmin user in
  let bf := banner_fields_of_form fd in
  let* r := write_checked (banner_not_null bf) T_hero_banners OpUpdate (update_banners bannerId bf) in
  throw_on_error r.

(** [deleteHeroBanner] (lines 383-390). *)
Definition deleteHeroBanner (user : option string) (bannerId : string) : Act unit :=
  let* _ := requireAdmin user in
  let* r := write T_hero_banners OpDelete (delete_banner bannerId) in
  throw_on_error r.

(** A stored banner links only through the column of its link type. *)
Definition banner_wf (b : HeroBanner) : Prop :=
  (hb_course_id b <> None -> hb_link_type b = "course") /\
  (hb_content_id b <> None -> hb_link_type b = "content") /\
  (hb_job_id b <> None -> hb_link_type b = "job") /\
  (hb_custom_url b <> None -> hb_link_type b = "custom").

Definition banners_wf (db : Db) : Prop := Forall banner_wf (db_hero_banners db).


(** Every catalogue action, for one form and one target id. *)
Definition catalogue_actions (json_ok : string -> bool) (user : option string) (fd : FormData) (id : string)
    : list (Act unit) :=
  [createCourse json_ok user fd; updateCourse json_ok user id fd; deleteCourse user id;
   createContent user fd; updateContent user id fd; deleteContent user id;
   createJob user fd; updateJob user id fd; deleteJob user id;
   createHeroBanner user fd; updateHeroBanner user id fd; deleteHeroBanner user id].

(** ** A course being edited while a student enrols *)

Definition admin_a : Profile := mk_profile "a" "a@x.kr" (Some Approved).

Definition enrolment_c1 (id uid : string) : Enrollment :=
  {| e_id := id; e_user_id := uid; e_course_id := "c1"; e_status := Applied |}.

(** Course [c1] with three enrolments and its counter at 3. *)
Definition db_course3 : Db :=
  set_enrollments [enrolment_c1 "e1" "u1"; enrolment_c1 "e2" "u2"; enrolment_c1 "e3" "u3"]
    (set_profiles [admin_a] (set_courses [course_seats "c1" 30 3] db_empty)).

(** The edit form of [c1] as the admin page rendered it, with
    [current_students] at 3. *)
Definition edit_form_c1 : FormData :=
  [("title", "c1"); ("description", "d"); ("instructor_name", "i"); ("category", "coding");
   ("max_students", "30"); ("current_students", "3"); ("start_date", "2025-03-01");
   ("end_date", "2025-04-01"); ("status", "recruiting"); ("syllabus", "<p>week 1</p>"); ("tag_ids", "t1")].

(** The same store with the [content_tags] table failing. *)
Definition db_course3_tags_down : Db := set_failing [T_content_tags] db_course3.

(** ** Lemmas *)

Lemma tag_row_matches ty itemId tagId id : tag_matches ty itemId (tag_row ty itemId tagId id) = true.
Proof. unfold tag_matches. apply bool_decide_eq_true. by destruct ty. Qed.

Lemma table_fails_insert_tag_rows t ty itemId ts db :
  table_fails t (insert_tag_rows ty itemId ts db) = table_fails t db.
Proof. revert db. induction ts as [|x ts IH]; intros db; [done|]. simpl. by rewrite IH. Qed.

Lemma table_fails_delete_tags t ty itemId db : table_fails t (delete_tags ty itemId db) = table_fails t db.
Proof. done. Qed.

#[export] Hint Rewrite table_fails_insert_tag_rows table_fails_delete_tags : jj_fail.

(** The inserted rows all name the item, in the order of [tagIds]. *)
Lemma insert_tag_rows_rows ty itemId ts db :
  List.filter (fun t => negb (tag_matches ty itemId t)) (db_content_tags (insert_tag_rows ty itemId ts db)) =
    List.filter (fun t => negb (tag_matches ty itemId t)) (db_content_tags db) /\
  tags_of ty itemId (insert_tag_rows ty itemId ts db) = tags_of ty itemId db ++ ts.
Proof.
  unfold tags_of. revert db. induction ts as [|x ts IH]; intros db; simpl; [by rewrite app_nil_r|].
  destruct (IH (set_content_tags (db_content_tags db ++ [tag_row ty itemId x (fresh_id db)]) (bump_id db)))
    as [H1 H2].
  rewrite H1, H2. simpl. rewrite !List.filter_app. simpl. rewrite tag_row_matches. simpl.
  rewrite app_nil_r, map_app, <- app_assoc. done.
Qed.

Lemma delete_tags_rows ty itemId db :
  List.filter (fun t => negb (tag_matches ty itemId t)) (db_content_tags (delete_tags ty itemId db)) =
    List.filter (fun t => negb (tag_matches ty itemId t)) (db_content_tags db) /\
  tags_of ty itemId (delete_tags ty itemId db) = [].
Proof.
  unfold tags_of, delete_tags. simpl. induction (db_content_tags db) as [|t l IH]; [done|].
  simpl. destruct (tag_matches ty itemId t) eqn:E; simpl; rewrite ?E; simpl; [done|].
  destruct IH as [-> ->]. done.
Qed.

(** [syncTags] when [content_tags] answers. *)
Lemma syncTags_run ts itemId ty db :
  table_fails T_content_tags db = false ->
  run_state (syncTags ts itemId ty) db =
    (if (0 <? length ts)%nat then insert_tag_rows ty itemId ts (delete_tags ty itemId db)
     else delete_tags ty itemId db) /\
  run_result (syncTags ts itemId ty) db = Ok tt.
Proof.
  intros Hf. unfold syncTags, run_state, run_result, st_bind, write. rewrite Hf. simpl.
  destruct (0 <? length ts)%nat; simpl; [|done].
  unfold delete_tags. rewrite table_fails_set_content_tags, Hf. done.
Qed.

(** Inserting tag rows leaves the catalogue tables. *)
Lemma insert_tag_rows_tables ty itemId ts db :
  db_courses (insert_tag_rows ty itemId ts db) = db_courses db /\
  db_contents (insert_tag_rows ty itemId ts db) = db_contents db /\
  db_job_postings (insert_tag_rows ty itemId ts db) = db_job_postings db.
Proof. revert db. induction ts as [|x ts IH]; intros db; [done|]. simpl.
  match goal with |- context [insert_tag_rows _ _ _ ?d] => by destruct (IH d) as (-> & -> & ->) end.
Qed.

Lemma next_id_insert_tag_rows ty itemId ts db :
  db_next_id (insert_tag_rows ty itemId ts db) = (length ts + db_next_id db)%nat.
Proof. revert db. induction ts as [|x ts IH]; intros db; [done|]. simpl. rewrite IH. simpl. lia. Qed.

(** [syncTags] leaves the courses and hands back the tag rows it built. *)
Lemma syncTags_courses ts itemId ty db :
  table_fails T_content_tags db = false ->
  db_courses (run_state (syncTags ts itemId ty) db) = db_courses db.
Proof.
  intros Hf. rewrite (proj1 (syncTags_run _ _ _ _ Hf)).
  destruct (0 <? length ts)%nat; [exact (proj1 (insert_tag_rows_tables ty itemId ts (delete_tags ty itemId db)))|]; done.
Qed.

(** A write to a failing table. *)
Lemma write_failing t o f db :
  table_fails t db = true -> write t o f db = (db, [Req t o], Ok RErr).
Proof. unfold write. by intros ->. Qed.

(** [js_or_num] with a default that is not [0] is never [0]. *)
Lemma js_or_num_nonzero x d : d <> 0 -> js_or_num x d <> 0.
Proof. unfold js_or_num. destruct x as [n|]; [|done]. by destruct (Z.eqb_spec n 0). Qed.

(** A banner link column is set only for its link type. *)
Lemma link_field_type lt t fd k : link_field lt t fd k <> None -> lt = Some t.
Proof. unfold link_field. by case_bool_decide. Qed.

(** The guard passes for an administrator and hands the profile on. *)
Lemma admin_run {B} user db p (k : Profile -> Act B) :
  table_fails T_profiles db = false -> admin_profile db user = Some p ->
  run_state (st_bind (requireAdmin user) k) db = run_state (k p) db /\
  run_result (st_bind (requireAdmin user) k) db = run_result (k p) db.
Proof.
  intros Hf Ha. unfold run_state, run_result. rewrite (bind_requireAdmin_ok _ _ p) by done.
  by destruct (k p db) as [[??]?].
Qed.

(** A valid write to a table that answers. *)
Lemma write_checked_ok valid t o f db :
  table_fails t db = false -> valid = true ->
  run_state (write_checked valid t o f) db = f db /\ run_result (write_checked valid t o f) db = Ok (RData tt).
Proof. unfold write_checked, run_state, run_result. by intros -> ->. Qed.

(** [syncTags] on a failing [content_tags] changes nothing and ends
    normally. *)
Lemma syncTags_failing ts itemId ty db :
  table_fails T_content_tags db = true ->
  run_result (syncTags ts itemId ty) db = Ok tt /\ run_state (syncTags ts itemId ty) db = db.
Proof.
  intros Hf. unfold syncTags, run_state, run_result, st_bind. rewrite write_failing by done.
  destruct (0 <? length ts)%nat; simpl; [rewrite write_failing by done|]; done.
Qed.

(** [syncTags] leaves the catalogue tables, whether [content_tags]
    answers or not. *)
Lemma syncTags_tables ts itemId ty db :
  db_courses (run_state (syncTags ts itemId ty) db) = db_courses db /\
  db_contents (run_state (syncTags ts itemId ty) db) = db_contents db /\
  db_job_postings (run_state (syncTags ts itemId ty) db) = db_job_postings db.
Proof.
  destruct (table_fails T_content_tags db) eqn:Hf.
  - by rewrite (proj2 (syncTags_failing _ _ _ _ Hf)).
  - rewrite (proj1 (syncTags_run _ _ _ _ Hf)).
    destruct (0 <? length ts)%nat; [exact (insert_tag_rows_tables ty itemId ts (delete_tags ty itemId db))|]; done.
Qed.

(** An insert that answers returns the row it built. *)
Lemma insert_single_ok {A} valid t (mk : Db -> A) ins db :
  table_fails t db = false -> valid = true ->
  run_state (insert_single valid t mk ins) db = ins (mk db) db /\
  run_result (insert_single valid t mk ins) db = Ok (RData (mk db)).
Proof. unfold insert_single, run_state, run_result. by intros -> ->. Qed.

(** What [syncTags] leaves when [content_tags] answers. *)
Lemma syncTags_replaces ts itemId ty db :
  table_fails T_content_tags db = false ->
  run_result (syncTags ts itemId ty) db = Ok tt /\
  tags_of ty itemId (run_state (syncTags ts itemId ty) db) = ts /\
  List.filter (fun t => negb (tag_matches ty itemId t)) (db_content_tags (run_state (syncTags ts itemId ty) db)) =
    List.filter (fun t => negb (tag_matches ty itemId t)) (db_content_tags db).
Proof.
  intros Hf. destruct (syncTags_run ts itemId ty db Hf) as [-> ->]. split; [done|].
  destruct (delete_tags_rows ty itemId db) as [D1 D2].
  destruct (0 <? length ts)%nat eqn:E.
  - destruct (insert_tag_rows_rows ty itemId ts (delete_tags ty itemId db)) as [I1 I2].
    by rewrite I1, I2, D1, D2.
  - apply Nat.ltb_ge in E. destruct ts; [|simpl in E; lia]. by rewrite D1, D2.
Qed.

(** The update actions by an administrator whose row is written: they
    go on with [syncTags] on the updated store. *)
Lemma update_action_run user p valid t f ts itemId ty db :
  table_fails T_profiles db = false -> admin_profile db user = Some p ->
  table_fails t db = false -> valid = true ->
  run_state (let* _ := requireAdmin user in
             let* r := write_checked valid t OpUpdate f in
             let* _ := throw_on_error r in
             syncTags ts itemId ty) db = run_state (syncTags ts itemId ty) (f db) /\
  run_result (let* _ := requireAdmin user in
              let* r := write_checked valid t OpUpdate f in
              let* _ := throw_on_error r in
              syncTags ts itemId ty) db = run_result (syncTags ts itemId ty) (f db).
Proof.
  intros Hp Ha Ht Hv.
  erewrite (proj1 (admin_run user db p _ Hp Ha)), (proj2 (admin_run user db p _ Hp Ha)). cbv beta.
  destruct (write_checked_ok _ t OpUpdate f db Ht Hv) as [Ws Wr].
  run_bind Wr. rewrite Ws.
  assert (Ht0 : run_result (throw_on_error (RData tt)) (f db) = Ok tt) by reflexivity.
  run_bind Ht0. done.
Qed.

(** [updateCourse] by an administrator whose course row is written: it
    goes on with [syncTags] on the updated store. *)
Lemma updateCourse_run json_ok user courseId fd db p :
  table_fails T_profiles db = false -> admin_profile db user = Some p ->
  table_fails T_courses db = false -> course_not_null (update_course_fields json_ok fd) = true ->
  let db1 := update_courses courseId (update_course_fields json_ok fd) db in
  run_state (updateCourse json_ok user courseId fd) db = run_state (syncTags (form_tag_ids fd) courseId ItCourse) db1 /\
  run_result (updateCourse json_ok user courseId fd) db = run_result (syncTags (form_tag_ids fd) courseId ItCourse) db1.
Proof. intros Hp Ha Hc Hv. exact (update_action_run user p _ T_courses _ _ _ _ db Hp Ha Hc Hv). Qed.

(** The tags of a new item, which has none yet. *)
Lemma tags_after_create_spec ts itemId ty db :
  table_fails T_content_tags db = false -> tags_of ty itemId db = [] ->
  run_result (tags_after_create ts itemId ty) db = Ok tt /\
  tags_of ty itemId (run_state (tags_after_create ts itemId ty) db) = ts /\
  db_courses (run_state (tags_after_create ts itemId ty) db) = db_courses db.
Proof.
  intros Hf Hnone. unfold tags_after_create. destruct (0 <? length ts)%nat eqn:E.
  - destruct (syncTags_replaces ts itemId ty db Hf) as (R & T & _). by rewrite R, T, syncTags_courses.
  - apply Nat.ltb_ge in E. destruct ts; [|simpl in E; lia]. done.
Qed.

(** ** Theorems *)

(** C23. [syncTags] replaces the item's tags: when [content_tags]
    answers, it sends one delete and, when there are tag ids, one insert;
    afterwards the item's tag ids are exactly the submitted ids in their
    order, every row that does not name the item is kept, and no other
    table changes. *)
Theorem syncTags_spec ts itemId ty db :
  table_fails T_content_tags db = false ->
  let db' := run_state (syncTags ts itemId ty) db in
  run_log (syncTags ts itemId ty) db =
    Req T_content_tags OpDelete :: (if (0 <? length ts)%nat then [Req T_content_tags OpInsert] else []) /\
  run_result (syncTags ts itemId ty) db = Ok tt /\
  tags_of ty itemId db' = ts /\
  List.filter (fun t => negb (tag_matches ty itemId t)) (db_content_tags db') =
    List.filter (fun t => negb (tag_matches ty itemId t)) (db_content_tags db) /\
  db_courses db' = db_courses db.
Proof.
  intros Hf. cbv zeta. split.
  - unfold syncTags, run_log, st_bind, write. rewrite Hf. simpl.
    destruct (0 <? length ts)%nat; [|done]. unfold delete_tags. by rewrite table_fails_set_content_tags, Hf.
  - split; [by apply syncTags_replaces|]. split; [by apply syncTags_replaces|].
    split; [by apply syncTags_replaces|]. by apply syncTags_courses.
Qed.

(** C22. Every catalogue action is for administrators: when the caller is
    not an approved or super administrator (or the profile cannot be
    read), each of the twelve create, update and delete actions throws
    and leaves the store as it was. *)
Theorem catalogue_admin_required json_ok user fd id db :
  table_fails T_profiles db = true \/ admin_profile db user = None ->
  Forall (fun a => aborts a db) (catalogue_actions json_ok user fd id).
Proof. intros Hd. repeat constructor; apply aborts_bind, requireAdmin_denied, Hd. Qed.

(** C24. A failed tag update is not reported: when an administrator saves
    a course and the course row is written but the [content_tags]
    requests fail, [updateCourse] ends normally (it redirects) and the
    course keeps its old tags. *)
Theorem updateCourse_tags_failure_ignored json_ok user courseId fd db p :
  table_fails T_profiles db = false -> admin_profile db user = Some p ->
  table_fails T_courses db = false -> course_not_null (update_course_fields json_ok fd) = true ->
  table_fails T_content_tags db = true ->
  run_result (updateCourse json_ok user courseId fd) db = Ok tt /\
  tags_of ItCourse courseId (run_state (updateCourse json_ok user courseId fd) db) = tags_of ItCourse courseId db.
Proof.
  intros Hp Ha Hc Hv Ht. destruct (updateCourse_run json_ok user courseId fd db p Hp Ha Hc Hv) as [-> ->].
  destruct (syncTags_failing (form_tag_ids fd) courseId ItCourse
              (update_courses courseId (update_course_fields json_ok fd) db)) as [R S];
    [unfold update_courses; by autorewrite with jj_fail|].
  by rewrite R, S.
Qed.

(** A new course gets the capacity asked for, never zero: the form's
    [max_students] goes through [parseInt(...) || 30], so an empty, non
    numeric or zero entry gives 30. *)
Theorem create_course_capacity_nonzero json_ok fd :
  cf_max_students (create_course_fields json_ok fd) <> 0 /\
  (fd_get fd "max_students" = Some "0" -> cf_max_students (create_course_fields json_ok fd) = 30).
Proof.
  split; [apply js_or_num_nonzero; lia|]. intros H. unfold create_course_fields, fd_int. simpl.
  by rewrite H.
Qed.

(** Creating a course: for an administrator, when the tables answer
    and the form sends every required column, [createCourse] appends the
    new course row with a fresh id and attaches exactly the submitted
    tags to it, and ends normally (it redirects). *)
Theorem createCourse_spec json_ok user fd db p :
  table_fails T_profiles db = false -> admin_profile db user = Some p ->
  table_fails T_courses db = false -> table_fails T_content_tags db = false ->
  course_not_null (create_course_fields json_ok fd) = true -> tags_of ItCourse (fresh_id db) db = [] ->
  run_result (createCourse json_ok user fd) db = Ok tt /\
  db_courses (run_state (createCourse json_ok user fd) db) =
    db_courses db ++ [new_course (create_course_fields json_ok fd) (fresh_id db) (now db)] /\
  tags_of ItCourse (fresh_id db) (run_state (createCourse json_ok user fd) db) = form_tag_ids fd.
Proof.
  intros Hp Ha Hc Ht Hv Hnone. unfold createCourse.
  erewrite (proj1 (admin_run user db p _ Hp Ha)), (proj2 (admin_run user db p _ Hp Ha)). cbv beta.
  set (cf := create_course_fields json_ok fd). set (row := new_course cf (fresh_id db) (now db)).
  destruct (insert_single_ok (course_not_null cf) T_courses (fun db => new_course cf (fresh_id db) (now db))
              (fun c db => set_courses (db_courses db ++ [c]) (bump_id db)) db Hc Hv) as [Is Ir].
  run_bind Ir. rewrite Is. set (db1 := set_courses _ (bump_id db)).
  assert (Hr : run_result (throw_on_error_row (RData row)) db1 = Ok row) by reflexivity.
  run_bind Hr. replace (run_state (throw_on_error_row (RData row)) db1) with db1 by reflexivity.
  change (c_id row) with (fresh_id db).
  destruct (tags_after_create_spec (form_tag_ids fd) (fresh_id db) ItCourse db1) as (R & T & C);
    [subst db1; by autorewrite with jj_fail|exact Hnone|].
  by rewrite R, T, C.
Qed.

Lemma new_banner_wf bf :
  (bf_course_id bf <> None -> bf_link_type bf = Some "course") ->
  (bf_content_id bf <> None -> bf_link_type bf = Some "content") ->
  (bf_job_id bf <> None -> bf_link_type bf = Some "job") ->
  (bf_custom_url bf <> None -> bf_link_type bf = Some "custom") ->
  forall id, banner_wf (new_banner bf id).
Proof.
  intros H1 H2 H3 H4 id. unfold banner_wf, new_banner. simpl.
  repeat split; intros Hn; [rewrite (H1 Hn)|rewrite (H2 Hn)|rewrite (H3 Hn)|rewrite (H4 Hn)]; done.
Qed.

Lemma banner_form_wf fd id : banner_wf (new_banner (banner_fields_of_form fd) id).
Proof. apply new_banner_wf; simpl; apply link_field_type. Qed.

Lemma update_banner_wf fd b : banner_wf (update_banner_row (banner_fields_of_form fd) b).
Proof.
  unfold update_banner_row. apply new_banner_wf; simpl; intros Hn;
    apply link_field_type in Hn; by rewrite Hn.
Qed.

Lemma preserves_throw_on_error I r : preserves I (throw_on_error r).
Proof. destruct r; [apply preserves_ret|apply preserves_throw]. Qed.

(** C25. The banner actions keep every stored banner well linked: a banner
    created or updated through the form has an id only in the column of
    its link type ([course_id] only for ['course'], ...), whatever the
    form sends in the other columns, and deleting keeps the others. *)
Theorem banner_actions_wf user fd id :
  preserves banners_wf (createHeroBanner user fd) /\
  preserves banners_wf (updateHeroBanner user id fd) /\
  preserves banners_wf (deleteHeroBanner user id).
Proof.
  unfold createHeroBanner, updateHeroBanner, deleteHeroBanner, banners_wf.
  repeat split; apply preserves_bind; try apply preserves_requireAdmin; intros _;
    (apply preserves_bind; [|intros r; apply preserves_throw_on_error]).
  - apply preserves_write_checked_gen. intros db Hdb. simpl. apply Forall_app. split; [done|].
    constructor; [apply banner_form_wf|constructor].
  - apply preserves_write_checked_gen. intros db Hdb. simpl. apply Forall_map.
    eapply List.Forall_impl; [|exact Hdb]. intros b Hb. case_if; [apply update_banner_wf|done].
  - apply preserves_write_gen. intros db Hdb. simpl. apply List.Forall_forall. intros b Hb.
    apply filter_In in Hb as [Hb _]. exact (proj1 (List.Forall_forall _ _) Hdb b Hb).
Qed.


Lemma syncTags_spec_witness :
  table_fails T_content_tags db_course3 = false /\
  run_log (syncTags ["t1"; "t2"] "c1" ItCourse) db_course3 =
    Req T_content_tags OpDelete :: (if (0 <? length ["t1"; "t2"])%nat then [Req T_content_tags OpInsert] else []) /\
  run_result (syncTags ["t1"; "t2"] "c1" ItCourse) db_course3 = Ok tt /\
  tags_of ItCourse "c1" (run_state (syncTags ["t1"; "t2"] "c1" ItCourse) db_course3) = ["t1"; "t2"] /\
  List.filter (fun t => negb (tag_matches ItCourse "c1" t))
    (db_content_tags (run_state (syncTags ["t1"; "t2"] "c1" ItCourse) db_course3)) =
    List.filter (fun t => negb (tag_matches ItCourse "c1" t)) (db_content_tags db_course3) /\
  db_courses (run_state (syncTags ["t1"; "t2"] "c1" ItCourse) db_course3) = db_courses db_course3.
Proof.
  assert (H : table_fails T_content_tags db_course3 = false) by reflexivity.
  split; [exact H|]. exact (syncTags_spec ["t1"; "t2"] "c1" ItCourse db_course3 H).
Defined.

Lemma catalogue_admin_required_witness :
  (table_fails T_profiles db_course3 = true \/ admin_profile db_course3 None = None) /\
  Forall (fun a => aborts a db_course3) (catalogue_actions (fun _ => true) None edit_form_c1 "c1").
Proof.
  assert (H : table_fails T_profiles db_course3 = true \/ admin_profile db_course3 None = None)
    by (right; reflexivity).
  split; [exact H|]. exact (catalogue_admin_required (fun _ => true) None edit_form_c1 "c1" db_course3 H).
Defined.

Lemma updateCourse_tags_failure_ignored_witness :
  table_fails T_profiles db_course3_tags_down = false /\
  admin_profile db_course3_tags_down (Some "a") = Some admin_a /\
  table_fails T_courses db_course3_tags_down = false /\
  course_not_null (update_course_fields (fun _ => true) edit_form_c1) = true /\
  table_fails T_content_tags db_course3_tags_down = true /\
  run_result (updateCourse (fun _ => true) (Some "a") "c1" edit_form_c1) db_course3_tags_down = Ok tt /\
  tags_of ItCourse "c1" (run_state (updateCourse (fun _ => true) (Some "a") "c1" edit_form_c1) db_course3_tags_down) =
    tags_of ItCourse "c1" db_course3_tags_down.
Proof.
  assert (H1 : table_fails T_profiles db_course3_tags_down = false) by reflexivity.
  assert (H2 : admin_profile db_course3_tags_down (Some "a") = Some admin_a) by reflexivity.
  assert (H3 : table_fails T_courses db_course3_tags_down = false) by reflexivity.
  assert (H4 : course_not_null (update_course_fields (fun _ => true) edit_form_c1) = true) by reflexivity.
  assert (H5 : table_fails T_content_tags db_course3_tags_down = true) by reflexivity.
  do 5 (split; [assumption|]).
  exact (updateCourse_tags_failure_ignored (fun _ => true) (Some "a") "c1" edit_form_c1 _ admin_a H1 H2 H3 H4 H5).
Defined.

Lemma createCourse_spec_witness :
  table_fails T_profiles db_course3 = false /\ admin_profile db_course3 (Some "a") = Some admin_a /\
  table_fails T_courses db_course3 = false /\ table_fails T_content_tags db_course3 = false /\
  course_not_null (create_course_fields (fun _ => true) edit_form_c1) = true /\
  tags_of ItCourse (fresh_id db_course3) db_course3 = [] /\
  run_result (createCourse (fun _ => true) (Some "a") edit_form_c1) db_course3 = Ok tt /\
  db_courses (run_state (createCourse (fun _ => true) (Some "a") edit_form_c1) db_course3) =
    db_courses db_course3 ++ [new_course (create_course_fields (fun _ => true) edit_form_c1)
                                (fresh_id db_course3) (now db_course3)] /\
  tags_of ItCourse (fresh_id db_course3) (run_state (createCourse (fun _ => true) (Some "a") edit_form_c1) db_course3)
    = form_tag_ids edit_form_c1.
Proof.
  assert (H1 : table_fails T_profiles db_course3 = false) by reflexivity.
  assert (H2 : admin_profile db_course3 (Some "a") = Some admin_a) by reflexivity.
  assert (H3 : table_fails T_courses db_course3 = false) by reflexivity.
  assert (H4 : table_fails T_content_tags db_course3 = false) by reflexivity.
  assert (H5 : course_not_null (create_course_fields (fun _ => true) edit_form_c1) = true) by reflexivity.
  assert (H6 : tags_of ItCourse (fresh_id db_course3) db_course3 = []) by reflexivity.
  do 6 (split; [assumption|]).
  exact (createCourse_spec (fun _ => true) (Some "a") edit_form_c1 db_course3 admin_a H1 H2 H3 H4 H5 H6).
Defined.

Lemma create_course_capacity_nonzero_witness :
  fd_get [("max_students", "0")] "max_students" = Some "0" /\
  cf_max_students (create_course_fields (fun _ => true) [("max_students", "0")]) = 30.
Proof.
  assert (H : fd_get [("max_students", "0")] "max_students" = Some "0") by reflexivity.
  split; [exact H|]. exact (proj2 (create_course_capacity_nonzero (fun _ => true) [("max_students", "0")]) H).
Defined.
