(* ===== verification/AdminForms.v ===== *)
(** The course form of the admin pages, the pages that show it, and what
    it submits to the server actions of [Catalogue].

    [CourseForm] ([src/components/admin/CourseForm.tsx]) renders one
    control per column; a browser submits each named control as a
    FormData entry in document order, refuses to submit while a
    [required] control is empty, and gives a [<select>] whose default is
    not one of its options its first option.  The two rich editors
    ([RichEditor.tsx]) are created after the first render
    ([immediatelyRender: false]); until then they render nothing, so
    their fields are missing.  The editor's serialisation of a content
    ([editor.getHTML()]) belongs to the editor library and is the
    parameter [getHTML] of the section. *)

From stdpp Require Import base list strings.
Local Open Scope Z_scope.
From Stdlib Require Import Ascii ZArith Lia.
From S2P Require Import Prelude Store JsNumber Markup FormData AdminAuth Catalogue.

(** ** Constants ([src/lib/constants.ts]) *)

(** [COURSE_CATEGORIES.map(c => c.id)] (lines 9-16). *)
Definition COURSE_CATEGORIES : list string :=
  ["resume"; "interview"; "coding"; "portfolio"; "skill"; "attitude"].

(** [TAGS.map(t => t.id)] (lines 66-82). *)
Definition TAGS : list string :=
  ["resume"; "interview"; "brand_marketing"; "sales"; "design"; "uiux"; "biz_dev";
   "development"; "coaching"; "career_dev"; "data"; "finance"; "pm"; "startup"; "ai"].

(** The options of the status select (CourseForm lines 72-75). *)
Definition COURSE_STATUSES : list string := ["recruiting"; "closed"; "ongoing"; "finished"].

(** ** Form controls *)

(** A named control: the name, the value it submits, and [required]. *)
Record field := { f_name : string; f_value : string; f_required : bool }.

Definition input (name value : string) : field :=
  {| f_name := name; f_value := value; f_required := false |}.

Definition required_input (name value : string) : field :=
  {| f_name := name; f_value := value; f_required := true |}.

(** [<select defaultValue={v}>]: the option [v] when it is one, the first
    option otherwise. *)
Definition select_value (options : list string) (v : string) : string :=
  if bool_decide (v ∈ options) then v else default "" (head options).

(** Submitting a form: nothing while a [required] control is empty,
    otherwise the FormData of its controls in order. *)
Definition submit (fs : list field) : option FormData :=
  if existsb (fun f => f_required f && String.eqb (f_value f) "") fs then None
  else Some (map (fun f => (f_name f, f_value f)) fs).

(** [String(x)] for a number kept in tenths ([4.5] is [45]). *)
Definition js_string_of_tenths (z : Z) : string :=
  let a := Z.to_nat (Z.abs z) in
  let body := (js_string_of_nat (a / 10) ++
               (if Nat.eqb (a mod 10) 0 then "" else "." ++ js_string_of_nat (a mod 10)))%string in
  if Z.ltb z 0 then ("-" ++ body)%string else body.

(** [String(x || d)] on a number column. *)
Definition num_default (x d : Z) : string := js_string_of_Z (js_or_num (Some x) d).

(** [course?.col]: the column of the course shown, [d] for a new one. *)
Definition course_col {A} (course : option Course) (f : Course -> A) (d : A) : A :=
  default d (option_map f course).

(** [x || ''] on a nullable text column. *)
Definition str_or_empty (x : option string) : string := js_or_str x "".

(** ** Widgets *)

(** [ImageUploader] (lines 24 and 97): a hidden input holding
    [currentUrl || ''] until an image is uploaded. *)
Definition ImageUploader (currentUrl : option string) (name : string) : field :=
  input name (str_or_empty currentUrl).

(** [TagSelector] (lines 13-21): the tags it offers, and a click on one. *)
Definition selector_tags (allTags : list string) : list string :=
  if (0 <? length allTags)%nat then allTags else map (fun t => "preset-" ++ t)%string TAGS.

Definition toggleTag (selected : list string) (tagId : string) : list string :=
  if bool_decide (tagId ∈ selected) then List.filter (fun id => negb (String.eqb id tagId)) selected
  else selected ++ [tagId].

Section Forms.
(** [editor.getHTML()] for an editor created with a content. *)
Context (getHTML : string -> string).

(** [RichEditor] (lines 121-125): nothing before the editor exists, then
    a hidden input with its HTML. *)
Definition RichEditor (mounted : bool) (content name : string) : list field :=
  if mounted then [input name (getHTML content)] else [].

(** The client state of [CourseForm] (lines 20-21). *)
Record course_form := { cf_tagIds : list string; cf_isLive : bool }.

Definition course_form_init (course : option Course) (initialTagIds : list string) : course_form :=
  {| cf_tagIds := initialTagIds; cf_isLive := default false (option_map c_is_live course) |}.

(** The syllabus the curriculum editor starts from (line 224). *)
Definition syllabus_content (course : option Course) : string :=
  match option_map c_syllabus course with Some (SylText s) => s | _ => "" end.

(** The controls of [CourseForm] (lines 24-250) in document order; the
    live checkbox has no name and submits through the hidden [is_live]. *)
Definition CourseForm (mounted : bool) (course : option Course) (st : course_form) : list field :=
  [input "tag_ids" (String.concat "," (cf_tagIds st));
   input "is_live" (js_string_of_bool (cf_isLive st));
   ImageUploader (course_col course c_thumbnail_url None) "thumbnail_url";
   required_input "title" (course_col course c_title "");
   required_input "category" (select_value COURSE_CATEGORIES (course_col course c_category ""));
   input "status" (select_value COURSE_STATUSES (js_or_str (option_map c_status course) "recruiting"))] ++
  RichEditor mounted (course_col course c_description "") "description" ++
  [required_input "instructor_name" (course_col course c_instructor_name "");
   input "instructor_title" (str_or_empty (course_col course c_instructor_title None));
   input "max_students" (num_default (course_col course c_max_students 0%Z) 30)] ++
  (match course with Some c => [input "current_students" (num_default (c_current_students c) 0)] | None => [] end) ++
  [input "price" (num_default (course_col course c_price 0%Z) 0);
   input "duration_weeks" (num_default (course_col course c_duration_weeks 0%Z) 4);
   required_input "start_date" (course_col course c_start_date "");
   required_input "end_date" (course_col course c_end_date "")] ++
  (match course with
   | Some c => [input "rating" (js_string_of_tenths (js_or_num (Some (c_rating c)) 0));
                input "review_count" (num_default (c_review_count c) 0)]
   | None => [] end) ++
  RichEditor mounted (syllabus_content course) "syllabus".
End Forms.

(** A click of the form: a tag of the selector, or the live checkbox. *)
Inductive course_form_event := ClickTag (tagId : string) | SetLive (b : bool).

Definition course_form_step (st : course_form) (ev : course_form_event) : course_form :=
  match ev with
  | ClickTag t => {| cf_tagIds := toggleTag (cf_tagIds st) t; cf_isLive := cf_isLive st |}
  | SetLive b => {| cf_tagIds := cf_tagIds st; cf_isLive := b |}
  end.

(** ** The pages *)

(** [EditCoursePage] (src/app/(admin)/admin/courses/[id]/page.tsx, lines
    9-27): the course read with [.single()] and its tag ids, or
    [notFound()]; the [tags] table only feeds the selector's list. *)
Definition EditCoursePage (id : string) : Act (option (Course * list string)) :=
  let* courseRes := select_resp T_courses
                      (fun db => single_resp (List.filter (fun c => String.eqb (c_id c) id) (db_courses db))) in
  let* courseTagsRes := select T_content_tags (fun db => tags_of ItCourse id db) in
  match courseRes with
  | RData course => st_ret (Some (course, match courseTagsRes with RData ts => ts | RErr => [] end))
  | RErr => st_ret None
  end.

(** ** Example stores *)

Definition admin_b : Profile := mk_profile "b" "b@x.kr" (Some Approved).

(** A course as the admin form stores it: HTML description and syllabus,
    rating 4.5. *)
Definition course_c2 : Course :=
  {| c_id := "c2"; c_title := "Resume clinic"; c_description := "<p>Four weeks</p>";
     c_instructor_name := "Kim"; c_instructor_title := Some "Recruiter"; c_category := "resume";
     c_thumbnail_url := None; c_max_students := 20; c_current_students := 3;
     c_start_date := "2025-03-01"; c_end_date := "2025-03-29"; c_duration_weeks := 4;
     c_price := 50000; c_is_live := true; c_syllabus := SylText "<p>Week 1</p>";
     c_rating := 45; c_review_count := 2; c_status := "recruiting"; c_created_at := 0 |}.

(** A course stored with a JSON syllabus and a category the form does
    not offer. *)
Definition course_c3 : Course :=
  {| c_id := "c3"; c_title := "Data bootcamp"; c_description := "<p>SQL</p>";
     c_instructor_name := "Lee"; c_instructor_title := None; c_category := "data";
     c_thumbnail_url := None; c_max_students := 0; c_current_students := 0;
     c_start_date := "2025-05-01"; c_end_date := "2025-06-01"; c_duration_weeks := 4;
     c_price := 0; c_is_live := false; c_syllabus := SylJson "[{week:1}]";
     c_rating := 0; c_review_count := 0; c_status := "recruiting"; c_created_at := 0 |}.

Definition db_edit : Db :=
  set_content_tags [tag_row ItCourse "c2" "t1" "r1"; tag_row ItCourse "c2" "t2" "r2"]
    (set_profiles [admin_b] (set_courses [course_c2; course_c3] db_empty)).

(** The editor's HTML for an empty document. *)
Definition tiptap_html (s : string) : string := if String.eqb s "" then "<p></p>" else s.

(** What the edit form of [course_c3] submits, and the form of [course_c2]
    submitted before its editors exist. *)
Definition form_c3 : FormData :=
  map (fun f => (f_name f, f_value f))
    (CourseForm tiptap_html true (Some course_c3) (course_form_init (Some course_c3) [])).

Definition form_c2_early : FormData :=
  map (fun f => (f_name f, f_value f))
    (CourseForm tiptap_html false (Some course_c2) (course_form_init (Some course_c2) ["t1"; "t2"])).

(** ** What an unedited form gives back *)

(** A tag id the hidden [tag_ids] input carries unchanged: not empty and
    without a comma. *)
Definition plain_id (x : string) : Prop := x <> "" /\ includes "," x = false.

(** The courses the edit form shows as they are: the required columns
    are filled, the selects have the stored value among their options,
    [x || default] does not replace the stored number or text, and the
    editors give back the stored HTML. *)
Definition course_form_keeps (getHTML : string -> string) (c : Course) : bool :=
  negb (String.eqb (c_title c) "") && negb (String.eqb (c_instructor_name c) "") &&
  negb (String.eqb (c_start_date c) "") && negb (String.eqb (c_end_date c) "") &&
  bool_decide (c_category c ∈ COURSE_CATEGORIES) && bool_decide (c_status c ∈ COURSE_STATUSES) &&
  negb (Z.eqb (c_max_students c) 0) && negb (Z.eqb (c_duration_weeks c) 0) &&
  bool_decide (c_instructor_title c <> Some "") && bool_decide (c_thumbnail_url c <> Some "") &&
  String.eqb (getHTML (c_description c)) (c_description c) &&
  match c_syllabus c with
  | SylText s => startsWith "<" s && String.eqb (getHTML s) s
  | SylJson _ => false
  end.

(** Split a hypothesis [b1 && b2 && ... = true]. *)
Ltac split_andb :=
  repeat match goal with H : _ && _ = true |- _ => apply andb_prop in H as [? ?] end.

(** ** Lemmas *)

Lemma prefix_empty s : String.prefix "" s = true.
Proof. by destruct s. Qed.

Lemma split_comma_app x r cur :
  includes "," x = false -> split_go "," (x ++ r) 0 cur = split_go "," r 0 (cur ++ x).
Proof.
  revert cur. induction x as [|c x IH]; intros cur Hx.
  - by rewrite append_Empty, append_nil_r.
  - rewrite append_String, split_go_cons0. cbn [includes String.prefix] in Hx |- *.
    destruct (Ascii.ascii_dec "," c) as [<-|Hc]; [by destruct x|].
    rewrite IH by done. by rewrite <- append_assoc.
Qed.

Lemma split_comma_concat l :
  l <> [] -> Forall (fun x => includes "," x = false) l ->
  split_go "," (String.concat "," l) 0 "" = l.
Proof.
  induction l as [|x [|y l] IH]; intros Hne Hl; [done| |].
  - apply Forall_cons in Hl as [Hx _]. simpl.
    rewrite <- (append_nil_r x) at 1. rewrite split_comma_app by done. by rewrite append_Empty.
  - apply Forall_cons in Hl as [Hx Hl].
    rewrite concat_cons by done. rewrite split_comma_app by done. rewrite append_Empty.
    rewrite append_String, append_Empty, split_go_cons0. cbn -[split_go String.concat].
    by rewrite prefix_empty, IH.
Qed.

(** [tagIds.join(',')] read back by [split_ids]. *)
Lemma split_ids_join l : Forall plain_id l -> split_ids (Some (String.concat "," l)) = l.
Proof.
  intros Hl. unfold split_ids, js_or_str.
  destruct l as [|x l]; [done|].
  assert (Hne : String.concat "," (x :: l) <> "").
  { apply Forall_cons in Hl as [[Hx _] _]. destruct l; simpl; [done|]. by destruct x. }
  rewrite (proj2 (String.eqb_neq _ _) Hne). unfold split.
  rewrite split_comma_concat; [|done|by eapply Forall_impl; [exact Hl|intros ? []]].
  apply forallb_filter_id, forallb_forall. intros y Hy.
  destruct (proj1 (List.Forall_forall _ _) Hl y Hy) as [Hy' _]. by destruct (String.eqb_spec y "").
Qed.

Lemma read_digits_app ds r :
  Forall (fun d => (d < 10)%nat) ds ->
  read_digits (string_of_digits ds ++ r) = ((ds ++ (read_digits r).1)%list, (read_digits r).2).
Proof.
  induction ds as [|d ds IH]; intros Hds.
  - rewrite append_Empty. by destruct (read_digits r).
  - apply Forall_cons in Hds as [Hd Hds].
    change (string_of_digits (d :: ds)) with (String (digit_char d) (string_of_digits ds)).
    rewrite append_String. cbn [read_digits]. rewrite (digit_value_char d Hd), IH by done. done.
Qed.

Lemma js_nat_digits n :
  exists ds, js_string_of_nat n = string_of_digits ds /\ ds <> [] /\
    Forall (fun d => (d < 10)%nat) ds /\ digits_nat ds = n.
Proof.
  destruct (digits_rev_spec (S n) n) as (Hall & Hval & d & ds & Hrev & _); [lia|].
  exists (rev (digits_rev (S n) n)). split; [done|]. split; [by rewrite Hrev|].
  split; [by apply Forall_rev|]. unfold digits_nat. by rewrite fold_left_rev_value.
Qed.

Lemma js_nat_digit m : (m < 10)%nat -> js_string_of_nat m = string_of_digits [m].
Proof. intros Hm. do 10 (destruct m as [|m]; [reflexivity|]). lia. Qed.

Lemma float_body_tenths sg n m :
  (m < 10)%nat ->
  float_body sg (js_string_of_nat n ++ (if Nat.eqb m 0 then "" else "." ++ js_string_of_nat m)) =
    Some (sg * (10 * Z.of_nat n + Z.of_nat m)).
Proof.
  intros Hm. destruct (js_nat_digits n) as (ds & -> & Hne & Hds & Hv).
  unfold float_body. rewrite read_digits_app by done.
  destruct (Nat.eqb_spec m 0) as [->|Hm0].
  - cbn. rewrite app_nil_r. destruct ds; [done|]. by rewrite Hv.
  - rewrite js_nat_digit by done. change (string_of_digits [m]) with (String (digit_char m) "").
    rewrite append_String, append_Empty.
    assert (Hdot : forall t, read_digits (String "." t) = ([], String "." t)) by reflexivity.
    assert (Hm1 : read_digits (String (digit_char m) "") = ([m], "")).
    { cbn [read_digits]. by rewrite digit_value_char. }
    rewrite Hdot. cbn [snd fst]. rewrite Hm1. rewrite app_nil_r.
    destruct ds; [done|]. cbn -[digits_nat]. by rewrite Hv.
Qed.

(** [parseFloat(String(x))] gives [x] back, for a number in tenths. *)
Lemma parseFloat_tenths z : parseFloat (js_string_of_tenths z) = Some z.
Proof.
  unfold js_string_of_tenths. set (a := Z.to_nat (Z.abs z)).
  assert (Ha : Z.of_nat (10 * (a / 10) + a mod 10) = Z.abs z).
  { rewrite <- Nat.div_mod_eq. unfold a. lia. }
  assert (Hm : (a mod 10 < 10)%nat) by (apply Nat.mod_upper_bound; lia).
  destruct (js_nat_digits (a / 10)) as (ds & Eds & Hne & Hds & _).
  destruct (Z.ltb_spec z 0).
  - assert (Hneg : forall t, parseFloat ("-" ++ t) = float_body (-1) t) by reflexivity.
    rewrite Hneg.
    rewrite float_body_tenths by done. f_equal. lia.
  - rewrite Eds. destruct ds as [|d ds]; [done|]. apply Forall_cons in Hds as [Hd _].
    change (string_of_digits (d :: ds)) with (String (digit_char d) (string_of_digits ds)).
    rewrite append_String.
    assert (Hf : forall t, parseFloat (String (digit_char d) t) = float_body 1 (String (digit_char d) t))
      by (intros t; do 10 (destruct d as [|d]; [reflexivity|]); lia).
    rewrite Hf, <- append_String.
    change (String (digit_char d) (string_of_digits ds)) with (string_of_digits (d :: ds)).
    rewrite <- Eds, float_body_tenths by done. f_equal. lia.
Qed.

Lemma js_or_num_idem x d : js_or_num (Some (js_or_num (Some x) d)) d = js_or_num (Some x) d.
Proof. unfold js_or_num. by destruct (Z.eqb_spec x 0) as [->|]; [destruct (Z.eqb_spec d 0)|rewrite (proj2 (Z.eqb_neq _ _))]. Qed.

Lemma fd_int_num_default fd k x d :
  fd_get fd k = Some (num_default x d) -> fd_int fd k d = js_or_num (Some x) d.
Proof.
  intros H. unfold fd_int. rewrite H. unfold parseInt_opt, num_default. cbv iota.
  by rewrite parseInt_js_string_of_Z, js_or_num_idem.
Qed.

Lemma fd_float_tenths fd k x :
  fd_get fd k = Some (js_string_of_tenths (js_or_num (Some x) 0)) -> fd_float fd k 0 = x.
Proof.
  intros H. unfold fd_float. rewrite H. cbv iota. rewrite parseFloat_tenths, js_or_num_idem. unfold js_or_num.
  by destruct (Z.eqb_spec x 0).
Qed.

Lemma select_value_in options v : v ∈ options -> select_value options v = v.
Proof. intros H. unfold select_value. by rewrite bool_decide_eq_true_2. Qed.

Lemma js_or_null_str_or_empty x : x <> Some "" -> js_or_null (Some (str_or_empty x)) = x.
Proof.
  intros Hx. unfold str_or_empty, js_or_str, js_or_null.
  destruct x as [[|ch s]|]; [by destruct Hx|reflexivity|reflexivity].
Qed.

Lemma js_or_num_zero x : js_or_num (Some x) 0 = x.
Proof. unfold js_or_num. by destruct (Z.eqb_spec x 0). Qed.

Lemma js_or_num_nz x d : (x =? 0) = false -> js_or_num (Some x) d = x.
Proof. unfold js_or_num. by intros ->. Qed.

Lemma js_or_str_ne s d : (s =? "")%string = false -> js_or_str (Some s) d = s.
Proof. unfold js_or_str. by intros ->. Qed.

Lemma is_true_bool b : is_true (Some (js_string_of_bool b)) = b.
Proof. by destruct b. Qed.

Lemma parse_syllabus_html json_ok getHTML s fd :
  startsWith "<" s && (getHTML s =? s)%string = true -> fd_get fd "syllabus" = Some (getHTML s) ->
  parse_syllabus json_ok fd = SylText s.
Proof.
  intros Hs Hg. apply andb_prop in Hs as [Hlt Hh]. apply String.eqb_eq in Hh.
  unfold parse_syllabus. rewrite Hg, Hh, js_or_str_ne by (by destruct s). by rewrite Hlt.
Qed.

Lemma course_form_roundtrip getHTML json_ok c ts :
  course_form_keeps getHTML c = true -> Forall plain_id ts ->
  exists fd, submit (CourseForm getHTML true (Some c) (course_form_init (Some c) ts)) = Some fd /\
    course_not_null (update_course_fields json_ok fd) = true /\
    update_course_row (update_course_fields json_ok fd) c = c /\
    form_tag_ids fd = ts.
Proof.
  intros Hk Hts. unfold course_form_keeps in Hk. split_andb.
  repeat match goal with H : negb _ = true |- _ => apply negb_true_iff in H end.
  assert (Hcat : c_category c <> "").
  { intros E. match goal with H : bool_decide (c_category c ∈ _) = true |- _ => rewrite E in H; vm_compute in H end.
    discriminate. }
  assert (Hst : c_status c <> "").
  { intros E. match goal with H : bool_decide (c_status c ∈ _) = true |- _ => rewrite E in H; vm_compute in H end.
    discriminate. }
  repeat match goal with H : bool_decide _ = true |- _ => apply bool_decide_eq_true_1 in H end.
  unfold submit. cbn. rewrite (select_value_in _ (c_category c)) by done.
  rewrite (proj2 (String.eqb_neq _ _) Hcat), (proj2 (String.eqb_neq _ _) Hst).
  repeat match goal with H : (_ =? "")%string = false |- _ => rewrite H end.
  eexists. split; [reflexivity|]. split; [reflexivity|]. split; [|by apply split_ids_join].
  unfold update_course_fields.
  rewrite (fd_int_num_default _ "max_students" (c_max_students c) 30),
    (fd_int_num_default _ "current_students" (c_current_students c) 0),
    (fd_int_num_default _ "price" (c_price c) 0),
    (fd_int_num_default _ "duration_weeks" (c_duration_weeks c) 4),
    (fd_int_num_default _ "review_count" (c_review_count c) 0),
    (fd_float_tenths _ "rating" (c_rating c)) by reflexivity.
  destruct (c_syllabus c) as [syl|] eqn:Hsyl; [|done].
  erewrite (parse_syllabus_html json_ok getHTML syl) by (done || (cbn; by rewrite Hsyl)).
  rewrite !js_or_num_zero, !js_or_num_nz by done.
  destruct c; cbn -[js_or_null js_or_str select_value is_true js_string_of_bool str_or_empty] in *.
  subst c_syllabus.
  rewrite !js_or_null_str_or_empty, select_value_in, is_true_bool by done.
  rewrite js_or_str_ne by (by apply String.eqb_neq).
  match goal with H : (getHTML _ =? _)%string = true |- _ => apply String.eqb_eq in H; rewrite H end.
  done.
Qed.

Lemma EditCoursePage_run id c db :
  table_fails T_courses db = false -> table_fails T_content_tags db = false ->
  List.filter (fun c => String.eqb (c_id c) id) (db_courses db) = [c] ->
  run_state (EditCoursePage id) db = db /\
  run_result (EditCoursePage id) db = Ok (Some (c, tags_of ItCourse id db)).
Proof.
  intros Hc Ht Hrow. unfold EditCoursePage, run_state, run_result, st_bind, select_resp, select.
  rewrite Hc, Ht, Hrow. done.
Qed.

(** Updating the one row with key [id] by a function that keeps it. *)
Lemma update_courses_same id cf c db :
  List.filter (fun c => String.eqb (c_id c) id) (db_courses db) = [c] ->
  update_course_row cf c = c -> db_courses (update_courses id cf db) = db_courses db.
Proof. apply update_eq_same. Qed.

(** C26. Opening a course's edit page and saving the form unedited changes
    nothing: when the requests answer, the page shows the course and its
    tags, and the submitted FormData makes [updateCourse] succeed and
    leave the courses and the course's tags as they were.  It holds for
    the courses the form shows as they are ([course_form_keeps]: required
    columns filled, category and status among the select's options,
    [max_students] and [duration_weeks] not 0, no empty nullable text, the
    editors' HTML stable) whose tag ids have no comma. *)
Theorem edit_course_roundtrip getHTML json_ok user p id c db :
  table_fails T_profiles db = false -> admin_profile db user = Some p ->
  table_fails T_courses db = false -> table_fails T_content_tags db = false ->
  List.filter (fun c => String.eqb (c_id c) id) (db_courses db) = [c] ->
  course_form_keeps getHTML c = true -> Forall plain_id (tags_of ItCourse id db) ->
  run_state (EditCoursePage id) db = db /\
  run_result (EditCoursePage id) db = Ok (Some (c, tags_of ItCourse id db)) /\
  exists fd, submit (CourseForm getHTML true (Some c) (course_form_init (Some c) (tags_of ItCourse id db))) = Some fd /\
    run_result (updateCourse json_ok user id fd) db = Ok tt /\
    db_courses (run_state (updateCourse json_ok user id fd) db) = db_courses db /\
    tags_of ItCourse id (run_state (updateCourse json_ok user id fd) db) = tags_of ItCourse id db.
Proof.
  intros Hp Ha Hc Ht Hrow Hk Hts.
  destruct (EditCoursePage_run id c db Hc Ht Hrow) as [E1 E2]. split; [done|]. split; [done|].
  destruct (course_form_roundtrip getHTML json_ok c _ Hk Hts) as (fd & Hfd & Hnn & Hkeep & Htags).
  exists fd. split; [done|].
  destruct (updateCourse_run json_ok user id fd db p Hp Ha Hc Hnn) as [-> ->].
  assert (Ht1 : table_fails T_content_tags (update_courses id (update_course_fields json_ok fd) db) = false)
    by (unfold update_courses; by autorewrite with jj_fail).
  destruct (syncTags_replaces (form_tag_ids fd) id ItCourse _ Ht1) as (R & T & _).
  rewrite R, T, syncTags_courses by done. split; [done|]. split; [|done].
  by apply (update_courses_same id _ c).
Qed.

Lemma edit_course_roundtrip_witness :
  table_fails T_profiles db_edit = false /\ admin_profile db_edit (Some "b") = Some admin_b /\
  table_fails T_courses db_edit = false /\ table_fails T_content_tags db_edit = false /\
  List.filter (fun c => String.eqb (c_id c) "c2") (db_courses db_edit) = [course_c2] /\
  course_form_keeps tiptap_html course_c2 = true /\ Forall plain_id (tags_of ItCourse "c2" db_edit) /\
  run_state (EditCoursePage "c2") db_edit = db_edit /\
  run_result (EditCoursePage "c2") db_edit = Ok (Some (course_c2, tags_of ItCourse "c2" db_edit)) /\
  exists fd, submit (CourseForm tiptap_html true (Some course_c2)
                       (course_form_init (Some course_c2) (tags_of ItCourse "c2" db_edit))) = Some fd /\
    run_result (updateCourse (fun _ => true) (Some "b") "c2" fd) db_edit = Ok tt /\
    db_courses (run_state (updateCourse (fun _ => true) (Some "b") "c2" fd) db_edit) = db_courses db_edit /\
    tags_of ItCourse "c2" (run_state (updateCourse (fun _ => true) (Some "b") "c2" fd) db_edit) =
      tags_of ItCourse "c2" db_edit.
Proof.
  assert (H1 : table_fails T_profiles db_edit = false) by reflexivity.
  assert (H2 : admin_profile db_edit (Some "b") = Some admin_b) by reflexivity.
  assert (H3 : table_fails T_courses db_edit = false) by reflexivity.
  assert (H4 : table_fails T_content_tags db_edit = false) by reflexivity.
  assert (H5 : List.filter (fun c => String.eqb (c_id c) "c2") (db_courses db_edit) = [course_c2])
    by reflexivity.
  assert (H6 : course_form_keeps tiptap_html course_c2 = true) by reflexivity.
  assert (H7 : Forall plain_id (tags_of ItCourse "c2" db_edit))
    by (repeat constructor; discriminate).
  do 7 (split; [assumption|]).
  exact (edit_course_roundtrip tiptap_html (fun _ => true) (Some "b") admin_b "c2" course_c2 db_edit
           H1 H2 H3 H4 H5 H6 H7).
Defined.

Lemma submit_some fs fd : submit fs = Some fd -> fd = map (fun f => (f_name f, f_value f)) fs.
Proof. unfold submit. case_if; [done|]. by intros [= <-]. Qed.

(** The rows with key [id] after [update_courses]. *)
Lemma update_courses_row id cf c db :
  List.filter (fun c => String.eqb (c_id c) id) (db_courses db) = [c] ->
  List.filter (fun c => String.eqb (c_id c) id) (db_courses (update_courses id cf db)) = [update_course_row cf c].
Proof. by apply update_eq_row. Qed.

(** An administrator's [updateCourse] that writes the row: the course
    [id] becomes the form's update of it, whatever the tag requests do. *)
Lemma updateCourse_course_row json_ok user p id c fd db :
  table_fails T_profiles db = false -> admin_profile db user = Some p ->
  table_fails T_courses db = false -> course_not_null (update_course_fields json_ok fd) = true ->
  List.filter (fun c => String.eqb (c_id c) id) (db_courses db) = [c] ->
  List.filter (fun c => String.eqb (c_id c) id) (db_courses (run_state (updateCourse json_ok user id fd) db)) =
    [update_course_row (update_course_fields json_ok fd) c].
Proof.
  intros Hp Ha Hc Hv Hrow. destruct (updateCourse_run json_ok user id fd db p Hp Ha Hc Hv) as [-> _].
  rewrite <- (update_courses_row id _ c db Hrow).
  destruct (table_fails T_content_tags (update_courses id (update_course_fields json_ok fd) db)) eqn:Ht.
  - by rewrite (proj2 (syncTags_failing _ _ _ _ Ht)).
  - by rewrite syncTags_courses.
Qed.

Lemma toggleTag_nodup l t : NoDup l -> NoDup (toggleTag l t).
Proof.
  intros Hl. unfold toggleTag. case_bool_decide as Hin.
  - by apply NoDup_ListNoDup, List.NoDup_filter, NoDup_ListNoDup.
  - apply NoDup_app. split; [done|]. split; [|apply NoDup_singleton].
    intros x Hx ->%list_elem_of_singleton. done.
Qed.

Lemma toggleTag_in l t x : x ∈ toggleTag l t <-> (x ∈ l <-> x <> t).
Proof.
  unfold toggleTag. case_bool_decide as Hin; rewrite !list_elem_of_In in *.
  - rewrite filter_In. destruct (String.eqb_spec x t) as [->|Hne]; cbn; intuition congruence.
  - rewrite in_app_iff. cbn. destruct (String.eqb_spec x t) as [->|Hne]; intuition congruence.
Qed.

(** Submitting the form before its editors exist sends no
    [description], a [NOT NULL] column. *)
Lemma unmounted_not_null getHTML json_ok course st fd :
  submit (CourseForm getHTML false course st) = Some fd ->
  course_not_null (update_course_fields json_ok fd) = false /\
  course_not_null (create_course_fields json_ok fd) = false.
Proof.
  intros Hfd. apply submit_some in Hfd. subst fd. unfold course_not_null.
  assert (Hd : fd_get (map (fun f => (f_name f, f_value f)) (CourseForm getHTML false course st)) "description" = None)
    by (destruct course; reflexivity).
  cbn [update_course_fields create_course_fields cf_description]. rewrite Hd. by rewrite !andb_false_r.
Qed.

(** C27. Saving the edit form of a course whose syllabus is stored as JSON
    (what [createCourse] stores for a syllabus that is not HTML) replaces
    the syllabus by the editor's empty document: the form gives the
    curriculum editor [''] for a syllabus that is not a string. *)
Theorem edit_course_json_syllabus_lost getHTML json_ok user p id c j st fd db :
  table_fails T_profiles db = false -> admin_profile db user = Some p -> table_fails T_courses db = false ->
  List.filter (fun c => String.eqb (c_id c) id) (db_courses db) = [c] ->
  c_syllabus c = SylJson j -> startsWith "<" (getHTML "") = true ->
  submit (CourseForm getHTML true (Some c) st) = Some fd ->
  course_not_null (update_course_fields json_ok fd) = true ->
  map c_syllabus (List.filter (fun c => String.eqb (c_id c) id)
                    (db_courses (run_state (updateCourse json_ok user id fd) db))) = [SylText (getHTML "")].
Proof.
  intros Hp Ha Hc Hrow Hsyl Hlt Hfd Hv. rewrite (updateCourse_course_row json_ok user p id c fd db) by done.
  cbn [map update_course_row c_syllabus update_course_fields cf_syllabus]. f_equal. f_equal.
  apply submit_some in Hfd. subst fd. unfold parse_syllabus.
  assert (Hs : fd_get (map (fun f => (f_name f, f_value f)) (CourseForm getHTML true (Some c) st)) "syllabus"
               = Some (getHTML "")).
  { unfold CourseForm, RichEditor, syllabus_content. cbn [option_map]. rewrite Hsyl. reflexivity. }
  rewrite Hs, js_or_str_ne by (by destruct (getHTML "")). by rewrite Hlt.
Qed.

(** Saving the edit form of a course whose category is not one the
    select offers stores the first category, ['resume']: a select whose
    default value is not an option shows its first option. *)
Theorem edit_course_unknown_category_reset getHTML json_ok user p id c st fd db :
  table_fails T_profiles db = false -> admin_profile db user = Some p -> table_fails T_courses db = false ->
  List.filter (fun c => String.eqb (c_id c) id) (db_courses db) = [c] ->
  c_category c ∉ COURSE_CATEGORIES ->
  submit (CourseForm getHTML true (Some c) st) = Some fd ->
  course_not_null (update_course_fields json_ok fd) = true ->
  map c_category (List.filter (fun c => String.eqb (c_id c) id)
                    (db_courses (run_state (updateCourse json_ok user id fd) db))) = ["resume"].
Proof.
  intros Hp Ha Hc Hrow Hcat Hfd Hv. rewrite (updateCourse_course_row json_ok user p id c fd db) by done.
  cbn [map update_course_row c_category update_course_fields cf_category]. f_equal.
  apply submit_some in Hfd. subst fd.
  assert (Hs : fd_get (map (fun f => (f_name f, f_value f)) (CourseForm getHTML true (Some c) st)) "category"
               = Some (select_value COURSE_CATEGORIES (c_category c))) by reflexivity.
  rewrite Hs. unfold select_value. by rewrite bool_decide_eq_false_2.
Qed.

(** A form submitted before its rich editors exist (they are created
    after the first render) sends no [description]: [createCourse] and
    [updateCourse] then throw and leave the store as it was, whoever
    submits it. *)
Theorem course_form_before_editor_aborts getHTML json_ok user id course st fd db :
  submit (CourseForm getHTML false course st) = Some fd ->
  aborts (createCourse json_ok user fd) db /\ aborts (updateCourse json_ok user id fd) db.
Proof.
  intros Hfd. destruct (unmounted_not_null getHTML json_ok course st fd Hfd) as [Hu Hcr].
  destruct (table_fails T_profiles db) eqn:Hp; [split; apply aborts_bind, requireAdmin_denied; by left|].
  destruct (admin_profile db user) as [p|] eqn:Ha; [|split; apply aborts_bind, requireAdmin_denied; by right].
  unfold createCourse, updateCourse, aborts.
  erewrite !(proj1 (admin_run user db p _ Hp Ha)), !(proj2 (admin_run user db p _ Hp Ha)).
  unfold run_state, run_result, st_bind, insert_single, write_checked. rewrite Hu, Hcr, !orb_true_r.
  split; (split; [done|eexists; reflexivity]).
Qed.

(** The tag selector keeps the selected tag ids free of duplicates
    through any clicks, and a click on a tag selects it exactly when it
    was not selected, leaving the other tags as they were. *)
Theorem course_form_clicks_nodup evs st t x :
  NoDup (cf_tagIds st) ->
  NoDup (cf_tagIds (fold_left course_form_step evs st)) /\
  (x ∈ cf_tagIds (course_form_step st (ClickTag t)) <-> (x ∈ cf_tagIds st <-> x <> t)).
Proof.
  intros Hnd. split; [|apply toggleTag_in]. revert st Hnd.
  induction evs as [|[t'|b] evs IH]; intros st Hnd; [done| |]; apply IH; [by apply toggleTag_nodup|done].
Qed.

(** A second click on a tag that was not selected gives the selection
    back as it was. *)
Theorem toggleTag_twice l t : t ∉ l -> toggleTag (toggleTag l t) t = l.
Proof.
  intros Hin. unfold toggleTag at 2. rewrite bool_decide_eq_false_2 by done.
  unfold toggleTag. rewrite bool_decide_eq_true_2 by (apply elem_of_app; right; by left).
  rewrite List.filter_app. cbn. rewrite String.eqb_refl, app_nil_r.
  apply forallb_filter_id, forallb_forall. intros y Hy.
  destruct (String.eqb_spec y t) as [->|]; [|done]. by apply list_elem_of_In in Hy.
Qed.

Lemma edit_course_json_syllabus_lost_witness :
  table_fails T_profiles db_edit = false /\ admin_profile db_edit (Some "b") = Some admin_b /\
  table_fails T_courses db_edit = false /\
  List.filter (fun c => String.eqb (c_id c) "c3") (db_courses db_edit) = [course_c3] /\
  c_syllabus course_c3 = SylJson "[{week:1}]" /\ startsWith "<" (tiptap_html "") = true /\
  submit (CourseForm tiptap_html true (Some course_c3) (course_form_init (Some course_c3) [])) = Some form_c3 /\
  course_not_null (update_course_fields (fun _ => true) form_c3) = true /\
  map c_syllabus (List.filter (fun c => String.eqb (c_id c) "c3")
    (db_courses (run_state (updateCourse (fun _ => true) (Some "b") "c3" form_c3) db_edit))) =
    [SylText (tiptap_html "")].
Proof.
  assert (H1 : table_fails T_profiles db_edit = false) by reflexivity.
  assert (H2 : admin_profile db_edit (Some "b") = Some admin_b) by reflexivity.
  assert (H3 : table_fails T_courses db_edit = false) by reflexivity.
  assert (H4 : List.filter (fun c => String.eqb (c_id c) "c3") (db_courses db_edit) = [course_c3]) by reflexivity.
  assert (H5 : c_syllabus course_c3 = SylJson "[{week:1}]") by reflexivity.
  assert (H6 : startsWith "<" (tiptap_html "") = true) by reflexivity.
  assert (H7 : submit (CourseForm tiptap_html true (Some course_c3) (course_form_init (Some course_c3) []))
               = Some form_c3) by reflexivity.
  assert (H8 : course_not_null (update_course_fields (fun _ => true) form_c3) = true) by reflexivity.
  do 8 (split; [assumption|]).
  exact (edit_course_json_syllabus_lost tiptap_html (fun _ => true) (Some "b") admin_b "c3" course_c3
           "[{week:1}]" _ form_c3 db_edit H1 H2 H3 H4 H5 H6 H7 H8).
Defined.

Lemma edit_course_unknown_category_reset_witness :
  table_fails T_profiles db_edit = false /\ admin_profile db_edit (Some "b") = Some admin_b /\
  table_fails T_courses db_edit = false /\
  List.filter (fun c => String.eqb (c_id c) "c3") (db_courses db_edit) = [course_c3] /\
  (c_category course_c3 ∉ COURSE_CATEGORIES) /\
  submit (CourseForm tiptap_html true (Some course_c3) (course_form_init (Some course_c3) [])) = Some form_c3 /\
  course_not_null (update_course_fields (fun _ => true) form_c3) = true /\
  map c_category (List.filter (fun c => String.eqb (c_id c) "c3")
    (db_courses (run_state (updateCourse (fun _ => true) (Some "b") "c3" form_c3) db_edit))) = ["resume"].
Proof.
  assert (H1 : table_fails T_profiles db_edit = false) by reflexivity.
  assert (H2 : admin_profile db_edit (Some "b") = Some admin_b) by reflexivity.
  assert (H3 : table_fails T_courses db_edit = false) by reflexivity.
  assert (H4 : List.filter (fun c => String.eqb (c_id c) "c3") (db_courses db_edit) = [course_c3]) by reflexivity.
  assert (H5 : c_category course_c3 ∉ COURSE_CATEGORIES)
    by (intros Hin; apply list_elem_of_In in Hin; cbn in Hin; intuition discriminate).
  assert (H6 : submit (CourseForm tiptap_html true (Some course_c3) (course_form_init (Some course_c3) []))
               = Some form_c3) by reflexivity.
  assert (H7 : course_not_null (update_course_fields (fun _ => true) form_c3) = true) by reflexivity.
  do 7 (split; [assumption|]).
  exact (edit_course_unknown_category_reset tiptap_html (fun _ => true) (Some "b") admin_b "c3" course_c3
           _ form_c3 db_edit H1 H2 H3 H4 H5 H6 H7).
Defined.

Lemma course_form_before_editor_aborts_witness :
  submit (CourseForm tiptap_html false (Some course_c2) (course_form_init (Some course_c2) ["t1"; "t2"]))
    = Some form_c2_early /\
  aborts (createCourse (fun _ => true) (Some "b") form_c2_early) db_edit /\
  aborts (updateCourse (fun _ => true) (Some "b") "c2" form_c2_early) db_edit.
Proof.
  assert (H : submit (CourseForm tiptap_html false (Some course_c2) (course_form_init (Some course_c2) ["t1"; "t2"]))
              = Some form_c2_early) by reflexivity.
  split; [exact H|].
  exact (course_form_before_editor_aborts tiptap_html (fun _ => true) (Some "b") "c2" (Some course_c2) _
           form_c2_early db_edit H).
Defined.

Lemma course_form_clicks_nodup_witness :
  NoDup (cf_tagIds (course_form_init (Some course_c2) ["t1"; "t2"])) /\
  NoDup (cf_tagIds (fold_left course_form_step [ClickTag "t3"; ClickTag "t1"; SetLive false]
                      (course_form_init (Some course_c2) ["t1"; "t2"]))) /\
  ("t3" ∈ cf_tagIds (course_form_step (course_form_init (Some course_c2) ["t1"; "t2"]) (ClickTag "t3")) <->
   ("t3" ∈ cf_tagIds (course_form_init (Some course_c2) ["t1"; "t2"]) <-> "t3" <> "t3")).
Proof.
  assert (H : NoDup (cf_tagIds (course_form_init (Some course_c2) ["t1"; "t2"])))
    by (apply NoDup_ListNoDup; repeat constructor; cbn; intuition discriminate).
  split; [exact H|]. exact (course_form_clicks_nodup _ _ "t3" "t3" H).
Defined.

Lemma toggleTag_twice_witness :
  ("t3" ∉ ["t1"; "t2"]) /\ toggleTag (toggleTag ["t1"; "t2"] "t3") "t3" = ["t1"; "t2"].
Proof.
  assert (H : "t3" ∉ ["t1"; "t2"])
    by (intros Hin; apply list_elem_of_In in Hin; cbn in Hin; intuition discriminate).
  split; [exact H|]. exact (toggleTag_twice ["t1"; "t2"] "t3" H).
Defined.
