(* ===== verification/BannerAdmin.v ===== *)
(** The hero banner form of the admin pages
    ([src/components/admin/BannerForm.tsx]) and its edit page.

    The form keeps the link type, the active flag, the colours, the focal
    point and the image in React state and submits them through hidden
    inputs; the link target is a select (or a URL input) rendered for the
    current link type only.  Dragging the preview moves the focal point:
    the pointer's travel over the preview's width, in percent, clamped to
    [0, 100] and rounded.  The state is a record, the handlers one step
    function over the events the page can receive, and the controls the
    list of fields [AdminForms.submit] turns into the FormData that
    [Catalogue.createHeroBanner] and [Catalogue.updateHeroBanner] read. *)

From stdpp Require Import base list strings.
From Stdlib Require Import ZArith Lia.
From S2P Require Import Prelude Store JsNumber FormData AdminAuth Catalogue AdminForms.
Local Open Scope Z_scope.

(** The options of the link type select (lines 236-239). *)
Definition LINK_TYPES : list string := ["course"; "content"; "job"; "custom"].

(** [Math.round(Math.max(0, Math.min(100, f0 + ((c - c0) / w) * -100)))]
    (lines 58-61) for a preview [w] pixels wide, in exact arithmetic:
    the value is [p / w] with [p = f0 * w - 100 * (c - c0)], and
    [Math.round] of a value in [[0, 100]] is [floor(p / w + 1/2)]. *)
Definition drag_focal (f0 c0 c : Z) (w : positive) : Z :=
  let p := f0 * Zpos w - 100 * (c - c0) in
  if p <? 0 then 0 else if 100 * Zpos w <? p then 100 else (2 * p + Zpos w) / (2 * Zpos w).

(** The state of [BannerForm] (lines 25-33) and the [imageUrl] of its
    [ImageUploader] (ImageUploader.tsx line 24). *)
Record banner_form := {
  bs_linkType : string;
  bs_isActive : bool;
  bs_bgColor : string;
  bs_textColor : string;
  bs_focalX : Z;
  bs_focalY : Z;
  bs_imageUrl : string;
  bs_isDragging : bool;
  bs_dragStart : Z * Z * Z * Z;
  bs_uploaderUrl : string;
}.

(** [banner?.col] *)
Definition banner_col {A} (banner : option HeroBanner) (f : HeroBanner -> A) (d : A) : A :=
  default d (option_map f banner).

Definition banner_form_init (banner : option HeroBanner) : banner_form :=
  let image := str_or_empty (banner_col banner hb_image_url None) in
  {| bs_linkType := js_or_str (option_map hb_link_type banner) "course";
     bs_isActive := banner_col banner hb_is_active true;
     bs_bgColor := js_or_str (option_map hb_bg_color banner) "#EBF2FF";
     bs_textColor := js_or_str (option_map hb_text_color banner) "#ffffff";
     bs_focalX := banner_col banner hb_focal_x 50;
     bs_focalY := banner_col banner hb_focal_y 50;
     bs_imageUrl := image; bs_isDragging := false; bs_dragStart := (0, 0, 50, 50);
     bs_uploaderUrl := image |}.

(** What the page can receive: an upload or a removal in the image
    uploader, pointer events on the preview, the reset button, the
    checkbox, the colour inputs and the link type select. *)
Inductive banner_event :=
  | Upload (url : string) | RemoveImage
  | PointerDown (x y : Z) | PointerMove (x y : Z) (w h : positive) | PointerUp
  | ResetFocal | SetActive (b : bool) | SetTextColor (c : string) | SetLinkType (t : string).

Definition set_focal (fx fy : Z) (st : banner_form) : banner_form :=
  {| bs_linkType := bs_linkType st; bs_isActive := bs_isActive st; bs_bgColor := bs_bgColor st;
     bs_textColor := bs_textColor st; bs_focalX := fx; bs_focalY := fy;
     bs_imageUrl := bs_imageUrl st; bs_isDragging := bs_isDragging st;
     bs_dragStart := bs_dragStart st; bs_uploaderUrl := bs_uploaderUrl st |}.

Definition set_image (uploader image : string) (st : banner_form) : banner_form :=
  {| bs_linkType := bs_linkType st; bs_isActive := bs_isActive st; bs_bgColor := bs_bgColor st;
     bs_textColor := bs_textColor st; bs_focalX := bs_focalX st; bs_focalY := bs_focalY st;
     bs_imageUrl := image; bs_isDragging := bs_isDragging st;
     bs_dragStart := bs_dragStart st; bs_uploaderUrl := uploader |}.

Definition set_drag (dragging : bool) (start : Z * Z * Z * Z) (st : banner_form) : banner_form :=
  {| bs_linkType := bs_linkType st; bs_isActive := bs_isActive st; bs_bgColor := bs_bgColor st;
     bs_textColor := bs_textColor st; bs_focalX := bs_focalX st; bs_focalY := bs_focalY st;
     bs_imageUrl := bs_imageUrl st; bs_isDragging := dragging;
     bs_dragStart := start; bs_uploaderUrl := bs_uploaderUrl st |}.

Definition set_controls (linkType : string) (active : bool) (text : string) (st : banner_form) : banner_form :=
  {| bs_linkType := linkType; bs_isActive := active; bs_bgColor := bs_bgColor st;
     bs_textColor := text; bs_focalX := bs_focalX st; bs_focalY := bs_focalY st;
     bs_imageUrl := bs_imageUrl st; bs_isDragging := bs_isDragging st;
     bs_dragStart := bs_dragStart st; bs_uploaderUrl := bs_uploaderUrl st |}.

(** [handleImageChange] (lines 36-43): a new image of a banner that had
    none starts centred. *)
Definition handleImageChange (banner : option HeroBanner) (url : string) (st : banner_form) : banner_form :=
  let st := set_image (bs_uploaderUrl st) url st in
  if js_truthy_str url && negb (js_truthy_opt (banner_col banner hb_image_url None)) then set_focal 50 50 st
  else st.

(** One event (lines 36-73, the uploader's lines 65-66 and 87-89); the
    preview and its reset button exist only while [imageUrl] is set. *)
Definition banner_step (banner : option HeroBanner) (st : banner_form) (ev : banner_event) : banner_form :=
  let preview := js_truthy_str (bs_imageUrl st) in
  match ev with
  | Upload url => handleImageChange banner url (set_image url (bs_imageUrl st) st)
  | RemoveImage => handleImageChange banner "" (set_image "" (bs_imageUrl st) st)
  | PointerDown x y =>
      if preview then set_drag true (x, y, bs_focalX st, bs_focalY st) st else st
  | PointerMove x y w h =>
      if negb (bs_isDragging st) || negb preview then st
      else let '(x0, y0, fx0, fy0) := bs_dragStart st in
           set_focal (drag_focal fx0 x0 x w) (drag_focal fy0 y0 y h) st
  | PointerUp => if preview then set_drag false (bs_dragStart st) st else st
  | ResetFocal => if preview then set_focal 50 50 st else st
  | SetActive b => set_controls (bs_linkType st) b (bs_textColor st) st
  | SetTextColor c => set_controls (bs_linkType st) (bs_isActive st) c st
  | SetLinkType t =>
      if bool_decide (t ∈ LINK_TYPES) then set_controls t (bs_isActive st) (bs_textColor st) st else st
  end.

(** The select of a link target (lines 246-258 and the two like it):
    the placeholder [''] and one option per row, [required]. *)
Definition target_select (name : string) (ids : list string) (current : option string) : field :=
  required_input name (select_value ("" :: ids) (str_or_empty current)).

(** The controls of [BannerForm] (lines 76-324) in document order; the
    checkbox and the colour inputs have no name. *)
Definition BannerForm (banner : option HeroBanner) (courses contents jobs : list string)
    (st : banner_form) : list field :=
  let lt := bs_linkType st in
  [input "is_active" (js_string_of_bool (bs_isActive st));
   input "bg_color" (bs_bgColor st);
   input "text_color" (bs_textColor st);
   input "focal_x" (js_string_of_Z (bs_focalX st));
   input "focal_y" (js_string_of_Z (bs_focalY st));
   input "image_url" (bs_uploaderUrl st);
   required_input "title" (banner_col banner hb_title "");
   input "subtitle" (str_or_empty (banner_col banner hb_subtitle None));
   input "display_order" (num_default (banner_col banner hb_display_order 0) 0);
   input "link_type" (select_value LINK_TYPES lt)] ++
  (if String.eqb lt "course" then [target_select "course_id" courses (banner_col banner hb_course_id None)] else []) ++
  (if String.eqb lt "content" then [target_select "content_id" contents (banner_col banner hb_content_id None)] else []) ++
  (if String.eqb lt "job" then [target_select "job_id" jobs (banner_col banner hb_job_id None)] else []) ++
  (if String.eqb lt "custom" then [required_input "custom_url" (str_or_empty (banner_col banner hb_custom_url None))]
   else []).

(** [EditBannerPage] (src/app/(admin)/admin/banners/[id]/page.tsx, lines
    9-47): the banner read with [.single()] and the ids of the courses,
    contents and job postings the selects offer (their order does not
    change what is submitted), or [notFound()]. *)
Definition EditBannerPage (id : string)
    : Act (option (HeroBanner * list string * list string * list string)) :=
  let* bannerRes := select_resp T_hero_banners
                      (fun db => single_resp (List.filter (fun b => String.eqb (hb_id b) id) (db_hero_banners db))) in
  let* coursesRes := select T_courses (fun db => map c_id (db_courses db)) in
  let* contentsRes := select T_contents (fun db => map ct_id (db_contents db)) in
  let* jobsRes := select T_job_postings (fun db => map j_id (db_job_postings db)) in
  match bannerRes with
  | RData banner => st_ret (Some (banner, data_or_nil coursesRes, data_or_nil contentsRes, data_or_nil jobsRes))
  | RErr => st_ret None
  end.

(** The focal point inside the image, in percent. *)
Definition focal_in_range (st : banner_form) : Prop :=
  0 <= bs_focalX st <= 100 /\ 0 <= bs_focalY st <= 100.

(** The banners the edit form shows as they are: the title filled, no
    empty nullable text, a link type among the select's options, colours
    set, a focal point off the image's edges at 0 ([parseInt(x) || 50]),
    and exactly the link column of its type set, to an id the select
    offers (or a URL). *)
Definition target_kept (lt t : string) (col : option string) (ids : list string) : bool :=
  if String.eqb lt t then
    match col with Some id => negb (String.eqb id "") && bool_decide (id ∈ ids) | None => false end
  else bool_decide (col = None).

Definition banner_form_keeps (b : HeroBanner) (courses contents jobs : list string) : bool :=
  negb (String.eqb (hb_title b) "") && bool_decide (hb_subtitle b <> Some "") &&
  bool_decide (hb_image_url b <> Some "") && bool_decide (hb_link_type b ∈ LINK_TYPES) &&
  negb (String.eqb (hb_bg_color b) "") && negb (String.eqb (hb_text_color b) "") &&
  negb (Z.eqb (hb_focal_x b) 0) && negb (Z.eqb (hb_focal_y b) 0) &&
  target_kept (hb_link_type b) "course" (hb_course_id b) courses &&
  target_kept (hb_link_type b) "content" (hb_content_id b) contents &&
  target_kept (hb_link_type b) "job" (hb_job_id b) jobs &&
  (if String.eqb (hb_link_type b) "custom"
   then match hb_custom_url b with Some u => negb (String.eqb u "") | None => false end
   else bool_decide (hb_custom_url b = None)).

(** ** Example stores *)

Definition banner_b1 : HeroBanner :=
  {| hb_id := "b1"; hb_title := "Spring intake"; hb_subtitle := Some "Apply now";
     hb_image_url := Some "https://img.kr/b1.png"; hb_link_type := "course"; hb_course_id := Some "c2";
     hb_content_id := None; hb_job_id := None; hb_custom_url := None; hb_bg_color := "#EBF2FF";
     hb_text_color := "#ffffff"; hb_focal_x := 30; hb_focal_y := 40; hb_display_order := 1;
     hb_is_active := true |}.

Definition db_banner : Db := set_hero_banners [banner_b1] db_edit.

(** A drag of the preview (400 by 200 pixels) 800 pixels to the right. *)
Definition drag_to_edge : list banner_event := [PointerDown 100 0; PointerMove 900 0 400 200; PointerUp].

Definition st_edge : banner_form :=
  fold_left (banner_step (Some banner_b1)) drag_to_edge (banner_form_init (Some banner_b1)).

Definition b1_options : list string * list string * list string :=
  (map c_id (db_courses db_banner), map ct_id (db_contents db_banner), map j_id (db_job_postings db_banner)).

Definition form_edge : FormData :=
  map (fun f => (f_name f, f_value f))
    (BannerForm (Some banner_b1) b1_options.1.1 b1_options.1.2 b1_options.2 st_edge).

Definition form_b1 : FormData :=
  map (fun f => (f_name f, f_value f))
    (BannerForm (Some banner_b1) b1_options.1.1 b1_options.1.2 b1_options.2 (banner_form_init (Some banner_b1))).

(** ** Lemmas *)

Lemma drag_focal_range f0 c0 c w : 0 <= drag_focal f0 c0 c w <= 100.
Proof.
  unfold drag_focal. set (p := f0 * Zpos w - 100 * (c - c0)).
  destruct (Z.ltb_spec p 0); [lia|]. destruct (Z.ltb_spec (100 * Zpos w) p); [lia|].
  split; [apply Z.div_pos; lia|].
  assert ((2 * p + Zpos w) / (2 * Zpos w) < 101); [apply Z.div_lt_upper_bound; lia|lia].
Qed.

Lemma banner_step_range banner st ev : focal_in_range st -> focal_in_range (banner_step banner st ev).
Proof.
  destruct st as [lt act bg tc fx fy img drag [[[x0 y0] fx0] fy0] up].
  unfold focal_in_range. cbn. intros Hr.
  destruct ev; cbn [banner_step]; unfold handleImageChange; cbn;
    repeat (case_if; cbn); try done; try lia; split; apply drag_focal_range.
Qed.

Lemma fd_int_string fd k x d : fd_get fd k = Some (js_string_of_Z x) -> fd_int fd k d = js_or_num (Some x) d.
Proof. intros H. unfold fd_int. rewrite H. unfold parseInt_opt. cbv iota. by rewrite parseInt_js_string_of_Z. Qed.

Lemma not_false_bool b : not_false (Some (js_string_of_bool b)) = b.
Proof. by destruct b. Qed.

Lemma link_types_nonempty lt : lt ∈ LINK_TYPES -> (lt =? "")%string = false.
Proof. intros H. apply list_elem_of_In in H as [<-|[<-|[<-|[<-|[]]]]]; reflexivity. Qed.

Lemma str_or_empty_ne x : (x =? "")%string = false -> str_or_empty (Some x) = x.
Proof. apply js_or_str_ne. Qed.

Lemma target_select_kept name ids x :
  (x =? "")%string = false -> x ∈ ids -> target_select name ids (Some x) = required_input name x.
Proof.
  intros Hx Hin. unfold target_select, str_or_empty. rewrite js_or_str_ne by done.
  by rewrite select_value_in by (by apply elem_of_cons; right).
Qed.

Lemma link_field_same t fd k : link_field (Some t) t fd k = js_or_null (fd_get fd k).
Proof. unfold link_field. by rewrite bool_decide_eq_true_2. Qed.

Lemma link_field_other lt t fd k : lt <> t -> link_field (Some lt) t fd k = None.
Proof. intros H. unfold link_field. rewrite bool_decide_eq_false_2; [done|congruence]. Qed.

Lemma js_or_null_ne x : (x =? "")%string = false -> js_or_null (Some x) = Some x.
Proof. unfold js_or_null, js_truthy_str. by intros ->. Qed.

Lemma banner_form_roundtrip b cs ts js :
  banner_form_keeps b cs ts js = true ->
  exists fd, submit (BannerForm (Some b) cs ts js (banner_form_init (Some b))) = Some fd /\
    banner_not_null (banner_fields_of_form fd) = true /\
    update_banner_row (banner_fields_of_form fd) b = b.
Proof.
  intros Hk. destruct b as [id title sub img lt cid tid jid url bg tc fx fy ord act].
  unfold banner_form_keeps in Hk. cbn [hb_title hb_subtitle hb_image_url hb_link_type hb_course_id
    hb_content_id hb_job_id hb_custom_url hb_bg_color hb_text_color hb_focal_x hb_focal_y] in Hk.
  split_andb.
  repeat match goal with H : negb _ = true |- _ => apply negb_true_iff in H end.
  repeat match goal with H : bool_decide (_ ∉ _) = true |- _ => apply bool_decide_eq_true_1 in H end.
  unfold BannerForm, banner_form_init, banner_col. cbn [bs_linkType bs_isActive bs_bgColor bs_textColor
    bs_focalX bs_focalY bs_uploaderUrl option_map default hb_title hb_subtitle hb_image_url hb_link_type hb_course_id
    hb_content_id hb_job_id hb_custom_url hb_bg_color hb_text_color hb_focal_x hb_focal_y hb_display_order hb_is_active].
  match goal with H : bool_decide (lt ∈ LINK_TYPES) = true |- _ => apply bool_decide_eq_true_1 in H as Hlt end.
  rewrite (js_or_str_ne lt), select_value_in, (js_or_str_ne bg), (js_or_str_ne tc) by auto using link_types_nonempty.
  apply list_elem_of_In in Hlt as [<-|[<-|[<-|[<-|[]]]]]; unfold target_kept in *; cbn in *.
  all: repeat match goal with H : match ?o with Some _ => _ | None => _ end = true |- _ =>
         destruct o as [?x|]; [|discriminate H] end.
  all: split_andb;
    repeat match goal with H : negb _ = true |- _ => apply negb_true_iff in H end;
    repeat match goal with H : bool_decide _ = true |- _ => apply bool_decide_eq_true_1 in H end;
    subst.
  all: rewrite ?target_select_kept, ?str_or_empty_ne by done.
  all: eexists; split;
    [unfold submit; cbn; repeat match goal with H : (_ =? "")%string = false |- _ => rewrite H end;
     reflexivity|].
  all: split; [reflexivity|].
  all: unfold update_banner_row, banner_fields_of_form, new_banner;
    rewrite (fd_int_string _ "focal_x" fx 50), (fd_int_string _ "focal_y" fy 50),
      (fd_int_num_default _ "display_order" ord 0) by reflexivity;
    cbn -[js_or_null js_or_str str_or_empty fd_int not_false js_string_of_Z js_string_of_bool].
  all: rewrite link_field_same, ?link_field_other by discriminate;
    cbn -[js_or_null js_or_str str_or_empty not_false js_string_of_bool].
  all: rewrite !js_or_null_str_or_empty, ?js_or_null_ne, !js_or_str_ne, not_false_bool by done.
  all: repeat match goal with H : (_ =? 0) = false |- _ => rewrite H end.
  all: by destruct (Z.eqb_spec ord 0) as [->|].
Qed.

Lemma EditBannerPage_run id b db :
  table_fails T_hero_banners db = false -> table_fails T_courses db = false ->
  table_fails T_contents db = false -> table_fails T_job_postings db = false ->
  List.filter (fun b => String.eqb (hb_id b) id) (db_hero_banners db) = [b] ->
  run_state (EditBannerPage id) db = db /\
  run_result (EditBannerPage id) db =
    Ok (Some (b, map c_id (db_courses db), map ct_id (db_contents db), map j_id (db_job_postings db))).
Proof.
  intros Hb Hc Ht Hj Hrow. unfold EditBannerPage, run_state, run_result, st_bind, select_resp, select.
  rewrite Hb, Hc, Ht, Hj, Hrow. done.
Qed.

Lemma update_banners_same id bf b db :
  List.filter (fun b => String.eqb (hb_id b) id) (db_hero_banners db) = [b] ->
  update_banner_row bf b = b -> db_hero_banners (update_banners id bf db) = db_hero_banners db.
Proof.
  intros Hrow Hb. cbn. rewrite <- (map_id (db_hero_banners db)) at 2. apply map_ext_in.
  intros x Hx. destruct (String.eqb (hb_id x) id) eqn:Hid; [|done].
  assert (Hin : In x [b]) by (rewrite <- Hrow; by apply filter_In).
  destruct Hin as [<-|[]]. exact Hb.
Qed.

(** An administrator's [updateHeroBanner] whose row is written. *)
Lemma updateHeroBanner_run user p id fd db :
  table_fails T_profiles db = false -> admin_profile db user = Some p ->
  table_fails T_hero_banners db = false -> banner_not_null (banner_fields_of_form fd) = true ->
  run_state (updateHeroBanner user id fd) db = update_banners id (banner_fields_of_form fd) db /\
  run_result (updateHeroBanner user id fd) db = Ok tt.
Proof.
  intros Hp Ha Hb Hv. unfold updateHeroBanner.
  erewrite (proj1 (admin_run user db p _ Hp Ha)), (proj2 (admin_run user db p _ Hp Ha)). cbv beta.
  destruct (write_checked_ok _ T_hero_banners OpUpdate (update_banners id (banner_fields_of_form fd)) db Hb Hv)
    as [Ws Wr].
  run_bind Wr. rewrite Ws. done.
Qed.

(** C28. Opening a banner's edit page and saving the form unedited
    changes nothing: the page shows the banner, the form submits, and
    [updateHeroBanner] succeeds and leaves the banners as they were, for
    every banner the form shows as it is ([banner_form_keeps]; in
    particular a focal point not at 0 on either axis). *)
Theorem edit_banner_roundtrip user p id b db :
  table_fails T_profiles db = false -> admin_profile db user = Some p ->
  table_fails T_hero_banners db = false -> table_fails T_courses db = false ->
  table_fails T_contents db = false -> table_fails T_job_postings db = false ->
  List.filter (fun b => String.eqb (hb_id b) id) (db_hero_banners db) = [b] ->
  banner_form_keeps b (map c_id (db_courses db)) (map ct_id (db_contents db)) (map j_id (db_job_postings db)) = true ->
  run_state (EditBannerPage id) db = db /\
  run_result (EditBannerPage id) db =
    Ok (Some (b, map c_id (db_courses db), map ct_id (db_contents db), map j_id (db_job_postings db))) /\
  exists fd, submit (BannerForm (Some b) (map c_id (db_courses db)) (map ct_id (db_contents db))
                       (map j_id (db_job_postings db)) (banner_form_init (Some b))) = Some fd /\
    run_result (updateHeroBanner user id fd) db = Ok tt /\
    db_hero_banners (run_state (updateHeroBanner user id fd) db) = db_hero_banners db.
Proof.
  intros Hp Ha Hb Hc Ht Hj Hrow Hk.
  destruct (EditBannerPage_run id b db Hb Hc Ht Hj Hrow) as [E1 E2]. split; [done|]. split; [done|].
  destruct (banner_form_roundtrip b _ _ _ Hk) as (fd & Hfd & Hnn & Hkeep).
  exists fd. split; [done|].
  destruct (updateHeroBanner_run user p id fd db Hp Ha Hb Hnn) as [-> ->].
  split; [done|]. by apply (update_banners_same id _ b).
Qed.

(** C29. A focal point dragged to an edge at 0 is saved as the centre:
    the form submits [focal_x = '0'] and the server reads it with
    [parseInt(x) || 50], so the stored banner is centred at 50 although
    the carousel would honour 0 ([focal_x ?? 50]). *)
Theorem banner_focal_zero_recentred banner cs ts js st fd :
  bs_focalX st = 0 -> submit (BannerForm banner cs ts js st) = Some fd ->
  bf_focal_x (banner_fields_of_form fd) = 50.
Proof.
  intros H0 Hfd. apply submit_some in Hfd. subst fd. cbn [banner_fields_of_form bf_focal_x].
  rewrite (fd_int_string _ "focal_x" (bs_focalX st) 50) by reflexivity. by rewrite H0.
Qed.

(** C30. Whatever the administrator does on the banner form, the focal
    point stays inside the image, [0, 100] on each axis, when it starts
    there: a drag lands inside it whatever the pointer's travel, and an
    upload or the reset button centres it. *)
Theorem banner_focal_bounds banner evs st :
  focal_in_range st -> focal_in_range (fold_left (banner_step banner) evs st).
Proof.
  revert st. induction evs as [|ev evs IH]; intros st Hr; [done|]. apply IH, banner_step_range, Hr.
Qed.

(** The form says the banner image is required, but nothing enforces
    it: removing the image never stops the form from submitting, and the
    banner is then saved with no image. *)
Theorem banner_image_not_required banner cs ts js st fd :
  submit (BannerForm banner cs ts js st) = Some fd ->
  exists fd', submit (BannerForm banner cs ts js (banner_step banner st RemoveImage)) = Some fd' /\
    bf_image_url (banner_fields_of_form fd') = None /\
    banner_not_null (banner_fields_of_form fd') = banner_not_null (banner_fields_of_form fd).
Proof.
  unfold submit. set (P := fun f => f_required f && String.eqb (f_value f) "").
  assert (Hb : existsb P (BannerForm banner cs ts js (banner_step banner st RemoveImage)) =
               existsb P (BannerForm banner cs ts js st)) by (destruct st; reflexivity).
  rewrite Hb. case_if; [done|]. intros [= <-]. eexists. split; [reflexivity|].
  split; destruct st; reflexivity.
Qed.

Lemma edit_banner_roundtrip_witness :
  table_fails T_profiles db_banner = false /\ admin_profile db_banner (Some "b") = Some admin_b /\
  table_fails T_hero_banners db_banner = false /\ table_fails T_courses db_banner = false /\
  table_fails T_contents db_banner = false /\ table_fails T_job_postings db_banner = false /\
  List.filter (fun b => String.eqb (hb_id b) "b1") (db_hero_banners db_banner) = [banner_b1] /\
  banner_form_keeps banner_b1 (map c_id (db_courses db_banner)) (map ct_id (db_contents db_banner))
    (map j_id (db_job_postings db_banner)) = true /\
  run_state (EditBannerPage "b1") db_banner = db_banner /\
  run_result (EditBannerPage "b1") db_banner =
    Ok (Some (banner_b1, map c_id (db_courses db_banner), map ct_id (db_contents db_banner),
              map j_id (db_job_postings db_banner))) /\
  exists fd, submit (BannerForm (Some banner_b1) (map c_id (db_courses db_banner)) (map ct_id (db_contents db_banner))
                       (map j_id (db_job_postings db_banner)) (banner_form_init (Some banner_b1))) = Some fd /\
    run_result (updateHeroBanner (Some "b") "b1" fd) db_banner = Ok tt /\
    db_hero_banners (run_state (updateHeroBanner (Some "b") "b1" fd) db_banner) = db_hero_banners db_banner.
Proof.
  assert (H1 : table_fails T_profiles db_banner = false) by reflexivity.
  assert (H2 : admin_profile db_banner (Some "b") = Some admin_b) by reflexivity.
  assert (H3 : table_fails T_hero_banners db_banner = false) by reflexivity.
  assert (H4 : table_fails T_courses db_banner = false) by reflexivity.
  assert (H5 : table_fails T_contents db_banner = false) by reflexivity.
  assert (H6 : table_fails T_job_postings db_banner = false) by reflexivity.
  assert (H7 : List.filter (fun b => String.eqb (hb_id b) "b1") (db_hero_banners db_banner) = [banner_b1])
    by reflexivity.
  assert (H8 : banner_form_keeps banner_b1 (map c_id (db_courses db_banner)) (map ct_id (db_contents db_banner))
                 (map j_id (db_job_postings db_banner)) = true) by reflexivity.
  do 8 (split; [assumption|]).
  exact (edit_banner_roundtrip (Some "b") admin_b "b1" banner_b1 db_banner H1 H2 H3 H4 H5 H6 H7 H8).
Defined.

Lemma banner_focal_zero_recentred_witness :
  bs_focalX st_edge = 0 /\
  submit (BannerForm (Some banner_b1) b1_options.1.1 b1_options.1.2 b1_options.2 st_edge) = Some form_edge /\
  bf_focal_x (banner_fields_of_form form_edge) = 50.
Proof.
  assert (H1 : bs_focalX st_edge = 0) by reflexivity.
  assert (H2 : submit (BannerForm (Some banner_b1) b1_options.1.1 b1_options.1.2 b1_options.2 st_edge)
               = Some form_edge) by reflexivity.
  split; [exact H1|]. split; [exact H2|].
  exact (banner_focal_zero_recentred (Some banner_b1) _ _ _ st_edge form_edge H1 H2).
Defined.

Lemma banner_focal_bounds_witness :
  focal_in_range (banner_form_init (Some banner_b1)) /\
  focal_in_range (fold_left (banner_step (Some banner_b1)) drag_to_edge (banner_form_init (Some banner_b1))).
Proof.
  assert (H : focal_in_range (banner_form_init (Some banner_b1))) by (unfold focal_in_range; cbn; lia).
  split; [exact H|]. exact (banner_focal_bounds (Some banner_b1) drag_to_edge _ H).
Defined.

Lemma banner_image_not_required_witness :
  submit (BannerForm (Some banner_b1) b1_options.1.1 b1_options.1.2 b1_options.2
            (banner_form_init (Some banner_b1))) = Some form_b1 /\
  exists fd', submit (BannerForm (Some banner_b1) b1_options.1.1 b1_options.1.2 b1_options.2
                        (banner_step (Some banner_b1) (banner_form_init (Some banner_b1)) RemoveImage)) = Some fd' /\
    bf_image_url (banner_fields_of_form fd') = None /\
    banner_not_null (banner_fields_of_form fd') = banner_not_null (banner_fields_of_form form_b1).
Proof.
  assert (H : submit (BannerForm (Some banner_b1) b1_options.1.1 b1_options.1.2 b1_options.2
                        (banner_form_init (Some banner_b1))) = Some form_b1) by reflexivity.
  split; [exact H|]. exact (banner_image_not_required (Some banner_b1) _ _ _ _ form_b1 H).
Defined.
