(* ===== verification/MemberManager.v ===== *)
(** The member management page of the admin area.

    [AdminMembersPage] ([src/app/(admin)/admin/members/page.tsx]) reads
    the profiles that have an admin role; [MemberManager]
    ([src/components/admin/MemberManager.tsx]) shows them in four
    sections by role (pending, super, approved, rejected), each row with
    the buttons of its section, which call the server actions
    [AdminAuth.approveAdmin] and [AdminAuth.rejectAdmin] inside a React
    transition that disables the row's buttons while it runs.  The view is
    a list of sections, the clicks of a row a small state machine, and a
    click's action runs against the store of [Store]. *)

From stdpp Require Import base list list_tactics strings.
From Stdlib Require Import Sorting.Permutation.
From S2P Require Import Prelude Store AdminAuth.

(** ** The page and the view *)

(** [AdminMembersPage] (page.tsx lines 4-24): the profiles whose
    [admin_role] is not null ([.not('admin_role', 'is', null)]); a failed
    read shows no member ([members || []]).  The rows' order
    ([created_at] descending) is presentation and is not kept. *)
Definition AdminMembersPage : Act (list Profile) :=
  let* r := select T_profiles
              (fun db => List.filter (fun p => bool_decide (p_admin_role p <> None)) (db_profiles db)) in
  st_ret (data_or_nil r).

(** The buttons a row shows (MemberRow lines 168-211). *)
Inductive row_action := Approve | Reject | Revoke | ReApprove.

#[export] Instance row_action_eq_dec : EqDecision row_action.
Proof. solve_decision. Defined.

(** [members.filter((m) => m.admin_role === role)] (lines 17-20). *)
Definition with_role (r : admin_role) (members : list Profile) : list Profile :=
  List.filter (fun m => bool_decide (p_admin_role m = Some r)) members.

(** A section (lines 85-110): its title, the count it shows, its rows
    with their buttons, and whether it says that it is empty. *)
Record section := {
  sec_title : string;
  sec_count : nat;
  sec_rows : list (Profile * list row_action);
  sec_empty_note : bool;
}.

Definition mk_section (title : string) (rows : list Profile) (actions : list row_action) (note : bool)
    : section :=
  {| sec_title := title; sec_count := length rows; sec_rows := map (fun m => (m, actions)) rows;
     sec_empty_note := note && bool_decide (rows = []) |}.

Definition title_pending : string := "승인 대기".
Definition title_super : string := "슈퍼관리자".
Definition title_approved : string := "승인된 관리자".
Definition title_rejected : string := "거절됨".

(** [MemberManager] (lines 16-83): the pending section when there is a
    pending member, the super and approved sections always, the rejected
    section when there is a rejected member. *)
Definition MemberManager (members : list Profile) : list section :=
  let pending := with_role Pending members in
  let approved := with_role Approved members in
  let superAdmins := with_role Super members in
  let rejected := with_role Rejected members in
  (if bool_decide (pending = []) then [] else [mk_section title_pending pending [Approve; Reject] false]) ++
  [mk_section title_super superAdmins [] true;
   mk_section title_approved approved [Revoke] true] ++
  (if bool_decide (rejected = []) then [] else [mk_section title_rejected rejected [ReApprove] false]).

(** The members the view lists, section after section. *)
Definition shown_members (view : list section) : list Profile :=
  concat (map (fun s => map fst (sec_rows s)) view).

(** The title of the first section listing a member with id [uid]. *)
Definition section_of (uid : string) (view : list section) : option string :=
  option_map sec_title
    (List.find (fun s => existsb (fun r => String.eqb (p_id r.1) uid) (sec_rows s)) view).

(** [roleLabel] (lines 135-140): the label of a role, or the role itself. *)
Definition roleLabel (r : option admin_role) : option string :=
  match r with
  | Some Super => Some "슈퍼관리자" | Some Approved => Some "관리자"
  | Some Pending => Some "대기중" | Some Rejected => Some "거절됨"
  | None => None
  end.

(** ** A row's clicks *)

(** [handleApprove] and [handleReject] (lines 125-133): the approve
    buttons call [approveAdmin]; the reject and revoke buttons ask
    [confirm(...)] first and do nothing when it is declined. *)
Definition row_handler (user : option string) (m : Profile) (a : row_action) (confirmed : bool) : Act unit :=
  match a with
  | Approve | ReApprove => approveAdmin user (p_id m)
  | Reject | Revoke => if confirmed then rejectAdmin user (p_id m) else st_ret tt
  end.

(** The role a row's action writes. *)
Definition action_role (a : row_action) : admin_role :=
  match a with Approve | ReApprove => Approved | Reject | Revoke => Rejected end.

(** The row's transition ([useTransition], line 123): its buttons are
    [disabled={isPending}] while an action runs. *)
Record row_state := { rs_isPending : bool; rs_started : list row_action }.

Inductive row_event := Click (a : row_action) (confirmed : bool) | TransitionDone.

Definition row_step (st : row_state) (ev : row_event) : row_state :=
  match ev with
  | Click a confirmed =>
      if rs_isPending st then st
      else match a with
           | Approve | ReApprove => {| rs_isPending := true; rs_started := rs_started st ++ [a] |}
           | Reject | Revoke =>
               if confirmed then {| rs_isPending := true; rs_started := rs_started st ++ [a] |} else st
           end
  | TransitionDone => {| rs_isPending := false; rs_started := rs_started st |}
  end.

Definition row_init : row_state := {| rs_isPending := false; rs_started := [] |}.

(** The section that lists the members of a role. *)
Definition title_of (r : admin_role) : string :=
  match r with
  | Pending => title_pending | Super => title_super | Approved => title_approved | Rejected => title_rejected
  end.

(** A member with id [uid] and role [r] among [ms]. *)
Definition has_id_role (uid : string) (r : admin_role) (ms : list Profile) : bool :=
  existsb (fun m => String.eqb (p_id m) uid && bool_decide (p_admin_role m = Some r)) ms.

(** ** Lemmas *)

Lemma map_fst_pairs {A B} (l : list A) (b : B) : map fst (map (fun a => (a, b)) l) = l.
Proof. rewrite map_map. apply map_id. Qed.

Lemma shown_MemberManager ms :
  shown_members (MemberManager ms) =
    with_role Pending ms ++ with_role Super ms ++ with_role Approved ms ++ with_role Rejected ms.
Proof.
  unfold shown_members, MemberManager.
  case_bool_decide as Hp; case_bool_decide as Hr; cbn -[with_role];
    rewrite ?map_fst_pairs, ?Hp, ?Hr; cbn; by rewrite ?app_nil_r, ?app_assoc.
Qed.

Lemma with_role_cons r m ms :
  with_role r (m :: ms) = if bool_decide (p_admin_role m = Some r) then m :: with_role r ms else with_role r ms.
Proof. reflexivity. Qed.

Lemma sections_perm ms :
  Forall (fun m => p_admin_role m <> None) ms ->
  Permutation (with_role Pending ms ++ with_role Super ms ++ with_role Approved ms ++ with_role Rejected ms) ms.
Proof.
  induction ms as [|m ms IH]; intros Hall; [done|].
  apply Forall_cons in Hall as [Hm Hall]. specialize (IH Hall). rewrite !with_role_cons.
  transitivity (m :: (with_role Pending ms ++ with_role Super ms ++ with_role Approved ms ++
                      with_role Rejected ms)); [|by apply perm_skip].
  destruct (p_admin_role m) as [[]|] eqn:Hr; [| | | |done];
    repeat case_bool_decide; try congruence; cbn [app]; solve_Permutation.
Qed.

Lemma rows_has_id uid r ms (acts : list row_action) :
  existsb (fun x : Profile * list row_action => String.eqb (p_id x.1) uid) (map (fun m => (m, acts)) (with_role r ms)) = has_id_role uid r ms.
Proof.
  unfold has_id_role. induction ms as [|m ms IH]; [done|]. rewrite with_role_cons. cbn [existsb].
  case_bool_decide; cbn [existsb map fst]; rewrite IH; [by rewrite andb_true_r|by rewrite andb_false_r].
Qed.

Lemma has_id_role_only uid role ms r :
  (forall q, In q ms -> p_id q = uid -> p_admin_role q = Some role) ->
  (exists q, In q ms /\ p_id q = uid) ->
  has_id_role uid r ms = bool_decide (r = role).
Proof.
  intros Honly (q & Hq & Hid). unfold has_id_role. case_bool_decide as Hr.
  - subst r. apply existsb_exists. exists q. split; [done|]. rewrite Hid, String.eqb_refl.
    by rewrite bool_decide_eq_true_2 by (by apply Honly).
  - apply not_true_iff_false. intros (q' & Hq' & Hb)%existsb_exists. apply andb_prop in Hb as [Hi Hb].
    apply String.eqb_eq in Hi. apply bool_decide_eq_true in Hb. rewrite (Honly q' Hq' Hi) in Hb. congruence.
Qed.

Lemma has_id_role_nonempty uid r ms : has_id_role uid r ms = true -> with_role r ms <> [].
Proof. rewrite <- (rows_has_id uid r ms []). intros H E. by rewrite E in H. Qed.

(** The view lists every member with id [uid] in the section of the one
    role they all have. *)
Lemma section_of_MemberManager uid role ms :
  (forall q, In q ms -> p_id q = uid -> p_admin_role q = Some role) ->
  (exists q, In q ms /\ p_id q = uid) ->
  section_of uid (MemberManager ms) = Some (title_of role).
Proof.
  intros Honly Hex. pose proof (has_id_role_only uid role ms) as Hr.
  assert (Hne : with_role role ms <> []) by (apply (has_id_role_nonempty uid); rewrite Hr by done; by case_bool_decide).
  unfold section_of, MemberManager.
  case_bool_decide as Hp; case_bool_decide as Hj; cbn [List.find sec_rows mk_section app];
    rewrite ?rows_has_id, !Hr by done;
    destruct role; cbn; try done; congruence.
Qed.

Lemma AdminMembersPage_run db :
  db_failing db = [] ->
  run_state AdminMembersPage db = db /\
  run_result AdminMembersPage db = Ok (List.filter (fun p => bool_decide (p_admin_role p <> None)) (db_profiles db)).
Proof. intros Hf. unfold AdminMembersPage, run_state, run_result, st_bind, select. by rewrite table_fails_nil. Qed.

Lemma AdminMembersPage_roles db ms :
  run_result AdminMembersPage db = Ok ms -> Forall (fun m => p_admin_role m <> None) ms.
Proof.
  unfold AdminMembersPage, run_result, st_bind, select. cbn. intros [= <-].
  destruct (table_fails T_profiles db); [constructor|]. apply List.Forall_forall.
  intros m Hm. apply filter_In in Hm as [_ Hm]. by apply bool_decide_eq_true in Hm.
Qed.

(** A super administrator's confirmed click writes the role of its
    action on every profile with the member's id. *)
Lemma row_handler_run user db m a :
  db_failing db = [] -> is_super_user db user = true ->
  run_state (row_handler user m a true) db =
    set_admin_role (p_id m) (action_role a) (is_admin_role (Some (action_role a))) db.
Proof.
  intros Hf Hs. unfold run_state.
  destruct a; cbn [row_handler action_role is_admin_role]; unfold approveAdmin, rejectAdmin;
    by rewrite super_write_run.
Qed.

Lemma row_steps_started st evs :
  Forall (fun e => e <> TransitionDone) evs ->
  (length (rs_started (fold_left row_step evs st)) <= length (rs_started st) + (if rs_isPending st then 0 else 1))%nat.
Proof.
  revert st. induction evs as [|e evs IH]; intros st Hall; [cbn; lia|].
  apply Forall_cons in Hall as [He Hall]. cbn [fold_left].
  destruct e as [a c|]; [|done]. cbn [row_step].
  destruct (rs_isPending st) eqn:Hp; [specialize (IH st Hall); rewrite Hp in IH; lia|].
  destruct a; [| | |]; try destruct c;
    match goal with |- context [fold_left row_step evs ?st'] =>
      specialize (IH st' Hall); cbn in IH; rewrite ?length_app in IH; cbn in IH; rewrite ?Hp in IH; lia end.
Qed.

(** C36. The member page shows every member it read exactly once: the
    rows of its sections, section after section, are a permutation of
    the profiles with an admin role, whatever the read returned. *)
Theorem members_shown_once db ms :
  run_result AdminMembersPage db = Ok ms -> Permutation (shown_members (MemberManager ms)) ms.
Proof.
  intros Hr. rewrite shown_MemberManager. apply sections_perm. by eapply AdminMembersPage_roles.
Qed.

(** C37. A super administrator's confirmed click on a member's button
    moves the member, on the page's next render, to the section of the
    role the button writes: approving or re-approving to the approved
    administrators, rejecting or revoking to the rejected ones. *)
Theorem member_click_moves_section user db m a :
  db_failing db = [] -> is_super_user db user = true -> In m (db_profiles db) ->
  exists ms, run_result AdminMembersPage (run_state (row_handler user m a true) db) = Ok ms /\
    section_of (p_id m) (MemberManager ms) = Some (title_of (action_role a)).
Proof.
  intros Hf Hs Hm. rewrite row_handler_run by done.
  set (db' := set_admin_role (p_id m) (action_role a) (is_admin_role (Some (action_role a))) db).
  assert (Hf' : db_failing db' = []) by exact Hf.
  eexists. split; [exact (proj2 (AdminMembersPage_run db' Hf'))|].
  apply section_of_MemberManager.
  - intros q Hq Hid. apply filter_In in Hq as [Hq _]. apply set_admin_role_In in Hq as (p & Hp & ->).
    revert Hid. destruct (String.eqb_spec (p_id p) (p_id m)); cbn; [done|congruence].
  - exists {| p_id := p_id m; p_email := p_email m; p_name := p_name m;
              p_is_admin := is_admin_role (Some (action_role a)); p_admin_role := Some (action_role a) |}.
    split; [|done]. apply filter_In. split; [|by apply bool_decide_eq_true].
    apply set_admin_role_In. exists m. split; [done|]. by rewrite String.eqb_refl.
Qed.

(** C38. A row's buttons are disabled while its transition runs: however
    many clicks reach the row before the transition ends, at most one
    action is started (unlike the like button, which checks its flag
    only after an await). *)
Theorem row_transition_single_action evs :
  Forall (fun e => e <> TransitionDone) evs -> (length (rs_started (fold_left row_step evs row_init)) <= 1)%nat.
Proof. intros Hall. pose proof (row_steps_started row_init evs Hall) as H. cbn in H. lia. Qed.

(** ** Witnesses *)

Lemma members_shown_once_witness :
  run_result AdminMembersPage db_members =
    Ok (List.filter (fun p => bool_decide (p_admin_role p <> None)) (db_profiles db_members)) /\
  Permutation (shown_members (MemberManager
    (List.filter (fun p => bool_decide (p_admin_role p <> None)) (db_profiles db_members))))
    (List.filter (fun p => bool_decide (p_admin_role p <> None)) (db_profiles db_members)).
Proof.
  assert (H : run_result AdminMembersPage db_members =
              Ok (List.filter (fun p => bool_decide (p_admin_role p <> None)) (db_profiles db_members)))
    by reflexivity.
  split; [exact H|]. exact (members_shown_once db_members _ H).
Defined.

Lemma member_click_moves_section_witness :
  db_failing db_members = [] /\ is_super_user db_members (Some "s") = true /\
  In (mk_profile "u" "u@x.kr" (Some Pending)) (db_profiles db_members) /\
  exists ms, run_result AdminMembersPage
               (run_state (row_handler (Some "s") (mk_profile "u" "u@x.kr" (Some Pending)) Approve true) db_members)
               = Ok ms /\
    section_of (p_id (mk_profile "u" "u@x.kr" (Some Pending))) (MemberManager ms) = Some (title_of (action_role Approve)).
Proof.
  assert (H1 : db_failing db_members = []) by reflexivity.
  assert (H2 : is_super_user db_members (Some "s") = true) by reflexivity.
  assert (H3 : In (mk_profile "u" "u@x.kr" (Some Pending)) (db_profiles db_members)) by (cbn; tauto).
  do 3 (split; [assumption|]). exact (member_click_moves_section (Some "s") db_members _ Approve H1 H2 H3).
Defined.

Lemma row_transition_single_action_witness :
  Forall (fun e => e <> TransitionDone) [Click Approve true; Click Reject true; Click Approve true] /\
  (length (rs_started (fold_left row_step [Click Approve true; Click Reject true; Click Approve true] row_init))
     <= 1)%nat.
Proof.
  assert (H : Forall (fun e => e <> TransitionDone) [Click Approve true; Click Reject true; Click Approve true])
    by (repeat constructor; discriminate).
  split; [exact H|]. exact (row_transition_single_action _ H).
Defined.
