(* ===== verification/JobAdmin.v ===== *)
(** The job-posting form of the admin pages ([src/components/admin/JobForm.tsx]),
    the edit page that shows it ([src/app/(admin)/admin/jobs/[id]/page.tsx])
    and what it submits to [createJob] and [updateJob] of [Catalogue].

    The controls follow the conventions of [AdminForms]: a FormData entry
    per named control in document order, nothing submitted while a
    [required] control is empty, a select falling back to its first
    option.  The store keeps a deadline as the number its digits spell
    ([Store.JobPosting]); the page hands the form the date string
    [YYYY-MM-DD], which [date_string] prints back from that number.  The
    description editor is lazy ([lazy(() => import('./RichEditor'))]) and
    created after the first render, so its hidden field can be missing. *)

From stdpp Require Import base list strings.
Local Open Scope Z_scope.
From Stdlib Require Import Ascii ZArith Lia.
From S2P Require Import Prelude Store JsNumber Markup FormData AdminAuth Catalogue AdminForms BannerAdmin.

(** [JOB_TYPES.map(t => t.id)] (src/lib/constants.ts, lines 26-30). *)
Definition JOB_TYPES : list string := ["newgrad"; "intern"; "experienced"].

(** ** Dates *)

(** The last [n] decimal digits of [k], zero-padded. *)
Fixpoint pad_digits (n : nat) (k : Z) : string :=
  match n with
  | O => ""
  | S n' => pad_digits n' (k / 10) ++ String (digit_char (Z.to_nat (k mod 10))) ""
  end.

(** The date column as the API returns it: [20250301] is ["2025-03-01"]. *)
Definition date_string (k : Z) : string :=
  pad_digits 4 (k / 10000) ++ "-" ++ pad_digits 2 (k / 100 mod 100) ++ "-" ++ pad_digits 2 (k mod 100).

(** ** The form *)

(** [job?.col]: the column of the job shown, [d] for a new one. *)
Definition job_col {A} (job : option JobPosting) (f : JobPosting -> A) (d : A) : A :=
  default d (option_map f job).

(** The client state of [JobForm] (lines 20-21). *)
Record job_form := { jbf_tagIds : list string; jbf_isActive : bool }.

(** [useState(initialTagIds)] and [useState(job?.is_active ?? true)]. *)
Definition job_form_init (job : option JobPosting) (initialTagIds : list string) : job_form :=
  {| jbf_tagIds := initialTagIds; jbf_isActive := job_col job j_is_active true |}.

(** A click of the form: a tag of the selector, or the active checkbox. *)
Inductive job_form_event := JobClickTag (tagId : string) | SetActive (b : bool).

Definition job_form_step (st : job_form) (ev : job_form_event) : job_form :=
  match ev with
  | JobClickTag t => {| jbf_tagIds := toggleTag (jbf_tagIds st) t; jbf_isActive := jbf_isActive st |}
  | SetActive b => {| jbf_tagIds := jbf_tagIds st; jbf_isActive := b |}
  end.

Section Form.
(** [editor.getHTML()] for an editor created with a content. *)
Context (getHTML : string -> string).

(** The controls of [JobForm] (lines 24-166) in document order; the
    checkbox has no name and submits through the hidden [is_active]. *)
Definition JobForm (mounted : bool) (job : option JobPosting) (st : job_form) : list field :=
  [input "tag_ids" (String.concat "," (jbf_tagIds st));
   input "is_active" (js_string_of_bool (jbf_isActive st));
   ImageUploader (job_col job j_thumbnail_url None) "thumbnail_url";
   required_input "company_name" (job_col job j_company_name "");
   required_input "job_type" (select_value JOB_TYPES (js_or_str (option_map j_job_type job) "newgrad"));
   required_input "title" (job_col job j_title "");
   input "location" (str_or_empty (job_col job j_location None));
   required_input "deadline" (job_col job (fun j => date_string (j_deadline j)) "");
   input "url" (str_or_empty (job_col job j_url None));
   input "source" (str_or_empty (job_col job j_source None));
   input "legacy_tags" (String.concat "," (job_col job j_tags []))] ++
  RichEditor getHTML mounted (str_or_empty (job_col job j_description None)) "description".
End Form.

(** [EditJobPage] (lines 9-27): the job read with [.single()] and its tag
    ids, or [notFound()]; the [tags] table only feeds the selector's list. *)
Definition EditJobPage (id : string) : Act (option (JobPosting * list string)) :=
  let* jobRes := select_resp T_job_postings
                   (fun db => single_resp (List.filter (fun j => String.eqb (j_id j) id) (db_job_postings db))) in
  let* jobTagsRes := select T_content_tags (fun db => tags_of ItJob id db) in
  match jobRes with
  | RData job => st_ret (Some (job, match jobTagsRes with RData ts => ts | RErr => [] end))
  | RErr => st_ret None
  end.

(** A tag id that [join(',')] and [split(',')] carry unchanged. *)
Definition plain_idb (x : string) : bool := negb (String.eqb x "") && negb (includes "," x).

(** The jobs the edit form shows as they are: the required columns filled,
    the job type among the select's options, a deadline of eight digits,
    no empty nullable text, legacy tags without commas, and a description
    the editor gives back unchanged. *)
Definition job_form_keeps (getHTML : string -> string) (j : JobPosting) : bool :=
  negb (String.eqb (j_company_name j) "") && negb (String.eqb (j_title j) "") &&
  bool_decide (j_job_type j ∈ JOB_TYPES) && (0 <=? j_deadline j) && (j_deadline j <? 10 ^ 8) &&
  bool_decide (j_location j <> Some "") && bool_decide (j_url j <> Some "") &&
  bool_decide (j_thumbnail_url j <> Some "") && bool_decide (j_source j <> Some "") &&
  forallb plain_idb (j_tags j) &&
  match j_description j with
  | Some d => negb (String.eqb d "") && String.eqb (getHTML d) d
  | None => false
  end.

(** ** Example store *)

Definition job_j1 : JobPosting :=
  {| j_id := "j1"; j_company_name := "Kakao"; j_title := "2025 new graduates";
     j_description := Some "<p>Backend</p>"; j_job_type := "newgrad"; j_location := Some "Pangyo";
     j_deadline := 20250301; j_url := Some "https://careers.kakao.com"; j_thumbnail_url := None;
     j_tags := ["IT"; "dev"]; j_source := None; j_is_active := true |}.

(** A posting imported without a description. *)
Definition job_j2 : JobPosting :=
  {| j_id := "j2"; j_company_name := "Naver"; j_title := "Summer intern";
     j_description := None; j_job_type := "intern"; j_location := None;
     j_deadline := 20250615; j_url := None; j_thumbnail_url := None;
     j_tags := []; j_source := Some "crawler"; j_is_active := true |}.

Definition db_jobs : Db :=
  set_content_tags [tag_row ItJob "j1" "t1" "r1"]
    (set_profiles [admin_b] (set_job_postings [job_j1; job_j2] db_empty)).

(** What the edit form of [job_j2] submits, and the form of [job_j1]
    submitted before its editor exists. *)
Definition form_j2 : FormData :=
  map (fun f => (f_name f, f_value f)) (JobForm tiptap_html true (Some job_j2) (job_form_init (Some job_j2) [])).

Definition form_j1_early : FormData :=
  map (fun f => (f_name f, f_value f)) (JobForm tiptap_html false (Some job_j1) (job_form_init (Some job_j1) ["t1"])).

(** ** Lemmas *)

Lemma date_digits_app s1 s2 acc : date_digits (s1 ++ s2) acc = date_digits s2 (date_digits s1 acc).
Proof.
  revert acc. induction s1 as [|c s1 IH]; intros acc; [by rewrite append_Empty|].
  rewrite append_String. cbn [date_digits]. by destruct (digit_value 10 c).
Qed.

(** [pad_digits n k] spells [k] on [n] digits. *)
Lemma date_digits_pad n k acc :
  0 <= k < 10 ^ Z.of_nat n -> date_digits (pad_digits n k) acc = acc * 10 ^ Z.of_nat n + k.
Proof.
  revert k acc. induction n as [|n IH]; intros k acc Hk; [cbn in *; lia|].
  rewrite Nat2Z.inj_succ, Z.pow_succ_r in * by lia. cbn [pad_digits].
  assert (Hm : 0 <= k mod 10 < 10) by (apply Z.mod_pos_bound; lia).
  assert (Hq : 0 <= k / 10 < 10 ^ Z.of_nat n)
    by (split; [apply Z.div_pos; lia|apply Z.div_lt_upper_bound; lia]).
  rewrite date_digits_app, IH by done. cbn [date_digits].
  rewrite digit_value_char by lia. pose proof (Z.div_mod k 10). lia.
Qed.

(** The form's deadline is read back as the stored one. *)
Lemma date_key_string k : 0 <= k < 10 ^ 8 -> date_key (date_string k) = k.
Proof.
  intros Hk. unfold date_key, date_string.
  assert (Hy : 0 <= k / 10000 < 10 ^ Z.of_nat 4)
    by (split; [apply Z.div_pos; lia|apply Z.div_lt_upper_bound; cbn; lia]).
  assert (Hmo : 0 <= k / 100 mod 100 < 10 ^ Z.of_nat 2) by (cbn; apply Z.mod_pos_bound; lia).
  assert (Hd : 0 <= k mod 100 < 10 ^ Z.of_nat 2) by (cbn; apply Z.mod_pos_bound; lia).
  rewrite !date_digits_app, !date_digits_pad by done. cbn [date_digits digit_value].
  assert (Hdd : k / 10000 = k / 100 / 100) by (rewrite Z.div_div by lia; reflexivity).
  pose proof (Z.div_mod k 100). pose proof (Z.div_mod (k / 100) 100). 
  assert (Hm : digit_value 10 "-" = None) by reflexivity. rewrite Hm. cbn -[Z.div Z.modulo]. lia.
Qed.

Lemma append_cons_ne s c t : (s ++ String c t =? "")%string = false.
Proof. destruct s; [rewrite append_Empty|rewrite append_String]; reflexivity. Qed.

Lemma date_string_ne k : (date_string k =? "")%string = false.
Proof.
  unfold date_string. destruct (pad_digits 4 (k / 10000)); [rewrite append_Empty|rewrite append_String]; reflexivity.
Qed.

Lemma plain_idb_spec x : plain_idb x = true -> plain_id x.
Proof.
  unfold plain_idb, plain_id. intros H. apply andb_prop in H as [H1 H2].
  apply negb_true_iff in H1, H2. split; [by apply String.eqb_neq|done].
Qed.

Lemma forallb_plain_id l : forallb plain_idb l = true -> Forall plain_id l.
Proof.
  intros H. apply List.Forall_forall. intros x Hx. apply plain_idb_spec.
  exact (proj1 (forallb_forall _ _) H x Hx).
Qed.

Lemma EditJobPage_run id j db :
  table_fails T_job_postings db = false -> table_fails T_content_tags db = false ->
  List.filter (fun j => String.eqb (j_id j) id) (db_job_postings db) = [j] ->
  run_state (EditJobPage id) db = db /\ run_result (EditJobPage id) db = Ok (Some (j, tags_of ItJob id db)).
Proof.
  intros Hj Ht Hrow. unfold EditJobPage, run_state, run_result, st_bind, select_resp, select.
  rewrite Hj, Ht, Hrow. done.
Qed.

(** The rows with key [id] after [update_jobs]. *)
Lemma update_jobs_row id jf j db :
  List.filter (fun j => String.eqb (j_id j) id) (db_job_postings db) = [j] ->
  List.filter (fun j => String.eqb (j_id j) id) (db_job_postings (update_jobs id jf db)) = [update_job_row jf j].
Proof. by apply update_eq_row. Qed.

(** Updating the one row with key [id] by a function that keeps it. *)
Lemma update_jobs_same id jf j db :
  List.filter (fun j => String.eqb (j_id j) id) (db_job_postings db) = [j] ->
  update_job_row jf j = j -> db_job_postings (update_jobs id jf db) = db_job_postings db.
Proof. apply update_eq_same. Qed.

(** [updateJob] by an administrator whose row is written: it goes on
    with [syncTags] on the updated store. *)
Lemma updateJob_run user jobId fd db p :
  table_fails T_profiles db = false -> admin_profile db user = Some p ->
  table_fails T_job_postings db = false -> job_not_null (job_fields_of_form fd) = true ->
  let db1 := update_jobs jobId (job_fields_of_form fd) db in
  run_state (updateJob user jobId fd) db = run_state (syncTags (form_tag_ids fd) jobId ItJob) db1 /\
  run_result (updateJob user jobId fd) db = run_result (syncTags (form_tag_ids fd) jobId ItJob) db1.
Proof. intros Hp Ha Hj Hv. exact (update_action_run user p _ T_job_postings _ _ _ _ db Hp Ha Hj Hv). Qed.

(** The job row an administrator's [updateJob] leaves, whatever the tag
    requests do. *)
Lemma updateJob_job_row user p id j fd db :
  table_fails T_profiles db = false -> admin_profile db user = Some p ->
  table_fails T_job_postings db = false -> job_not_null (job_fields_of_form fd) = true ->
  List.filter (fun j => String.eqb (j_id j) id) (db_job_postings db) = [j] ->
  List.filter (fun j => String.eqb (j_id j) id) (db_job_postings (run_state (updateJob user id fd) db)) =
    [update_job_row (job_fields_of_form fd) j].
Proof.
  intros Hp Ha Hj Hv Hrow. destruct (updateJob_run user id fd db p Hp Ha Hj Hv) as [-> _].
  by rewrite (proj2 (proj2 (syncTags_tables _ _ _ _))), (update_jobs_row id _ j db Hrow).
Qed.

Lemma job_form_roundtrip getHTML j ts :
  job_form_keeps getHTML j = true -> Forall plain_id ts ->
  exists fd, submit (JobForm getHTML true (Some j) (job_form_init (Some j) ts)) = Some fd /\
    job_not_null (job_fields_of_form fd) = true /\
    update_job_row (job_fields_of_form fd) j = j /\ form_tag_ids fd = ts.
Proof.
  intros Hk Hts. unfold job_form_keeps in Hk.
  destruct (j_description j) as [d|] eqn:Hdesc; [|by rewrite !andb_false_r in Hk].
  split_andb. repeat match goal with H : negb _ = true |- _ => apply negb_true_iff in H end.
  repeat match goal with H : bool_decide _ = true |- _ => apply bool_decide_eq_true_1 in H end.
  assert (Hty : j_job_type j <> "").
  { intros E. match goal with H : j_job_type j ∈ _ |- _ => rewrite E in H; apply list_elem_of_In in H; cbn in H end.
    intuition discriminate. }
  unfold submit. cbn -[select_value date_string str_or_empty js_string_of_bool js_or_str].
  rewrite js_or_str_ne, select_value_in by (done || by apply String.eqb_neq).
  rewrite (proj2 (String.eqb_neq _ _) Hty), date_string_ne.
  repeat match goal with H : (_ =? "")%string = false |- _ => rewrite H end.
  eexists. split; [reflexivity|]. split; [reflexivity|]. split; [|by apply split_ids_join].
  unfold job_fields_of_form. cbn -[date_key date_string str_or_empty js_string_of_bool js_or_str js_or_null split_ids not_false].
  rewrite !js_or_null_str_or_empty by done. rewrite Hdesc.
  unfold str_or_empty at 1. rewrite js_or_str_ne by done.
  match goal with H : (getHTML d =? d)%string = true |- _ => apply String.eqb_eq in H; rewrite H end.
  rewrite js_or_null_ne, split_ids_join, not_false_bool by (done || by apply forallb_plain_id).
  destruct j; unfold update_job_row; cbn -[date_key date_string] in *. rewrite date_key_string by lia. by subst.
Qed.

(** The job form always carries the columns [NOT NULL] needs, editor or not. *)
Lemma job_form_not_null getHTML mounted job st fd :
  submit (JobForm getHTML mounted job st) = Some fd -> job_not_null (job_fields_of_form fd) = true.
Proof. intros Hfd. apply submit_some in Hfd. subst fd. by destruct mounted. Qed.

(** The [description] the job form submits. *)
Lemma job_form_description getHTML mounted job st fd :
  submit (JobForm getHTML mounted job st) = Some fd ->
  fd_get fd "description" = if mounted then Some (getHTML (str_or_empty (job_col job j_description None))) else None.
Proof. intros Hfd. apply submit_some in Hfd. subst fd. by destruct mounted. Qed.

(** C31. Opening a job's edit page and saving the form unedited changes
    nothing: when the requests answer, the page shows the job and its
    tags, and the submitted FormData makes [updateJob] succeed and leave
    the job postings and the job's tags as they were.  It holds for the
    jobs the form shows as they are ([job_form_keeps]: required columns
    filled, the job type among the select's options, an eight-digit
    deadline, no empty nullable text, legacy tags without commas, the
    editor's HTML of the description stable) whose tag ids have no comma. *)
Theorem edit_job_roundtrip getHTML user p id j db :
  table_fails T_profiles db = false -> admin_profile db user = Some p ->
  table_fails T_job_postings db = false -> table_fails T_content_tags db = false ->
  List.filter (fun j => String.eqb (j_id j) id) (db_job_postings db) = [j] ->
  job_form_keeps getHTML j = true -> Forall plain_id (tags_of ItJob id db) ->
  run_state (EditJobPage id) db = db /\
  run_result (EditJobPage id) db = Ok (Some (j, tags_of ItJob id db)) /\
  exists fd, submit (JobForm getHTML true (Some j) (job_form_init (Some j) (tags_of ItJob id db))) = Some fd /\
    run_result (updateJob user id fd) db = Ok tt /\
    db_job_postings (run_state (updateJob user id fd) db) = db_job_postings db /\
    tags_of ItJob id (run_state (updateJob user id fd) db) = tags_of ItJob id db.
Proof.
  intros Hp Ha Hj Ht Hrow Hk Hts.
  destruct (EditJobPage_run id j db Hj Ht Hrow) as [E1 E2]. split; [done|]. split; [done|].
  destruct (job_form_roundtrip getHTML j _ Hk Hts) as (fd & Hfd & Hnn & Hkeep & Htags).
  exists fd. split; [done|].
  destruct (updateJob_run user id fd db p Hp Ha Hj Hnn) as [-> ->].
  assert (Ht1 : table_fails T_content_tags (update_jobs id (job_fields_of_form fd) db) = false)
    by (unfold update_jobs; by autorewrite with jj_fail).
  destruct (syncTags_replaces (form_tag_ids fd) id ItJob _ Ht1) as (R & T & _).
  rewrite R, T, (proj2 (proj2 (syncTags_tables _ _ _ _))). split; [done|]. split; [|done].
  by apply (update_jobs_same id _ j).
Qed.

(** Saving the edit form of a job stored without a description gives
    it one: the editor starts from [''] and submits its HTML of the empty
    document (TipTap's ['<p></p>']), which [x || null] keeps. *)
Theorem edit_job_empty_description_filled getHTML user p id j st fd db :
  table_fails T_profiles db = false -> admin_profile db user = Some p -> table_fails T_job_postings db = false ->
  List.filter (fun j => String.eqb (j_id j) id) (db_job_postings db) = [j] ->
  j_description j = None -> getHTML "" <> "" ->
  submit (JobForm getHTML true (Some j) st) = Some fd ->
  map j_description (List.filter (fun j => String.eqb (j_id j) id)
                       (db_job_postings (run_state (updateJob user id fd) db))) = [Some (getHTML "")].
Proof.
  intros Hp Ha Hj Hrow Hd Hne Hfd.
  rewrite (updateJob_job_row user p id j fd db) by (done || by eapply job_form_not_null).
  cbn [map update_job_row j_description job_fields_of_form jf_description].
  rewrite (job_form_description getHTML true (Some j) st fd Hfd). cbn [job_col option_map default].
  rewrite Hd. by rewrite js_or_null_ne by (by apply String.eqb_neq).
Qed.

(** C32. Saving the job form before its lazy editor has been created wipes
    the job's description: the form then has no [description] field,
    [formData.get] gives [null], and [updateJob] succeeds writing
    [null] to the nullable column. *)
Theorem job_form_before_editor_clears_description getHTML user p id j st fd db :
  table_fails T_profiles db = false -> admin_profile db user = Some p -> table_fails T_job_postings db = false ->
  List.filter (fun j => String.eqb (j_id j) id) (db_job_postings db) = [j] ->
  submit (JobForm getHTML false (Some j) st) = Some fd ->
  run_result (updateJob user id fd) db = Ok tt /\
  map j_description (List.filter (fun j => String.eqb (j_id j) id)
                       (db_job_postings (run_state (updateJob user id fd) db))) = [None].
Proof.
  intros Hp Ha Hj Hrow Hfd. pose proof (job_form_not_null _ _ _ _ _ Hfd) as Hnn. split.
  - destruct (updateJob_run user id fd db p Hp Ha Hj Hnn) as [_ ->].
    destruct (table_fails T_content_tags (update_jobs id (job_fields_of_form fd) db)) eqn:Ht.
    + by rewrite (proj1 (syncTags_failing _ _ _ _ Ht)).
    + by rewrite (proj1 (syncTags_replaces _ _ _ _ Ht)).
  - rewrite (updateJob_job_row user p id j fd db) by done.
    cbn [map update_job_row j_description job_fields_of_form jf_description].
    by rewrite (job_form_description getHTML false (Some j) st fd Hfd).
Qed.

Lemma edit_job_roundtrip_witness :
  table_fails T_profiles db_jobs = false /\ admin_profile db_jobs (Some "b") = Some admin_b /\
  table_fails T_job_postings db_jobs = false /\ table_fails T_content_tags db_jobs = false /\
  List.filter (fun j => String.eqb (j_id j) "j1") (db_job_postings db_jobs) = [job_j1] /\
  job_form_keeps tiptap_html job_j1 = true /\ Forall plain_id (tags_of ItJob "j1" db_jobs) /\
  run_state (EditJobPage "j1") db_jobs = db_jobs /\
  run_result (EditJobPage "j1") db_jobs = Ok (Some (job_j1, tags_of ItJob "j1" db_jobs)) /\
  exists fd, submit (JobForm tiptap_html true (Some job_j1) (job_form_init (Some job_j1) (tags_of ItJob "j1" db_jobs))) = Some fd /\
    run_result (updateJob (Some "b") "j1" fd) db_jobs = Ok tt /\
    db_job_postings (run_state (updateJob (Some "b") "j1" fd) db_jobs) = db_job_postings db_jobs /\
    tags_of ItJob "j1" (run_state (updateJob (Some "b") "j1" fd) db_jobs) = tags_of ItJob "j1" db_jobs.
Proof.
  assert (H1 : table_fails T_profiles db_jobs = false) by reflexivity.
  assert (H2 : admin_profile db_jobs (Some "b") = Some admin_b) by reflexivity.
  assert (H3 : table_fails T_job_postings db_jobs = false) by reflexivity.
  assert (H4 : table_fails T_content_tags db_jobs = false) by reflexivity.
  assert (H5 : List.filter (fun j => String.eqb (j_id j) "j1") (db_job_postings db_jobs) = [job_j1])
    by reflexivity.
  assert (H6 : job_form_keeps tiptap_html job_j1 = true) by reflexivity.
  assert (H7 : Forall plain_id (tags_of ItJob "j1" db_jobs)) by (repeat constructor; discriminate).
  do 7 (split; [assumption|]).
  exact (edit_job_roundtrip tiptap_html (Some "b") admin_b "j1" job_j1 db_jobs H1 H2 H3 H4 H5 H6 H7).
Defined.

Lemma edit_job_empty_description_filled_witness :
  j_description job_j2 = None /\ tiptap_html "" <> "" /\
  map j_description (List.filter (fun j => String.eqb (j_id j) "j2")
                       (db_job_postings (run_state (updateJob (Some "b") "j2" form_j2) db_jobs))) =
    [Some "<p></p>"].
Proof.
  split; [reflexivity|]. split; [discriminate|].
  exact (edit_job_empty_description_filled tiptap_html (Some "b") admin_b "j2" job_j2
           (job_form_init (Some job_j2) []) form_j2 db_jobs
           eq_refl eq_refl eq_refl eq_refl eq_refl ltac:(discriminate) eq_refl).
Defined.

Lemma job_form_before_editor_clears_description_witness :
  j_description job_j1 = Some "<p>Backend</p>" /\
  run_result (updateJob (Some "b") "j1" form_j1_early) db_jobs = Ok tt /\
  map j_description (List.filter (fun j => String.eqb (j_id j) "j1")
                       (db_job_postings (run_state (updateJob (Some "b") "j1" form_j1_early) db_jobs))) = [None].
Proof.
  split; [reflexivity|].
  exact (job_form_before_editor_clears_description tiptap_html (Some "b") admin_b "j1" job_j1
           (job_form_init (Some job_j1) ["t1"]) form_j1_early db_jobs eq_refl eq_refl eq_refl eq_refl eq_refl).
Defined.
