(* ===== verification/JobBoard.v ===== *)
(** The public job board: the list page ([src/app/(main)/jobs/page.tsx])
    and the card each posting is shown with
    ([src/components/features/JobCard.tsx]).

    The page reads the active postings, of the type its [job_type] search
    parameter names when there is one, nearest deadline first.  The card
    counts the days left to the deadline: [new Date(deadline)] reads the
    date string as midnight UTC, and [setHours(0, 0, 0, 0)] moves it and
    the current time to the start of their local day.  Times are
    milliseconds since the epoch; the local time zone is a fixed offset
    [tz] in milliseconds (local time is UTC plus [tz]; daylight saving is
    not modelled). *)

From stdpp Require Import base list strings.
Local Open Scope Z_scope.
From Stdlib Require Import ZArith Lia Sorted Permutation.
From S2P Require Import Prelude StableSort Store JobAdmin.

(** ** The list page *)

(** The filters of the query (lines 14-22): active, and of the chosen type
    when [job_type] is a non-empty string. *)
Definition job_listed (job_type : option string) (j : JobPosting) : bool :=
  j_is_active j &&
  match job_type with
  | Some t => if js_truthy_str t then String.eqb (j_job_type j) t else true
  | None => true
  end.

(** [JobsPage] (lines 10-24): the rows, filtered, ordered by deadline
    ascending; an error gives [data] null, shown as the empty list. *)
Definition JobsPage (job_type : option string) : Act (list JobPosting) :=
  let* r := select T_job_postings
              (fun db => q_order j_deadline true (List.filter (job_listed job_type) (db_job_postings db))) in
  st_ret (data_or_nil r).

(** The filter tabs (lines 32-56): [전체] ([None]) is highlighted when
    [!job_type], the tab of a type when [job_type === type.id]. *)
Definition job_tabs : list (option string) := None :: map Some JOB_TYPES.

Definition tab_active (job_type : option string) (tab : option string) : bool :=
  match tab with
  | None => negb (js_truthy_opt job_type)
  | Some t => match job_type with Some s => String.eqb s t | None => false end
  end.

(** ** Days to the deadline *)

Definition DAY : Z := 1000 * 60 * 60 * 24.

(** The day number of a proleptic Gregorian date (days since 1970-01-01). *)
Definition days_from_civil (y m d : Z) : Z :=
  let y' := if m <=? 2 then y - 1 else y in
  let era := y' / 400 in
  let yoe := y' - era * 400 in
  let mp := (m + 9) mod 12 in
  let doy := (153 * mp + 2) / 5 + d - 1 in
  let doe := yoe * 365 + yoe / 4 - yoe / 100 + doy in
  era * 146097 + doe - 719468.

(** The day number of a deadline [YYYYMMDD]. *)
Definition deadline_day (k : Z) : Z := days_from_civil (k / 10000) (k / 100 mod 100) (k mod 100).

(** [new Date(deadline)] on the date string of a deadline: midnight UTC. *)
Definition deadline_time (k : Z) : Z := deadline_day k * DAY.

(** The day number of the local date at time [t]. *)
Definition local_day (tz t : Z) : Z := (t + tz) / DAY.

(** [d.setHours(0, 0, 0, 0)]: the start of the local day of [t]. *)
Definition start_of_local_day (tz t : Z) : Z := (t + tz) / DAY * DAY - tz.

(** [Math.ceil(x / y)] for a positive [y]. *)
Definition ceil_div (x y : Z) : Z := - ((- x) / y).

Inductive dday := Closed | DDay | DMinus (n : Z).

#[export] Instance dday_eq_dec : EqDecision dday.
Proof. solve_decision. Defined.

(** [getDday] (lines 20-29) at the time [now]. *)
Definition getDday (tz now deadline : Z) : dday * bool :=
  let today := start_of_local_day tz now in
  let deadlineDate := start_of_local_day tz (deadline_time deadline) in
  let diff := ceil_div (deadlineDate - today) DAY in
  if diff <? 0 then (Closed, false)
  else if diff =? 0 then (DDay, true)
  else (DMinus diff, diff <=? 7).

(** [jobTypeLabels[job.job_type] || { label: job.job_type, ... }] (lines
    4-8 and 33). *)
Definition job_type_label (t : string) : string :=
  if String.eqb t "newgrad" then "신입 공채"
  else if String.eqb t "intern" then "인턴십"
  else if String.eqb t "experienced" then "수시 채용"
  else t.

(** What a card shows (lines 31-99): the D-day text and its colour, the
    type label, the apply link, the location and the first three tags. *)
Record card := {
  card_dday : dday;
  card_urgent : bool;
  card_expired : bool;
  card_label : string;
  card_link : option string;
  card_location : option string;
  card_tags : list string;
}.

Definition JobCard (tz now : Z) (job : JobPosting) : card :=
  let (dd, urgent) := getDday tz now (j_deadline job) in
  let isExpired := bool_decide (dd = Closed) in
  {| card_dday := dd; card_urgent := urgent; card_expired := isExpired;
     card_label := job_type_label (j_job_type job);
     card_link := if negb isExpired then js_or_null (j_url job) else None;
     card_location := js_or_null (j_location job);
     card_tags := firstn 3 (j_tags job) |}.

(** What the card shows [n] local days before the deadline. *)
Definition dday_of_days (n : Z) : dday * bool :=
  if n <? 0 then (Closed, false) else if n =? 0 then (DDay, true) else (DMinus n, n <=? 7).

(** ** Lemmas *)

Lemma start_of_local_day_days tz t : start_of_local_day tz t = local_day tz t * DAY - tz.
Proof. done. Qed.

Lemma local_day_deadline tz k : local_day tz (deadline_time k) = deadline_day k + tz / DAY.
Proof. unfold local_day, deadline_time. rewrite Z.div_add_l; [done|unfold DAY; lia]. Qed.

Lemma ceil_div_days n : ceil_div (n * DAY) DAY = n.
Proof.
  unfold ceil_div. rewrite <- Z.mul_opp_l, Z.div_mul; [lia|unfold DAY; lia].
Qed.

(** The card counts the local days to the deadline, shifted by the
    number of whole days [tz] is from UTC, rounded down. *)
Lemma getDday_days tz now k :
  getDday tz now k = dday_of_days (deadline_day k + tz / DAY - local_day tz now).
Proof.
  unfold getDday. rewrite !start_of_local_day_days, local_day_deadline.
  replace ((deadline_day k + tz / DAY) * DAY - tz - (local_day tz now * DAY - tz))
    with ((deadline_day k + tz / DAY - local_day tz now) * DAY) by lia.
  by rewrite ceil_div_days.
Qed.

Lemma jobs_page_run job_type db :
  run_state (JobsPage job_type) db = db /\
  run_result (JobsPage job_type) db =
    Ok (if table_fails T_job_postings db then []
        else sort_key j_deadline (List.filter (job_listed job_type) (db_job_postings db))).
Proof. unfold JobsPage, run_state, run_result, st_bind, select. by destruct (table_fails T_job_postings db). Qed.

(** C33. The job board lists exactly the active postings of the chosen type,
    nearest deadline first, postings with the same deadline in the
    table's order: the page's list is the one list that is sorted by
    deadline and has, for each deadline, the listed postings of that
    deadline in table order.  The page writes nothing, and a failed read
    shows the empty list. *)
Theorem jobs_page_spec job_type db :
  run_state (JobsPage job_type) db = db /\
  (table_fails T_job_postings db = true -> run_result (JobsPage job_type) db = Ok []) /\
  (table_fails T_job_postings db = false -> forall out,
     run_result (JobsPage job_type) db = Ok out <->
     Sorted (key_le j_deadline) out /\
     forall k, with_key j_deadline k out = with_key j_deadline k (List.filter (job_listed job_type) (db_job_postings db))).
Proof.
  destruct (jobs_page_run job_type db) as [Hs Hr]. split; [done|]. rewrite Hr. split; [by intros ->|].
  intros Hf out. rewrite Hf. etransitivity; [|exact (q_order_spec j_deadline true _ out)].
  split; [by intros [= <-]|by intros ->].
Qed.

(** East of UTC (and in UTC itself) the card counts the local calendar
    days to the deadline: closed after it, D-Day on it, and D-n, urgent
    within a week, before it. *)
Theorem getDday_east tz now k :
  0 <= tz < DAY -> getDday tz now k = dday_of_days (deadline_day k - local_day tz now).
Proof. intros Htz. rewrite getDday_days, (Z.div_small tz DAY) by done. f_equal. lia. Qed.

(** C34. West of UTC the card is a day early: [new Date('YYYY-MM-DD')] is
    midnight UTC, which is the evening before in local time, so on the
    deadline's own local day the card already shows the posting as
    closed and hides its apply link. *)
Theorem job_card_west_closes_early tz now j :
  - DAY <= tz < 0 -> local_day tz now = deadline_day (j_deadline j) ->
  card_dday (JobCard tz now j) = Closed /\ card_link (JobCard tz now j) = None.
Proof.
  intros Htz Hday.
  assert (Hm1 : tz / DAY = -1) by (symmetry; apply Z.div_unique with (r := tz + DAY); unfold DAY in *; lia).
  unfold JobCard. rewrite getDday_days, Hm1, Hday.
  replace (deadline_day (j_deadline j) + -1 - deadline_day (j_deadline j)) with (-1) by lia. done.
Qed.

Lemma jobs_page_spec_witness :
  run_result (JobsPage (Some "newgrad")) db_jobs = Ok [job_j1].
Proof.
  destruct (jobs_page_spec (Some "newgrad") db_jobs) as (_ & _ & H).
  apply (H eq_refl). split; [repeat constructor|intros k; reflexivity].
Defined.

(** Seoul ([tz] nine hours), two local days before a deadline of
    2025-03-01: the card shows D-2, urgent. *)
Lemma getDday_east_witness :
  0 <= 9 * 3600000 < DAY /\
  getDday (9 * 3600000) (20146 * DAY + 3600000) 20250301 = (DMinus 2, true).
Proof.
  assert (Htz : 0 <= 9 * 3600000 < DAY) by (unfold DAY; lia).
  split; [exact Htz|]. rewrite (getDday_east _ _ _ Htz). vm_compute. reflexivity.
Defined.

(** New York ([tz] minus five hours), noon on 2025-03-01, the deadline of
    [job_j1]: its card says closed and has no apply link. *)
Lemma job_card_west_closes_early_witness :
  - DAY <= -5 * 3600000 < 0 /\
  local_day (-5 * 3600000) (20148 * DAY + 17 * 3600000) = deadline_day (j_deadline job_j1) /\
  card_dday (JobCard (-5 * 3600000) (20148 * DAY + 17 * 3600000) job_j1) = Closed /\
  card_link (JobCard (-5 * 3600000) (20148 * DAY + 17 * 3600000) job_j1) = None.
Proof.
  assert (Htz : - DAY <= -5 * 3600000 < 0) by (unfold DAY; lia).
  assert (Hd : local_day (-5 * 3600000) (20148 * DAY + 17 * 3600000) = deadline_day (j_deadline job_j1))
    by (vm_compute; reflexivity).
  split; [exact Htz|]. split; [exact Hd|].
  exact (job_card_west_closes_early _ _ job_j1 Htz Hd).
Defined.
