(* ===== verification/ContentAdmin.v ===== *)
(** The content form of the admin pages
    ([src/components/admin/ContentForm.tsx]), the edit page that shows it
    ([src/app/(admin)/admin/contents/[id]/page.tsx]) and what it submits
    to [createContent] and [updateContent] of [Catalogue].

    The controls follow the conventions of [AdminForms].  The body editor
    is lazy and created after the first render; [body] is a [NOT NULL]
    column, so a form submitted before the editor exists is refused by
    the server. *)

From stdpp Require Import base list strings.
Local Open Scope Z_scope.
From Stdlib Require Import Ascii ZArith Lia.
From S2P Require Import Prelude Store JsNumber Markup FormData AdminAuth Catalogue AdminForms JobAdmin.

(** [CONTENT_CATEGORIES.map(c => c.id)] (src/lib/constants.ts, lines 18-24). *)
Definition CONTENT_CATEGORIES : list string :=
  ["success_story"; "interview_questions"; "resume_review"; "industry_analysis"; "trend_report"].

(** [content?.col]: the column of the content shown, [d] for a new one. *)
Definition content_col {A} (content : option Content) (f : Content -> A) (d : A) : A :=
  default d (option_map f content).

(** The client state of [ContentForm] (lines 20-21). *)
Record content_form := { ctf_tagIds : list string; ctf_isFeatured : bool }.

(** [useState(initialTagIds)] and [useState(content?.is_featured ?? false)]. *)
Definition content_form_init (content : option Content) (initialTagIds : list string) : content_form :=
  {| ctf_tagIds := initialTagIds; ctf_isFeatured := content_col content ct_is_featured false |}.

(** A click of the form: a tag of the selector, or the featured checkbox. *)
Inductive content_form_event := ContentClickTag (tagId : string) | SetFeatured (b : bool).

Definition content_form_step (st : content_form) (ev : content_form_event) : content_form :=
  match ev with
  | ContentClickTag t => {| ctf_tagIds := toggleTag (ctf_tagIds st) t; ctf_isFeatured := ctf_isFeatured st |}
  | SetFeatured b => {| ctf_tagIds := ctf_tagIds st; ctf_isFeatured := b |}
  end.

Section Form.
(** [editor.getHTML()] for an editor created with a content. *)
Context (getHTML : string -> string).

(** The controls of [ContentForm] (lines 24-152) in document order; the
    checkbox has no name and submits through the hidden [is_featured]. *)
Definition ContentForm (mounted : bool) (content : option Content) (st : content_form) : list field :=
  [input "tag_ids" (String.concat "," (ctf_tagIds st));
   input "is_featured" (js_string_of_bool (ctf_isFeatured st));
   ImageUploader (content_col content ct_thumbnail_url None) "thumbnail_url";
   required_input "title" (content_col content ct_title "");
   required_input "summary" (content_col content ct_summary "");
   required_input "category" (select_value CONTENT_CATEGORIES (content_col content ct_category ""));
   input "legacy_tags" (String.concat "," (content_col content ct_tags []));
   required_input "author_name" (content_col content ct_author_name "");
   input "author_title" (str_or_empty (content_col content ct_author_title None))] ++
  RichEditor getHTML mounted (content_col content ct_body "") "body".
End Form.

(** [EditContentPage] (lines 9-23): the content read with [.single()] and
    its tag ids, or [notFound()]; the [tags] table only feeds the
    selector's list. *)
Definition EditContentPage (id : string) : Act (option (Content * list string)) :=
  let* contentRes := select_resp T_contents
                       (fun db => single_resp (List.filter (fun c => String.eqb (ct_id c) id) (db_contents db))) in
  let* contentTagsRes := select T_content_tags (fun db => tags_of ItContent id db) in
  match contentRes with
  | RData content => st_ret (Some (content, match contentTagsRes with RData ts => ts | RErr => [] end))
  | RErr => st_ret None
  end.

(** The contents the edit form shows as they are: the required columns
    filled, the category among the select's options, no empty nullable
    text, legacy tags without commas, and a body the editor gives back
    unchanged. *)
Definition content_form_keeps (getHTML : string -> string) (c : Content) : bool :=
  negb (String.eqb (ct_title c) "") && negb (String.eqb (ct_summary c) "") &&
  negb (String.eqb (ct_author_name c) "") && bool_decide (ct_category c ∈ CONTENT_CATEGORIES) &&
  bool_decide (ct_author_title c <> Some "") && bool_decide (ct_thumbnail_url c <> Some "") &&
  forallb plain_idb (ct_tags c) && String.eqb (getHTML (ct_body c)) (ct_body c).

(** ** Example store *)

Definition content_t1 : Content :=
  {| ct_id := "t1"; ct_title := "Passing the Kakao interview"; ct_summary := "Three rounds";
     ct_body := "<p>First round</p>"; ct_author_name := "Park"; ct_author_title := Some "Engineer";
     ct_thumbnail_url := None; ct_category := "success_story"; ct_tags := ["IT"];
     ct_view_count := 12; ct_like_count := 3; ct_is_featured := true; ct_created_at := 0 |}.

Definition db_contents_edit : Db :=
  set_content_tags [tag_row ItContent "t1" "g1" "r1"]
    (set_profiles [admin_b] (set_contents [content_t1] db_empty)).

(** ** Lemmas *)

Lemma EditContentPage_run id c db :
  table_fails T_contents db = false -> table_fails T_content_tags db = false ->
  List.filter (fun c => String.eqb (ct_id c) id) (db_contents db) = [c] ->
  run_state (EditContentPage id) db = db /\
  run_result (EditContentPage id) db = Ok (Some (c, tags_of ItContent id db)).
Proof.
  intros Hc Ht Hrow. unfold EditContentPage, run_state, run_result, st_bind, select_resp, select.
  rewrite Hc, Ht, Hrow. done.
Qed.

(** [updateContent] by an administrator whose row is written: it goes
    on with [syncTags] on the updated store. *)
Lemma updateContent_run user contentId fd db p :
  table_fails T_profiles db = false -> admin_profile db user = Some p ->
  table_fails T_contents db = false -> content_not_null (content_fields_of_form fd) = true ->
  let db1 := update_contents contentId (content_fields_of_form fd) db in
  run_state (updateContent user contentId fd) db = run_state (syncTags (form_tag_ids fd) contentId ItContent) db1 /\
  run_result (updateContent user contentId fd) db = run_result (syncTags (form_tag_ids fd) contentId ItContent) db1.
Proof. intros Hp Ha Hc Hv. exact (update_action_run user p _ T_contents _ _ _ _ db Hp Ha Hc Hv). Qed.

Lemma content_form_roundtrip getHTML c ts :
  content_form_keeps getHTML c = true -> Forall plain_id ts ->
  exists fd, submit (ContentForm getHTML true (Some c) (content_form_init (Some c) ts)) = Some fd /\
    content_not_null (content_fields_of_form fd) = true /\
    update_content_row (content_fields_of_form fd) c = c /\ form_tag_ids fd = ts.
Proof.
  intros Hk Hts. unfold content_form_keeps in Hk.
  split_andb. repeat match goal with H : negb _ = true |- _ => apply negb_true_iff in H end.
  repeat match goal with H : bool_decide _ = true |- _ => apply bool_decide_eq_true_1 in H end.
  assert (Hcat : ct_category c <> "").
  { intros E. match goal with H : ct_category c ∈ _ |- _ => rewrite E in H; apply list_elem_of_In in H; cbn in H end.
    intuition discriminate. }
  unfold submit. cbn -[select_value str_or_empty js_string_of_bool].
  rewrite select_value_in by done. rewrite (proj2 (String.eqb_neq _ _) Hcat).
  repeat match goal with H : (_ =? "")%string = false |- _ => rewrite H end.
  eexists. split; [reflexivity|]. split; [reflexivity|]. split; [|by apply split_ids_join].
  unfold content_fields_of_form. cbn -[str_or_empty js_string_of_bool js_or_null split_ids is_true].
  rewrite !js_or_null_str_or_empty, split_ids_join, is_true_bool by (done || by apply forallb_plain_id).
  match goal with H : (getHTML _ =? _)%string = true |- _ => apply String.eqb_eq in H; rewrite H end.
  by destruct c.
Qed.

(** Opening a content's edit page and saving the form unedited changes
    nothing: when the requests answer, the page shows the content and its
    tags, and the submitted FormData makes [updateContent] succeed and
    leave the contents and the content's tags as they were.  It holds
    for the contents the form shows as they are ([content_form_keeps])
    whose tag ids have no comma. *)
Theorem edit_content_roundtrip getHTML user p id c db :
  table_fails T_profiles db = false -> admin_profile db user = Some p ->
  table_fails T_contents db = false -> table_fails T_content_tags db = false ->
  List.filter (fun c => String.eqb (ct_id c) id) (db_contents db) = [c] ->
  content_form_keeps getHTML c = true -> Forall plain_id (tags_of ItContent id db) ->
  run_state (EditContentPage id) db = db /\
  run_result (EditContentPage id) db = Ok (Some (c, tags_of ItContent id db)) /\
  exists fd, submit (ContentForm getHTML true (Some c) (content_form_init (Some c) (tags_of ItContent id db))) = Some fd /\
    run_result (updateContent user id fd) db = Ok tt /\
    db_contents (run_state (updateContent user id fd) db) = db_contents db /\
    tags_of ItContent id (run_state (updateContent user id fd) db) = tags_of ItContent id db.
Proof.
  intros Hp Ha Hc Ht Hrow Hk Hts.
  destruct (EditContentPage_run id c db Hc Ht Hrow) as [E1 E2]. split; [done|]. split; [done|].
  destruct (content_form_roundtrip getHTML c _ Hk Hts) as (fd & Hfd & Hnn & Hkeep & Htags).
  exists fd. split; [done|].
  destruct (updateContent_run user id fd db p Hp Ha Hc Hnn) as [-> ->].
  assert (Ht1 : table_fails T_content_tags (update_contents id (content_fields_of_form fd) db) = false)
    by (unfold update_contents; by autorewrite with jj_fail).
  destruct (syncTags_replaces (form_tag_ids fd) id ItContent _ Ht1) as (R & T & _).
  rewrite R, T, (proj1 (proj2 (syncTags_tables _ _ _ _))). split; [done|]. split; [|done].
  by apply (update_eq_same ct_id _ id c).
Qed.

(** A content form submitted before its lazy body editor exists has no
    [body], a [NOT NULL] column: [createContent] and [updateContent]
    throw and leave the store as it was, whoever submits it. *)
Theorem content_form_before_editor_aborts getHTML user id content st fd db :
  submit (ContentForm getHTML false content st) = Some fd ->
  aborts (createContent user fd) db /\ aborts (updateContent user id fd) db.
Proof.
  intros Hfd. apply submit_some in Hfd.
  assert (Hnn : content_not_null (content_fields_of_form fd) = false)
    by (subst fd; unfold content_not_null; by destruct content).
  destruct (table_fails T_profiles db) eqn:Hp; [split; apply aborts_bind, requireAdmin_denied; by left|].
  destruct (admin_profile db user) as [p|] eqn:Ha; [|split; apply aborts_bind, requireAdmin_denied; by right].
  unfold createContent, updateContent, aborts.
  erewrite !(proj1 (admin_run user db p _ Hp Ha)), !(proj2 (admin_run user db p _ Hp Ha)).
  unfold run_state, run_result, st_bind, insert_single, write_checked. rewrite Hnn, !orb_true_r.
  split; (split; [done|eexists; reflexivity]).
Qed.

Lemma edit_content_roundtrip_witness :
  table_fails T_profiles db_contents_edit = false /\ admin_profile db_contents_edit (Some "b") = Some admin_b /\
  table_fails T_contents db_contents_edit = false /\ table_fails T_content_tags db_contents_edit = false /\
  List.filter (fun c => String.eqb (ct_id c) "t1") (db_contents db_contents_edit) = [content_t1] /\
  content_form_keeps tiptap_html content_t1 = true /\ Forall plain_id (tags_of ItContent "t1" db_contents_edit) /\
  run_state (EditContentPage "t1") db_contents_edit = db_contents_edit /\
  run_result (EditContentPage "t1") db_contents_edit = Ok (Some (content_t1, tags_of ItContent "t1" db_contents_edit)) /\
  exists fd, submit (ContentForm tiptap_html true (Some content_t1)
                       (content_form_init (Some content_t1) (tags_of ItContent "t1" db_contents_edit))) = Some fd /\
    run_result (updateContent (Some "b") "t1" fd) db_contents_edit = Ok tt /\
    db_contents (run_state (updateContent (Some "b") "t1" fd) db_contents_edit) = db_contents db_contents_edit /\
    tags_of ItContent "t1" (run_state (updateContent (Some "b") "t1" fd) db_contents_edit) =
      tags_of ItContent "t1" db_contents_edit.
Proof.
  assert (H1 : table_fails T_profiles db_contents_edit = false) by reflexivity.
  assert (H2 : admin_profile db_contents_edit (Some "b") = Some admin_b) by reflexivity.
  assert (H3 : table_fails T_contents db_contents_edit = false) by reflexivity.
  assert (H4 : table_fails T_content_tags db_contents_edit = false) by reflexivity.
  assert (H5 : List.filter (fun c => String.eqb (ct_id c) "t1") (db_contents db_contents_edit) = [content_t1])
    by reflexivity.
  assert (H6 : content_form_keeps tiptap_html content_t1 = true) by reflexivity.
  assert (H7 : Forall plain_id (tags_of ItContent "t1" db_contents_edit)) by (repeat constructor; discriminate).
  do 7 (split; [assumption|]).
  exact (edit_content_roundtrip tiptap_html (Some "b") admin_b "t1" content_t1 db_contents_edit
           H1 H2 H3 H4 H5 H6 H7).
Defined.

Lemma content_form_before_editor_aborts_witness :
  let fd := map (fun f => (f_name f, f_value f))
              (ContentForm tiptap_html false (Some content_t1) (content_form_init (Some content_t1) ["g1"])) in
  aborts (createContent (Some "b") fd) db_contents_edit /\ aborts (updateContent (Some "b") "t1" fd) db_contents_edit.
Proof.
  exact (content_form_before_editor_aborts tiptap_html (Some "b") "t1" (Some content_t1)
           (content_form_init (Some content_t1) ["g1"]) _ db_contents_edit eq_refl).
Defined.
