(* ===== verification/CoursePages.v ===== *)
(** The public course pages: the list, the detail page and its enrol
    button.

    [CoursesPage] ([src/app/(main)/courses/page.tsx]) lists the courses,
    newest first, of the category its search parameter names.
    [CourseDetailPage] ([src/app/(main)/courses/[id]/page.tsx]) reads the
    course with [.single()] and, for a signed-in visitor, whether they
    hold an enrolment that is not cancelled, with [.maybeSingle()]; it
    renders the course and hands [EnrollButton]
    ([src/app/(main)/courses/[id]/EnrollButton.tsx]) the enrolment flag,
    the sign-in flag and the status.  The button calls the server actions
    of [Enrollment] inside a React transition, shows the result's message
    and hides it with a three-second timer.

    The page's view is a record of what it shows; the button is a state
    machine whose events are clicks, the action's answer and the timers'
    expiry (timers of equal delay fire in the order they were set).  How
    a JSON syllabus reads ([Array.isArray(x) && x.length > 0] and its
    truthiness) belongs to the JSON parser and is a parameter. *)

From stdpp Require Import base list strings.
From Stdlib Require Import ZArith Lia Sorted.
From S2P Require Import Prelude StableSort Store Interleave Enrollment Markup FormData AdminForms.
Local Open Scope Z_scope.

(** ** The course list *)

(** The filter of the query (lines 14-19): the category, when the
    [category] parameter is a non-empty string. *)
Definition course_listed (category : option string) (c : Course) : bool :=
  match category with
  | Some t => if js_truthy_str t then String.eqb (c_category c) t else true
  | None => true
  end.

(** [CoursesPage] (lines 10-21): ordered by [created_at] descending; an
    error gives [data] null, shown as the empty state. *)
Definition CoursesPage (category : option string) : Act (list Course) :=
  let* r := select T_courses
              (fun db => q_order c_created_at false (List.filter (course_listed category) (db_courses db))) in
  st_ret (data_or_nil r).

(** ** The detail page *)

(** [COURSE_STATUS[status] || status] (src/lib/constants.ts, lines 40-45). *)
Definition status_label (s : string) : string :=
  if String.eqb s "recruiting" then "모집중"
  else if String.eqb s "closed" then "마감"
  else if String.eqb s "ongoing" then "진행중"
  else if String.eqb s "finished" then "종료"
  else s.

(** A text column rendered as HTML when it starts with [<], as text otherwise. *)
Inductive text_view := Html (s : string) | PlainText (s : string).

Definition text_view_of (s : string) : text_view := if startsWith "<" s then Html s else PlainText s.

(** The curriculum block: the HTML, the weeks of a JSON array, or the
    heading alone. *)
Inductive curriculum := CurHtml (s : string) | CurWeeks (json : string) | CurEmpty.

(** [price === 0 ? '무료' : price.toLocaleString('ko-KR') + '원']. *)
Inductive price_view := Free | Won (p : Z).

(** What the page shows of a course. *)
Record course_page := {
  cp_course : Course;
  cp_category : option string;
  cp_status_label : string;
  cp_price : price_view;
  cp_description : text_view;
  cp_curriculum : option curriculum;
  cp_isEnrolled : bool;
  cp_isLoggedIn : bool;
}.

Section Page.
(** The JSON value of a syllabus: truthy, and a non-empty array. *)
Context (json_truthy json_nonempty_array : string -> bool).

(** [typedCourse.syllabus && (...)] (lines 213-250). *)
Definition syllabus_view (s : syllabus) : option curriculum :=
  match s with
  | SylText t => if String.eqb t "" then None else Some (if startsWith "<" t then CurHtml t else CurEmpty)
  | SylJson j => if json_truthy j then Some (if json_nonempty_array j then CurWeeks j else CurEmpty) else None
  end.

(** The enrolments of [uid] in [cid] that are not cancelled
    ([.eq('user_id').eq('course_id').neq('status', 'canceled')]). *)
Definition active_enrollments_of (uid cid : string) (db : Db) : list Enrollment :=
  List.filter (fun e => negb (is_canceled e)) (enrollments_of uid cid db).

(** [CourseDetailPage] (lines 12-59 and 260-267): [None] is the
    not-found view. *)
Definition CourseDetailPage (user : option string) (id : string) : Act (option course_page) :=
  let* r := select_resp T_courses (fun db => single_resp (courses_with_id id db)) in
  match r with
  | RErr => st_ret None
  | RData course =>
      let* isEnrolled :=
        match user with
        | None => st_ret false
        | Some uid =>
            let* e := select_resp T_enrollments (fun db => maybe_single_resp (active_enrollments_of uid id db)) in
            st_ret (match e with RData (Some _) => true | _ => false end)
        end in
      st_ret (Some {| cp_course := course;
                      cp_category := if bool_decide (c_category course ∈ COURSE_CATEGORIES)
                                     then Some (c_category course) else None;
                      cp_status_label := status_label (c_status course);
                      cp_price := if Z.eqb (c_price course) 0 then Free else Won (c_price course);
                      cp_description := text_view_of (c_description course);
                      cp_curriculum := syllabus_view (c_syllabus course);
                      cp_isEnrolled := isEnrolled;
                      cp_isLoggedIn := bool_decide (user <> None) |})
  end.
End Page.

(** ** The enrol button *)

Inductive msg_type := MsgSuccess | MsgError.

(** [isPending], [message], [messageType] and the hide timers set and not
    yet fired. *)
Record enroll_button := {
  eb_pending : bool;
  eb_message : option string;
  eb_messageType : msg_type;
  eb_timers : nat;
}.

Definition enroll_button_init : enroll_button :=
  {| eb_pending := false; eb_message := None; eb_messageType := MsgSuccess; eb_timers := 0 |}.

(** The props the page gives the button. *)
Record enroll_props := { ep_isEnrolled : bool; ep_isLoggedIn : bool; ep_status : string }.

(** What the button renders (lines 59-104). *)
Inductive button_view :=
  | NotRecruiting (label : string)
  | CancelButton (disabled : bool)
  | EnrollButtonView (disabled : bool).

Definition enroll_view (pr : enroll_props) (st : enroll_button) : button_view :=
  if negb (String.eqb (ep_status pr) "recruiting") && negb (ep_isEnrolled pr) then
    NotRecruiting (if String.eqb (ep_status pr) "closed" then "모집 마감"
                   else if String.eqb (ep_status pr) "ongoing" then "진행 중" else "종료된 강의")
  else if ep_isEnrolled pr then CancelButton (eb_pending st) else EnrollButtonView (eb_pending st).

(** A click, the answer of the action the enrol ([false]) or cancel
    ([true]) handler called, or a hide timer's expiry. *)
Inductive eb_event := EbClick | EbAnswer (cancel : bool) (r : action_result) | EbTimer.

(** What a click starts. *)
Inductive eb_effect := EbNothing | EbNavigate (path : string) | EbCall (cancel : bool).

Definition msg_enroll_default : string := "수강 신청이 완료되었습니다!".
Definition msg_cancel_default : string := "수강 신청이 취소되었습니다.".

(** [handleEnroll], [handleCancel] and the transition's continuation
    (lines 25-57); a click on a disabled or absent button does nothing. *)
Definition eb_step (pr : enroll_props) (st : enroll_button) (ev : eb_event) : enroll_button * eb_effect :=
  match ev with
  | EbClick =>
      match enroll_view pr st with
      | NotRecruiting _ | CancelButton true | EnrollButtonView true => (st, EbNothing)
      | CancelButton false =>
          ({| eb_pending := true; eb_message := eb_message st; eb_messageType := eb_messageType st;
              eb_timers := eb_timers st |}, EbCall true)
      | EnrollButtonView false =>
          if ep_isLoggedIn pr then
            ({| eb_pending := true; eb_message := eb_message st; eb_messageType := eb_messageType st;
                eb_timers := eb_timers st |}, EbCall false)
          else (st, EbNavigate "/login")
      end
  | EbAnswer cancel r =>
      let '(m, ty) := match r with
                      | ActError e => (e, MsgError)
                      | ActSuccess m => (js_or_str (Some m) (if cancel then msg_cancel_default
                                                              else msg_enroll_default), MsgSuccess)
                      end in
      ({| eb_pending := false; eb_message := Some m; eb_messageType := ty; eb_timers := S (eb_timers st) |},
       EbNothing)
  | EbTimer =>
      match eb_timers st with
      | O => (st, EbNothing)
      | S n => ({| eb_pending := eb_pending st; eb_message := None; eb_messageType := eb_messageType st;
                   eb_timers := n |}, EbNothing)
      end
  end.

Fixpoint eb_run (pr : enroll_props) (st : enroll_button) (evs : list eb_event) : enroll_button :=
  match evs with
  | [] => st
  | ev :: evs' => eb_run pr (eb_step pr st ev).1 evs'
  end.

(** ** Lemmas *)

Lemma maybe_single_resp_many {A} (l : list A) : (2 <= length l)%nat -> maybe_single_resp l = RErr.
Proof. destruct l as [|x [|y l]]; cbn; [lia|lia|done]. Qed.

Lemma active_enrollments_le uid cid db :
  (length (active_enrollments_of uid cid db) <= length (enrollments_of uid cid db))%nat.
Proof. apply filter_length_le. Qed.

(** What the page reads for a signed-in visitor when both tables answer. *)
Lemma CourseDetailPage_run jt jn uid id course db :
  table_fails T_courses db = false -> table_fails T_enrollments db = false ->
  courses_with_id id db = [course] ->
  exists v, run_result (CourseDetailPage jt jn (Some uid) id) db = Ok (Some v) /\
    cp_course v = course /\ cp_isLoggedIn v = true /\
    cp_isEnrolled v = match maybe_single_resp (active_enrollments_of uid id db) with
                      | RData (Some _) => true | _ => false end.
Proof.
  intros Hc He Hrow. unfold CourseDetailPage, run_result, st_bind, select_resp. rewrite Hc, Hrow.
  cbn -[table_fails]. eexists. split; [reflexivity|]. cbn -[table_fails]. by rewrite He.
Qed.

Lemma enrollments_of_enrolled uid cid course db :
  enrollments_of uid cid (set_current_students cid (c_current_students course + 1) (insert_enrollment uid cid db)) =
    enrollments_of uid cid db ++
      [{| e_id := fresh_id db; e_user_id := uid; e_course_id := cid; e_status := Applied |}].
Proof. unfold enrollments_of. cbn. rewrite List.filter_app. cbn. by rewrite !String.eqb_refl. Qed.

(** [enrollCourse] when the student's enrolment rows are two or more:
    the duplicate check's [.maybeSingle()] fails and reads as "none". *)
Lemma enroll_run_duplicates uid cid course db :
  table_fails T_courses db = false -> table_fails T_enrollments db = false ->
  courses_with_id cid db = [course] -> c_status course = "recruiting" ->
  c_current_students course < c_max_students course ->
  (2 <= length (enrollments_of uid cid db))%nat ->
  run_state (run_proc (enrollCourse (Some uid) cid)) db =
    set_current_students cid (c_current_students course + 1) (insert_enrollment uid cid db) /\
  run_result (run_proc (enrollCourse (Some uid) cid)) db = Ok (ActSuccess msg_enrolled).
Proof.
  intros Hc He Hrow Hst Hseat Hlen.
  unfold run_state, run_result. cbn [enrollCourse run_proc]. unfold st_bind, select_resp, write.
  rewrite He, (maybe_single_resp_many (enrollments_of uid cid db)) by done.
  cbn -[table_fails insert_enrollment set_current_students courses_with_id]. rewrite Hc, Hrow.
  cbn -[table_fails insert_enrollment set_current_students String.eqb Z.leb]. rewrite Hst.
  cbn -[table_fails insert_enrollment set_current_students Z.leb]. rewrite (proj2 (Z.leb_gt _ _) Hseat).
  cbn [run_proc]. unfold st_bind. cbn -[table_fails insert_enrollment set_current_students].
  rewrite He. cbn [run_proc]. unfold st_bind. cbn -[table_fails insert_enrollment set_current_students].
  rewrite table_fails_insert_enrollment, Hc.
  done.
Qed.

Lemma active_enrollments_enrolled uid cid course db :
  active_enrollments_of uid cid (set_current_students cid (c_current_students course + 1) (insert_enrollment uid cid db)) =
    active_enrollments_of uid cid db ++
      [{| e_id := fresh_id db; e_user_id := uid; e_course_id := cid; e_status := Applied |}].
Proof. unfold active_enrollments_of. by rewrite enrollments_of_enrolled, List.filter_app. Qed.

(** A signed-in student sees the course as enrolled exactly when they
    hold one enrolment that is not cancelled: none, or two and more (a
    failed [.maybeSingle()]), read as not enrolled. *)
Theorem course_page_isEnrolled jt jn uid id course db :
  table_fails T_courses db = false -> table_fails T_enrollments db = false ->
  courses_with_id id db = [course] ->
  exists v, run_result (CourseDetailPage jt jn (Some uid) id) db = Ok (Some v) /\
    cp_course v = course /\ cp_isEnrolled v = Nat.eqb (length (active_enrollments_of uid id db)) 1.
Proof.
  intros Hc He Hrow. destruct (CourseDetailPage_run jt jn uid id course db Hc He Hrow) as (v & Hv & Hco & _ & Hen).
  exists v. split; [done|]. split; [done|]. rewrite Hen.
  by destruct (active_enrollments_of uid id db) as [|? [|]].
Qed.

(** C10. A student holding two enrolments of a recruiting course with a free
    seat (which re-enrolling after a cancellation produces,
    [Enrollment.reenroll_duplicates]) is shown the course as not
    enrolled, with the enrol button enabled, and the enrolment its click
    calls succeeds: it adds a third active row and takes another seat,
    and the page reads the same way afterwards. *)
Theorem course_page_duplicate_enrol_again jt jn uid cid course db :
  table_fails T_courses db = false -> table_fails T_enrollments db = false ->
  courses_with_id cid db = [course] -> c_status course = "recruiting" ->
  c_current_students course < c_max_students course ->
  (2 <= length (active_enrollments_of uid cid db))%nat ->
  (exists v, run_result (CourseDetailPage jt jn (Some uid) cid) db = Ok (Some v) /\
     enroll_view {| ep_isEnrolled := cp_isEnrolled v; ep_isLoggedIn := cp_isLoggedIn v;
                    ep_status := c_status (cp_course v) |} enroll_button_init = EnrollButtonView false) /\
  run_result (run_proc (enrollCourse (Some uid) cid)) db = Ok (ActSuccess msg_enrolled) /\
  length (active_enrollments_of uid cid (run_state (run_proc (enrollCourse (Some uid) cid)) db)) =
    S (length (active_enrollments_of uid cid db)).
Proof.
  intros Hc He Hrow Hst Hseat Hlen.
  destruct (enroll_run_duplicates uid cid course db Hc He Hrow Hst Hseat) as [Es Er];
    [pose proof (active_enrollments_le uid cid db); lia|].
  split; [|split; [done|]].
  - destruct (CourseDetailPage_run jt jn uid cid course db Hc He Hrow) as (v & Hv & Hco & Hli & Hen).
    exists v. split; [done|]. rewrite Hen, maybe_single_resp_many, Hli, Hco, Hst by done. reflexivity.
  - rewrite Es, active_enrollments_enrolled, length_app. cbn. lia.
Qed.

(** Retrying within three seconds hides the second answer early: the
    first answer's timer fires while the second message is shown and
    clears it, although the second message's own timer has not run. *)
Theorem enroll_message_cleared_early pr r1 r2 :
  ep_status pr = "recruiting" -> ep_isLoggedIn pr = true -> ep_isEnrolled pr = false ->
  eb_message (eb_run pr enroll_button_init [EbClick; EbAnswer false r1; EbClick; EbAnswer false r2]) <> None /\
  eb_message (eb_run pr enroll_button_init [EbClick; EbAnswer false r1; EbClick; EbAnswer false r2; EbTimer]) = None /\
  eb_timers (eb_run pr enroll_button_init [EbClick; EbAnswer false r1; EbClick; EbAnswer false r2; EbTimer]) = 1%nat.
Proof.
  intros Hs Hl He. destruct pr as [ie il s]; cbn in *; subst.
  by destruct r1, r2.
Qed.

(** The course list shows exactly the courses of the chosen category,
    newest first, courses created at the same time in table order: the
    page's list is the one such list.  The page writes nothing, and a
    failed read shows the empty state. *)
Theorem courses_page_spec category db :
  run_state (CoursesPage category) db = db /\
  (table_fails T_courses db = true -> run_result (CoursesPage category) db = Ok []) /\
  (table_fails T_courses db = false -> forall out,
     run_result (CoursesPage category) db = Ok out <->
     Sorted (key_le (fun c => - c_created_at c)) out /\
     forall k, with_key (fun c => - c_created_at c) k out =
               with_key (fun c => - c_created_at c) k (List.filter (course_listed category) (db_courses db))).
Proof.
  unfold CoursesPage, run_state, run_result, st_bind, select. cbn.
  split; [by destruct (table_fails T_courses db)|]. split; [by intros ->|].
  intros Hf out. rewrite Hf. etransitivity; [|exact (q_order_spec c_created_at false _ out)].
  split; [by intros [= <-]|by intros ->].
Qed.

(** ** Witnesses *)

(** Student [u1] holding two active enrolments of [c1], which has
    seats left. *)
Definition db_dup : Db :=
  set_enrollments [{| e_id := "e1"; e_user_id := "u1"; e_course_id := "c1"; e_status := Applied |};
                   {| e_id := "e2"; e_user_id := "u1"; e_course_id := "c1"; e_status := Applied |}]
    (db_courses_only [course_seats "c1" 30 2]).

Definition no_json : string -> bool := fun _ => false.

Lemma course_page_isEnrolled_witness :
  exists v, run_result (CourseDetailPage no_json no_json (Some "u1") "c1") db_dup = Ok (Some v) /\
    cp_course v = course_seats "c1" 30 2 /\ cp_isEnrolled v = false.
Proof.
  destruct (course_page_isEnrolled no_json no_json "u1" "c1" (course_seats "c1" 30 2) db_dup
              eq_refl eq_refl eq_refl) as (v & H1 & H2 & H3).
  exists v. split; [exact H1|]. split; [exact H2|]. rewrite H3. reflexivity.
Defined.

Lemma course_page_duplicate_enrol_again_witness :
  (exists v, run_result (CourseDetailPage no_json no_json (Some "u1") "c1") db_dup = Ok (Some v) /\
     enroll_view {| ep_isEnrolled := cp_isEnrolled v; ep_isLoggedIn := cp_isLoggedIn v;
                    ep_status := c_status (cp_course v) |} enroll_button_init = EnrollButtonView false) /\
  run_result (run_proc (enrollCourse (Some "u1") "c1")) db_dup = Ok (ActSuccess msg_enrolled) /\
  length (active_enrollments_of "u1" "c1" (run_state (run_proc (enrollCourse (Some "u1") "c1")) db_dup)) = 3%nat.
Proof.
  destruct (course_page_duplicate_enrol_again no_json no_json "u1" "c1" (course_seats "c1" 30 2) db_dup
              eq_refl eq_refl eq_refl eq_refl ltac:(vm_compute; reflexivity) ltac:(vm_compute; lia))
    as (H1 & H2 & H3).
  split; [exact H1|]. split; [exact H2|]. rewrite H3. reflexivity.
Defined.

Lemma enroll_message_cleared_early_witness :
  let pr := {| ep_isEnrolled := false; ep_isLoggedIn := true; ep_status := "recruiting" |} in
  eb_message (eb_run pr enroll_button_init
                [EbClick; EbAnswer false (ActError msg_full); EbClick; EbAnswer false (ActSuccess msg_enrolled)]) <> None /\
  eb_message (eb_run pr enroll_button_init
                [EbClick; EbAnswer false (ActError msg_full); EbClick; EbAnswer false (ActSuccess msg_enrolled); EbTimer]) = None /\
  eb_timers (eb_run pr enroll_button_init
               [EbClick; EbAnswer false (ActError msg_full); EbClick; EbAnswer false (ActSuccess msg_enrolled); EbTimer]) = 1%nat.
Proof.
  exact (enroll_message_cleared_early {| ep_isEnrolled := false; ep_isLoggedIn := true; ep_status := "recruiting" |}
           (ActError msg_full) (ActSuccess msg_enrolled) eq_refl eq_refl eq_refl).
Defined.

Lemma courses_page_spec_witness :
  run_result (CoursesPage (Some "coding")) db_dup = Ok [course_seats "c1" 30 2].
Proof.
  destruct (courses_page_spec (Some "coding") db_dup) as (_ & _ & H).
  apply (H eq_refl). split; [repeat constructor|intros k; reflexivity].
Defined.
