(* ===== verification/Search.v ===== *)
(** The tag search page ([src/app/(main)/search/page.tsx]).

    The page takes a tag id of [TAGS], reads the rows of [content_tags]
    whose tag in the [tags] table has that tag's name (an inner join on
    [tags.name]), and then the courses, contents and job postings those
    rows name, each with [.in('id', ids)].  The [tags] table is read and
    never written by the code, so it is a parameter of the section: a
    list of (id, name) pairs. *)

From stdpp Require Import base list strings.
From Stdlib Require Import ZArith Lia.
From S2P Require Import Prelude Store Featured Catalogue AdminForms.

(** [TAGS.map(t => [t.id, t.name])] (src/lib/constants.ts, lines 66-82). *)
Definition TAG_NAMES : list (string * string) :=
  [("resume", "이력서"); ("interview", "면접"); ("brand_marketing", "브랜드&마케팅"); ("sales", "영업");
   ("design", "디자인"); ("uiux", "UIUX"); ("biz_dev", "사업개발"); ("development", "개발");
   ("coaching", "코칭"); ("career_dev", "직무개발"); ("data", "데이터"); ("finance", "금융");
   ("pm", "PM/기획"); ("startup", "스타트업"); ("ai", "AI/자동화")].

(** [TAGS.find((t) => t.id === tagId)?.name] (line 10). *)
Definition tag_info_name (tagId : option string) : option string :=
  match tagId with
  | Some t => option_map snd (List.find (fun p => String.eqb p.1 t) TAG_NAMES)
  | None => None
  end.

(** What the page lists. *)
Record search_view := {
  sv_courses : list Course;
  sv_contents : list Content;
  sv_jobs : list JobPosting;
}.

Section Search.
(** The [tags] table: (id, name). *)
Context (tags : list (string * string)).

(** The inner join [tags!inner(name)] with [.eq('tags.name', name)]. *)
Definition tag_row_named (name : string) (r : ContentTag) : bool :=
  existsb (fun p => String.eqb p.1 (tg_tag_id r) && String.eqb p.2 name) tags.

(** A read of the rows with the ids, or [[]] without a request when there
    are none (lines 27-37). *)
Definition read_in {A} `{Entity A} (ids : list string) : Act (list A) :=
  if (0 <? length ids)%nat then
    let* r := select entity_table (fun db => q_in ids (entity_rows db)) in
    st_ret (data_or_nil r)
  else st_ret [].

(** [SearchPage] (lines 9-41). *)
Definition SearchPage (tagId : option string) : Act search_view :=
  let* tagRows :=
    if js_truthy_opt tagId then
      let* r := select T_content_tags
                  (fun db => List.filter (tag_row_named (default "" (tag_info_name tagId))) (db_content_tags db)) in
      st_ret (data_or_nil r)
    else st_ret [] in
  let* courses := read_in (truthy_ids (map tg_course_id tagRows)) in
  let* contents := read_in (truthy_ids (map tg_content_id tagRows)) in
  let* jobs := read_in (truthy_ids (map tg_job_id tagRows)) in
  st_ret {| sv_courses := courses; sv_contents := contents; sv_jobs := jobs |}.
End Search.

(** ** Lemmas *)

Section Lemmas.
Context (tags : list (string * string)).

Lemma truthy_ids_In_iff l s : In s (truthy_ids l) <-> In (Some s) l /\ js_truthy_str s = true.
Proof.
  split; [|intros [??]; by apply truthy_ids_In].
  induction l as [|[s'|] l IH]; cbn; [done| |].
  - destruct (js_truthy_str s') eqn:E; cbn.
    + intros [->|Hin]; [by split; [left|]|]. destruct (IH Hin). split; [by right|done].
    + intros Hin. destruct (IH Hin). split; [by right|done].
  - intros Hin. destruct (IH Hin). split; [by right|done].
Qed.

Lemma q_in_nil_ids `{Entity A} (rows : list A) : q_in [] rows = [].
Proof. unfold q_in. induction rows as [|r rows IH]; [done|]. exact IH. Qed.

(** A read by ids changes nothing, never throws, and gives the rows with
    those ids when the table answers. *)
Lemma read_in_run `{Entity A} ids db :
  run_state (read_in ids) db = db /\
  run_result (read_in ids) db = Ok (if table_fails entity_table db then [] else q_in ids (entity_rows db)).
Proof.
  unfold read_in. destruct (0 <? length ids)%nat eqn:E.
  - unfold run_state, run_result, st_bind, select. by destruct (table_fails entity_table db).
  - apply Nat.ltb_ge in E. destruct ids; [|cbn in E; lia]. rewrite q_in_nil_ids.
    by destruct (table_fails entity_table db).
Qed.

(** The rows of the tag, read once. *)
Definition tag_rows (tagId : option string) (db : Db) : list ContentTag :=
  if js_truthy_opt tagId && negb (table_fails T_content_tags db)
  then List.filter (tag_row_named tags (default "" (tag_info_name tagId))) (db_content_tags db) else [].

(** The items of a kind the page lists. *)
Definition listed `{Entity A} (sel : ContentTag -> option string) (tagId : option string) (db : Db) : list A :=
  if table_fails entity_table db then [] else q_in (truthy_ids (map sel (tag_rows tagId db))) (entity_rows db).

Lemma SearchPage_run tagId db :
  run_state (SearchPage tags tagId) db = db /\
  run_result (SearchPage tags tagId) db =
    Ok {| sv_courses := listed tg_course_id tagId db; sv_contents := listed tg_content_id tagId db;
          sv_jobs := listed tg_job_id tagId db |}.
Proof.
  assert (Ht : run_state (if js_truthy_opt tagId then
                            let* r := select T_content_tags (fun db => List.filter (tag_row_named tags
                                        (default "" (tag_info_name tagId))) (db_content_tags db)) in
                            st_ret (data_or_nil r) else st_ret []) db = db /\
               run_result (if js_truthy_opt tagId then
                            let* r := select T_content_tags (fun db => List.filter (tag_row_named tags
                                        (default "" (tag_info_name tagId))) (db_content_tags db)) in
                            st_ret (data_or_nil r) else st_ret []) db = Ok (tag_rows tagId db)).
  { unfold tag_rows. destruct (js_truthy_opt tagId); [|done].
    unfold run_state, run_result, st_bind, select. by destruct (table_fails T_content_tags db). }
  destruct Ht as [Hs Hr]. unfold SearchPage. run_bind Hr. rewrite Hs.
  destruct (read_in_run (A:=Course) (truthy_ids (map tg_course_id (tag_rows tagId db))) db) as [S1 R1].
  run_bind R1. rewrite S1.
  destruct (read_in_run (A:=Content) (truthy_ids (map tg_content_id (tag_rows tagId db))) db) as [S2 R2].
  run_bind R2. rewrite S2.
  destruct (read_in_run (A:=JobPosting) (truthy_ids (map tg_job_id (tag_rows tagId db))) db) as [S3 R3].
  run_bind R3. rewrite S3. done.
Qed.

(** An item the page lists is named by a row of [content_tags] whose tag,
    in the [tags] table, has the searched name. *)
Lemma listed_In `{Entity A} sel tagId db x :
  In x (listed sel tagId db) <->
  table_fails entity_table db = false /\ In x (entity_rows db) /\ js_truthy_str (entity_id x) = true /\
  exists r, In r (tag_rows tagId db) /\ sel r = Some (entity_id x).
Proof.
  unfold listed. destruct (table_fails entity_table db); [split; [done|intros (H1 & _); discriminate]|].
  rewrite q_in_In, truthy_ids_In_iff, in_map_iff. split.
  - intros (Hx & (r & Hr & Hin) & Ht). repeat split; [done..|]. by exists r.
  - intros (_ & Hx & Ht & r & Hin & Hr). split; [done|]. split; [|done]. by exists r.
Qed.

Lemma tag_rows_In tagId db r :
  In r (tag_rows tagId db) <->
  js_truthy_opt tagId = true /\ table_fails T_content_tags db = false /\ In r (db_content_tags db) /\
  tag_row_named tags (default "" (tag_info_name tagId)) r = true.
Proof.
  unfold tag_rows. destruct (js_truthy_opt tagId), (table_fails T_content_tags db); cbn;
    try (split; [done|intros (H1 & H2 & _); discriminate]).
  rewrite filter_In. split; [intros [H1 H2]; by repeat split|intros (_ & _ & H1 & H2); by split].
Qed.

End Lemmas.

Lemma tag_info_name_truthy t name : tag_info_name (Some t) = Some name -> js_truthy_opt (Some t) = true.
Proof. cbn. unfold js_truthy_str. by destruct (String.eqb_spec t ""); [subst|]. Qed.

(** An item of a kind is listed exactly when its table has it and a row
    of [content_tags] names it with a tag of the searched name. *)
Lemma listed_tagged `{Entity A} tags sel t name db x :
  tag_info_name (Some t) = Some name -> table_fails T_content_tags db = false ->
  table_fails entity_table db = false ->
  In x (listed tags sel (Some t) db) <->
  In x (entity_rows db) /\ entity_id x <> "" /\
  exists r, In r (db_content_tags db) /\ sel r = Some (entity_id x) /\ tag_row_named tags name r = true.
Proof.
  intros Hn Ht He. rewrite listed_In. setoid_rewrite tag_rows_In. rewrite Hn.
  pose proof (tag_info_name_truthy t name Hn) as Htr. unfold js_truthy_str.
  split.
  - intros (_ & Hx & Hid & r & (_ & _ & Hr & Hname) & Hsel). split; [done|]. split.
    + intros E. rewrite E in Hid. discriminate.
    + by exists r.
  - intros (Hx & Hid & r & Hr & Hsel & Hname). split; [done|]. split; [done|]. split.
    + by apply negb_true_iff, String.eqb_neq.
    + by exists r.
Qed.

(** The search for a tag of [TAGS] lists exactly the courses, contents
    and job postings that a row of [content_tags] names with a tag of
    that tag's name in the [tags] table, whatever their status (inactive
    postings and closed courses included), and writes nothing. *)
Theorem search_page_spec tags t name db :
  tag_info_name (Some t) = Some name ->
  table_fails T_content_tags db = false -> table_fails T_courses db = false ->
  table_fails T_contents db = false -> table_fails T_job_postings db = false ->
  run_state (SearchPage tags (Some t)) db = db /\
  exists v, run_result (SearchPage tags (Some t)) db = Ok v /\
  (forall c, In c (sv_courses v) <-> In c (db_courses db) /\ c_id c <> "" /\
     exists r, In r (db_content_tags db) /\ tg_course_id r = Some (c_id c) /\ tag_row_named tags name r = true) /\
  (forall c, In c (sv_contents v) <-> In c (db_contents db) /\ ct_id c <> "" /\
     exists r, In r (db_content_tags db) /\ tg_content_id r = Some (ct_id c) /\ tag_row_named tags name r = true) /\
  (forall j, In j (sv_jobs v) <-> In j (db_job_postings db) /\ j_id j <> "" /\
     exists r, In r (db_content_tags db) /\ tg_job_id r = Some (j_id j) /\ tag_row_named tags name r = true).
Proof.
  intros Hn Ht Hc Hct Hj. destruct (SearchPage_run tags (Some t) db) as [Hs Hr].
  split; [done|]. eexists. split; [exact Hr|]. cbn [sv_courses sv_contents sv_jobs].
  split; [|split]; intros x.
  - exact (listed_tagged (A:=Course) tags tg_course_id t name db x Hn Ht Hc).
  - exact (listed_tagged (A:=Content) tags tg_content_id t name db x Hn Ht Hct).
  - exact (listed_tagged (A:=JobPosting) tags tg_job_id t name db x Hn Ht Hj).
Qed.


(** ** Witnesses *)

(** A [tags] table with generated ids, a course and an inactive posting
    tagged with its [이력서] tag, and a course tagged with the selector's
    preset id. *)
Definition tags_table : list (string * string) := [("g-resume", "이력서"); ("g-data", "데이터")].

Definition job_closed : JobPosting :=
  {| j_id := "j9"; j_company_name := "Toss"; j_title := "Closed posting"; j_description := None;
     j_job_type := "experienced"; j_location := None; j_deadline := 20240101; j_url := None;
     j_thumbnail_url := None; j_tags := []; j_source := None; j_is_active := false |}.

Definition db_search : Db :=
  set_content_tags [tag_row ItCourse "c7" "g-resume" "r1"; tag_row ItJob "j9" "g-resume" "r2";
                    tag_row ItCourse "c8" "preset-resume" "r3"]
    (set_job_postings [job_closed]
       (set_courses [course_row "c7" "resume" 30 0 0 "recruiting"; course_row "c8" "resume" 30 0 0 "recruiting"]
          db_empty)).

Lemma search_page_spec_witness :
  exists v, run_result (SearchPage tags_table (Some "resume")) db_search = Ok v /\ In job_closed (sv_jobs v).
Proof.
  destruct (search_page_spec tags_table "resume" "이력서" db_search eq_refl eq_refl eq_refl eq_refl eq_refl)
    as (_ & v & Hv & _ & _ & Hj).
  exists v. split; [exact Hv|]. apply Hj. split; [by left|]. split; [discriminate|].
  exists (tag_row ItJob "j9" "g-resume" "r2"). split; [by right; left|]. split; reflexivity.
Defined.

